(** * Internship-LMS: sequential chapter unlocking, progress and certificates

    A shallow embedding of the progress, chapter and certificate controllers
    of the LMS backend, and of the assignment of students to a course.  The relational store is a record of tables, each
    table a list of rows in scan order; every SQL statement of the
    controllers is a function over that record, written next to the text of
    the statement.  A request handler is a computation in a small monad that
    threads the store, records every committed write and supports the early
    [res.status(..).json(..); return] exits and the [try]/[catch] of the
    TypeScript code. *)

From Stdlib Require Import ZArith List String Bool Lia Permutation SpecFloat.
From Stdlib Require Import DecimalString.
From Stdlib Require Import QArith Qround Qabs.
Import ListNotations.
Close Scope Q_scope.
Local Open Scope string_scope.
Local Open Scope Z_scope.
Local Open Scope list_scope.

Set Implicit Arguments.

(** ** JavaScript numbers

    A JS [number] is an IEEE-754 binary64 value; the operations are the ones
    of the Standard Library's executable specification of binary64. *)
Module Number.

Definition t := spec_float.

Definition prec : Z := 53.
Definition emax : Z := 1024.

(** An integer read as a number ([parseInt] of a count, a literal). *)
Definition of_Z (z : Z) : t := binary_normalize prec emax z 0 false.

Definition div (x y : t) : t := SFdiv prec emax x y.
Definition mul (x y : t) : t := SFmul prec emax x y.
Definition ltb (x y : t) : bool := SFltb x y.
Definition eqb (x y : t) : bool := SFeqb x y.

(** [Math.round]: the integer nearest to [x], a tie going to the integer
    closer to +infinity; [x] itself when it is not finite, and a zero of
    the sign of [x] when the nearest integer is 0. *)
Definition round (x : t) : t :=
  match x with
  | S754_finite s m e =>
      match e with
      | Zneg p =>
          let v := if s then Zneg m else Zpos m in
          let n := Z.shiftr (2 * v + Z.pow_pos 2 p) (Zpos p + 1) in
          if n =? 0 then S754_zero s else of_Z n
      | _ => x
      end
  | _ => x
  end.

(** Identity of two numbers as values (not the comparison [==], which
    equates the two zeros and tells NaN from itself). *)
Definition same (x y : t) : bool :=
  match x, y with
  | S754_zero a, S754_zero b => Bool.eqb a b
  | S754_infinity a, S754_infinity b => Bool.eqb a b
  | S754_nan, S754_nan => true
  | S754_finite a m e, S754_finite b m' e' =>
      Bool.eqb a b && Pos.eqb m m' && Z.eqb e e'
  | _, _ => false
  end.

(** The number written [h / 100] in decimal notation, e.g. 33.33 for
    [h = 3333]: the binary64 value nearest to it. *)
Definition hundredths (h : Z) : t := div (of_Z h) (of_Z 100).

End Number.

(** ** Rows of the persisted schema (types/index.ts) *)

(** Identifiers are strings; a [Date] is a number of milliseconds. *)
Definition Date := Z.

Inductive UserRole := STUDENT | MENTOR | ADMIN.

Module User.
Record t := { id : string; full_name : string; role : UserRole }.
End User.

Module Course.
Record t := { id : string; title : string; description : string;
              mentor_id : string }.
End Course.

Module Chapter.
Record t := { id : string; course_id : string; title : string;
              description : string; sequence_order : Z }.
End Chapter.

Module CourseAssignment.
Record t := { id : string; course_id : string; student_id : string;
              assigned_at : Date }.
End CourseAssignment.

Module Progress.
Record t := { id : string; student_id : string; chapter_id : string;
              course_id : string; completed : bool;
              completed_at : option Date; updated_at : Date }.
End Progress.

Module Certificate.
Record t := { id : string; student_id : string; course_id : string;
              issued_at : Date }.
End Certificate.

(** The relational store. *)
Record Store := {
  users : list User.t;
  courses : list Course.t;
  chapters : list Chapter.t;
  course_assignments : list CourseAssignment.t;
  progress : list Progress.t;
  certificates : list Certificate.t
}.

(** What a request brings with it besides its parameters: the value of
    [NOW()] and the identifier the store gives to a row the request
    inserts. *)
Record Env := { now : Date; new_id : string }.

(** ** Relational operators *)

Definition inner_join {A B} (on : A -> B -> bool) (l : list A) (r : list B)
  : list (A * B) :=
  flat_map (fun a => map (pair a) (filter (on a) r)) l.

Definition left_join {A B} (on : A -> B -> bool) (l : list A) (r : list B)
  : list (A * option B) :=
  flat_map (fun a => match filter (on a) r with
                     | [] => [(a, None)]
                     | bs => map (fun b => (a, Some b)) bs
                     end) l.

(** [COUNT(..)] over the rows for which the counted expression is not NULL. *)
Definition count {A} (f : A -> bool) (l : list A) : Z :=
  Z.of_nat (List.length (filter f l)).

(** [ORDER BY key ASC]: NULL keys last, rows with equal keys in scan order. *)
Definition key_le (a b : option Z) : bool :=
  match a, b with
  | Some x, Some y => x <=? y
  | Some _, None => true
  | None, Some _ => false
  | None, None => true
  end.

Fixpoint insert_by {A} (key : A -> option Z) (x : A) (l : list A) : list A :=
  match l with
  | [] => [x]
  | y :: l' => if key_le (key x) (key y) then x :: l
               else y :: insert_by key x l'
  end.

Definition order_by {A} (key : A -> option Z) (l : list A) : list A :=
  fold_right (insert_by key) [] l.

(** A JS value used as a condition: [undefined], [null] and [false] are
    falsy. *)
Definition truthy (v : option bool) : bool :=
  match v with Some true => true | _ => false end.

(** ** Responses *)

(** [completion] of the completeChapter response. *)
Record Completion := {
  total_chapters : Z;
  completed_chapters : Z;
  percentage : Number.t
}.

(** One element of the [chapters] array of getCourseProgress
    ([json_build_object]); the columns of a chapter are NULL in the single
    row a course without chapters contributes to the LEFT JOIN. *)
Record ChapterProgress := {
  chapter_id : option string;
  chapter_title : option string;
  chapter_description : option string;
  cp_sequence_order : option Z;
  cp_completed : bool;
  cp_completed_at : option Date;
  cp_is_unlocked : bool
}.

(** One element of the [chapters] array of getMyProgress, which has no
    [is_unlocked]. *)
Record MyChapterProgress := {
  my_chapter_id : option string;
  my_chapter_title : option string;
  my_sequence_order : option Z;
  my_completed : bool;
  my_completed_at : option Date
}.

(** The aggregate columns of getMyProgress and getCourseProgress;
    [completion_percentage] is a NUMERIC rounded to two decimals, or NULL. *)
Record Aggregate := {
  agg_course_id : string;
  course_title : string;
  course_description : string;
  agg_total_chapters : Z;
  agg_completed_chapters : Z;
  completion_percentage : option Q
}.

Record EnrolledAggregate := {
  aggregate : Aggregate;
  mentor_name : string;
  agg_assigned_at : Date
}.

(** A row of the student branch of getChapters: [ch.*], [p.completed],
    [p.completed_at] and the computed [is_unlocked]. *)
Record ChapterRow := {
  chapter : Chapter.t;
  row_completed : option bool;
  row_completed_at : option Date;
  row_is_unlocked : bool
}.

(** The argument of generateCertificatePDF; the rendered document is
    identified with the data it prints. *)
Record CertificateData := {
  student_name : string;
  cert_course_title : string;
  completion_date : Date;
  certificate_id : string
}.

Inductive Body :=
| ErrorBody (error : string)
| ErrorMessageBody (error message : string)
| MessageBody (message : string)
| CompleteBody (message : string) (progress_row : option Progress.t)
               (completion : Completion)
| CourseProgressBody (agg : Aggregate) (chapter_array : list ChapterProgress)
| MyProgressBody (agg : Aggregate) (chapter_array : list MyChapterProgress)
| MyProgressListBody (progress_list : list EnrolledAggregate)
| ChaptersBody (chapter_rows : list ChapterRow)
| MentorChaptersBody (chapter_list : list Chapter.t)
| CertificateUnavailableBody (error : string) (message : option string)
                             (percentage_value : option Number.t)
| PdfBody (data : CertificateData).

Record Response := { status : Z; body : Body }.

(** ** Request handlers

    A handler step reads or writes the store.  Each [await query(..)] on the
    connection pool is a statement committed on its own, so a write adds the
    store it leaves to the log of committed states; the log is what another
    request can observe while this one runs.  A step ends in a value, in a
    response already sent ([return] after [res.status(..).json(..)]) or in
    a thrown exception. *)

Inductive Outcome (A : Type) :=
| Ok (a : A)
| Sent (r : Response)
| Thrown.
Arguments Sent {A} r.
Arguments Thrown {A}.

Definition Handler (A : Type) := Store -> Outcome A * Store * list Store.

Definition ret {A} (a : A) : Handler A := fun st => (Ok a, st, []).

Definition bind {A B} (h : Handler A) (k : A -> Handler B) : Handler B :=
  fun st =>
    match h st with
    | (Ok a, st1, log1) =>
        match k a st1 with
        | (o, st2, log2) => (o, st2, log1 ++ log2)
        end
    | (Sent r, st1, log1) => (Sent r, st1, log1)
    | (Thrown, st1, log1) => (Thrown, st1, log1)
    end.

Notation "x <- h ;; k" := (bind h (fun x => k))
  (at level 61, h at next level, right associativity).
Notation "h ;;; k" := (bind h (fun _ => k))
  (at level 61, right associativity).

(** [res.status(s).json(b); return]. *)
Definition send {A} (s : Z) (b : Body) : Handler A :=
  fun st => (Sent {| status := s; body := b |}, st, []).

Definition throw {A} : Handler A := fun st => (Thrown, st, []).

(** A SELECT. *)
Definition select {A} (q : Store -> A) : Handler A :=
  fun st => (Ok (q st), st, []).

(** An INSERT, UPDATE or DELETE, with the rows it returns. *)
Definition execute {A} (f : Store -> Store * A) : Handler A :=
  fun st => let (st', a) := f st in (Ok a, st', [st']).

(** [try { body } catch (error) { res.status(500).json({ error: msg }) }]:
    the response of the handler, the store it leaves and the states it
    committed on the way. *)
Definition try_catch (msg : string) (h : Handler Response)
  : Store -> Response * Store * list Store :=
  fun st =>
    match h st with
    | (Ok r, st', log) => (r, st', log)
    | (Sent r, st', log) => (r, st', log)
    | (Thrown, st', log) => ({| status := 500; body := ErrorBody msg |}, st', log)
    end.

Definition response_of (r : Response * Store * list Store) : Response :=
  fst (fst r).
Definition store_of (r : Response * Store * list Store) : Store :=
  snd (fst r).
Definition committed (r : Response * Store * list Store) : list Store :=
  snd r.

(** ** Statements shared by the controllers *)

Definition set_chapters (st : Store) (l : list Chapter.t) : Store :=
  {| users := users st; courses := courses st; chapters := l;
     course_assignments := course_assignments st; progress := progress st;
     certificates := certificates st |}.

Definition set_progress (st : Store) (l : list Progress.t) : Store :=
  {| users := users st; courses := courses st; chapters := chapters st;
     course_assignments := course_assignments st; progress := l;
     certificates := certificates st |}.

Definition set_certificates (st : Store) (l : list Certificate.t) : Store :=
  {| users := users st; courses := courses st; chapters := chapters st;
     course_assignments := course_assignments st; progress := progress st;
     certificates := l |}.

(** SELECT id FROM course_assignments
    WHERE course_id = $1 AND student_id = $2 *)
Definition enrollment (courseId studentId : string) (st : Store)
  : list CourseAssignment.t :=
  filter (fun ca => String.eqb (CourseAssignment.course_id ca) courseId
                    && String.eqb (CourseAssignment.student_id ca) studentId)
         (course_assignments st).

(** FROM chapters ch
    LEFT JOIN progress p ON ch.id = p.chapter_id AND p.student_id = $1 *)
Definition chapters_left_join_progress (studentId : string) (st : Store)
  : list (Chapter.t * option Progress.t) :=
  left_join (fun ch p => String.eqb (Chapter.id ch) (Progress.chapter_id p)
                         && String.eqb (Progress.student_id p) studentId)
            (chapters st) (progress st).

(** SELECT p.completed FROM chapters ch LEFT JOIN progress p ON ..
    WHERE ch.course_id = $2 AND ch.sequence_order = $3 *)
Definition previous_chapter_check (studentId courseId : string) (order : Z)
    (st : Store) : list (option bool) :=
  map (fun r => option_map Progress.completed (snd r))
      (filter (fun r => String.eqb (Chapter.course_id (fst r)) courseId
                        && (Chapter.sequence_order (fst r) =? order))
              (chapters_left_join_progress studentId st)).

(** [p.completed = true], NULL for a chapter without progress row. *)
Definition completed_true (p : option Progress.t) : bool :=
  match p with Some r => Progress.completed r | None => false end.

(** SELECT COUNT( * ) as total_chapters,
           COUNT(CASE WHEN p.completed = true THEN 1 END) as completed_chapters
    FROM chapters ch LEFT JOIN progress p ON ..  WHERE ch.course_id = $2 *)
Definition completion_result (studentId courseId : string) (st : Store)
  : Z * Z :=
  let rows := filter (fun r => String.eqb (Chapter.course_id (fst r)) courseId)
                     (chapters_left_join_progress studentId st) in
  (count (fun _ => true) rows, count (fun r => completed_true (snd r)) rows).

(** [(parseInt(completed_chapters) / parseInt(total_chapters)) * 100] *)
Definition completionPercentage (completed total : Z) : Number.t :=
  Number.mul (Number.div (Number.of_Z completed) (Number.of_Z total))
             (Number.of_Z 100).

(** [Math.round(x * 100) / 100] *)
Definition round2 (x : Number.t) : Number.t :=
  Number.div (Number.round (Number.mul x (Number.of_Z 100))) (Number.of_Z 100).

(** The CASE expression computing [is_unlocked] in getChapters and
    getCourseProgress:
      CASE WHEN ch.sequence_order = 1 THEN true
           WHEN EXISTS (SELECT 1 FROM progress prev_p
                        JOIN chapters prev_ch ON prev_p.chapter_id = prev_ch.id
                        WHERE prev_ch.course_id = ch.course_id
                          AND prev_ch.sequence_order = ch.sequence_order - 1
                          AND prev_p.student_id = $2
                          AND prev_p.completed = true) THEN true
           ELSE false END *)
Definition is_unlocked (studentId : string) (st : Store) (ch : Chapter.t)
  : bool :=
  if Chapter.sequence_order ch =? 1 then true
  else if existsb
            (fun r =>
               String.eqb (Chapter.course_id (snd r)) (Chapter.course_id ch)
               && (Chapter.sequence_order (snd r)
                   =? Chapter.sequence_order ch - 1)
               && String.eqb (Progress.student_id (fst r)) studentId
               && Progress.completed (fst r))
            (inner_join (fun prev_p prev_ch =>
                           String.eqb (Progress.chapter_id prev_p)
                                      (Chapter.id prev_ch))
                        (progress st) (chapters st))
  then true
  else false.

(** The same expression on the all-NULL chapter of a LEFT JOIN row: both
    conditions are NULL or empty and the CASE falls to ELSE. *)
Definition is_unlocked_nullable (studentId : string) (st : Store)
    (och : option Chapter.t) : bool :=
  match och with
  | Some ch => is_unlocked studentId st ch
  | None => false
  end.

(** ** progress.controller.ts *)

(** SELECT id, course_id, sequence_order FROM chapters WHERE id = $1 *)
Definition chapter_by_id (chapterId : string) (st : Store) : list Chapter.t :=
  filter (fun ch => String.eqb (Chapter.id ch) chapterId) (chapters st).

(** SELECT id, completed FROM progress
    WHERE chapter_id = $1 AND student_id = $2 *)
Definition existing_progress (chapterId studentId : string) (st : Store)
  : list Progress.t :=
  filter (fun p => String.eqb (Progress.chapter_id p) chapterId
                   && String.eqb (Progress.student_id p) studentId)
         (progress st).

(** INSERT INTO progress (student_id, chapter_id, course_id, completed,
                          completed_at)
    VALUES ($1, $2, $3, true, NOW())
    ON CONFLICT (student_id, chapter_id)
    DO UPDATE SET completed = true, completed_at = NOW(), updated_at = NOW()
    RETURNING *

    The inserted row takes its [id] from the store and its [updated_at]
    from the column default, the time of the statement. *)
Definition upsert_progress (env : Env) (studentId chapterId courseId : string)
    (st : Store) : Store * list Progress.t :=
  let conflict p := String.eqb (Progress.student_id p) studentId
                    && String.eqb (Progress.chapter_id p) chapterId in
  let update p :=
    {| Progress.id := Progress.id p;
       Progress.student_id := Progress.student_id p;
       Progress.chapter_id := Progress.chapter_id p;
       Progress.course_id := Progress.course_id p;
       Progress.completed := true;
       Progress.completed_at := Some (now env);
       Progress.updated_at := now env |} in
  if existsb conflict (progress st) then
    (set_progress st (map (fun p => if conflict p then update p else p)
                          (progress st)),
     map update (filter conflict (progress st)))
  else
    let row := {| Progress.id := new_id env;
                  Progress.student_id := studentId;
                  Progress.chapter_id := chapterId;
                  Progress.course_id := courseId;
                  Progress.completed := true;
                  Progress.completed_at := Some (now env);
                  Progress.updated_at := now env |} in
    (set_progress st (progress st ++ [row]), [row]).

(** The handler from the enrollment check on, for the chapter row found. *)
Definition completeChapter_found (env : Env) (chapterId studentId : string)
    (chapter : Chapter.t) : Handler Response :=
  enrollmentCheck <-
    select (enrollment (Chapter.course_id chapter) studentId) ;;
  match enrollmentCheck with
  | [] => send 403 (ErrorBody "You are not enrolled in this course")
  | _ :: _ =>
    (if Chapter.sequence_order chapter >? 1 then
       previousChapterCheck <-
         select (previous_chapter_check studentId (Chapter.course_id chapter)
                   (Chapter.sequence_order chapter - 1)) ;;
       match previousChapterCheck with
       | [] => send 403 (ErrorMessageBody "Cannot complete chapter"
                           "You must complete the previous chapter first")
       | row :: _ =>
           if truthy row then ret tt
           else send 403 (ErrorMessageBody "Cannot complete chapter"
                            "You must complete the previous chapter first")
       end
     else ret tt) ;;;
    existingProgress <- select (existing_progress chapterId studentId) ;;
    (match existingProgress with
     | p :: _ => if Progress.completed p
                 then send 400 (ErrorBody "Chapter already completed")
                 else ret tt
     | [] => ret tt
     end) ;;;
    progressResult <-
      execute (upsert_progress env studentId chapterId
                 (Chapter.course_id chapter)) ;;
    completionResult <-
      select (completion_result studentId (Chapter.course_id chapter)) ;;
    let (total, completed) := completionResult in
    ret {| status := 200;
           body := CompleteBody "Chapter completed successfully"
                     (hd_error progressResult)
                     {| total_chapters := total;
                        completed_chapters := completed;
                        percentage :=
                          round2 (completionPercentage completed total) |} |}
  end.

(** completeChapter as in the complete controller file: an unknown chapter
    id is answered with 404. *)
Definition completeChapter (env : Env) (chapterId studentId : string)
  : Store -> Response * Store * list Store :=
  try_catch "Failed to complete chapter"
    (chapterResult <- select (chapter_by_id chapterId) ;;
     match chapterResult with
     | [] => send 404 (ErrorBody "Chapter not found")
     | chapter :: _ => completeChapter_found env chapterId studentId chapter
     end).

(** completeChapter as in the second copy of the controller: there is no
    test of [chapterResult.rows.length], the row is read with
    [chapterResult.rows[0]] and [chapter.course_id] is evaluated on it, which
    throws a TypeError when the row is [undefined].  That copy stops after
    the sequence check; its remaining steps and its [catch] clause are those
    of the complete file. *)
Definition completeChapter_second_copy (env : Env)
    (chapterId studentId : string)
  : Store -> Response * Store * list Store :=
  try_catch "Failed to complete chapter"
    (chapterResult <- select (chapter_by_id chapterId) ;;
     match hd_error chapterResult with
     | None => throw
     | Some chapter => completeChapter_found env chapterId studentId chapter
     end).

(** [GROUP BY]: one group per distinct key, holding the rows of that key in
    scan order; groups come in the order of their first row. *)
Fixpoint distinct {K} (eqb : K -> K -> bool) (ks : list K) : list K :=
  match ks with
  | [] => []
  | k :: ks' => k :: filter (fun k' => negb (eqb k' k)) (distinct eqb ks')
  end.

Definition group_by {A K} (eqb : K -> K -> bool) (key : A -> K) (l : list A)
  : list (K * list A) :=
  map (fun k => (k, filter (fun x => eqb (key x) k) l))
      (distinct eqb (map key l)).

(** [ROUND(q, 2)] on NUMERIC: to the nearest hundredth, a tie away from
    zero. *)
Definition sql_round2 (q : Q) : Q :=
  Qmake (Z.sgn (Qnum q) * Qfloor (Qabs q * 100 + (1 # 2))%Q) 100.

(** ROUND((COUNT(CASE WHEN p.completed = true THEN 1 END)::NUMERIC /
           NULLIF(COUNT(ch.id), 0) * 100), 2):
    NULL when no chapter was counted. *)
Definition numeric_percentage (completed total : Z) : option Q :=
  if total =? 0 then None
  else Some (sql_round2 (inject_Z completed / inject_Z total * 100)%Q).

Definition course_key (c : Course.t) : string * string * string :=
  (Course.id c, Course.title c, Course.description c).

Definition course_key_eqb (a b : string * string * string) : bool :=
  String.eqb (fst (fst a)) (fst (fst b))
  && String.eqb (snd (fst a)) (snd (fst b))
  && String.eqb (snd a) (snd b).

(** A row of [.. LEFT JOIN chapters ch .. LEFT JOIN progress p ..] under a
    row [x] of what stands left of the two joins. *)
Definition Joined (X : Type) : Type := X * option Chapter.t * option Progress.t.

Definition joined_chapter {X} (r : Joined X) : option Chapter.t := snd (fst r).
Definition joined_progress {X} (r : Joined X) : option Progress.t := snd r.

(** x LEFT JOIN chapters ch ON course_of x = ch.course_id
      LEFT JOIN progress p ON ch.id = p.chapter_id
                           AND p.student_id = student_of x *)
Definition join_chapters_progress {X} (course_of student_of : X -> string)
    (xs : list X) (st : Store) : list (Joined X) :=
  left_join
    (fun (r : X * option Chapter.t) p =>
       match snd r with
       | Some ch => String.eqb (Chapter.id ch) (Progress.chapter_id p)
                    && String.eqb (Progress.student_id p) (student_of (fst r))
       | None => false
       end)
    (left_join (fun x ch => String.eqb (course_of x) (Chapter.course_id ch))
               xs (chapters st))
    (progress st).

(** The aggregate columns of a group. *)
Definition aggregate_of {X} (key : string * string * string)
    (rows : list (Joined X)) : Aggregate :=
  let total := count (fun r => match joined_chapter r with
                               | Some _ => true | None => false end) rows in
  let completed := count (fun r => completed_true (joined_progress r)) rows in
  {| agg_course_id := fst (fst key);
     course_title := snd (fst key);
     course_description := snd key;
     agg_total_chapters := total;
     agg_completed_chapters := completed;
     completion_percentage := numeric_percentage completed total |}.

Definition order_key {X} (r : Joined X) : option Z :=
  option_map Chapter.sequence_order (joined_chapter r).

(** COALESCE(p.completed, false) *)
Definition coalesce_completed (p : option Progress.t) : bool :=
  match p with Some r => Progress.completed r | None => false end.

Definition completed_at_of (p : option Progress.t) : option Date :=
  match p with Some r => Progress.completed_at r | None => None end.

(** getMyProgress, [courseId] given: the rows of
      FROM courses c
      INNER JOIN course_assignments ca ON c.id = ca.course_id
      LEFT JOIN chapters ch ON c.id = ch.course_id
      LEFT JOIN progress p ON ch.id = p.chapter_id
                           AND p.student_id = ca.student_id
      WHERE ca.student_id = $1 AND c.id = $2 *)
Definition my_progress_rows (studentId courseId : string) (st : Store)
  : list (Joined (Course.t * CourseAssignment.t)) :=
  filter (fun r => String.eqb (CourseAssignment.student_id (snd (fst (fst r))))
                              studentId
                   && String.eqb (Course.id (fst (fst (fst r)))) courseId)
    (join_chapters_progress
       (fun x => Course.id (fst x))
       (fun x => CourseAssignment.student_id (snd x))
       (inner_join (fun c ca => String.eqb (Course.id c)
                                           (CourseAssignment.course_id ca))
                   (courses st) (course_assignments st))
       st).

Definition my_chapter_entry {X} (r : Joined X) : MyChapterProgress :=
  {| my_chapter_id := option_map Chapter.id (joined_chapter r);
     my_chapter_title := option_map Chapter.title (joined_chapter r);
     my_sequence_order := option_map Chapter.sequence_order (joined_chapter r);
     my_completed := coalesce_completed (joined_progress r);
     my_completed_at := completed_at_of (joined_progress r) |}.

(** .. GROUP BY c.id, c.title, c.description *)
Definition my_progress_query (studentId courseId : string) (st : Store)
  : list (Aggregate * list MyChapterProgress) :=
  map (fun g => (aggregate_of (fst g) (snd g),
                 map my_chapter_entry (order_by order_key (snd g))))
      (group_by course_key_eqb (fun r => course_key (fst (fst (fst r))))
                (my_progress_rows studentId courseId st)).

(** getMyProgress without [courseId]: the same joins with
      INNER JOIN users u ON c.mentor_id = u.id,
    WHERE ca.student_id = $1,
    GROUP BY c.id, c.title, c.description, u.full_name, ca.assigned_at
    ORDER BY ca.assigned_at DESC *)
Definition all_progress_rows (studentId : string) (st : Store)
  : list (Joined (Course.t * CourseAssignment.t * User.t)) :=
  filter (fun r => String.eqb
                     (CourseAssignment.student_id (snd (fst (fst (fst r)))))
                     studentId)
    (join_chapters_progress
       (fun x => Course.id (fst (fst x)))
       (fun x => CourseAssignment.student_id (snd (fst x)))
       (inner_join (fun x u => String.eqb (Course.mentor_id (fst x)) (User.id u))
          (inner_join (fun c ca => String.eqb (Course.id c)
                                              (CourseAssignment.course_id ca))
                      (courses st) (course_assignments st))
          (users st))
       st).

Definition enrolled_key (x : Course.t * CourseAssignment.t * User.t)
  : (string * string * string) * string * Date :=
  (course_key (fst (fst x)), User.full_name (snd x),
   CourseAssignment.assigned_at (snd (fst x))).

Definition enrolled_key_eqb
    (a b : (string * string * string) * string * Date) : bool :=
  course_key_eqb (fst (fst a)) (fst (fst b))
  && String.eqb (snd (fst a)) (snd (fst b))
  && (snd a =? snd b).

Definition all_progress_query (studentId : string) (st : Store)
  : list EnrolledAggregate :=
  order_by (fun e => Some (- agg_assigned_at e))
    (map (fun g => {| aggregate := aggregate_of (fst (fst (fst g))) (snd g);
                      mentor_name := snd (fst (fst g));
                      agg_assigned_at := snd (fst g) |})
         (group_by enrolled_key_eqb (fun r => enrolled_key (fst (fst r)))
                   (all_progress_rows studentId st))).

(** A query parameter used as a condition: absent and empty are falsy. *)
Definition given (courseId : option string) : option string :=
  match courseId with
  | Some EmptyString => None
  | other => other
  end.

Definition getMyProgress (studentId : string) (courseId : option string)
  : Store -> Response * Store * list Store :=
  try_catch "Failed to fetch progress"
    (match given courseId with
     | Some cid =>
         result <- select (my_progress_query studentId cid) ;;
         match result with
         | [] => send 404 (ErrorBody "Course not found or not enrolled")
         | row :: _ =>
             ret {| status := 200; body := MyProgressBody (fst row) (snd row) |}
         end
     | None =>
         result <- select (all_progress_query studentId) ;;
         ret {| status := 200; body := MyProgressListBody result |}
     end).

(** getCourseProgress: the rows of
      FROM courses c
      LEFT JOIN chapters ch ON c.id = ch.course_id
      LEFT JOIN progress p ON ch.id = p.chapter_id AND p.student_id = $2
      WHERE c.id = $1 *)
Definition course_progress_rows (courseId studentId : string) (st : Store)
  : list (Joined Course.t) :=
  filter (fun r => String.eqb (Course.id (fst (fst r))) courseId)
    (join_chapters_progress Course.id (fun _ => studentId) (courses st) st).

Definition chapter_entry (studentId : string) (st : Store)
    (r : Joined Course.t) : ChapterProgress :=
  {| chapter_id := option_map Chapter.id (joined_chapter r);
     chapter_title := option_map Chapter.title (joined_chapter r);
     chapter_description := option_map Chapter.description (joined_chapter r);
     cp_sequence_order := option_map Chapter.sequence_order (joined_chapter r);
     cp_completed := coalesce_completed (joined_progress r);
     cp_completed_at := completed_at_of (joined_progress r);
     cp_is_unlocked := is_unlocked_nullable studentId st (joined_chapter r) |}.

(** .. GROUP BY c.id, c.title, c.description, with
       json_agg(json_build_object(..) ORDER BY ch.sequence_order) *)
Definition course_progress_query (courseId studentId : string) (st : Store)
  : list (Aggregate * list ChapterProgress) :=
  map (fun g => (aggregate_of (fst g) (snd g),
                 map (chapter_entry studentId st)
                     (order_by order_key (snd g))))
      (group_by course_key_eqb (fun r => course_key (fst (fst r)))
                (course_progress_rows courseId studentId st)).

Definition getCourseProgress (courseId studentId : string)
  : Store -> Response * Store * list Store :=
  try_catch "Failed to fetch course progress"
    (enrollmentCheck <- select (enrollment courseId studentId) ;;
     match enrollmentCheck with
     | [] => send 403 (ErrorBody "You are not enrolled in this course")
     | _ :: _ =>
         result <- select (course_progress_query courseId studentId) ;;
         match result with
         | [] => send 404 (ErrorBody "Course not found")
         | row :: _ =>
             ret {| status := 200;
                    body := CourseProgressBody (fst row) (snd row) |}
         end
     end).

(** DELETE FROM progress WHERE student_id = $1 AND course_id = $2 *)
Definition delete_progress (studentId courseId : string) (st : Store)
  : Store * unit :=
  (set_progress st
     (filter (fun p => negb (String.eqb (Progress.student_id p) studentId
                             && String.eqb (Progress.course_id p) courseId))
             (progress st)),
   tt).

Definition resetProgress (courseId studentId : string)
  : Store -> Response * Store * list Store :=
  try_catch "Failed to reset progress"
    (enrollmentCheck <- select (enrollment courseId studentId) ;;
     match enrollmentCheck with
     | [] => send 403 (ErrorBody "You are not enrolled in this course")
     | _ :: _ =>
         execute (delete_progress studentId courseId) ;;;
         ret {| status := 200;
                body := MessageBody "Progress reset successfully" |}
     end).

(** ** chapter.controller.ts *)

(** SELECT id FROM courses WHERE id = $1 AND mentor_id = $2 *)
Definition course_check (courseId mentorId : string) (st : Store)
  : list Course.t :=
  filter (fun c => String.eqb (Course.id c) courseId
                   && String.eqb (Course.mentor_id c) mentorId)
         (courses st).

(** SELECT ch.*, p.completed, p.completed_at, CASE .. END as is_unlocked
    FROM chapters ch
    LEFT JOIN progress p ON ch.id = p.chapter_id AND p.student_id = $2
    WHERE ch.course_id = $1
    ORDER BY ch.sequence_order ASC *)
Definition chapters_with_lock_status (courseId userId : string) (st : Store)
  : list ChapterRow :=
  map (fun r => {| chapter := fst r;
                   row_completed := option_map Progress.completed (snd r);
                   row_completed_at := completed_at_of (snd r);
                   row_is_unlocked := is_unlocked userId st (fst r) |})
      (order_by (fun r => Some (Chapter.sequence_order (fst r)))
         (filter (fun r => String.eqb (Chapter.course_id (fst r)) courseId)
                 (chapters_left_join_progress userId st))).

(** SELECT * FROM chapters WHERE course_id = $1 ORDER BY sequence_order ASC *)
Definition chapters_of_course (courseId : string) (st : Store)
  : list Chapter.t :=
  order_by (fun ch => Some (Chapter.sequence_order ch))
    (filter (fun ch => String.eqb (Chapter.course_id ch) courseId)
            (chapters st)).

Definition getChapters (courseId userId : string) (userRole : UserRole)
  : Store -> Response * Store * list Store :=
  try_catch "Failed to fetch chapters"
    (match userRole with
     | STUDENT =>
         assignmentCheck <- select (enrollment courseId userId) ;;
         match assignmentCheck with
         | [] => send 403 (ErrorBody "You are not enrolled in this course")
         | _ :: _ =>
             result <- select (chapters_with_lock_status courseId userId) ;;
             ret {| status := 200; body := ChaptersBody result |}
         end
     | MENTOR =>
         courseCheck <- select (course_check courseId userId) ;;
         match courseCheck with
         | [] => send 403 (ErrorBody "Unauthorized access to course")
         | _ :: _ =>
             result <- select (chapters_of_course courseId) ;;
             ret {| status := 200; body := MentorChaptersBody result |}
         end
     | ADMIN => send 403 (ErrorBody "Invalid role for this operation")
     end).

(** SELECT ch.id, ch.sequence_order
    FROM chapters ch JOIN courses c ON ch.course_id = c.id
    WHERE ch.id = $1 AND ch.course_id = $2 AND c.mentor_id = $3 *)
Definition chapter_check (chapterId courseId mentorId : string) (st : Store)
  : list (string * Z) :=
  map (fun r => (Chapter.id (fst r), Chapter.sequence_order (fst r)))
      (filter (fun r => String.eqb (Chapter.id (fst r)) chapterId
                        && String.eqb (Chapter.course_id (fst r)) courseId
                        && String.eqb (Course.mentor_id (snd r)) mentorId)
              (inner_join (fun ch c => String.eqb (Chapter.course_id ch)
                                                  (Course.id c))
                          (chapters st) (courses st))).

(** DELETE FROM chapters WHERE id = $1

    Only the chapters table is followed; what the schema does to rows
    referring to the chapter is not part of the controller. *)
Definition delete_chapter (chapterId : string) (st : Store) : Store * unit :=
  (set_chapters st
     (filter (fun ch => negb (String.eqb (Chapter.id ch) chapterId))
             (chapters st)),
   tt).

(** UPDATE chapters SET sequence_order = sequence_order - 1
    WHERE course_id = $1 AND sequence_order > $2 *)
Definition reorder_chapters (courseId : string) (deletedSequence : Z)
    (st : Store) : Store * unit :=
  (set_chapters st
     (map (fun ch =>
             if String.eqb (Chapter.course_id ch) courseId
                && (Chapter.sequence_order ch >? deletedSequence)
             then {| Chapter.id := Chapter.id ch;
                     Chapter.course_id := Chapter.course_id ch;
                     Chapter.title := Chapter.title ch;
                     Chapter.description := Chapter.description ch;
                     Chapter.sequence_order := Chapter.sequence_order ch - 1 |}
             else ch)
          (chapters st)),
   tt).

Definition deleteChapter (courseId chapterId mentorId : string)
  : Store -> Response * Store * list Store :=
  try_catch "Failed to delete chapter"
    (chapterCheck <- select (chapter_check chapterId courseId mentorId) ;;
     match chapterCheck with
     | [] => send 404 (ErrorBody "Chapter not found or unauthorized")
     | row :: _ =>
         let deletedSequence := snd row in
         execute (delete_chapter chapterId) ;;;
         execute (reorder_chapters courseId deletedSequence) ;;;
         ret {| status := 200;
                body := MessageBody "Chapter deleted successfully" |}
     end).

(** ** certificate.service.ts and the certificate controller *)

Record Eligibility := {
  eligible : bool;
  eligibility_message : option string;
  eligibility_percentage : option Number.t
}.

(** checkCertificateEligibility; its [catch] logs and rethrows. *)
Definition checkCertificateEligibility (studentId courseId : string)
  : Handler Eligibility :=
  enrollmentCheck <- select (enrollment courseId studentId) ;;
  match enrollmentCheck with
  | [] => ret {| eligible := false;
                 eligibility_message := Some "Not enrolled in this course";
                 eligibility_percentage := None |}
  | _ :: _ =>
      completionResult <- select (completion_result studentId courseId) ;;
      let (total, completed) := completionResult in
      if total =? 0 then
        ret {| eligible := false;
               eligibility_message := Some "Course has no chapters";
               eligibility_percentage := None |}
      else
        let percentage := completionPercentage completed total in
        if Number.ltb percentage (Number.of_Z 100) then
          ret {| eligible := false;
                 eligibility_message := Some "Course not fully completed";
                 eligibility_percentage := Some (round2 percentage) |}
        else
          ret {| eligible := true;
                 eligibility_message := None;
                 eligibility_percentage := Some (Number.of_Z 100) |}
  end.

(** SELECT * FROM certificates WHERE student_id = $1 AND course_id = $2 *)
Definition certificate_of (studentId courseId : string) (st : Store)
  : list Certificate.t :=
  filter (fun c => String.eqb (Certificate.student_id c) studentId
                   && String.eqb (Certificate.course_id c) courseId)
         (certificates st).

(** INSERT INTO certificates (student_id, course_id) VALUES ($1, $2)
    RETURNING *
    The row takes its [id] from the store and its [issued_at] from the
    column default, the time of the statement. *)
Definition insert_certificate (env : Env) (studentId courseId : string)
    (st : Store) : Store * list Certificate.t :=
  let row := {| Certificate.id := new_id env;
                Certificate.student_id := studentId;
                Certificate.course_id := courseId;
                Certificate.issued_at := now env |} in
  (set_certificates st (certificates st ++ [row]), [row]).

(** SELECT u.full_name as student_name, c.title as course_title
    FROM users u, courses c WHERE u.id = $1 AND c.id = $2 *)
Definition certificate_details (studentId courseId : string) (st : Store)
  : list (string * string) :=
  map (fun r => (User.full_name (fst r), Course.title (snd r)))
      (filter (fun r => String.eqb (User.id (fst r)) studentId
                        && String.eqb (Course.id (snd r)) courseId)
              (inner_join (fun _ _ => true) (users st) (courses st))).

(** getCertificate, the operation that issues the certificate of a
    completed course or fetches the one issued before. *)
Definition getCertificate (env : Env) (courseId studentId : string)
  : Store -> Response * Store * list Store :=
  try_catch "Failed to generate certificate"
    (eligibility <- checkCertificateEligibility studentId courseId ;;
     if negb (eligible eligibility) then
       send 403 (CertificateUnavailableBody "Certificate not available"
                   (eligibility_message eligibility)
                   (eligibility_percentage eligibility))
     else
       certificateResult <- select (certificate_of studentId courseId) ;;
       certificate <-
         match certificateResult with
         | [] =>
             inserted <- execute (insert_certificate env studentId courseId) ;;
             match inserted with
             | [] => throw
             | row :: _ => ret row
             end
         | row :: _ => ret row
         end ;;
       detailsResult <- select (certificate_details studentId courseId) ;;
       match detailsResult with
       | [] => throw
       | details :: _ =>
           ret {| status := 200;
                  body := PdfBody
                    {| student_name := fst details;
                       cert_course_title := snd details;
                       completion_date := Certificate.issued_at certificate;
                       certificate_id := Certificate.id certificate |} |}
       end).

(** ** Sample stores *)

Module Sample.

Definition mentor : User.t :=
  {| User.id := "m1"; User.full_name := "Mentor One"; User.role := MENTOR |}.
Definition student : User.t :=
  {| User.id := "s1"; User.full_name := "Student One";
     User.role := STUDENT |}.

Definition course (cid : string) : Course.t :=
  {| Course.id := cid; Course.title := "Course"; Course.description := "About";
     Course.mentor_id := "m1" |}.

Definition chapter_no (cid : string) (n : nat) : Chapter.t :=
  {| Chapter.id := cid ++ "-ch" ++ NilEmpty.string_of_uint (Nat.to_uint n);
     Chapter.course_id := cid;
     Chapter.title := "Chapter";
     Chapter.description := "Text";
     Chapter.sequence_order := Z.of_nat n |}.

Definition enrolled (cid : string) : CourseAssignment.t :=
  {| CourseAssignment.id := "a-" ++ cid; CourseAssignment.course_id := cid;
     CourseAssignment.student_id := "s1";
     CourseAssignment.assigned_at := 10 |}.

Definition done (cid : string) (n : nat) : Progress.t :=
  {| Progress.id := cid ++ "-p" ++ NilEmpty.string_of_uint (Nat.to_uint n);
     Progress.student_id := "s1";
     Progress.chapter_id := Chapter.id (chapter_no cid n);
     Progress.course_id := cid;
     Progress.completed := true;
     Progress.completed_at := Some 20;
     Progress.updated_at := 20 |}.

(** A course [cid] of [n] chapters in orders 1..n, the student enrolled,
    the first [k] chapters completed. *)
Definition course_store (cid : string) (n k : nat) : Store :=
  {| users := [mentor; student];
     courses := [course cid];
     chapters := map (chapter_no cid) (seq 1 n);
     course_assignments := [enrolled cid];
     progress := map (done cid) (seq 1 k);
     certificates := [] |}.

Definition env (t : Date) (i : string) : Env := {| now := t; new_id := i |}.

End Sample.

(** ** Properties the store and the operations are measured against *)

(** A Progress record with completed = true exists for the student on the
    chapter of the same course whose order is one less. *)
Definition predecessor_completed (studentId : string) (st : Store)
    (ch : Chapter.t) : Prop :=
  exists p prev,
    In p (progress st) /\ In prev (chapters st) /\
    Progress.chapter_id p = Chapter.id prev /\
    Progress.student_id p = studentId /\
    Progress.completed p = true /\
    Chapter.course_id prev = Chapter.course_id ch /\
    Chapter.sequence_order prev = Chapter.sequence_order ch - 1.

(** The chapter is unlocked for the student. *)
Definition unlocked_for (studentId : string) (st : Store) (ch : Chapter.t)
  : Prop :=
  Chapter.sequence_order ch = 1 \/ predecessor_completed studentId st ch.

(** Constraints of the schema: primary key of chapters, the unique
    (student_id, chapter_id) the upsert relies on, and orders unique within
    a course. *)
Definition chapter_ids_unique (st : Store) : Prop :=
  NoDup (map Chapter.id (chapters st)).

Definition progress_key (p : Progress.t) : string * string :=
  (Progress.student_id p, Progress.chapter_id p).

Definition progress_keys_unique (st : Store) : Prop :=
  NoDup (map progress_key (progress st)).

Definition orders_unique (st : Store) : Prop :=
  forall a b, In a (chapters st) -> In b (chapters st) ->
    Chapter.course_id a = Chapter.course_id b ->
    Chapter.sequence_order a = Chapter.sequence_order b -> a = b.

(** The [course_id] column of a progress row is the course of its chapter,
    as completeChapter writes it. *)
Definition progress_course_consistent (st : Store) : Prop :=
  forall p ch, In p (progress st) -> In ch (chapters st) ->
    Progress.chapter_id p = Chapter.id ch ->
    Progress.course_id p = Chapter.course_id ch.

(** The orders of the chapters of a course, in scan order. *)
Definition orders_of (courseId : string) (st : Store) : list Z :=
  map Chapter.sequence_order
      (filter (fun ch => String.eqb (Chapter.course_id ch) courseId)
              (chapters st)).

(** Orders are dense: exactly 1..N, each once. *)
Definition dense (l : list Z) : Prop :=
  NoDup l /\ forall k, In k l <-> 1 <= k <= Z.of_nat (List.length l).

(** The order a chapter of order [o] holds once the order [d] is gone. *)
Definition shift_down (d o : Z) : Z := if o >? d then o - 1 else o.

(** The order a chapter id holds, if the id is on record. *)
Definition order_of (chapterId : string) (st : Store) : option Z :=
  option_map Chapter.sequence_order
    (find (fun ch => String.eqb (Chapter.id ch) chapterId) (chapters st)).

(** [completed / total * 100] rounded half up to two decimals, as a count
    of hundredths, in exact arithmetic. *)
Definition half_up_hundredths (completed total : Z) : Z :=
  (2 * 10000 * completed + total) / (2 * total).

(** What a successful completeChapter amounts to for the chapter row [ch]:
    the store after the upsert, committed once, and the 200 response with
    the counts read from that store. *)
Definition completion_of (env : Env) (chapterId studentId : string)
    (ch : Chapter.t) (st : Store) : Response * Store * list Store :=
  let u := upsert_progress env studentId chapterId (Chapter.course_id ch) st in
  let cr := completion_result studentId (Chapter.course_id ch) (fst u) in
  ({| status := 200;
      body := CompleteBody "Chapter completed successfully"
                (hd_error (snd u))
                {| total_chapters := fst cr;
                   completed_chapters := snd cr;
                   percentage :=
                     round2 (completionPercentage (snd cr) (fst cr)) |} |},
   fst u, [fst u]).

(** The number of hundredths completeChapter rounds to is the exact
    half-up value, for the counts [completed] of [total]. *)
Definition percentage_agrees (completed total : Z) : bool :=
  Number.same
    (Number.round (Number.mul (completionPercentage completed total)
                              (Number.of_Z 100)))
    (Number.of_Z (half_up_hundredths completed total)).

(** .. for every course of at most [n] chapters and every number of
    completed chapters. *)
Definition agrees_up_to (n : nat) : bool :=
  forallb (fun t => forallb (fun c => percentage_agrees (Z.of_nat c)
                                                        (Z.of_nat t))
                            (seq 0 (S t)))
          (seq 1 n).

(** A number that is a zero or a positive number of at most 1 - 2^-52. *)
Definition below_one (x : Number.t) : Prop :=
  x = S754_zero false \/
  exists m e, x = S754_finite false m e /\ Zpos m < 2 ^ 53 /\
              (e < -53 \/ (e = -53 /\ Zpos m <= 2 ^ 53 - 2)).

(** The eligibility the service computes, read off its result. *)
Definition eligibility_of (studentId courseId : string) (st : Store)
  : option Eligibility :=
  match checkCertificateEligibility studentId courseId st with
  | (Ok e, _, _) => Some e
  | _ => None
  end.

(** ** The other handlers of the controllers *)

(** ** Handlers that end in a body of their own *)

(** [res.status(s).json(b)] as the last statement of a handler, for a body
    [b] of a type [B] that belongs to that handler. *)
Record Answer (B : Type) := { answer_status : Z; answer_body : B }.

(** What such a handler sends: its answer, or one of the responses above
    when it returns early or when its [catch] clause runs. *)
Definition try_catch_answer {B} (msg : string) (h : Handler (Answer B))
  : Store -> (Response + Answer B) * Store * list Store :=
  fun st =>
    match h st with
    | (Ok a, st', log) => (inr a, st', log)
    | (Sent r, st', log) => (inl r, st', log)
    | (Thrown, st', log) =>
        (inl {| status := 500; body := ErrorBody msg |}, st', log)
    end.

Definition sent_by {B} (r : (Response + Answer B) * Store * list Store)
  : Response + Answer B := fst (fst r).
Definition store_after {B} (r : (Response + Answer B) * Store * list Store)
  : Store := snd (fst r).
Definition commits_of {B} (r : (Response + Answer B) * Store * list Store)
  : list Store := snd r.

Definition status_of {B} (r : Response + Answer B) : Z :=
  match r with
  | inl response => status response
  | inr answer => answer_status answer
  end.

(** ** chapter.controller.ts: createChapter, getChapterById, updateChapter *)

(** [{ message, chapter: result.rows[0] }] *)
Record ChapterSaved := {
  saved_message : string;
  saved_chapter : option Chapter.t
}.

(** MAX over a column: NULL when no row is selected. *)
Definition sql_max (l : list Z) : option Z :=
  match l with
  | [] => None
  | x :: l' => Some (fold_left Z.max l' x)
  end.

(** SELECT COALESCE(MAX(sequence_order), 0) + 1 as next_sequence
    FROM chapters WHERE course_id = $1 *)
Definition next_sequence (courseId : string) (st : Store) : Z :=
  match sql_max (map Chapter.sequence_order
                     (filter (fun ch => String.eqb (Chapter.course_id ch)
                                                   courseId)
                             (chapters st))) with
  | Some m => m
  | None => 0
  end + 1.

(** INSERT INTO chapters (course_id, title, description, image_url,
                          video_url, sequence_order)
    VALUES ($1, $2, $3, $4, $5, $6) RETURNING *
    on the columns of a chapter row; the row takes its [id] from the
    store. *)
Definition insert_chapter (env : Env) (courseId title description : string)
    (order : Z) (st : Store) : Store * list Chapter.t :=
  let row := {| Chapter.id := new_id env;
                Chapter.course_id := courseId;
                Chapter.title := title;
                Chapter.description := description;
                Chapter.sequence_order := order |} in
  (set_chapters st (chapters st ++ [row]), [row]).

(** COALESCE($1, column) *)
Definition coalesce (v : option string) (column : string) : string :=
  match v with
  | Some x => x
  | None => column
  end.

(** UPDATE chapters
    SET title = COALESCE($1, title), description = COALESCE($2, description),
        image_url = COALESCE($3, image_url),
        video_url = COALESCE($4, video_url), updated_at = NOW()
    WHERE id = $5 RETURNING *
    on the columns of a chapter row. *)
Definition update_chapter (title description : option string)
    (chapterId : string) (st : Store) : Store * list Chapter.t :=
  let updated ch :=
    {| Chapter.id := Chapter.id ch;
       Chapter.course_id := Chapter.course_id ch;
       Chapter.title := coalesce title (Chapter.title ch);
       Chapter.description := coalesce description (Chapter.description ch);
       Chapter.sequence_order := Chapter.sequence_order ch |} in
  (set_chapters st
     (map (fun ch => if String.eqb (Chapter.id ch) chapterId
                     then updated ch else ch)
          (chapters st)),
   map updated (filter (fun ch => String.eqb (Chapter.id ch) chapterId)
                       (chapters st))).

(** SELECT * FROM chapters WHERE id = $1 AND course_id = $2 *)
Definition chapter_of_course (chapterId courseId : string) (st : Store)
  : list Chapter.t :=
  filter (fun ch => String.eqb (Chapter.id ch) chapterId
                    && String.eqb (Chapter.course_id ch) courseId)
         (chapters st).

(** SELECT completed, completed_at FROM progress
    WHERE chapter_id = $1 AND student_id = $2 *)
Definition progress_of_chapter (chapterId userId : string) (st : Store)
  : list (bool * option Date) :=
  map (fun p => (Progress.completed p, Progress.completed_at p))
      (filter (fun p => String.eqb (Progress.chapter_id p) chapterId
                        && String.eqb (Progress.student_id p) userId)
              (progress st)).

(** The body of getChapterById: [{ chapter: { ...chapter, progress } }] for
    a student, [progress] being [null] without a progress row, and
    [{ chapter }] for a mentor. *)
Inductive ChapterDetails :=
| StudentChapter (chapter : Chapter.t) (progress : option (bool * option Date))
| MentorChapter (chapter : Chapter.t).

Definition getChapterById (courseId chapterId userId : string)
    (userRole : UserRole)
  : Store -> (Response + Answer ChapterDetails) * Store * list Store :=
  try_catch_answer "Failed to fetch chapter"
    (chapterResult <- select (chapter_of_course chapterId courseId) ;;
     match chapterResult with
     | [] => send 404 (ErrorBody "Chapter not found")
     | chapter :: _ =>
         match userRole with
         | STUDENT =>
             assignmentCheck <- select (enrollment courseId userId) ;;
             match assignmentCheck with
             | [] => send 403 (ErrorBody "You are not enrolled in this course")
             | _ :: _ =>
                 (if Chapter.sequence_order chapter >? 1 then
                    previousChapterCheck <-
                      select (previous_chapter_check userId courseId
                                (Chapter.sequence_order chapter - 1)) ;;
                    match previousChapterCheck with
                    | [] => send 403
                              (ErrorMessageBody "Chapter locked"
                                 "You must complete the previous chapter first")
                    | row :: _ =>
                        if truthy row then ret tt
                        else send 403
                               (ErrorMessageBody "Chapter locked"
                                  "You must complete the previous chapter first")
                    end
                  else ret tt) ;;;
                 progressResult <- select (progress_of_chapter chapterId userId) ;;
                 ret {| answer_status := 200;
                        answer_body :=
                          StudentChapter chapter (hd_error progressResult) |}
             end
         | MENTOR =>
             courseCheck <- select (course_check courseId userId) ;;
             match courseCheck with
             | [] => send 403 (ErrorBody "Unauthorized access to course")
             | _ :: _ =>
                 ret {| answer_status := 200;
                        answer_body := MentorChapter chapter |}
             end
         | ADMIN => send 403 (ErrorBody "Invalid role for this operation")
         end
     end).

Section Validators.

(** validateURL and sanitizeInput of utils/validators.util, whose text is
    not part of the sources at hand: any two functions. *)
Variable validateURL : string -> bool.
Variable sanitizeInput : string -> string.

(** [url && !validateURL(url)] *)
Definition url_rejected (url : option string) : bool :=
  match given url with
  | Some u => negb (validateURL u)
  | None => false
  end.

(** createChapter for a request that carries a description; without one
    the column is NULL, which the chapter rows followed here do not hold. *)
Definition createChapter (env : Env) (courseId mentorId : string)
    (title : option string) (description : string)
    (image_url video_url : option string)
  : Store -> (Response + Answer ChapterSaved) * Store * list Store :=
  try_catch_answer "Failed to create chapter"
    (match given title with
     | None => send 400 (ErrorBody "Title is required")
     | Some title =>
         if url_rejected image_url then
           send 400 (ErrorBody "Invalid image URL")
         else if url_rejected video_url then
           send 400 (ErrorBody "Invalid video URL")
         else
           courseCheck <- select (course_check courseId mentorId) ;;
           match courseCheck with
           | [] => send 404 (ErrorBody "Course not found or unauthorized")
           | _ :: _ =>
               nextSequence <- select (next_sequence courseId) ;;
               result <-
                 execute (insert_chapter env courseId (sanitizeInput title)
                            (sanitizeInput description) nextSequence) ;;
               ret {| answer_status := 201;
                      answer_body :=
                        {| saved_message := "Chapter created successfully";
                           saved_chapter := hd_error result |} |}
           end
     end).

(** updateChapter; its check is the one of deleteChapter, with [ch.id]
    alone selected. *)
Definition updateChapter (courseId chapterId mentorId : string)
    (title description image_url video_url : option string)
  : Store -> (Response + Answer ChapterSaved) * Store * list Store :=
  try_catch_answer "Failed to update chapter"
    (if url_rejected image_url then
       send 400 (ErrorBody "Invalid image URL")
     else if url_rejected video_url then
       send 400 (ErrorBody "Invalid video URL")
     else
       chapterCheck <- select (chapter_check chapterId courseId mentorId) ;;
       match chapterCheck with
       | [] => send 404 (ErrorBody "Chapter not found or unauthorized")
       | _ :: _ =>
           result <-
             execute (update_chapter (option_map sanitizeInput (given title))
                        (option_map sanitizeInput (given description))
                        chapterId) ;;
           ret {| answer_status := 200;
                  answer_body :=
                    {| saved_message := "Chapter updated successfully";
                       saved_chapter := hd_error result |} |}
       end).

End Validators.

(** ** The certificate controller: checkCertificateStatus, getMyCertificates *)

Record CertificateStatus := {
  status_eligible : bool;
  has_certificate : bool;
  status_completion_percentage : option Number.t;
  status_certificate : option (string * Date);
  status_message : option string
}.

(** SELECT id, issued_at FROM certificates
    WHERE student_id = $1 AND course_id = $2 *)
Definition certificate_issued (studentId courseId : string) (st : Store)
  : list (string * Date) :=
  map (fun c => (Certificate.id c, Certificate.issued_at c))
      (filter (fun c => String.eqb (Certificate.student_id c) studentId
                        && String.eqb (Certificate.course_id c) courseId)
              (certificates st)).

Definition checkCertificateStatus (courseId studentId : string)
  : Store -> (Response + Answer CertificateStatus) * Store * list Store :=
  try_catch_answer "Failed to check certificate status"
    (eligibility <- checkCertificateEligibility studentId courseId ;;
     certificateResult <- select (certificate_issued studentId courseId) ;;
     let hasCertificate :=
       match certificateResult with [] => false | _ :: _ => true end in
     ret {| answer_status := 200;
            answer_body :=
              {| status_eligible := eligible eligibility;
                 has_certificate := hasCertificate;
                 status_completion_percentage :=
                   eligibility_percentage eligibility;
                 status_certificate :=
                   if hasCertificate then hd_error certificateResult
                   else None;
                 status_message := eligibility_message eligibility |} |}).

Record CertificateItem := {
  item_id : string;
  item_issued_at : Date;
  item_course_id : string;
  item_course_title : string;
  item_course_description : string;
  item_mentor_name : string
}.

(** SELECT cert.id, cert.issued_at, c.id as course_id,
           c.title as course_title, c.description as course_description,
           u.full_name as mentor_name
    FROM certificates cert
    JOIN courses c ON cert.course_id = c.id
    JOIN users u ON c.mentor_id = u.id
    WHERE cert.student_id = $1
    ORDER BY cert.issued_at DESC *)
Definition my_certificates (studentId : string) (st : Store)
  : list CertificateItem :=
  order_by (fun i => Some (- item_issued_at i))
    (map (fun r : Certificate.t * Course.t * User.t =>
            {| item_id := Certificate.id (fst (fst r));
               item_issued_at := Certificate.issued_at (fst (fst r));
               item_course_id := Course.id (snd (fst r));
               item_course_title := Course.title (snd (fst r));
               item_course_description := Course.description (snd (fst r));
               item_mentor_name := User.full_name (snd r) |})
         (filter (fun r : Certificate.t * Course.t * User.t =>
                    String.eqb (Certificate.student_id (fst (fst r))) studentId)
            (inner_join
               (fun (x : Certificate.t * Course.t) u =>
                  String.eqb (Course.mentor_id (snd x)) (User.id u))
               (inner_join (fun cert c => String.eqb (Certificate.course_id cert)
                                                     (Course.id c))
                           (certificates st) (courses st))
               (users st)))).

Definition getMyCertificates (studentId : string)
  : Store -> (Response + Answer (list CertificateItem)) * Store * list Store :=
  try_catch_answer "Failed to fetch certificates"
    (result <- select (my_certificates studentId) ;;
     ret {| answer_status := 200; answer_body := result |}).

(** ** course.controller.ts: assignCourse *)

(** What a request that inserts several rows brings with it: the time of
    its transaction and the identifier the store gives to the n-th row it
    inserts, counting from 0. *)
Record BatchEnv := { batch_now : Date; batch_id : nat -> string }.

Record AssignError := { error_student_id : string; error_text : string }.

(** [{ message, successful, failed, assignments, errors }]; an element of
    [assignments] is [result.rows[0]]. *)
Record AssignReport := {
  report_message : string;
  successful : Z;
  failed : Z;
  assignments : list (option CourseAssignment.t);
  errors : list AssignError
}.

Definition set_course_assignments (st : Store) (l : list CourseAssignment.t)
  : Store :=
  {| users := users st; courses := courses st; chapters := chapters st;
     course_assignments := l; progress := progress st;
     certificates := certificates st |}.

(** SELECT id FROM users WHERE id = $1 AND role = $2, with the role of a
    student for $2. *)
Definition student_check (studentId : string) (st : Store) : list User.t :=
  filter (fun u => String.eqb (User.id u) studentId
                   && match User.role u with STUDENT => true | _ => false end)
         (users st).

(** INSERT INTO course_assignments (course_id, student_id) VALUES ($1, $2)
    RETURNING *
    The row takes its [id] from the store and its [assigned_at] from the
    column default. *)
Definition insert_assignment (at_time : Date) (rowId courseId studentId : string)
    (st : Store) : Store * list CourseAssignment.t :=
  let row := {| CourseAssignment.id := rowId;
                CourseAssignment.course_id := courseId;
                CourseAssignment.student_id := studentId;
                CourseAssignment.assigned_at := at_time |} in
  (set_course_assignments st (course_assignments st ++ [row]), [row]).

(** [client.query('BEGIN'); ..; client.query('COMMIT')] around statements
    issued on one client: what they write is committed at once, when COMMIT
    is reached; an exception is answered with ROLLBACK, which restores the
    store, and is thrown again. *)
Definition transaction {A} (h : Handler A) : Handler A :=
  fun st =>
    match h st with
    | (Ok a, st', _) => (Ok a, st', [st'])
    | (Sent r, _, _) => (Sent r, st, [])
    | (Thrown, _, _) => (Thrown, st, [])
    end.

(** [for (const studentId of student_ids) { .. }], from the candidates left
    and the two arrays filled so far. *)
Fixpoint assign_students (benv : BatchEnv) (id : string)
    (student_ids : list string)
    (assignments : list (option CourseAssignment.t))
    (errors : list AssignError)
  : Handler (list (option CourseAssignment.t) * list AssignError) :=
  match student_ids with
  | [] => ret (assignments, errors)
  | studentId :: rest =>
      studentCheck <- select (student_check studentId) ;;
      match studentCheck with
      | [] =>
          assign_students benv id rest assignments
            (errors ++ [{| error_student_id := studentId;
                           error_text := "Student not found" |}])
      | _ :: _ =>
          existingAssignment <- select (enrollment id studentId) ;;
          match existingAssignment with
          | _ :: _ =>
              assign_students benv id rest assignments
                (errors ++ [{| error_student_id := studentId;
                               error_text := "Already assigned" |}])
          | [] =>
              result <-
                execute (insert_assignment (batch_now benv)
                           (batch_id benv (List.length assignments))
                           id studentId) ;;
              assign_students benv id rest (assignments ++ [hd_error result])
                errors
          end
      end
  end.

(** assignCourse; [student_ids] is [None] when the field of the body is not
    an array. *)
Definition assignCourse (benv : BatchEnv) (id mentorId : string)
    (student_ids : option (list string))
  : Store -> (Response + Answer AssignReport) * Store * list Store :=
  try_catch_answer "Failed to assign course"
    (match student_ids with
     | None | Some [] =>
         send 400 (ErrorBody "student_ids must be a non-empty array")
     | Some ids =>
         courseCheck <- select (course_check id mentorId) ;;
         match courseCheck with
         | [] => send 404 (ErrorBody "Course not found or unauthorized")
         | _ :: _ =>
             filled <- transaction (assign_students benv id ids [] []) ;;
             ret {| answer_status := 200;
                    answer_body :=
                      {| report_message := "Course assignment completed";
                         successful := Z.of_nat (List.length (fst filled));
                         failed := Z.of_nat (List.length (snd filled));
                         assignments := fst filled;
                         errors := snd filled |} |}
         end
     end).

(** ** Further properties the store is measured against *)

(** The invariant of the Progress records: a completed record on a chapter
    of order above 1 has a completed record of the same student on the
    chapter before it. *)
Definition completed_in_sequence (st : Store) : Prop :=
  forall p ch, In p (progress st) -> In ch (chapters st) ->
    Progress.chapter_id p = Chapter.id ch ->
    Progress.completed p = true ->
    Chapter.sequence_order ch > 1 ->
    predecessor_completed (Progress.student_id p) st ch.

(** At most one enrollment per (course, student). *)
Definition assignment_key (ca : CourseAssignment.t) : string * string :=
  (CourseAssignment.course_id ca, CourseAssignment.student_id ca).

Definition enrollment_unique (st : Store) : Prop :=
  NoDup (map assignment_key (course_assignments st)).

(** Consecutive rows are in the order of their keys. *)
Fixpoint ordered_by {A} (key : A -> option Z) (l : list A) : Prop :=
  match l with
  | [] => True
  | x :: l' =>
      match l' with
      | [] => True
      | y :: _ => key_le (key x) (key y) = true
      end /\ ordered_by key l'
  end.

(** A sample request of assignCourse and a store with a second student. *)
Definition sample_batch : BatchEnv :=
  {| batch_now := 40;
     batch_id := fun n => String.append "a" (NilEmpty.string_of_uint
                                               (Nat.to_uint n)) |}.

Definition sample_class : Store :=
  {| users := [Sample.mentor; Sample.student;
               {| User.id := "s2"; User.full_name := "Student Two";
                  User.role := STUDENT |}];
     courses := [Sample.course "c1"];
     chapters := map (Sample.chapter_no "c1") (seq 1 3);
     course_assignments := [Sample.enrolled "c1"];
     progress := [];
     certificates := [] |}.

(** ** Statements that reject

    [await query(..)] rejects when the database refuses the statement or
    cannot be reached, and [await generateCertificatePDF(..)] rejects when
    the document cannot be drawn.  A statement that rejects leaves the
    store as it was, and control passes to the enclosing [catch].  The
    handlers of this part are the ones above with that written out at
    every [await]: they take the awaited calls that reject, numbered from
    0 in the order of the handler's text, the calls of
    checkCertificateEligibility first where the handler awaits it. *)

Definition Rejections := nat -> bool.

(** No awaited call rejects. *)
Definition none_rejects : Rejections := fun _ => false.

(** [await h], for a call [h] that rejects when [rejected] holds. *)
Definition awaited {A} (rejected : bool) (h : Handler A) : Handler A :=
  if rejected then throw else h.

Module Rejecting.

(** completeChapter of the complete controller file from the enrollment
    check on, for the chapter row found. *)
Definition completeChapter_found (rejects : Rejections) (env : Env)
    (chapterId studentId : string) (chapter : Chapter.t)
  : Handler Response :=
  enrollmentCheck <-
    awaited (rejects 1%nat)
      (select (enrollment (Chapter.course_id chapter) studentId)) ;;
  match enrollmentCheck with
  | [] => send 403 (ErrorBody "You are not enrolled in this course")
  | _ :: _ =>
    (if Chapter.sequence_order chapter >? 1 then
       previousChapterCheck <-
         awaited (rejects 2%nat)
           (select (previous_chapter_check studentId
                      (Chapter.course_id chapter)
                      (Chapter.sequence_order chapter - 1))) ;;
       match previousChapterCheck with
       | [] => send 403 (ErrorMessageBody "Cannot complete chapter"
                           "You must complete the previous chapter first")
       | row :: _ =>
           if truthy row then ret tt
           else send 403 (ErrorMessageBody "Cannot complete chapter"
                            "You must complete the previous chapter first")
       end
     else ret tt) ;;;
    existingProgress <-
      awaited (rejects 3%nat)
        (select (existing_progress chapterId studentId)) ;;
    (match existingProgress with
     | p :: _ => if Progress.completed p
                 then send 400 (ErrorBody "Chapter already completed")
                 else ret tt
     | [] => ret tt
     end) ;;;
    progressResult <-
      awaited (rejects 4%nat)
        (execute (upsert_progress env studentId chapterId
                    (Chapter.course_id chapter))) ;;
    completionResult <-
      awaited (rejects 5%nat)
        (select (completion_result studentId (Chapter.course_id chapter))) ;;
    let (total, completed) := completionResult in
    ret {| status := 200;
           body := CompleteBody "Chapter completed successfully"
                     (hd_error progressResult)
                     {| total_chapters := total;
                        completed_chapters := completed;
                        percentage :=
                          round2 (completionPercentage completed total) |} |}
  end.

Definition completeChapter (rejects : Rejections) (env : Env)
    (chapterId studentId : string)
  : Store -> Response * Store * list Store :=
  try_catch "Failed to complete chapter"
    (chapterResult <-
       awaited (rejects 0%nat) (select (chapter_by_id chapterId)) ;;
     match chapterResult with
     | [] => send 404 (ErrorBody "Chapter not found")
     | chapter :: _ =>
         completeChapter_found rejects env chapterId studentId chapter
     end).

Definition deleteChapter (rejects : Rejections)
    (courseId chapterId mentorId : string)
  : Store -> Response * Store * list Store :=
  try_catch "Failed to delete chapter"
    (chapterCheck <-
       awaited (rejects 0%nat)
         (select (chapter_check chapterId courseId mentorId)) ;;
     match chapterCheck with
     | [] => send 404 (ErrorBody "Chapter not found or unauthorized")
     | row :: _ =>
         let deletedSequence := snd row in
         awaited (rejects 1%nat) (execute (delete_chapter chapterId)) ;;;
         awaited (rejects 2%nat)
           (execute (reorder_chapters courseId deletedSequence)) ;;;
         ret {| status := 200;
                body := MessageBody "Chapter deleted successfully" |}
     end).

Section Validators.

Variable validateURL : string -> bool.
Variable sanitizeInput : string -> string.

(** createChapter, for a request that carries a description. *)
Definition createChapter (rejects : Rejections) (env : Env)
    (courseId mentorId : string)
    (title : option string) (description : string)
    (image_url video_url : option string)
  : Store -> (Response + Answer ChapterSaved) * Store * list Store :=
  try_catch_answer "Failed to create chapter"
    (match given title with
     | None => send 400 (ErrorBody "Title is required")
     | Some title =>
         if url_rejected validateURL image_url then
           send 400 (ErrorBody "Invalid image URL")
         else if url_rejected validateURL video_url then
           send 400 (ErrorBody "Invalid video URL")
         else
           courseCheck <-
             awaited (rejects 0%nat)
               (select (course_check courseId mentorId)) ;;
           match courseCheck with
           | [] => send 404 (ErrorBody "Course not found or unauthorized")
           | _ :: _ =>
               nextSequence <-
                 awaited (rejects 1%nat) (select (next_sequence courseId)) ;;
               result <-
                 awaited (rejects 2%nat)
                   (execute (insert_chapter env courseId (sanitizeInput title)
                               (sanitizeInput description) nextSequence)) ;;
               ret {| answer_status := 201;
                      answer_body :=
                        {| saved_message := "Chapter created successfully";
                           saved_chapter := hd_error result |} |}
           end
     end).

Definition updateChapter (rejects : Rejections)
    (courseId chapterId mentorId : string)
    (title description image_url video_url : option string)
  : Store -> (Response + Answer ChapterSaved) * Store * list Store :=
  try_catch_answer "Failed to update chapter"
    (if url_rejected validateURL image_url then
       send 400 (ErrorBody "Invalid image URL")
     else if url_rejected validateURL video_url then
       send 400 (ErrorBody "Invalid video URL")
     else
       chapterCheck <-
         awaited (rejects 0%nat)
           (select (chapter_check chapterId courseId mentorId)) ;;
       match chapterCheck with
       | [] => send 404 (ErrorBody "Chapter not found or unauthorized")
       | _ :: _ =>
           result <-
             awaited (rejects 1%nat)
               (execute (update_chapter
                           (option_map sanitizeInput (given title))
                           (option_map sanitizeInput (given description))
                           chapterId)) ;;
           ret {| answer_status := 200;
                  answer_body :=
                    {| saved_message := "Chapter updated successfully";
                       saved_chapter := hd_error result |} |}
       end).

End Validators.

(** checkCertificateEligibility; its [catch] logs and rethrows, so that a
    statement rejected in the service rejects the call of the service. *)
Definition checkCertificateEligibility (rejects : Rejections)
    (studentId courseId : string) : Handler Eligibility :=
  enrollmentCheck <-
    awaited (rejects 0%nat) (select (enrollment courseId studentId)) ;;
  match enrollmentCheck with
  | [] => ret {| eligible := false;
                 eligibility_message := Some "Not enrolled in this course";
                 eligibility_percentage := None |}
  | _ :: _ =>
      completionResult <-
        awaited (rejects 1%nat)
          (select (completion_result studentId courseId)) ;;
      let (total, completed) := completionResult in
      if total =? 0 then
        ret {| eligible := false;
               eligibility_message := Some "Course has no chapters";
               eligibility_percentage := None |}
      else
        let percentage := completionPercentage completed total in
        if Number.ltb percentage (Number.of_Z 100) then
          ret {| eligible := false;
                 eligibility_message := Some "Course not fully completed";
                 eligibility_percentage := Some (round2 percentage) |}
        else
          ret {| eligible := true;
                 eligibility_message := None;
                 eligibility_percentage := Some (Number.of_Z 100) |}
  end.

(** getCertificate; the call after the details are read is
    [await generateCertificatePDF(..)]. *)
Definition getCertificate (rejects : Rejections) (env : Env)
    (courseId studentId : string)
  : Store -> Response * Store * list Store :=
  try_catch "Failed to generate certificate"
    (eligibility <- checkCertificateEligibility rejects studentId courseId ;;
     if negb (eligible eligibility) then
       send 403 (CertificateUnavailableBody "Certificate not available"
                   (eligibility_message eligibility)
                   (eligibility_percentage eligibility))
     else
       certificateResult <-
         awaited (rejects 2%nat) (select (certificate_of studentId courseId)) ;;
       certificate <-
         match certificateResult with
         | [] =>
             inserted <-
               awaited (rejects 3%nat)
                 (execute (insert_certificate env studentId courseId)) ;;
             match inserted with
             | [] => throw
             | row :: _ => ret row
             end
         | row :: _ => ret row
         end ;;
       detailsResult <-
         awaited (rejects 4%nat)
           (select (certificate_details studentId courseId)) ;;
       match detailsResult with
       | [] => throw
       | details :: _ =>
           awaited (rejects 5%nat) (ret tt) ;;;
           ret {| status := 200;
                  body := PdfBody
                    {| student_name := fst details;
                       cert_course_title := snd details;
                       completion_date := Certificate.issued_at certificate;
                       certificate_id := Certificate.id certificate |} |}
       end).

Definition checkCertificateStatus (rejects : Rejections)
    (courseId studentId : string)
  : Store -> (Response + Answer CertificateStatus) * Store * list Store :=
  try_catch_answer "Failed to check certificate status"
    (eligibility <- checkCertificateEligibility rejects studentId courseId ;;
     certificateResult <-
       awaited (rejects 2%nat)
         (select (certificate_issued studentId courseId)) ;;
     let hasCertificate :=
       match certificateResult with [] => false | _ :: _ => true end in
     ret {| answer_status := 200;
            answer_body :=
              {| status_eligible := eligible eligibility;
                 has_certificate := hasCertificate;
                 status_completion_percentage :=
                   eligibility_percentage eligibility;
                 status_certificate :=
                   if hasCertificate then hd_error certificateResult
                   else None;
                 status_message := eligibility_message eligibility |} |}).

End Rejecting.

(** * Lemmas on the relational operators *)

Unset Implicit Arguments.

Section Joins.

Context {A B : Type}.
Variable on : A -> B -> bool.

Lemma in_left_join_some (l : list A) (r : list B) a b :
  In (a, Some b) (left_join on l r) <->
  In a l /\ In b r /\ on a b = true.
Proof.
  unfold left_join. rewrite in_flat_map. split.
  - intros [a' [Ha Hin]].
    destruct (filter (on a') r) as [|b0 bs] eqn:E.
    + destruct Hin as [Heq | []]. discriminate Heq.
    + rewrite <- E in Hin. apply in_map_iff in Hin.
      destruct Hin as [b' [Heq Hb]]. inversion Heq; subst.
      apply filter_In in Hb. tauto.
  - intros (Ha & Hb & Hon). exists a. split; [assumption|].
    assert (Hin : In b (filter (on a) r)) by (apply filter_In; auto).
    destruct (filter (on a) r) as [|b0 bs] eqn:E; [contradiction|].
    apply in_map_iff. exists b. auto.
Qed.

Lemma in_left_join_none (l : list A) (r : list B) a :
  In (a, None) (left_join on l r) <->
  In a l /\ forall b, In b r -> on a b = false.
Proof.
  unfold left_join. rewrite in_flat_map. split.
  - intros [a' [Ha Hin]].
    destruct (filter (on a') r) as [|b0 bs] eqn:E.
    + destruct Hin as [Heq | []]. inversion Heq; subst. split; [assumption|].
      intros b Hb. destruct (on a b) eqn:Hon; [|reflexivity].
      assert (In b (filter (on a) r)) by (apply filter_In; auto).
      rewrite E in H. contradiction.
    + apply in_map_iff in Hin. destruct Hin as [b' [Heq _]]. discriminate.
  - intros [Ha Hnone]. exists a. split; [assumption|].
    destruct (filter (on a) r) as [|b0 bs] eqn:E; [left; reflexivity|].
    assert (Hin : In b0 (filter (on a) r)) by (rewrite E; left; reflexivity).
    apply filter_In in Hin. destruct Hin as [Hb Hon].
    rewrite (Hnone b0 Hb) in Hon. discriminate.
Qed.

Lemma in_left_join_left (l : list A) (r : list B) a ob :
  In (a, ob) (left_join on l r) -> In a l.
Proof.
  destruct ob as [b|]; intros H.
  - apply in_left_join_some in H. tauto.
  - apply in_left_join_none in H. tauto.
Qed.

Lemma left_join_covers (l : list A) (r : list B) a :
  In a l -> exists ob, In (a, ob) (left_join on l r).
Proof.
  intros Ha. destruct (existsb (on a) r) eqn:E.
  - apply existsb_exists in E. destruct E as [b [Hb Hon]].
    exists (Some b). apply in_left_join_some. auto.
  - exists None. apply in_left_join_none. split; [assumption|].
    intros b Hb. destruct (on a b) eqn:Hon; [|reflexivity].
    assert (existsb (on a) r = true)
      by (apply existsb_exists; exists b; auto).
    congruence.
Qed.

Lemma in_inner_join (l : list A) (r : list B) a b :
  In (a, b) (inner_join on l r) <-> In a l /\ In b r /\ on a b = true.
Proof.
  unfold inner_join. rewrite in_flat_map. split.
  - intros [a' [Ha Hin]]. apply in_map_iff in Hin.
    destruct Hin as [b' [Heq Hb]]. inversion Heq; subst.
    apply filter_In in Hb. tauto.
  - intros (Ha & Hb & Hon). exists a. split; [assumption|].
    apply in_map_iff. exists b. split; [reflexivity|].
    apply filter_In. auto.
Qed.

End Joins.

Section Ordering.

Context {A : Type}.
Variable key : A -> option Z.

Lemma in_insert_by x y (l : list A) :
  In y (insert_by key x l) <-> y = x \/ In y l.
Proof.
  induction l as [|z l IH]; simpl.
  - intuition.
  - destruct (key_le (key x) (key z)); simpl; rewrite ?IH; intuition.
Qed.

Lemma in_order_by y (l : list A) : In y (order_by key l) <-> In y l.
Proof.
  unfold order_by. induction l as [|x l IH]; simpl.
  - tauto.
  - rewrite in_insert_by, IH. intuition.
Qed.

Lemma length_insert_by x (l : list A) :
  List.length (insert_by key x l) = S (List.length l).
Proof.
  induction l as [|z l IH]; simpl; [reflexivity|].
  destruct (key_le (key x) (key z)); simpl; congruence.
Qed.

Lemma length_order_by (l : list A) :
  List.length (order_by key l) = List.length l.
Proof.
  unfold order_by. induction l as [|x l IH]; simpl; [reflexivity|].
  rewrite length_insert_by. congruence.
Qed.

End Ordering.

Section Grouping.

Context {A K : Type}.
Variable eqb : K -> K -> bool.
Variable key : A -> K.

Lemma group_by_head x (l : list A) :
  exists gs,
    group_by eqb key (x :: l)
    = (key x, filter (fun y => eqb (key y) (key x)) (x :: l)) :: gs.
Proof.
  unfold group_by. simpl distinct. simpl map. eexists. reflexivity.
Qed.

Lemma group_by_nil : group_by eqb key [] = [].
Proof. reflexivity. Qed.

End Grouping.

(** * The derived unlock state *)

Lemma is_unlocked_spec studentId st ch :
  is_unlocked studentId st ch = true <-> unlocked_for studentId st ch.
Proof.
  unfold is_unlocked, unlocked_for, predecessor_completed.
  destruct (Chapter.sequence_order ch =? 1) eqn:E1.
  - apply Z.eqb_eq in E1. tauto.
  - apply Z.eqb_neq in E1.
    match goal with |- context [existsb ?f ?l] =>
      destruct (existsb f l) eqn:E2 end.
    + split; [intros _|reflexivity]. right.
      apply existsb_exists in E2. destruct E2 as [[p prev] [Hin Hc]].
      apply in_inner_join in Hin. destruct Hin as (Hp & Hprev & Hid).
      simpl in Hc. repeat rewrite andb_true_iff in Hc.
      destruct Hc as [[[Hco Hso] Hst] Hcomp].
      apply String.eqb_eq in Hid, Hco, Hst. apply Z.eqb_eq in Hso.
      exists p, prev. tauto.
    + split; [discriminate|]. intros [H1 | (p & prev & Hp & Hprev & Hid & Hst & Hcomp & Hco & Hso)].
      * contradiction.
      * exfalso.
        assert (Hex : existsb
          (fun r : Progress.t * Chapter.t =>
             String.eqb (Chapter.course_id (snd r)) (Chapter.course_id ch)
             && (Chapter.sequence_order (snd r) =? Chapter.sequence_order ch - 1)
             && String.eqb (Progress.student_id (fst r)) studentId
             && Progress.completed (fst r))
          (inner_join (fun prev_p prev_ch =>
                         String.eqb (Progress.chapter_id prev_p)
                                    (Chapter.id prev_ch))
                      (progress st) (chapters st)) = true).
        { apply existsb_exists. exists (p, prev). split.
          - apply in_inner_join. repeat split; try assumption.
            apply String.eqb_eq. assumption.
          - simpl. rewrite Hco, Hso, Hst, Hcomp.
            rewrite !String.eqb_refl, Z.eqb_refl. reflexivity. }
        congruence.
Qed.

Lemma not_unlocked_spec studentId st ch :
  is_unlocked studentId st ch = false <-> ~ unlocked_for studentId st ch.
Proof.
  rewrite <- is_unlocked_spec.
  destruct (is_unlocked studentId st ch); split; congruence.
Qed.

(** The rows of the joins of getCourseProgress. *)
Lemma in_join_chapters_progress {X} (course_of student_of : X -> string)
    (xs : list X) st (x : X) och op :
  In (x, och, op) (join_chapters_progress course_of student_of xs st) ->
  In x xs /\
  match och with
  | Some ch => In ch (chapters st) /\ Chapter.course_id ch = course_of x
  | None => (forall ch, In ch (chapters st) ->
                        Chapter.course_id ch <> course_of x) /\ op = None
  end /\
  match op with
  | Some p => In p (progress st) /\
              exists ch, och = Some ch /\
                Progress.chapter_id p = Chapter.id ch /\
                Progress.student_id p = student_of x
  | None => forall ch p, och = Some ch -> In p (progress st) ->
                Progress.chapter_id p = Chapter.id ch ->
                Progress.student_id p <> student_of x
  end.
Proof.
  unfold join_chapters_progress. intros H.
  assert (H1 : In (x, och) (left_join
            (fun x ch => String.eqb (course_of x) (Chapter.course_id ch))
            xs (chapters st)))
    by (eapply in_left_join_left; exact H).
  split; [eapply in_left_join_left; exact H1|]. split.
  - destruct och as [ch|].
    + apply in_left_join_some in H1. destruct H1 as (_ & Hch & Heq).
      apply String.eqb_eq in Heq. auto.
    + apply in_left_join_none in H1. destruct H1 as [_ Hn]. split.
      * intros ch Hch Heq. specialize (Hn ch Hch).
        apply String.eqb_neq in Hn. congruence.
      * destruct op as [p|]; [|reflexivity].
        apply in_left_join_some in H. simpl in H.
        destruct H as (_ & _ & Hf). discriminate.
  - destruct op as [p|].
    + apply in_left_join_some in H. simpl in H. destruct H as (_ & Hp & Hon).
      split; [assumption|]. destruct och as [ch|]; [|discriminate].
      apply andb_true_iff in Hon. destruct Hon as [Ha Hb].
      apply String.eqb_eq in Ha, Hb. exists ch. auto.
    + intros ch p Hoch Hp Hid Hst. subst och.
      apply in_left_join_none in H. destruct H as [_ Hn].
      specialize (Hn p Hp). simpl in Hn.
      rewrite Hid, Hst, !String.eqb_refl in Hn. discriminate.
Qed.

Lemma join_chapters_progress_covers {X} (course_of student_of : X -> string)
    (xs : list X) st (x : X) ch :
  In x xs -> In ch (chapters st) -> Chapter.course_id ch = course_of x ->
  exists op, In (x, Some ch, op)
                (join_chapters_progress course_of student_of xs st).
Proof.
  intros Hx Hch Hco. unfold join_chapters_progress.
  apply left_join_covers. apply in_left_join_some.
  repeat split; try assumption. apply String.eqb_eq. congruence.
Qed.

Lemma join_chapters_progress_nonempty {X} (course_of student_of : X -> string)
    (xs : list X) st (x : X) :
  In x xs ->
  exists och op, In (x, och, op)
                    (join_chapters_progress course_of student_of xs st).
Proof.
  intros Hx. unfold join_chapters_progress.
  destruct (left_join_covers
              (fun x ch => String.eqb (course_of x) (Chapter.course_id ch))
              xs (chapters st) x Hx) as [och Hoch].
  exists och. apply left_join_covers. exact Hoch.
Qed.

Lemma course_key_eqb_refl k : course_key_eqb k k = true.
Proof. unfold course_key_eqb. rewrite !String.eqb_refl. reflexivity. Qed.


Lemma course_progress_query_head courseId studentId st x rows :
  course_progress_rows courseId studentId st = x :: rows ->
  exists rest,
    course_progress_query courseId studentId st
    = (aggregate_of (course_key (fst (fst x)))
         (filter (fun r : Joined Course.t =>
                    course_key_eqb (course_key (fst (fst r)))
                                   (course_key (fst (fst x))))
                 (x :: rows)),
       map (chapter_entry studentId st)
           (order_by order_key
              (filter (fun r : Joined Course.t =>
                         course_key_eqb (course_key (fst (fst r)))
                                        (course_key (fst (fst x))))
                      (x :: rows)))) :: rest.
Proof.
  intros H. unfold course_progress_query. rewrite H.
  unfold group_by. simpl distinct. simpl map at 2.
  eexists. reflexivity.
Qed.

(** What getCourseProgress answers for an enrolled student when the course
    is on record: the aggregate and the chapter array of the first group of
    the query, which holds the rows of one course row [c0]. *)
Lemma getCourseProgress_enrolled st courseId studentId :
  enrollment courseId studentId st <> [] ->
  (exists c, In c (courses st) /\ Course.id c = courseId) ->
  exists c0 rows,
    In c0 (courses st) /\ Course.id c0 = courseId /\
    rows = filter (fun r : Joined Course.t =>
                     course_key_eqb (course_key (fst (fst r)))
                                    (course_key c0))
                  (course_progress_rows courseId studentId st) /\
    getCourseProgress courseId studentId st
    = ({| status := 200;
          body := CourseProgressBody
                    (aggregate_of (course_key c0) rows)
                    (map (chapter_entry studentId st)
                         (order_by order_key rows)) |}, st, []).
Proof.
  intros Henr [c [Hc Hid]].
  destruct (join_chapters_progress_nonempty Course.id (fun _ => studentId)
              (courses st) st c Hc) as (och & op & Hrow).
  assert (Hin : In (c, och, op) (course_progress_rows courseId studentId st)).
  { unfold course_progress_rows. apply filter_In. split; [exact Hrow|].
    simpl. apply String.eqb_eq. exact Hid. }
  destruct (course_progress_rows courseId studentId st) as [|x rows] eqn:Er;
    [contradiction|].
  destruct (course_progress_query_head courseId studentId st _ _ Er) as [rest Hq].
  assert (Hx : In x (course_progress_rows courseId studentId st))
    by (rewrite Er; left; reflexivity).
  unfold course_progress_rows in Hx. apply filter_In in Hx.
  destruct Hx as [Hx Hxid]. destruct x as [[c0 och0] op0].
  apply in_join_chapters_progress in Hx. destruct Hx as [Hc0 _].
  simpl in Hxid. apply String.eqb_eq in Hxid.
  exists c0. eexists. split; [exact Hc0|]. split; [exact Hxid|].
  split; [reflexivity|].
  unfold getCourseProgress, try_catch, bind, select.
  destruct (enrollment courseId studentId st) as [|e es]; [congruence|].
  rewrite Hq. reflexivity.
Qed.

(** The rows behind the chapter array. *)
Lemma course_rows_sound st courseId studentId c0 (r : Joined Course.t) :
  In r (filter (fun r : Joined Course.t =>
                  course_key_eqb (course_key (fst (fst r))) (course_key c0))
               (course_progress_rows courseId studentId st)) ->
  match joined_chapter r with
  | Some ch => In ch (chapters st) /\ Chapter.course_id ch = courseId
  | None => joined_progress r = None
  end /\
  match joined_progress r with
  | Some p => In p (progress st) /\ Progress.student_id p = studentId /\
              exists ch, joined_chapter r = Some ch /\
                         Progress.chapter_id p = Chapter.id ch
  | None => forall ch p, joined_chapter r = Some ch -> In p (progress st) ->
              Progress.chapter_id p = Chapter.id ch ->
              Progress.student_id p <> studentId
  end.
Proof.
  intros H. apply filter_In in H. destruct H as [H _].
  unfold course_progress_rows in H. apply filter_In in H.
  destruct H as [H Hid]. destruct r as [[c och] op].
  simpl in Hid. apply String.eqb_eq in Hid.
  apply in_join_chapters_progress in H. destruct H as (_ & Hch & Hp).
  unfold joined_chapter, joined_progress. simpl. split.
  - destruct och as [ch|]; [|tauto]. destruct Hch. split; congruence.
  - destruct op as [p|].
    + destruct Hp as (Hp & ch & Hoch & Hpid & Hst). repeat split; auto.
      exists ch. auto.
    + exact Hp.
Qed.

Lemma course_rows_complete st courseId studentId c0 ch :
  In c0 (courses st) -> Course.id c0 = courseId ->
  In ch (chapters st) -> Chapter.course_id ch = courseId ->
  exists op,
    In (c0, Some ch, op)
       (filter (fun r : Joined Course.t =>
                  course_key_eqb (course_key (fst (fst r))) (course_key c0))
               (course_progress_rows courseId studentId st)).
Proof.
  intros Hc0 Hid Hch Hco.
  destruct (join_chapters_progress_covers Course.id (fun _ => studentId)
              (courses st) st c0 ch Hc0 Hch) as [op Hop]; [congruence|].
  exists op. apply filter_In. split.
  - unfold course_progress_rows. apply filter_In. split; [exact Hop|].
    simpl. apply String.eqb_eq. exact Hid.
  - simpl. apply course_key_eqb_refl.
Qed.

(** The rows of the student branch of getChapters. *)
Lemma in_chapters_with_lock_status st courseId userId row :
  In row (chapters_with_lock_status courseId userId st) <->
  exists op,
    In (chapter row, op)
       (filter (fun r => String.eqb (Chapter.course_id (fst r)) courseId)
               (chapters_left_join_progress userId st)) /\
    row = {| chapter := chapter row;
             row_completed := option_map Progress.completed op;
             row_completed_at := completed_at_of op;
             row_is_unlocked := is_unlocked userId st (chapter row) |}.
Proof.
  unfold chapters_with_lock_status. rewrite in_map_iff. split.
  - intros [[ch op] [Heq Hin]]. apply in_order_by in Hin. subst row. simpl.
    exists op. split; [exact Hin|reflexivity].
  - intros [op [Hin Heq]]. exists (chapter row, op). split.
    + simpl. symmetry. exact Heq.
    + apply in_order_by. exact Hin.
Qed.

(** C1.  For an enrolled student, getChapters and getCourseProgress answer
    with one entry per chapter of the course, and the entry of a chapter
    has is_unlocked = true exactly when the chapter has sequence_order 1 or
    a completed Progress record of the student exists on the chapter of the
    same course with the order one less; the flag is false otherwise. *)
Theorem derived_unlock_state st courseId studentId :
  enrollment courseId studentId st <> [] ->
  (exists c, In c (courses st) /\ Course.id c = courseId) ->
  (exists rows,
     getChapters courseId studentId STUDENT st
     = ({| status := 200; body := ChaptersBody rows |}, st, []) /\
     (forall ch, In ch (chapters st) -> Chapter.course_id ch = courseId ->
                 exists row, In row rows /\ chapter row = ch) /\
     (forall row, In row rows ->
        In (chapter row) (chapters st) /\
        Chapter.course_id (chapter row) = courseId /\
        (row_is_unlocked row = true
         <-> unlocked_for studentId st (chapter row)) /\
        (row_is_unlocked row = false
         <-> ~ unlocked_for studentId st (chapter row))))
  /\
  (exists agg entries,
     getCourseProgress courseId studentId st
     = ({| status := 200; body := CourseProgressBody agg entries |}, st, []) /\
     (forall ch, In ch (chapters st) -> Chapter.course_id ch = courseId ->
        exists e, In e entries /\
          chapter_id e = Some (Chapter.id ch) /\
          cp_sequence_order e = Some (Chapter.sequence_order ch) /\
          (cp_is_unlocked e = true <-> unlocked_for studentId st ch) /\
          (cp_is_unlocked e = false <-> ~ unlocked_for studentId st ch)) /\
     (forall e, In e entries ->
        (chapter_id e = None /\ cp_is_unlocked e = false) \/
        exists ch, In ch (chapters st) /\ Chapter.course_id ch = courseId /\
          chapter_id e = Some (Chapter.id ch) /\
          cp_sequence_order e = Some (Chapter.sequence_order ch) /\
          (cp_is_unlocked e = true <-> unlocked_for studentId st ch) /\
          (cp_is_unlocked e = false <-> ~ unlocked_for studentId st ch))).
Proof.
  intros Henr Hcourse. split.
  - exists (chapters_with_lock_status courseId studentId st). split; [|split].
    + unfold getChapters, try_catch, bind, select.
      destruct (enrollment courseId studentId st); [congruence|reflexivity].
    + intros ch Hch Hco.
      destruct (left_join_covers
        (fun ch p => String.eqb (Chapter.id ch) (Progress.chapter_id p)
                     && String.eqb (Progress.student_id p) studentId)
        (chapters st) (progress st) ch Hch) as [op Hop].
      eexists {| chapter := ch |}. split; [|reflexivity].
      apply in_chapters_with_lock_status. exists op. simpl. split; [|reflexivity].
      apply filter_In. split; [exact Hop|]. simpl. apply String.eqb_eq. exact Hco.
    + intros row Hrow. apply in_chapters_with_lock_status in Hrow.
      destruct Hrow as [op [Hin Heq]]. apply filter_In in Hin.
      destruct Hin as [Hin Hco]. simpl in Hco. apply String.eqb_eq in Hco.
      apply in_left_join_left in Hin.
      assert (Hu : row_is_unlocked row
                   = is_unlocked studentId st (chapter row))
        by (rewrite Heq at 1; reflexivity).
      rewrite Hu. split; [exact Hin|]. split; [exact Hco|]. split.
      * apply is_unlocked_spec.
      * apply not_unlocked_spec.
  - destruct (getCourseProgress_enrolled st courseId studentId Henr Hcourse)
      as (c0 & rows & Hc0 & Hid & Hrows & Hget).
    eexists. eexists. split; [exact Hget|]. split.
    + intros ch Hch Hco.
      destruct (course_rows_complete st courseId studentId c0 ch Hc0 Hid Hch Hco)
        as [op Hop].
      rewrite <- Hrows in Hop.
      exists (chapter_entry studentId st (c0, Some ch, op)). split.
      * apply in_map. apply in_order_by. exact Hop.
      * simpl. repeat split; try reflexivity;
          try apply is_unlocked_spec; try apply not_unlocked_spec.
    + intros e He. apply in_map_iff in He. destruct He as [r [Heq Hr]].
      apply in_order_by in Hr. rewrite Hrows in Hr.
      apply course_rows_sound in Hr. destruct Hr as [Hch _].
      subst e. destruct r as [[c och] op].
      unfold joined_chapter in Hch. simpl in Hch. simpl.
      destruct och as [ch|].
      * right. exists ch. destruct Hch as [Hch Hco]. simpl.
        repeat split; auto; try apply is_unlocked_spec;
          try apply not_unlocked_spec.
      * left. split; reflexivity.
Qed.

Lemma derived_unlock_state_witness :
  let st := Sample.course_store "c1" 3 1 in
  enrollment "c1" "s1" st <> [] /\
  (exists c, In c (courses st) /\ Course.id c = "c1") /\
  exists agg entries,
    getCourseProgress "c1" "s1" st
    = ({| status := 200; body := CourseProgressBody agg entries |}, st, []) /\
    map cp_is_unlocked entries = [true; true; false].
Proof.
  set (st := Sample.course_store "c1" 3 1).
  assert (H1 : enrollment "c1" "s1" st <> []) by (vm_compute; discriminate).
  assert (H2 : exists c, In c (courses st) /\ Course.id c = "c1")
    by (exists (Sample.course "c1"); split; [left|]; reflexivity).
  split; [exact H1|]. split; [exact H2|].
  destruct (derived_unlock_state st "c1" "s1" H1 H2)
    as [_ (agg & entries & Hget & _)].
  exists agg, entries. split; [exact Hget|].
  vm_compute in Hget. inversion Hget. reflexivity.
Defined.

(** * completeChapter *)

(** A truthy first row of the predecessor query comes from a completed
    Progress record on a chapter of that course and order. *)
Lemma previous_chapter_check_truthy studentId courseId order st row rest :
  previous_chapter_check studentId courseId order st = row :: rest ->
  truthy row = true ->
  exists p prev,
    In p (progress st) /\ In prev (chapters st) /\
    Progress.chapter_id p = Chapter.id prev /\
    Progress.student_id p = studentId /\
    Progress.completed p = true /\
    Chapter.course_id prev = courseId /\
    Chapter.sequence_order prev = order.
Proof.
  intros Hq Ht.
  assert (Hin : In row (previous_chapter_check studentId courseId order st))
    by (rewrite Hq; left; reflexivity).
  unfold previous_chapter_check in Hin. apply in_map_iff in Hin.
  destruct Hin as [[prev op] [Hrow Hin]]. apply filter_In in Hin.
  destruct Hin as [Hin Hc]. simpl in Hc, Hrow.
  apply andb_true_iff in Hc. destruct Hc as [Hco Hso].
  apply String.eqb_eq in Hco. apply Z.eqb_eq in Hso.
  destruct op as [p|]; [|subst row; discriminate].
  unfold chapters_left_join_progress in Hin.
  apply in_left_join_some in Hin. destruct Hin as (Hprev & Hp & Hon).
  apply andb_true_iff in Hon. destruct Hon as [Hid Hst].
  apply String.eqb_eq in Hid, Hst.
  subst row. simpl in Ht.
  exists p, prev. repeat split; auto.
  destruct (Progress.completed p); [reflexivity|discriminate].
Qed.

(** C2.  Completing a chapter of order above 1 whose predecessor has no
    completed Progress record of the student is answered with 403 and
    leaves the store as it was, nothing being committed; for an enrolled
    student the body is the message of the sequence check, which differs
    from the one given to a student who is not enrolled. *)
Theorem complete_locked_chapter_forbidden env st chapterId studentId ch :
  hd_error (chapter_by_id chapterId st) = Some ch ->
  Chapter.sequence_order ch > 1 ->
  ~ predecessor_completed studentId st ch ->
  let r := completeChapter env chapterId studentId st in
  status (response_of r) = 403 /\
  store_of r = st /\ committed r = [] /\
  (enrollment (Chapter.course_id ch) studentId st <> [] ->
   body (response_of r)
   = ErrorMessageBody "Cannot complete chapter"
       "You must complete the previous chapter first") /\
  (enrollment (Chapter.course_id ch) studentId st = [] ->
   body (response_of r) = ErrorBody "You are not enrolled in this course").
Proof.
  intros Hch Hseq Hpred.
  unfold completeChapter, try_catch, bind, select.
  destruct (chapter_by_id chapterId st) as [|ch' rest]; [discriminate|].
  simpl in Hch. inversion Hch; subst ch'. clear Hch.
  unfold completeChapter_found, bind, select.
  destruct (enrollment (Chapter.course_id ch) studentId st) as [|e es] eqn:Ee.
  - simpl. repeat split; congruence.
  - assert (Hgt : (Chapter.sequence_order ch >? 1) = true)
      by (apply Z.gtb_lt; lia).
    rewrite Hgt.
    destruct (previous_chapter_check studentId (Chapter.course_id ch)
                (Chapter.sequence_order ch - 1) st) as [|row rows] eqn:Ep.
    + simpl. repeat split; congruence.
    + destruct (truthy row) eqn:Ht.
      * exfalso. apply Hpred.
        destruct (previous_chapter_check_truthy _ _ _ _ _ _ Ep Ht)
          as (p & prev & H).
        exists p, prev. tauto.
      * simpl. repeat split; congruence.
Qed.

Lemma complete_locked_chapter_forbidden_witness :
  let st := Sample.course_store "c1" 3 0 in
  let r := completeChapter (Sample.env 30 "n1") "c1-ch3" "s1" st in
  response_of r
  = {| status := 403;
       body := ErrorMessageBody "Cannot complete chapter"
                 "You must complete the previous chapter first" |} /\
  store_of r = st.
Proof.
  set (st := Sample.course_store "c1" 3 0).
  assert (H : ~ predecessor_completed "s1" st (Sample.chapter_no "c1" 3)).
  { intros (p & prev & Hp & _). destruct Hp. }
  destruct (complete_locked_chapter_forbidden (Sample.env 30 "n1") st
              "c1-ch3" "s1" (Sample.chapter_no "c1" 3) eq_refl eq_refl H)
    as (Hs & Hst & _ & Hb & _).
  split; [|exact Hst].
  specialize (Hb ltac:(vm_compute; discriminate)).
  destruct (response_of (completeChapter (Sample.env 30 "n1") "c1-ch3" "s1" st))
    as [s b].
  simpl in Hs, Hb. subst. reflexivity.
Defined.

(** ** The paths through completeChapter *)

Lemma filter_head {A} (f : A -> bool) (l : list A) x :
  In x l -> f x = true ->
  exists y rest, filter f l = y :: rest /\ In y l /\ f y = true.
Proof.
  intros Hx Hf.
  assert (Hin : In x (filter f l)) by (apply filter_In; auto).
  destruct (filter f l) as [|y rest] eqn:E; [contradiction|].
  exists y, rest. split; [reflexivity|].
  assert (Hy : In y (filter f l)) by (rewrite E; left; reflexivity).
  apply filter_In in Hy. exact Hy.
Qed.

Lemma NoDup_map_injective {A B} (f : A -> B) (l : list A) a b :
  NoDup (map f l) -> In a l -> In b l -> f a = f b -> a = b.
Proof.
  induction l as [|x l IH]; simpl; intros Hnd Ha Hb Hf; [contradiction|].
  inversion Hnd as [|y ys Hnotin Hnd']; subst.
  destruct Ha as [Ha | Ha], Hb as [Hb | Hb].
  - congruence.
  - subst x. exfalso. apply Hnotin. rewrite Hf. apply in_map. exact Hb.
  - subst x. exfalso. apply Hnotin. rewrite <- Hf. apply in_map. exact Ha.
  - apply IH; assumption.
Qed.

(** With the primary key, an id on record selects its chapter. *)
Lemma chapter_by_id_found st ch :
  chapter_ids_unique st -> In ch (chapters st) ->
  hd_error (chapter_by_id (Chapter.id ch) st) = Some ch.
Proof.
  intros Hu Hch. unfold chapter_by_id.
  destruct (filter_head (fun c => String.eqb (Chapter.id c) (Chapter.id ch))
              (chapters st) ch Hch (String.eqb_refl _))
    as (y & rest & Hf & Hy & Hid).
  rewrite Hf. simpl. f_equal. apply String.eqb_eq in Hid.
  exact (NoDup_map_injective Chapter.id (chapters st) y ch Hu Hy Hch Hid).
Qed.

(** With unique orders and unique progress keys, a completed predecessor
    is what the first row of the predecessor query shows. *)
Lemma previous_chapter_check_passes studentId st ch :
  orders_unique st -> progress_keys_unique st ->
  predecessor_completed studentId st ch ->
  exists rest,
    previous_chapter_check studentId (Chapter.course_id ch)
      (Chapter.sequence_order ch - 1) st = Some true :: rest.
Proof.
  intros Hou Hpu (p & prev & Hp & Hprev & Hid & Hst & Hcomp & Hco & Hso).
  unfold previous_chapter_check.
  assert (Hrow : In (prev, Some p) (chapters_left_join_progress studentId st)).
  { unfold chapters_left_join_progress. apply in_left_join_some.
    repeat split; try assumption.
    rewrite Hid, Hst, !String.eqb_refl. reflexivity. }
  destruct (filter_head
    (fun r : Chapter.t * option Progress.t =>
       String.eqb (Chapter.course_id (fst r)) (Chapter.course_id ch)
       && (Chapter.sequence_order (fst r) =? Chapter.sequence_order ch - 1))
    _ _ Hrow) as (y & rest & Hf & Hy & Hc).
  { simpl. rewrite Hco, Hso, String.eqb_refl, Z.eqb_refl. reflexivity. }
  rewrite Hf. simpl. eexists. f_equal.
  destruct y as [prev' op']. simpl in *.
  apply andb_true_iff in Hc. destruct Hc as [Hco' Hso'].
  apply String.eqb_eq in Hco'. apply Z.eqb_eq in Hso'.
  assert (Hprev' : In prev' (chapters st))
    by (eapply in_left_join_left; exact Hy).
  assert (prev' = prev) by (apply Hou; auto; congruence). subst prev'.
  unfold chapters_left_join_progress in Hy.
  destruct op' as [p'|].
  - apply in_left_join_some in Hy. destruct Hy as (_ & Hp' & Hon).
    apply andb_true_iff in Hon. destruct Hon as [Hid' Hst'].
    apply String.eqb_eq in Hid', Hst'.
    assert (p' = p).
    { apply (NoDup_map_injective progress_key (progress st)); auto.
      unfold progress_key. congruence. }
    subst p'. simpl. congruence.
  - apply in_left_join_none in Hy. destruct Hy as [_ Hn].
    specialize (Hn p Hp). simpl in Hn.
    rewrite Hid, Hst, !String.eqb_refl in Hn. discriminate.
Qed.

(** The successful path: chapter found, student enrolled, sequence check
    passed, no completed row yet. *)
Lemma completeChapter_success env st chapterId studentId ch :
  hd_error (chapter_by_id chapterId st) = Some ch ->
  enrollment (Chapter.course_id ch) studentId st <> [] ->
  (Chapter.sequence_order ch > 1 ->
   exists rest,
     previous_chapter_check studentId (Chapter.course_id ch)
       (Chapter.sequence_order ch - 1) st = Some true :: rest) ->
  (forall p rest, existing_progress chapterId studentId st = p :: rest ->
                  Progress.completed p = false) ->
  completeChapter env chapterId studentId st
  = completion_of env chapterId studentId ch st.
Proof.
  intros Hch Henr Hgate Hnew.
  unfold completeChapter, completion_of, try_catch, bind, select.
  destruct (chapter_by_id chapterId st) as [|ch' rest]; [discriminate|].
  simpl in Hch. inversion Hch; subst ch'. clear Hch.
  unfold completeChapter_found, bind, select, execute.
  destruct (enrollment (Chapter.course_id ch) studentId st) as [|e es];
    [congruence|].
  assert (Hg : (Chapter.sequence_order ch >? 1) = true ->
               exists rest',
                 previous_chapter_check studentId (Chapter.course_id ch)
                   (Chapter.sequence_order ch - 1) st = Some true :: rest').
  { intros E. apply Hgate. apply Z.gtb_lt in E. lia. }
  assert (Hex : match existing_progress chapterId studentId st with
                | p :: _ => Progress.completed p = false
                | [] => True
                end).
  { destruct (existing_progress chapterId studentId st) as [|p ps] eqn:Ex;
      [exact I|]. exact (Hnew p ps eq_refl). }
  destruct (Chapter.sequence_order ch >? 1).
  - destruct (Hg eq_refl) as [rest' Hg']. rewrite Hg'. simpl.
    destruct (existing_progress chapterId studentId st) as [|p ps];
      [|rewrite Hex]; simpl;
      destruct (upsert_progress env studentId chapterId
                  (Chapter.course_id ch) st) as [st1 rows]; simpl;
      destruct (completion_result studentId (Chapter.course_id ch) st1);
      reflexivity.
  - simpl.
    destruct (existing_progress chapterId studentId st) as [|p ps];
      [|rewrite Hex]; simpl;
      destruct (upsert_progress env studentId chapterId
                  (Chapter.course_id ch) st) as [st1 rows]; simpl;
      destruct (completion_result studentId (Chapter.course_id ch) st1);
      reflexivity.
Qed.

(** Whatever else completeChapter answers, a 200 is the successful path. *)
Lemma completeChapter_200_inv env st chapterId studentId :
  status (response_of (completeChapter env chapterId studentId st)) = 200 ->
  exists ch,
    hd_error (chapter_by_id chapterId st) = Some ch /\
    enrollment (Chapter.course_id ch) studentId st <> [] /\
    completeChapter env chapterId studentId st
    = completion_of env chapterId studentId ch st.
Proof.
  unfold completeChapter, completion_of, try_catch, bind, select.
  destruct (chapter_by_id chapterId st) as [|ch rest]; [discriminate|].
  intros H. exists ch. split; [reflexivity|]. revert H.
  unfold completeChapter_found, bind, select, execute.
  destruct (enrollment (Chapter.course_id ch) studentId st) as [|e es];
    [discriminate|].
  intros H. split; [discriminate|]. revert H.
  destruct (Chapter.sequence_order ch >? 1).
  - destruct (previous_chapter_check studentId (Chapter.course_id ch)
                (Chapter.sequence_order ch - 1) st) as [|row rows];
      [discriminate|].
    simpl. destruct (truthy row); simpl; [|discriminate].
    destruct (existing_progress chapterId studentId st) as [|p ps];
      [|destruct (Progress.completed p); simpl; [discriminate|]]; simpl;
      destruct (upsert_progress env studentId chapterId
                  (Chapter.course_id ch) st) as [st1 rows']; simpl;
      destruct (completion_result studentId (Chapter.course_id ch) st1);
      reflexivity.
  - simpl.
    destruct (existing_progress chapterId studentId st) as [|p ps];
      [|destruct (Progress.completed p); simpl; [discriminate|]]; simpl;
      destruct (upsert_progress env studentId chapterId
                  (Chapter.course_id ch) st) as [st1 rows']; simpl;
      destruct (completion_result studentId (Chapter.course_id ch) st1);
      reflexivity.
Qed.

(** The duplicate path: everything passes and the first row on record for
    (chapter, student) is completed. *)
Lemma completeChapter_duplicate env st chapterId studentId ch :
  hd_error (chapter_by_id chapterId st) = Some ch ->
  enrollment (Chapter.course_id ch) studentId st <> [] ->
  (Chapter.sequence_order ch > 1 ->
   exists rest,
     previous_chapter_check studentId (Chapter.course_id ch)
       (Chapter.sequence_order ch - 1) st = Some true :: rest) ->
  (exists p rest, existing_progress chapterId studentId st = p :: rest /\
                  Progress.completed p = true) ->
  completeChapter env chapterId studentId st
  = ({| status := 400; body := ErrorBody "Chapter already completed" |},
     st, []).
Proof.
  intros Hch Henr Hgate (p & ps & Hex & Hcomp).
  unfold completeChapter, try_catch, bind, select.
  destruct (chapter_by_id chapterId st) as [|ch' rest]; [discriminate|].
  simpl in Hch. inversion Hch; subst ch'. clear Hch.
  unfold completeChapter_found, bind, select, execute.
  destruct (enrollment (Chapter.course_id ch) studentId st) as [|e es];
    [congruence|].
  assert (Hg : (Chapter.sequence_order ch >? 1) = true ->
               exists rest',
                 previous_chapter_check studentId (Chapter.course_id ch)
                   (Chapter.sequence_order ch - 1) st = Some true :: rest').
  { intros E. apply Hgate. apply Z.gtb_lt in E. lia. }
  destruct (Chapter.sequence_order ch >? 1).
  - destruct (Hg eq_refl) as [rest' Hg']. rewrite Hg'. simpl.
    rewrite Hex, Hcomp. reflexivity.
  - simpl. rewrite Hex, Hcomp. reflexivity.
Qed.

(** ** The upsert *)

Lemma upsert_progress_frame env studentId chapterId courseId st :
  let st1 := fst (upsert_progress env studentId chapterId courseId st) in
  users st1 = users st /\ courses st1 = courses st /\
  chapters st1 = chapters st /\
  course_assignments st1 = course_assignments st /\
  certificates st1 = certificates st.
Proof.
  unfold upsert_progress.
  match goal with |- context [existsb ?f ?l] => destruct (existsb f l) end;
    simpl; repeat split.
Qed.

Lemma upsert_progress_keys env studentId chapterId courseId st :
  progress_keys_unique st ->
  progress_keys_unique
    (fst (upsert_progress env studentId chapterId courseId st)).
Proof.
  unfold progress_keys_unique, upsert_progress.
  match goal with |- context [existsb ?f ?l] =>
    destruct (existsb f l) eqn:E end; simpl; intros Hnd.
  - rewrite map_map.
    erewrite map_ext; [exact Hnd|].
    intros p. simpl.
    destruct (String.eqb (Progress.student_id p) studentId
              && String.eqb (Progress.chapter_id p) chapterId); reflexivity.
  - rewrite map_app. simpl.
    apply NoDup_app; [exact Hnd| |].
    + constructor; [intros []|constructor].
    + intros k Hk [Hk' | []]. subst k.
      apply in_map_iff in Hk. destruct Hk as [p [Hkey Hp]].
      unfold progress_key in Hkey. inversion Hkey as [[H1 H2]].
      assert (existsb
        (fun p => String.eqb (Progress.student_id p) studentId
                  && String.eqb (Progress.chapter_id p) chapterId)
        (progress st) = true).
      { apply existsb_exists. exists p. split; [exact Hp|].
        rewrite H1, H2, !String.eqb_refl. reflexivity. }
      congruence.
Qed.

(** Every row the upsert leaves under the key is completed and stamped. *)
Lemma upsert_progress_completed env studentId chapterId courseId st p :
  In p (progress (fst (upsert_progress env studentId chapterId courseId st))) ->
  Progress.student_id p = studentId -> Progress.chapter_id p = chapterId ->
  Progress.completed p = true /\ Progress.completed_at p = Some (now env).
Proof.
  unfold upsert_progress.
  match goal with |- context [existsb ?f ?l] =>
    destruct (existsb f l) eqn:E end; simpl; intros Hin Hs Hc.
  - apply in_map_iff in Hin. destruct Hin as [q [Hq Hin]].
    destruct (String.eqb (Progress.student_id q) studentId
              && String.eqb (Progress.chapter_id q) chapterId) eqn:Ek.
    + subst p. simpl. auto.
    + subst q. rewrite Hs, Hc, !String.eqb_refl in Ek. discriminate.
  - apply in_app_or in Hin. destruct Hin as [Hin | [Hin | []]].
    + exfalso.
      assert (existsb
        (fun p => String.eqb (Progress.student_id p) studentId
                  && String.eqb (Progress.chapter_id p) chapterId)
        (progress st) = true).
      { apply existsb_exists. exists p. split; [exact Hin|].
        rewrite Hs, Hc, !String.eqb_refl. reflexivity. }
      congruence.
    + subst p. simpl. auto.
Qed.

(** The row the upsert returns is on record under the key. *)
Lemma upsert_progress_returns env studentId chapterId courseId st :
  exists row,
    hd_error (snd (upsert_progress env studentId chapterId courseId st))
    = Some row /\
    In row (progress
              (fst (upsert_progress env studentId chapterId courseId st))) /\
    Progress.student_id row = studentId /\
    Progress.chapter_id row = chapterId /\
    Progress.completed row = true /\
    Progress.completed_at row = Some (now env).
Proof.
  unfold upsert_progress.
  match goal with |- context [existsb ?f ?l] =>
    destruct (existsb f l) eqn:E end; simpl.
  - apply existsb_exists in E. destruct E as [q [Hq Hk]].
    destruct (filter_head
                (fun p => String.eqb (Progress.student_id p) studentId
                          && String.eqb (Progress.chapter_id p) chapterId)
                _ _ Hq Hk) as (y & rest & Hf & Hy & Hky).
    rewrite Hf. simpl. eexists. split; [reflexivity|].
    apply andb_true_iff in Hky. destruct Hky as [H1 H2].
    apply String.eqb_eq in H1, H2. simpl. repeat split; auto.
    apply in_map_iff. exists y. split; [|exact Hy].
    rewrite H1, H2, !String.eqb_refl. reflexivity.
  - eexists. split; [reflexivity|]. simpl. repeat split.
    apply in_or_app. right. left. reflexivity.
Qed.

(** A completed row stays completed, under the same key. *)
Lemma upsert_progress_keeps env studentId chapterId courseId st p :
  In p (progress st) -> Progress.completed p = true ->
  exists p',
    In p' (progress
             (fst (upsert_progress env studentId chapterId courseId st))) /\
    Progress.chapter_id p' = Progress.chapter_id p /\
    Progress.student_id p' = Progress.student_id p /\
    Progress.completed p' = true.
Proof.
  intros Hp Hc. unfold upsert_progress.
  match goal with |- context [existsb ?f ?l] =>
    destruct (existsb f l) eqn:E end; simpl.
  - eexists. split; [apply in_map; exact Hp|].
    destruct (String.eqb (Progress.student_id p) studentId
              && String.eqb (Progress.chapter_id p) chapterId); simpl; auto.
  - exists p. split; [apply in_or_app; left; exact Hp|]. auto.
Qed.

Lemma NoDup_map_filter_length {A B} (f : A -> B) (g : A -> bool)
    (l : list A) (k : B) :
  NoDup (map f l) -> (forall a, g a = true -> f a = k) ->
  (List.length (filter g l) <= 1)%nat.
Proof.
  intros Hnd Hg. induction l as [|x l IH]; simpl; [lia|].
  inversion Hnd as [|y ys Hnotin Hnd']; subst.
  destruct (g x) eqn:Ex; [|apply IH; assumption].
  simpl. destruct (filter g l) as [|z zs] eqn:Ef; [simpl; lia|].
  exfalso. apply Hnotin.
  assert (Hz : In z (filter g l)) by (rewrite Ef; left; reflexivity).
  apply filter_In in Hz. destruct Hz as [Hz Hgz].
  rewrite (Hg x Ex), <- (Hg z Hgz). apply in_map. exact Hz.
Qed.

Lemma predecessor_completed_upsert env studentId chapterId courseId st s ch :
  predecessor_completed s st ch ->
  predecessor_completed s
    (fst (upsert_progress env studentId chapterId courseId st)) ch.
Proof.
  intros (p & prev & Hp & Hprev & Hid & Hst & Hcomp & Hco & Hso).
  destruct (upsert_progress_keeps env studentId chapterId courseId st p
              Hp Hcomp) as (p' & Hp' & Hcid & Hsid & Hcomp').
  destruct (upsert_progress_frame env studentId chapterId courseId st)
    as (_ & _ & Hchs & _).
  exists p', prev. rewrite Hchs. repeat split; auto; congruence.
Qed.

(** C3.  For an enrolled student and a chapter that is unlocked and not
    yet completed, the first completeChapter succeeds, returning a Progress
    record of the (student, chapter) pair with completed = true and the
    time of the call; the second is rejected as a duplicate and changes
    nothing; afterwards exactly one Progress row is on record for the
    pair. *)
Theorem complete_twice env1 env2 st studentId ch :
  chapter_ids_unique st -> progress_keys_unique st -> orders_unique st ->
  In ch (chapters st) ->
  enrollment (Chapter.course_id ch) studentId st <> [] ->
  is_unlocked studentId st ch = true ->
  (forall p, In p (progress st) ->
             Progress.chapter_id p = Chapter.id ch ->
             Progress.student_id p = studentId ->
             Progress.completed p = false) ->
  let r1 := completeChapter env1 (Chapter.id ch) studentId st in
  let r2 := completeChapter env2 (Chapter.id ch) studentId (store_of r1) in
  (exists row completion,
     response_of r1
     = {| status := 200;
          body := CompleteBody "Chapter completed successfully"
                    (Some row) completion |} /\
     In row (progress (store_of r1)) /\
     Progress.student_id row = studentId /\
     Progress.chapter_id row = Chapter.id ch /\
     Progress.completed row = true /\
     Progress.completed_at row = Some (now env1)) /\
  response_of r2
  = {| status := 400; body := ErrorBody "Chapter already completed" |} /\
  store_of r2 = store_of r1 /\ committed r2 = [] /\
  List.length (existing_progress (Chapter.id ch) studentId (store_of r2))
  = 1%nat.
Proof.
  intros Hcu Hpu Hou Hch Henr Hunl Hnew r1 r2.
  pose proof (chapter_by_id_found st ch Hcu Hch) as Hfound.
  assert (Hpred : Chapter.sequence_order ch > 1 ->
                  predecessor_completed studentId st ch).
  { intros Hgt. apply is_unlocked_spec in Hunl.
    destruct Hunl as [H1 | H]; [lia|exact H]. }
  assert (Hr1 : r1 = completion_of env1 (Chapter.id ch) studentId ch st).
  { apply completeChapter_success; auto.
    - intros Hgt. apply previous_chapter_check_passes; auto.
    - intros p rest Hex.
      assert (Hin : In p (existing_progress (Chapter.id ch) studentId st))
        by (rewrite Hex; left; reflexivity).
      unfold existing_progress in Hin. apply filter_In in Hin.
      destruct Hin as [Hin Hk]. apply andb_true_iff in Hk.
      destruct Hk as [H1 H2]. apply String.eqb_eq in H1, H2. auto. }
  set (u := upsert_progress env1 studentId (Chapter.id ch)
              (Chapter.course_id ch) st) in *.
  assert (Hst1 : store_of r1 = fst u) by (rewrite Hr1; reflexivity).
  destruct (upsert_progress_frame env1 studentId (Chapter.id ch)
              (Chapter.course_id ch) st) as (_ & _ & Hchs & Hcas & _).
  fold u in Hchs, Hcas.
  destruct (upsert_progress_returns env1 studentId (Chapter.id ch)
              (Chapter.course_id ch) st)
    as (row & Hhd & Hrow & Hrs & Hrc & Hrcomp & Hrat).
  fold u in Hhd, Hrow.
  assert (Hhead : exists y rest,
            existing_progress (Chapter.id ch) studentId (fst u) = y :: rest /\
            Progress.completed y = true).
  { destruct (filter_head
      (fun p => String.eqb (Progress.chapter_id p) (Chapter.id ch)
                && String.eqb (Progress.student_id p) studentId)
      (progress (fst u)) row Hrow) as (y & rest & Hf & Hy & Hk).
    { rewrite Hrs, Hrc, !String.eqb_refl. reflexivity. }
    exists y, rest. split; [exact Hf|].
    apply andb_true_iff in Hk. destruct Hk as [H1 H2].
    apply String.eqb_eq in H1, H2.
    apply (upsert_progress_completed env1 studentId (Chapter.id ch)
             (Chapter.course_id ch) st y Hy H2 H1). }
  assert (Hr2 : r2 = ({| status := 400;
                         body := ErrorBody "Chapter already completed" |},
                      fst u, [])).
  { unfold r2. rewrite Hst1. apply completeChapter_duplicate with (ch := ch).
    - unfold chapter_by_id. rewrite Hchs. exact Hfound.
    - unfold enrollment. rewrite Hcas. exact Henr.
    - intros Hgt. apply previous_chapter_check_passes.
      + unfold orders_unique. rewrite Hchs. exact Hou.
      + apply upsert_progress_keys. exact Hpu.
      + apply predecessor_completed_upsert. auto.
    - exact Hhead. }
  split; [|split; [|split; [|split]]].
  - exists row. eexists. rewrite Hr1. unfold completion_of. fold u.
    rewrite Hhd. simpl. repeat split; auto.
  - rewrite Hr2. reflexivity.
  - rewrite Hr2, Hst1. reflexivity.
  - rewrite Hr2. reflexivity.
  - rewrite Hr2. unfold store_of. simpl.
    destruct Hhead as (y & rest & Hf & _).
    assert (Hle : (List.length (existing_progress (Chapter.id ch) studentId
                                  (fst u)) <= 1)%nat).
    { unfold existing_progress.
      apply (NoDup_map_filter_length progress_key _ _
               (studentId, Chapter.id ch)).
      - apply upsert_progress_keys. exact Hpu.
      - intros a Ha. apply andb_true_iff in Ha. destruct Ha as [H1 H2].
        apply String.eqb_eq in H1, H2. unfold progress_key. congruence. }
    rewrite Hf in *. simpl in *. lia.
Qed.

Lemma complete_twice_witness :
  let st := Sample.course_store "c1" 3 1 in
  let r1 := completeChapter (Sample.env 30 "n1") "c1-ch2" "s1" st in
  let r2 := completeChapter (Sample.env 31 "n2") "c1-ch2" "s1" (store_of r1) in
  status (response_of r1) = 200 /\ status (response_of r2) = 400 /\
  List.length (existing_progress "c1-ch2" "s1" (store_of r2)) = 1%nat.
Proof.
  set (st := Sample.course_store "c1" 3 1).
  assert (H1 : chapter_ids_unique st).
  { unfold chapter_ids_unique. vm_compute.
    repeat constructor; simpl; intuition discriminate. }
  assert (H2 : progress_keys_unique st).
  { unfold progress_keys_unique. vm_compute.
    repeat constructor; simpl; intuition discriminate. }
  assert (H3 : orders_unique st).
  { intros a b Ha Hb _ Ho. vm_compute in Ha, Hb.
    destruct Ha as [Ha|[Ha|[Ha|[]]]], Hb as [Hb|[Hb|[Hb|[]]]];
      subst a b; try reflexivity; discriminate Ho. }
  assert (H4 : In (Sample.chapter_no "c1" 2) (chapters st))
    by (right; left; reflexivity).
  assert (H5 : enrollment "c1" "s1" st <> []) by (vm_compute; discriminate).
  assert (H6 : forall p, In p (progress st) ->
             Progress.chapter_id p = "c1-ch2" ->
             Progress.student_id p = "s1" ->
             Progress.completed p = false).
  { intros p Hp Hc _. vm_compute in Hp. destruct Hp as [Hp|[]]. subst p.
    discriminate Hc. }
  destruct (complete_twice (Sample.env 30 "n1") (Sample.env 31 "n2") st "s1"
              (Sample.chapter_no "c1" 2) H1 H2 H3 H4 H5 eq_refl H6)
    as ((row & c & Hr1 & _) & Hr2 & _ & _ & Hlen).
  change (Chapter.id (Sample.chapter_no "c1" 2)) with "c1-ch2" in *.
  split; [rewrite Hr1; reflexivity|].
  split; [rewrite Hr2; reflexivity|exact Hlen].
Defined.

(** * deleteChapter *)

Ltac gtb_facts :=
  repeat match goal with
         | H : (_ >? _) = true |- _ => apply Z.gtb_lt in H
         | H : (_ >? _) = false |- _ =>
             rewrite Z.gtb_ltb in H; apply Z.ltb_ge in H
         end.

Section Renumbering.

(** Removing the order [d] from a dense list and decrementing the orders
    above it. *)
Variable d : Z.

Lemma shift_down_monotone x y :
  x <> d -> y <> d -> (x < y <-> shift_down d x < shift_down d y).
Proof.
  unfold shift_down. intros Hx Hy.
  destruct (x >? d) eqn:Ex, (y >? d) eqn:Ey; gtb_facts; lia.
Qed.

Lemma shift_down_injective x y :
  x <> d -> y <> d -> shift_down d x = shift_down d y -> x = y.
Proof.
  intros Hx Hy H.
  destruct (Z.lt_total x y) as [Hlt | [Heq | Hgt]]; [|exact Heq|].
  - apply (shift_down_monotone x y Hx Hy) in Hlt. lia.
  - apply (shift_down_monotone y x Hy Hx) in Hgt. lia.
Qed.

Lemma length_filter_remove (l : list Z) :
  NoDup l -> In d l ->
  S (List.length (filter (fun o => negb (o =? d)) l)) = List.length l.
Proof.
  induction l as [|x l IH]; simpl; intros Hnd Hin; [contradiction|].
  inversion Hnd as [|y ys Hnotin Hnd']; subst.
  destruct (x =? d) eqn:E; simpl.
  - apply Z.eqb_eq in E. subst x. f_equal.
    clear IH Hin Hnd. induction l as [|z l IH]; simpl; [reflexivity|].
    destruct (z =? d) eqn:Ez; simpl.
    + apply Z.eqb_eq in Ez. subst z. exfalso. apply Hnotin. left. reflexivity.
    + f_equal. apply IH.
      * intros H. apply Hnotin. right. exact H.
      * inversion Hnd'. assumption.
  - f_equal. apply IH; [assumption|].
    destruct Hin as [Hin | Hin]; [|exact Hin].
    apply Z.eqb_neq in E. congruence.
Qed.

Lemma dense_after_removal (l : list Z) :
  dense l -> In d l ->
  dense (map (shift_down d) (filter (fun o => negb (o =? d)) l)) /\
  S (List.length (map (shift_down d) (filter (fun o => negb (o =? d)) l)))
  = List.length l.
Proof.
  intros [Hnd Hrange] Hd.
  pose proof (length_filter_remove l Hnd Hd) as Hlen.
  assert (Hkeep : forall x, In x (filter (fun o => negb (o =? d)) l) <->
                            In x l /\ x <> d).
  { intros x. rewrite filter_In, negb_true_iff, Z.eqb_neq. tauto. }
  split; [split|].
  - apply NoDup_map_NoDup_ForallPairs; [|apply NoDup_filter; exact Hnd].
    intros x y Hx Hy. apply Hkeep in Hx, Hy.
    apply shift_down_injective; tauto.
  - intros k. rewrite length_map.
    assert (HN : Z.of_nat (List.length (filter (fun o => negb (o =? d)) l))
                 = Z.of_nat (List.length l) - 1) by lia.
    rewrite HN. pose proof (proj1 (Hrange d) Hd) as Hdr.
    rewrite in_map_iff. split.
    + intros [x [Hk Hx]]. apply Hkeep in Hx. destruct Hx as [Hx Hne].
      apply Hrange in Hx. subst k. unfold shift_down.
      destruct (x >? d) eqn:E; gtb_facts; lia.
    + intros Hk. destruct (Z_lt_dec k d) as [Hlt | Hge].
      * exists k. split.
        -- unfold shift_down. destruct (k >? d) eqn:E; gtb_facts; lia.
        -- apply Hkeep. split; [apply Hrange|]; lia.
      * exists (k + 1). split.
        -- unfold shift_down. destruct (k + 1 >? d) eqn:E; gtb_facts; lia.
        -- apply Hkeep. split; [apply Hrange|]; lia.
  - rewrite length_map. exact Hlen.
Qed.

End Renumbering.

Lemma map_filter_agree {A B} (h : A -> B) (f : A -> bool) (g : B -> bool)
    (l : list A) :
  (forall a, In a l -> f a = g (h a)) ->
  map h (filter f l) = filter g (map h l).
Proof.
  induction l as [|x l IH]; simpl; intros H; [reflexivity|].
  rewrite <- (H x (or_introl eq_refl)).
  destruct (f x); simpl; rewrite IH; auto.
Qed.

Lemma filter_filter_swap {A} (f g : A -> bool) (l : list A) :
  filter f (filter g l) = filter g (filter f l).
Proof.
  induction l as [|x l IH]; simpl; [reflexivity|].
  destruct (f x) eqn:Ef, (g x) eqn:Eg; simpl; rewrite ?Ef, ?Eg, IH;
    reflexivity.
Qed.

Lemma find_by_id (l : list Chapter.t) c :
  NoDup (map Chapter.id l) -> In c l ->
  find (fun x => String.eqb (Chapter.id x) (Chapter.id c)) l = Some c.
Proof.
  intros Hnd Hc.
  destruct (find (fun x => String.eqb (Chapter.id x) (Chapter.id c)) l)
    as [y|] eqn:E.
  - apply find_some in E. destruct E as [Hy Hid]. apply String.eqb_eq in Hid.
    f_equal. exact (NoDup_map_injective Chapter.id l y c Hnd Hy Hc Hid).
  - pose proof (find_none _ _ E c Hc) as H. simpl in H.
    rewrite String.eqb_refl in H. discriminate.
Qed.

(** The ownership check of deleteChapter finds the chapter and its order. *)
Lemma chapter_check_found st mentorId ch :
  chapter_ids_unique st -> In ch (chapters st) ->
  course_check (Chapter.course_id ch) mentorId st <> [] ->
  exists rest,
    chapter_check (Chapter.id ch) (Chapter.course_id ch) mentorId st
    = (Chapter.id ch, Chapter.sequence_order ch) :: rest.
Proof.
  intros Hu Hch Hown.
  destruct (course_check (Chapter.course_id ch) mentorId st) as [|c cs] eqn:Ec;
    [congruence|]. clear Hown.
  assert (Hc : In c (course_check (Chapter.course_id ch) mentorId st))
    by (rewrite Ec; left; reflexivity).
  unfold course_check in Hc. apply filter_In in Hc. destruct Hc as [Hc Hk].
  apply andb_true_iff in Hk. destruct Hk as [Hcid Hm].
  unfold chapter_check.
  destruct (filter_head
    (fun r : Chapter.t * Course.t =>
       String.eqb (Chapter.id (fst r)) (Chapter.id ch)
       && String.eqb (Chapter.course_id (fst r)) (Chapter.course_id ch)
       && String.eqb (Course.mentor_id (snd r)) mentorId)
    (inner_join (fun ch c => String.eqb (Chapter.course_id ch) (Course.id c))
                (chapters st) (courses st))
    (ch, c)) as (y & rest & Hf & Hy & Hky).
  { apply in_inner_join. repeat split; auto.
    rewrite String.eqb_sym. exact Hcid. }
  { simpl. rewrite !String.eqb_refl, Hm. reflexivity. }
  rewrite Hf. simpl. exists (map (fun r : Chapter.t * Course.t =>
    (Chapter.id (fst r), Chapter.sequence_order (fst r))) rest).
  f_equal. destruct y as [ch' c']. simpl in *.
  apply in_inner_join in Hy. destruct Hy as (Hch' & _ & _).
  repeat rewrite andb_true_iff in Hky. destruct Hky as [[Hid _] _].
  apply String.eqb_eq in Hid.
  assert (ch' = ch)
    by exact (NoDup_map_injective Chapter.id (chapters st) ch' ch Hu Hch' Hch Hid).
  subst ch'. reflexivity.
Qed.

(** The run of deleteChapter for a chapter of a course of the mentor: the
    DELETE and the UPDATE are two statements, each committed by itself. *)
Lemma deleteChapter_run st mentorId ch :
  chapter_ids_unique st -> In ch (chapters st) ->
  course_check (Chapter.course_id ch) mentorId st <> [] ->
  deleteChapter (Chapter.course_id ch) (Chapter.id ch) mentorId st
  = ({| status := 200; body := MessageBody "Chapter deleted successfully" |},
     fst (reorder_chapters (Chapter.course_id ch) (Chapter.sequence_order ch)
            (fst (delete_chapter (Chapter.id ch) st))),
     [fst (delete_chapter (Chapter.id ch) st);
      fst (reorder_chapters (Chapter.course_id ch) (Chapter.sequence_order ch)
             (fst (delete_chapter (Chapter.id ch) st)))]).
Proof.
  intros Hu Hch Hown.
  destruct (chapter_check_found st mentorId ch Hu Hch Hown) as [rest Hcc].
  unfold deleteChapter, try_catch, bind, select, execute.
  rewrite Hcc. reflexivity.
Qed.

(** The chapters table after deleteChapter, row by row. *)
Lemma chapters_after_delete st ch :
  let st2 := fst (reorder_chapters (Chapter.course_id ch)
                    (Chapter.sequence_order ch)
                    (fst (delete_chapter (Chapter.id ch) st))) in
  map Chapter.id (chapters st2)
  = filter (fun i => negb (String.eqb i (Chapter.id ch)))
           (map Chapter.id (chapters st)) /\
  (forall c, In c (chapters st) -> Chapter.id c <> Chapter.id ch ->
     exists c', In c' (chapters st2) /\
       Chapter.id c' = Chapter.id c /\
       Chapter.course_id c' = Chapter.course_id c /\
       Chapter.title c' = Chapter.title c /\
       Chapter.description c' = Chapter.description c /\
       Chapter.sequence_order c'
       = if String.eqb (Chapter.course_id c) (Chapter.course_id ch)
            && (Chapter.sequence_order c >? Chapter.sequence_order ch)
         then Chapter.sequence_order c - 1
         else Chapter.sequence_order c).
Proof.
  simpl. split.
  - rewrite map_map. rewrite filter_map_swap. apply map_ext. intros c.
    destruct (String.eqb (Chapter.course_id c) (Chapter.course_id ch)
              && (Chapter.sequence_order c >? Chapter.sequence_order ch));
      reflexivity.
  - intros c Hc Hne. eexists. split.
    + apply in_map. apply filter_In. split; [exact Hc|].
      apply negb_true_iff. apply String.eqb_neq. exact Hne.
    + destruct (String.eqb (Chapter.course_id c) (Chapter.course_id ch)
                && (Chapter.sequence_order c >? Chapter.sequence_order ch));
        simpl; repeat split.
Qed.

Lemma orders_after_delete st ch :
  chapter_ids_unique st -> In ch (chapters st) ->
  NoDup (orders_of (Chapter.course_id ch) st) ->
  orders_of (Chapter.course_id ch)
    (fst (reorder_chapters (Chapter.course_id ch) (Chapter.sequence_order ch)
            (fst (delete_chapter (Chapter.id ch) st))))
  = map (shift_down (Chapter.sequence_order ch))
        (filter (fun o => negb (o =? Chapter.sequence_order ch))
                (orders_of (Chapter.course_id ch) st)).
Proof.
  intros Hu Hch Hnd. unfold orders_of in *. simpl.
  rewrite filter_map_swap, map_map.
  erewrite filter_ext.
  2:{ intros c.
      destruct (String.eqb (Chapter.course_id c) (Chapter.course_id ch)
                && (Chapter.sequence_order c >? Chapter.sequence_order ch));
        reflexivity. }
  rewrite filter_filter_swap.
  rewrite <- (map_filter_agree Chapter.sequence_order
                (fun c => negb (String.eqb (Chapter.id c) (Chapter.id ch)))).
  - rewrite map_map. apply map_ext_in. intros c Hc.
    apply filter_In in Hc. destruct Hc as [Hc _].
    apply filter_In in Hc. destruct Hc as [_ Hco]. rewrite Hco. simpl.
    unfold shift_down.
    destruct (Chapter.sequence_order c >? Chapter.sequence_order ch);
      reflexivity.
  - intros c Hc. f_equal.
    assert (Hch' : In ch (filter (fun c => String.eqb (Chapter.course_id c)
                                             (Chapter.course_id ch))
                            (chapters st)))
      by (apply filter_In; split; [exact Hch|apply String.eqb_refl]).
    destruct (String.eqb (Chapter.id c) (Chapter.id ch)) eqn:Eid.
    + apply String.eqb_eq in Eid. apply filter_In in Hc. destruct Hc as [Hc _].
      assert (c = ch)
        by exact (NoDup_map_injective Chapter.id (chapters st) c ch Hu Hc Hch Eid).
      subst c. symmetry. apply Z.eqb_refl.
    + symmetry. apply Z.eqb_neq. intros Heq. apply String.eqb_neq in Eid.
      apply Eid. f_equal.
      exact (NoDup_map_injective Chapter.sequence_order _ c ch Hnd Hc Hch' Heq).
Qed.

(** C4.  deleteChapter removes the named chapter and lowers by 1 the order
    of every remaining chapter of the course that had a greater order, and
    of no other; when the orders of the course were 1..N+1 they are 1..N
    afterwards, and two remaining chapters of the course compare as they
    did before.  Nothing else in the store changes. *)
Theorem deleteChapter_reindexes st mentorId ch :
  chapter_ids_unique st ->
  In ch (chapters st) ->
  course_check (Chapter.course_id ch) mentorId st <> [] ->
  dense (orders_of (Chapter.course_id ch) st) ->
  let courseId := Chapter.course_id ch in
  let r := deleteChapter courseId (Chapter.id ch) mentorId st in
  response_of r
  = {| status := 200; body := MessageBody "Chapter deleted successfully" |} /\
  map Chapter.id (chapters (store_of r))
  = filter (fun i => negb (String.eqb i (Chapter.id ch)))
           (map Chapter.id (chapters st)) /\
  order_of (Chapter.id ch) (store_of r) = None /\
  (forall c, In c (chapters st) -> Chapter.id c <> Chapter.id ch ->
     order_of (Chapter.id c) (store_of r)
     = Some (if String.eqb (Chapter.course_id c) courseId
                && (Chapter.sequence_order c >? Chapter.sequence_order ch)
             then Chapter.sequence_order c - 1
             else Chapter.sequence_order c)) /\
  dense (orders_of courseId (store_of r)) /\
  S (List.length (orders_of courseId (store_of r)))
  = List.length (orders_of courseId st) /\
  (forall a b, In a (chapters st) -> In b (chapters st) ->
     Chapter.course_id a = courseId -> Chapter.course_id b = courseId ->
     Chapter.id a <> Chapter.id ch -> Chapter.id b <> Chapter.id ch ->
     exists oa ob,
       order_of (Chapter.id a) (store_of r) = Some oa /\
       order_of (Chapter.id b) (store_of r) = Some ob /\
       (Chapter.sequence_order a < Chapter.sequence_order b <-> oa < ob)) /\
  users (store_of r) = users st /\ courses (store_of r) = courses st /\
  course_assignments (store_of r) = course_assignments st /\
  progress (store_of r) = progress st /\
  certificates (store_of r) = certificates st.
Proof.
  intros Hu Hch Hown Hdense courseId r.
  assert (Hr : r = _) by exact (deleteChapter_run st mentorId ch Hu Hch Hown).
  set (st2 := fst (reorder_chapters (Chapter.course_id ch)
                     (Chapter.sequence_order ch)
                     (fst (delete_chapter (Chapter.id ch) st)))) in *.
  assert (Hst : store_of r = st2) by (rewrite Hr; reflexivity).
  rewrite Hst.
  destruct (chapters_after_delete st ch) as [Hids Hrows]. fold st2 in Hids, Hrows.
  assert (Hu2 : NoDup (map Chapter.id (chapters st2)))
    by (rewrite Hids; apply NoDup_filter; exact Hu).
  assert (Horder : forall c, In c (chapters st) ->
            Chapter.id c <> Chapter.id ch ->
            order_of (Chapter.id c) st2
            = Some (if String.eqb (Chapter.course_id c) courseId
                       && (Chapter.sequence_order c
                           >? Chapter.sequence_order ch)
                    then Chapter.sequence_order c - 1
                    else Chapter.sequence_order c)).
  { intros c Hc Hne.
    destruct (Hrows c Hc Hne) as (c' & Hc' & Hid & _ & _ & _ & Hseq).
    unfold order_of. rewrite <- Hid.
    rewrite (find_by_id (chapters st2) c' Hu2 Hc'). simpl. f_equal. exact Hseq. }
  assert (Hdin : In (Chapter.sequence_order ch)
                    (orders_of (Chapter.course_id ch) st)).
  { unfold orders_of. apply in_map. apply filter_In.
    split; [exact Hch|apply String.eqb_refl]. }
  destruct (dense_after_removal (Chapter.sequence_order ch) _ Hdense Hdin)
    as [Hd2 Hlen].
  rewrite <- (orders_after_delete st ch Hu Hch (proj1 Hdense)) in Hd2, Hlen.
  fold st2 in Hd2, Hlen.
  split; [rewrite Hr; reflexivity|].
  split; [exact Hids|].
  split.
  { unfold order_of.
    destruct (find (fun c => String.eqb (Chapter.id c) (Chapter.id ch))
                   (chapters st2)) as [c|] eqn:E; [|reflexivity].
    apply find_some in E. destruct E as [Hc Hid]. apply String.eqb_eq in Hid.
    assert (Hin : In (Chapter.id c) (map Chapter.id (chapters st2)))
      by (apply in_map; exact Hc).
    rewrite Hids in Hin. apply filter_In in Hin. destruct Hin as [_ Hne].
    rewrite Hid, String.eqb_refl in Hne. discriminate. }
  split; [exact Horder|].
  split; [exact Hd2|].
  split; [exact Hlen|].
  split.
  { intros a b Ha Hb Hca Hcb Hna Hnb.
    rewrite (Horder a Ha Hna), (Horder b Hb Hnb).
    eexists. eexists. split; [reflexivity|]. split; [reflexivity|].
    unfold courseId in *. rewrite Hca, Hcb, String.eqb_refl. simpl.
    assert (Hinj : forall c, In c (chapters st) ->
              Chapter.course_id c = Chapter.course_id ch ->
              Chapter.id c <> Chapter.id ch ->
              Chapter.sequence_order c <> Chapter.sequence_order ch).
    { intros c Hc Hco Hne Heq. apply Hne. f_equal.
      refine (NoDup_map_injective Chapter.sequence_order _ c ch
                (proj1 Hdense) _ _ Heq);
        apply filter_In; split; auto; apply String.eqb_eq; auto. }
    exact (shift_down_monotone (Chapter.sequence_order ch) _ _
             (Hinj a Ha Hca Hna) (Hinj b Hb Hcb Hnb)). }
  repeat split.
Qed.

Lemma deleteChapter_reindexes_witness :
  let st := Sample.course_store "c1" 4 0 in
  let r := deleteChapter "c1" "c1-ch2" "m1" st in
  dense (orders_of "c1" st) /\
  map Chapter.id (chapters (store_of r)) = ["c1-ch1"; "c1-ch3"; "c1-ch4"] /\
  orders_of "c1" (store_of r) = [1; 2; 3] /\
  dense (orders_of "c1" (store_of r)).
Proof.
  set (st := Sample.course_store "c1" 4 0).
  assert (H1 : chapter_ids_unique st).
  { unfold chapter_ids_unique. vm_compute.
    repeat constructor; simpl; intuition discriminate. }
  assert (H2 : In (Sample.chapter_no "c1" 2) (chapters st))
    by (right; left; reflexivity).
  assert (H3 : course_check "c1" "m1" st <> []) by (vm_compute; discriminate).
  assert (H4 : dense (orders_of "c1" st)).
  { split.
    - vm_compute. repeat constructor; simpl; intuition discriminate.
    - intros k. change (orders_of "c1" st) with [1; 2; 3; 4]. simpl. lia. }
  destruct (deleteChapter_reindexes st "m1" (Sample.chapter_no "c1" 2)
              H1 H2 H3 H4) as (_ & Hids & _ & _ & Hd & _).
  split; [exact H4|]. split; [exact Hids|]. split; [reflexivity|exact Hd].
Defined.


(** * Bounds on binary64 rounding *)

Lemma digits2_pos_bounds p :
  2 ^ (Zpos (digits2_pos p) - 1) <= Zpos p < 2 ^ Zpos (digits2_pos p).
Proof.
  induction p as [p IH | p IH |]; simpl digits2_pos.
  - rewrite Pos2Z.inj_succ.
    replace (Z.succ (Zpos (digits2_pos p)) - 1)
      with (Z.succ (Zpos (digits2_pos p) - 1)) by lia.
    rewrite !Z.pow_succ_r by lia. lia.
  - rewrite Pos2Z.inj_succ.
    replace (Z.succ (Zpos (digits2_pos p)) - 1)
      with (Z.succ (Zpos (digits2_pos p) - 1)) by lia.
    rewrite !Z.pow_succ_r by lia. lia.
  - simpl. lia.
Qed.

Lemma Zdigits2_le m k :
  0 <= k -> 0 <= m < 2 ^ k -> Zdigits2 m <= k.
Proof.
  intros Hk [Hm Hlt]. destruct m as [|p|p]; simpl; [lia| |lia].
  destruct (Z_le_gt_dec (Zpos (digits2_pos p)) k) as [H|H]; [exact H|].
  exfalso. pose proof (digits2_pos_bounds p) as [Hlow _].
  assert (2 ^ k <= 2 ^ (Zpos (digits2_pos p) - 1))
    by (apply Z.pow_le_mono_r; lia).
  lia.
Qed.

Lemma Zdigits2_gt m : 0 <= m -> m < 2 ^ Zdigits2 m.
Proof.
  intros Hm. destruct m as [|p|p]; simpl; [lia| |lia].
  apply digits2_pos_bounds.
Qed.

Lemma shr_m_of_loc m l : shr_m (shr_record_of_loc m l) = m.
Proof. destruct l as [|[]]; reflexivity. Qed.

Lemma shr_m_shr_1 mrs : 0 <= shr_m mrs -> shr_m (shr_1 mrs) = shr_m mrs / 2.
Proof.
  destruct mrs as [m r s]. simpl. intros Hm.
  destruct m as [|[p|p|]|p]; simpl; try lia; try reflexivity.
  - rewrite <- Z.div2_div. reflexivity.
  - rewrite <- Z.div2_div. reflexivity.
Qed.

Lemma shr_m_iter p : forall mrs,
  0 <= shr_m mrs -> shr_m (SpecFloat.iter_pos shr_1 p mrs) = shr_m mrs / 2 ^ Zpos p.
Proof.
  induction p as [p IH | p IH |]; intros mrs Hm; simpl SpecFloat.iter_pos.
  - assert (H1 : 0 <= shr_m (shr_1 mrs))
      by (rewrite shr_m_shr_1 by exact Hm; apply Z.div_pos; lia).
    assert (H2 : 0 <= shr_m (SpecFloat.iter_pos shr_1 p (shr_1 mrs)))
      by (rewrite IH by exact H1; apply Z.div_pos; lia).
    rewrite IH by exact H2. rewrite IH by exact H1.
    rewrite shr_m_shr_1 by exact Hm.
    rewrite !Z.div_div by lia. f_equal.
    replace (Zpos p~1) with (1 + Zpos p + Zpos p) by lia.
    rewrite !Z.pow_add_r by lia. change (2 ^ 1) with 2. ring.
  - assert (H1 : 0 <= shr_m (SpecFloat.iter_pos shr_1 p mrs))
      by (rewrite IH by exact Hm; apply Z.div_pos; lia).
    rewrite IH by exact H1. rewrite IH by exact Hm.
    rewrite Z.div_div by lia. f_equal.
    replace (Zpos p~0) with (Zpos p + Zpos p) by lia.
    rewrite Z.pow_add_r by lia. ring.
  - rewrite shr_m_shr_1 by exact Hm. reflexivity.
Qed.

(** [shr_fexp] moves to the exponent the format asks for, never below the
    one it is given, and divides the mantissa accordingly. *)
Lemma shr_fexp_spec mx ex lx :
  0 <= mx ->
  let e := Z.max ex (fexp 53 1024 (Zdigits2 mx + ex)) in
  snd (shr_fexp 53 1024 mx ex lx) = e /\
  shr_m (fst (shr_fexp 53 1024 mx ex lx)) = mx / 2 ^ (e - ex).
Proof.
  intros Hm e. unfold shr_fexp, shr.
  destruct (fexp 53 1024 (Zdigits2 mx + ex) - ex) as [|p|p] eqn:En; simpl.
  - assert (e = ex) by (unfold e; lia). rewrite H, Z.sub_diag.
    rewrite shr_m_of_loc. split; [reflexivity|]. simpl. symmetry.
    apply Z.div_1_r.
  - assert (e = ex + Zpos p) by (unfold e; lia). rewrite H. split; [reflexivity|].
    rewrite shr_m_iter by (rewrite shr_m_of_loc; exact Hm).
    rewrite shr_m_of_loc. f_equal. f_equal. lia.
  - assert (e = ex) by (unfold e; lia). rewrite H, Z.sub_diag.
    rewrite shr_m_of_loc. split; [reflexivity|]. simpl. symmetry.
    apply Z.div_1_r.
Qed.

Lemma round_nearest_even_bounds m l :
  m <= round_nearest_even m l <= m + 1.
Proof.
  destruct l as [|[]]; simpl; try lia. destruct (Z.even m); lia.
Qed.

(** Rounding a value below [M * 2 ^ E] gives a number that is at most
    [M * 2 ^ E], whatever the rounding direction: the mantissa is cut at the
    exponent of the format and raised by at most one. *)
Lemma binary_round_aux_below mx ex lx M E :
  0 <= mx -> ex <= E -> -1074 <= E <= 971 -> 0 < M < 2 ^ 53 ->
  mx < M * 2 ^ (E - ex) ->
  binary_round_aux 53 1024 false mx ex lx = S754_zero false \/
  exists m e,
    binary_round_aux 53 1024 false mx ex lx = S754_finite false m e /\
    Zpos m < 2 ^ 53 /\ (e < E \/ (e = E /\ Zpos m <= M)).
Proof.
  intros Hmx Hex HE HM Hlt.
  unfold binary_round_aux.
  pose proof (shr_fexp_spec mx ex lx Hmx) as [He1 Hm1].
  destruct (shr_fexp 53 1024 mx ex lx) as [mrs1 e1]. simpl in He1, Hm1.
  rewrite <- He1 in Hm1.
  set (m2 := round_nearest_even (shr_m mrs1) (loc_of_shr_record mrs1)).
  pose proof (round_nearest_even_bounds (shr_m mrs1) (loc_of_shr_record mrs1))
    as Hm2. fold m2 in Hm2.
  unfold fexp, emin in He1.
  assert (Hp1 : 0 < 2 ^ (E - ex)) by (apply Z.pow_pos_nonneg; lia).
  assert (Hmx53 : mx < 2 ^ (53 + E - ex)).
  { replace (53 + E - ex) with (53 + (E - ex)) by lia.
    rewrite Z.pow_add_r by lia. nia. }
  assert (Hd1 : Zdigits2 mx <= 53 + E - ex)
    by (apply Zdigits2_le; lia).
  assert (He1' : ex <= e1 <= E) by lia.
  assert (Hp2 : 0 < 2 ^ (e1 - ex)) by (apply Z.pow_pos_nonneg; lia).
  assert (Hp3 : 0 < 2 ^ (E - e1)) by (apply Z.pow_pos_nonneg; lia).
  assert (Hm1lo : 0 <= shr_m mrs1) by (rewrite Hm1; apply Z.div_pos; lia).
  assert (Hm1hi : shr_m mrs1 < M * 2 ^ (E - e1)).
  { rewrite Hm1. apply Z.div_lt_upper_bound; [exact Hp2|].
    replace (E - ex) with ((e1 - ex) + (E - e1)) in Hlt by lia.
    rewrite Z.pow_add_r in Hlt by lia. lia. }
  assert (Hm2lo : 0 <= m2) by lia.
  assert (Hm2hi : m2 <= M * 2 ^ (E - e1)) by lia.
  pose proof (shr_fexp_spec m2 e1 loc_Exact Hm2lo) as [He2 Hm3].
  destruct (shr_fexp 53 1024 m2 e1 loc_Exact) as [mrs2 e2].
  simpl in He2, Hm3. rewrite <- He2 in Hm3. unfold fexp, emin in He2.
  assert (Hm253 : m2 < 2 ^ (53 + E - e1)).
  { replace (53 + E - e1) with (53 + (E - e1)) by lia.
    rewrite Z.pow_add_r by lia. nia. }
  assert (Hd2 : Zdigits2 m2 <= 53 + E - e1)
    by (apply Zdigits2_le; lia).
  assert (He2' : e1 <= e2 <= E) by lia.
  assert (Hp4 : 0 < 2 ^ (e2 - e1)) by (apply Z.pow_pos_nonneg; lia).
  assert (Hp5 : 0 < 2 ^ (E - e2)) by (apply Z.pow_pos_nonneg; lia).
  assert (Hm3lo : 0 <= shr_m mrs2) by (rewrite Hm3; apply Z.div_pos; lia).
  assert (Hm3hi : shr_m mrs2 <= M * 2 ^ (E - e2)).
  { rewrite Hm3. apply Z.div_le_upper_bound; [exact Hp4|].
    replace (E - e1) with ((e2 - e1) + (E - e2)) in Hm2hi by lia.
    rewrite Z.pow_add_r in Hm2hi by lia. lia. }
  assert (Hm353 : shr_m mrs2 < 2 ^ 53).
  { rewrite Hm3. apply Z.div_lt_upper_bound; [exact Hp4|].
    pose proof (Zdigits2_gt m2 Hm2lo) as Hg.
    assert (Hd : Zdigits2 m2 <= (e2 - e1) + 53) by lia.
    assert (0 <= Zdigits2 m2) by (destruct m2; simpl; lia).
    assert (2 ^ Zdigits2 m2 <= 2 ^ ((e2 - e1) + 53))
      by (apply Z.pow_le_mono_r; lia).
    rewrite Z.pow_add_r in H0 by lia. lia. }
  destruct (shr_m mrs2) as [|m|m] eqn:Em3.
  - left. reflexivity.
  - right. assert (Hleb : (e2 <=? 1024 - 53) = true) by (apply Z.leb_le; lia).
    rewrite Hleb. exists m, e2. split; [reflexivity|]. split; [exact Hm353|].
    destruct (Z.eq_dec e2 E) as [Heq|Hne]; [|left; lia].
    right. split; [exact Heq|]. rewrite Heq, Z.sub_diag in Hm3hi.
    simpl in Hm3hi. lia.
  - lia.
Qed.

Lemma iter_xO_value p k : Zpos (Pos.iter xO p k) = Zpos p * 2 ^ Zpos k.
Proof.
  induction k as [|k IH] using Pos.peano_ind.
  - simpl. lia.
  - rewrite Pos.iter_succ, Pos2Z.inj_xO, IH, Pos2Z.inj_succ, Z.pow_succ_r by lia.
    ring.
Qed.

Lemma iter_xO_digits p k :
  Zpos (digits2_pos (Pos.iter xO p k)) = Zpos (digits2_pos p) + Zpos k.
Proof.
  induction k as [|k IH] using Pos.peano_ind.
  - simpl. lia.
  - rewrite Pos.iter_succ. simpl digits2_pos. rewrite Pos2Z.inj_succ, IH. lia.
Qed.

(** A mantissa of 53 digits at an exponent of the format is kept as it
    is. *)
Lemma binary_round_aux_exact s m e :
  Zpos (digits2_pos m) = 53 -> -1074 <= e <= 971 ->
  binary_round_aux 53 1024 s (Zpos m) e loc_Exact = S754_finite s m e.
Proof.
  intros Hd He. unfold binary_round_aux.
  assert (Hs : forall l, l = loc_Exact ->
            shr_fexp 53 1024 (Zpos m) e l
            = (shr_record_of_loc (Zpos m) l, e)).
  { intros l _. unfold shr_fexp, shr. simpl Zdigits2. rewrite Hd.
    unfold fexp, emin.
    replace (Z.max (53 + e - 53) (3 - 1024 - 53) - e) with 0 by lia.
    reflexivity. }
  rewrite (Hs loc_Exact eq_refl). simpl shr_record_of_loc.
  simpl loc_of_shr_record. simpl round_nearest_even.
  rewrite (Hs loc_Exact eq_refl). simpl.
  assert (Hleb : (e <=? 971) = true) by (apply Z.leb_le; lia).
  rewrite Hleb. reflexivity.
Qed.

(** An integer below 2^53 is a number with a full mantissa. *)
Lemma of_Z_normal z :
  0 < z < 2 ^ 53 ->
  exists m e,
    Number.of_Z z = S754_finite false m e /\
    Zpos (digits2_pos m) = 53 /\ -52 <= e <= 0 /\
    Zpos m = z * 2 ^ (- e).
Proof.
  intros Hz. destruct z as [|p|p]; try lia.
  unfold Number.of_Z, binary_normalize, binary_round, Number.prec,
    Number.emax.
  pose proof (digits2_pos_bounds p) as Hb.
  assert (Hd : 1 <= Zpos (digits2_pos p) <= 53).
  { split; [lia|]. apply (Zdigits2_le (Zpos p) 53); lia. }
  unfold shl_align, fexp, emin.
  destruct (Z.max (Zpos (digits2_pos p) + 0 - 53) (3 - 1024 - 53) - 0)
    as [|k|k] eqn:Ek.
  - exists p, 0. split; [apply binary_round_aux_exact; lia|].
    split; [lia|]. split; [lia|]. simpl. lia.
  - lia.
  - exists (Pos.iter xO p k), (Zpos (digits2_pos p) - 53).
    replace (Z.max (Zpos (digits2_pos p) + 0 - 53) (3 - 1024 - 53))
      with (Zpos (digits2_pos p) - 53) by lia.
    split.
    + apply binary_round_aux_exact; [|lia].
      rewrite iter_xO_digits. lia.
    + split; [rewrite iter_xO_digits; lia|]. split; [lia|].
      rewrite iter_xO_value. f_equal. f_equal. lia.
Qed.

Lemma div_eucl_div_mod a b : Z.div_eucl a b = (a / b, a mod b).
Proof. unfold Z.div, Z.modulo. destruct (Z.div_eucl a b). reflexivity. Qed.

(** The quotient and its exponent, for two full mantissas. *)
Lemma SFdiv_normal mc ec mt et :
  Zpos (digits2_pos mc) = 53 -> Zpos (digits2_pos mt) = 53 ->
  -52 <= ec <= 0 -> -52 <= et <= 0 ->
  Number.div (S754_finite false mc ec) (S754_finite false mt et)
  = binary_round_aux 53 1024 false (Zpos mc * 2 ^ 53 / Zpos mt)
      (ec - et - 53)
      (new_location (Zpos mt) ((Zpos mc * 2 ^ 53) mod Zpos mt)).
Proof.
  intros Hdc Hdt Hec Het.
  unfold Number.div, Number.prec, Number.emax, SFdiv, SFdiv_core_binary.
  simpl Zdigits2. rewrite Hdc, Hdt. unfold fexp, emin.
  replace (Z.min (Z.max (53 + ec - (53 + et) - 53) (3 - 1024 - 53)) (ec - et))
    with (ec - et - 53) by lia.
  replace (ec - et - (ec - et - 53)) with 53 by lia.
  rewrite Z.shiftl_mul_pow2 by lia.
  rewrite div_eucl_div_mod. reflexivity.
Qed.

(** The quotient of two counts, the smaller by the larger. *)
Lemma div_below_one c t :
  0 <= c < t -> t < 2 ^ 52 ->
  below_one (Number.div (Number.of_Z c) (Number.of_Z t)).
Proof.
  intros Hc Ht.
  destruct (of_Z_normal t) as (mt & et & Hot & Hdt & Het & Hmt); [lia|].
  destruct (Z.eq_dec c 0) as [Hc0 | Hc0].
  - subst c. rewrite Hot. left. reflexivity.
  - destruct (of_Z_normal c) as (mc & ec & Hoc & Hdc & Hec & Hmc); [lia|].
    rewrite Hoc, Hot, SFdiv_normal by assumption.
    pose proof (digits2_pos_bounds mc) as Hbc.
    pose proof (digits2_pos_bounds mt) as Hbt.
    rewrite Hdc in Hbc. rewrite Hdt in Hbt.
    change (53 - 1) with 52 in *.
    assert (Hpc : 0 < 2 ^ (- ec)) by (apply Z.pow_pos_nonneg; lia).
    assert (Hpt : 0 < 2 ^ (- et)) by (apply Z.pow_pos_nonneg; lia).
    assert (Hle : ec <= et).
    { destruct (Z_le_gt_dec ec et) as [H|H]; [exact H|]. exfalso.
      assert (Hsplit : 2 ^ (- et) = 2 ^ (- ec) * 2 ^ (ec - et)).
      { rewrite <- Z.pow_add_r by lia. f_equal. lia. }
      assert (2 <= 2 ^ (ec - et)).
      { change 2 with (2 ^ 1) at 1. apply Z.pow_le_mono_r; lia. }
      nia. }
    assert (Hsplit : 2 ^ (- ec) = 2 ^ (- et) * 2 ^ (et - ec)).
    { rewrite <- Z.pow_add_r by lia. f_equal. lia. }
    assert (Hpk : 0 < 2 ^ (et - ec)) by (apply Z.pow_pos_nonneg; lia).
    apply binary_round_aux_below.
    + apply Z.div_pos; lia.
    + lia.
    + lia.
    + lia.
    + replace (-53 - (ec - et - 53)) with (et - ec) by lia.
      apply Z.div_lt_upper_bound; [lia|].
      rewrite Hmc, Hmt, Hsplit.
      assert (Hkey : c * 2 ^ 53 < t * (2 ^ 53 - 2)) by lia.
      assert (Hu : 0 < 2 ^ (- et) * 2 ^ (et - ec)) by lia.
      replace (c * (2 ^ (- et) * 2 ^ (et - ec)) * 2 ^ 53)
        with ((c * 2 ^ 53) * (2 ^ (- et) * 2 ^ (et - ec))) by ring.
      replace (t * 2 ^ (- et) * ((2 ^ 53 - 2) * 2 ^ (et - ec)))
        with ((t * (2 ^ 53 - 2)) * (2 ^ (- et) * 2 ^ (et - ec))) by ring.
      apply Z.mul_lt_mono_pos_r; assumption.
Qed.
Lemma of_Z_100 : Number.of_Z 100 = S754_finite false 7036874417766400 (-46).
Proof. vm_compute. reflexivity. Qed.

Lemma SFltb_finite m e m2 e2 :
  e < e2 \/ (e = e2 /\ Zpos m < Zpos m2) ->
  SFltb (S754_finite false m e) (S754_finite false m2 e2) = true.
Proof.
  intros H. unfold SFltb, SFcompare. destruct H as [H | [H1 H2]].
  - apply Z.compare_lt_iff in H. rewrite H. reflexivity.
  - subst e2. rewrite Z.compare_refl.
    change (Z.compare (Zpos m) (Zpos m2) = Lt) in H2.
    change (Z.compare (Zpos m) (Zpos m2))
      with (Pos.compare_cont Eq m m2) in H2.
    rewrite H2. reflexivity.
Qed.

Lemma mul_100_below x :
  below_one x ->
  Number.ltb (Number.mul x (Number.of_Z 100)) (Number.of_Z 100) = true.
Proof.
  rewrite of_Z_100.
  intros [Hx | (m & e & Hx & Hm & He)]; subst x; [reflexivity|].
  unfold Number.mul, Number.prec, Number.emax, SFmul. simpl xorb.
  rewrite Pos2Z.inj_mul.
  assert (H1 : 0 <= Zpos m * 7036874417766400) by lia.
  assert (H2 : e + -46 <= -46) by lia.
  assert (H3 : 0 < 7036874417766400 - 1 < 2 ^ 53) by lia.
  assert (H4 : Zpos m * 7036874417766400
               < (7036874417766400 - 1) * 2 ^ (-46 - (e + -46))).
  { replace (-46 - (e + -46)) with (- e) by lia.
    destruct He as [He | [He Hm2]].
    - assert (2 ^ 54 <= 2 ^ (- e)) by (apply Z.pow_le_mono_r; lia). nia.
    - subst e. change (2 ^ (- -53)) with (2 ^ 53). lia. }
  destruct (binary_round_aux_below (Zpos m * 7036874417766400) (e + -46)
              loc_Exact (7036874417766400 - 1) (-46) H1 H2 ltac:(lia) H3 H4)
    as [Hz | (m' & e' & Hr & Hm' & He')].
  - rewrite Hz. reflexivity.
  - rewrite Hr. apply SFltb_finite. lia.
Qed.

(** All chapters completed: the percentage is 100 exactly. *)
Lemma completionPercentage_full t :
  0 < t < 2 ^ 53 -> completionPercentage t t = Number.of_Z 100.
Proof.
  intros Ht. unfold completionPercentage.
  destruct (of_Z_normal t Ht) as (m & e & Hot & Hd & He & Hm).
  rewrite Hot, SFdiv_normal by assumption.
  rewrite (Z.mul_comm (Zpos m) (2 ^ 53)).
  rewrite Z.div_mul, Z.mod_mul by lia.
  replace (e - e - 53) with (-53) by lia.
  assert (Hloc : new_location (Zpos m) 0 = loc_Exact).
  { unfold new_location. destruct (Z.even (Zpos m)); reflexivity. }
  rewrite Hloc. vm_compute. reflexivity.
Qed.

(** Fewer: the percentage is below 100. *)
Lemma completionPercentage_partial c t :
  0 <= c < t -> t < 2 ^ 52 ->
  Number.ltb (completionPercentage c t) (Number.of_Z 100) = true.
Proof.
  intros Hc Ht. unfold completionPercentage.
  apply mul_100_below. apply div_below_one; assumption.
Qed.

(** * The completion percentage *)

Lemma number_same_eq x y : Number.same x y = true -> x = y.
Proof.
  destruct x as [a|a| |a m e], y as [b|b| |b m' e']; simpl;
    try discriminate; try reflexivity.
  - intros H. apply Bool.eqb_prop in H. congruence.
  - intros H. apply Bool.eqb_prop in H. congruence.
  - intros H. repeat rewrite andb_true_iff in H. destruct H as [[H1 H2] H3].
    apply Bool.eqb_prop in H1. apply Pos.eqb_eq in H2. apply Z.eqb_eq in H3.
    congruence.
Qed.

Lemma agrees_up_to_159 : agrees_up_to 159 = true.
Proof. vm_cast_no_check (eq_refl true). Qed.

Lemma agrees_up_to_sound n completed total :
  agrees_up_to n = true ->
  0 <= completed <= total -> 0 < total <= Z.of_nat n ->
  round2 (completionPercentage completed total)
  = Number.hundredths (half_up_hundredths completed total).
Proof.
  intros H Hc Ht. unfold round2, Number.hundredths. f_equal.
  apply number_same_eq.
  unfold agrees_up_to in H. rewrite forallb_forall in H.
  assert (Ht' : In (Z.to_nat total) (seq 1 n)) by (apply in_seq; lia).
  specialize (H (Z.to_nat total) Ht').
  rewrite forallb_forall in H.
  assert (Hc' : In (Z.to_nat completed) (seq 0 (S (Z.to_nat total))))
    by (apply in_seq; lia).
  specialize (H (Z.to_nat completed) Hc').
  unfold percentage_agrees in H. rewrite !Z2Nat.id in H by lia.
  exact H.
Qed.

(** Up to 159 chapters the binary64 computation of completeChapter gives
    the exact half-up value. *)
Lemma percentage_half_up completed total :
  0 <= completed <= total -> 0 < total <= 159 ->
  round2 (completionPercentage completed total)
  = Number.hundredths (half_up_hundredths completed total).
Proof.
  intros Hc Ht.
  apply (agrees_up_to_sound 159 completed total agrees_up_to_159 Hc).
  lia.
Qed.

Lemma count_bounds {A} (f : A -> bool) (l : list A) :
  0 <= count f l <= count (fun _ => true) l.
Proof.
  unfold count. split; [lia|].
  apply Nat2Z.inj_le.
  etransitivity; [apply filter_length_le|].
  clear f. induction l as [|x l IH]; simpl; lia.
Qed.

Lemma completion_result_bounds studentId courseId st :
  0 <= snd (completion_result studentId courseId st)
    <= fst (completion_result studentId courseId st).
Proof. unfold completion_result. simpl. apply count_bounds. Qed.

Lemma completion_result_positive studentId st ch :
  In ch (chapters st) ->
  0 < fst (completion_result studentId (Chapter.course_id ch) st).
Proof.
  intros Hch. unfold completion_result, count. simpl.
  destruct (left_join_covers
    (fun ch p => String.eqb (Chapter.id ch) (Progress.chapter_id p)
                 && String.eqb (Progress.student_id p) studentId)
    (chapters st) (progress st) ch Hch) as [op Hop].
  assert (Hin : In (ch, op)
    (filter (fun _ : Chapter.t * option Progress.t => true)
       (filter (fun r : Chapter.t * option Progress.t =>
                  String.eqb (Chapter.course_id (fst r))
                             (Chapter.course_id ch))
               (chapters_left_join_progress studentId st)))).
  { apply filter_In. split; [|reflexivity]. apply filter_In.
    split; [exact Hop|]. simpl. apply String.eqb_refl. }
  destruct (filter _ (filter _ _)) as [|x l]; [contradiction|].
  simpl. lia.
Qed.

(** C5.  At the 23rd of 160 chapters completeChapter misses the rounding
    it attempts: 23/160*100 is 14.375, which rounds half up to 14.38;
    Math.round(x * 100) / 100 on the binary64 value gives 14.37, and that
    is what completeChapter answers, while getCourseProgress and
    getMyProgress, which round the same counts with ROUND(.., 2) on
    NUMERIC, answer 14.38 on the store the request leaves. *)
Theorem percentage_23_of_160_not_half_up :
  let r := completeChapter (Sample.env 30 "n1") "c1-ch23" "s1"
             (Sample.course_store "c1" 160 22) in
  response_of r
  = {| status := 200;
       body := CompleteBody "Chapter completed successfully"
                 (Some {| Progress.id := "n1"; Progress.student_id := "s1";
                          Progress.chapter_id := "c1-ch23";
                          Progress.course_id := "c1";
                          Progress.completed := true;
                          Progress.completed_at := Some 30;
                          Progress.updated_at := 30 |})
                 {| total_chapters := 160; completed_chapters := 23;
                    percentage := Number.hundredths 1437 |} |} /\
  half_up_hundredths 23 160 = 1438 /\
  Number.hundredths 1437 <> Number.hundredths (half_up_hundredths 23 160) /\
  exists course_aggregate course_chapters my_aggregate my_chapters,
    response_of (getCourseProgress "c1" "s1" (store_of r))
    = {| status := 200;
         body := CourseProgressBody course_aggregate course_chapters |} /\
    response_of (getMyProgress "s1" (Some "c1") (store_of r))
    = {| status := 200;
         body := MyProgressBody my_aggregate my_chapters |} /\
    agg_total_chapters course_aggregate = 160 /\
    agg_completed_chapters course_aggregate = 23 /\
    completion_percentage course_aggregate = Some (1438 # 100)%Q /\
    agg_total_chapters my_aggregate = 160 /\
    agg_completed_chapters my_aggregate = 23 /\
    completion_percentage my_aggregate = Some (1438 # 100)%Q.
Proof.
  split; [vm_compute; reflexivity|].
  split; [reflexivity|].
  split; [vm_compute; discriminate|].
  do 4 eexists.
  split; [vm_compute; reflexivity|].
  split; [vm_compute; reflexivity|].
  repeat split; vm_compute; reflexivity.
Qed.

(** What a successful completeChapter reports: the chapters of the course
    counted after the upsert, the completed ones among them, and as
    percentage the binary64 value of
    Math.round(((completed / total) * 100) * 100) / 100.  For a course of at
    most 159 chapters that is completed / total * 100 rounded half up to
    two decimals, so 33.33 after the first of three chapters, and it is 100
    when every chapter of a course of fewer than 2^53 chapters is
    completed. *)
Theorem completion_percentage_value env st chapterId studentId :
  status (response_of (completeChapter env chapterId studentId st)) = 200 ->
  let r := completeChapter env chapterId studentId st in
  exists ch message row total completed pct,
    hd_error (chapter_by_id chapterId st) = Some ch /\
    body (response_of r)
    = CompleteBody message row
        {| total_chapters := total; completed_chapters := completed;
           percentage := pct |} /\
    (total, completed)
    = completion_result studentId (Chapter.course_id ch) (store_of r) /\
    0 <= completed <= total /\ 0 < total /\
    pct = round2 (completionPercentage completed total) /\
    (total <= 159 ->
     pct = Number.hundredths (half_up_hundredths completed total)) /\
    (total = 3 -> completed = 1 -> pct = Number.hundredths 3333) /\
    (completed = total -> total < 2 ^ 53 -> pct = Number.of_Z 100).
Proof.
  intros H r.
  destruct (completeChapter_200_inv env st chapterId studentId H)
    as (ch & Hch & _ & Hr).
  unfold r. rewrite Hr. unfold completion_of.
  cbv beta iota zeta delta [response_of store_of fst snd body].
  set (st1 := fst (upsert_progress env studentId chapterId
                     (Chapter.course_id ch) st)).
  set (cr := completion_result studentId (Chapter.course_id ch) st1).
  pose proof (completion_result_bounds studentId (Chapter.course_id ch) st1)
    as Hb. fold cr in Hb.
  assert (Hin : In ch (chapters st1)).
  { destruct (upsert_progress_frame env studentId chapterId
                (Chapter.course_id ch) st) as (_ & _ & Hchs & _).
    fold st1 in Hchs. rewrite Hchs.
    unfold chapter_by_id in Hch.
    destruct (filter _ (chapters st)) as [|y l] eqn:E; [discriminate|].
    simpl in Hch. inversion Hch; subst y.
    assert (Hy : In ch (filter (fun c => String.eqb (Chapter.id c) chapterId)
                               (chapters st)))
      by (rewrite E; left; reflexivity).
    apply filter_In in Hy. tauto. }
  pose proof (completion_result_positive studentId st1 ch Hin) as Hpos.
  fold cr in Hpos.
  exists ch. eexists. eexists. exists (fst cr), (snd cr). eexists.
  split; [exact Hch|]. split; [reflexivity|].
  split; [apply surjective_pairing|].
  split; [exact Hb|]. split; [exact Hpos|]. split; [reflexivity|].
  assert (Hhalf : fst cr <= 159 ->
            round2 (completionPercentage (snd cr) (fst cr))
            = Number.hundredths (half_up_hundredths (snd cr) (fst cr)))
    by (intros; apply percentage_half_up; lia).
  split; [exact Hhalf|]. split.
  - intros Ht Hc. etransitivity; [apply Hhalf; lia|]. rewrite Ht, Hc.
    vm_compute. reflexivity.
  - intros Hc Ht.
    change (round2 (completionPercentage (snd cr) (fst cr))
            = Number.of_Z 100).
    rewrite Hc, completionPercentage_full by lia. vm_compute. reflexivity.
Qed.

Lemma completion_percentage_value_witness :
  let st := Sample.course_store "c1" 3 0 in
  let r := completeChapter (Sample.env 30 "n1") "c1-ch1" "s1" st in
  status (response_of r) = 200 /\
  exists message row,
    body (response_of r)
    = CompleteBody message row
        {| total_chapters := 3; completed_chapters := 1;
           percentage := Number.hundredths 3333 |}.
Proof.
  set (st := Sample.course_store "c1" 3 0).
  assert (H : status (response_of
                (completeChapter (Sample.env 30 "n1") "c1-ch1" "s1" st)) = 200)
    by reflexivity.
  split; [exact H|].
  destruct (completion_percentage_value (Sample.env 30 "n1") st "c1-ch1" "s1" H)
    as (ch & message & row & total & completed & pct & Hch & Hbody & Hcr
        & _ & _ & _ & _ & H33 & _).
  vm_compute in Hch. inversion Hch; subst ch. clear Hch.
  vm_compute in Hcr. inversion Hcr; subst total completed.
  exists message, row. rewrite Hbody. rewrite (H33 eq_refl eq_refl).
  reflexivity.
Defined.

(** * resetProgress *)

Lemma resetProgress_enrolled st courseId studentId :
  enrollment courseId studentId st <> [] ->
  resetProgress courseId studentId st
  = ({| status := 200; body := MessageBody "Progress reset successfully" |},
     fst (delete_progress studentId courseId st),
     [fst (delete_progress studentId courseId st)]).
Proof.
  intros Henr. unfold resetProgress, try_catch, bind, select, execute.
  destruct (enrollment courseId studentId st); [congruence|reflexivity].
Qed.

Lemma in_progress_after_reset st courseId studentId p :
  In p (progress (fst (delete_progress studentId courseId st))) <->
  In p (progress st) /\
  ~ (Progress.student_id p = studentId /\ Progress.course_id p = courseId).
Proof.
  simpl. rewrite filter_In, negb_true_iff, andb_false_iff.
  rewrite !String.eqb_neq. split.
  - intros [Hp Hk]. split; [exact Hp|]. intros [H1 H2].
    destruct Hk; contradiction.
  - intros [Hp Hk]. split; [exact Hp|].
    destruct (String.eqb_spec (Progress.student_id p) studentId) as [H1|H1];
      [|left; exact H1].
    right. intros H2. apply Hk. split; assumption.
Qed.

(** After the reset no progress row of the student is left on a chapter of
    the course. *)
Lemma no_progress_after_reset st courseId studentId p ch :
  progress_course_consistent st ->
  In p (progress (fst (delete_progress studentId courseId st))) ->
  In ch (chapters st) -> Chapter.course_id ch = courseId ->
  Progress.chapter_id p = Chapter.id ch ->
  Progress.student_id p <> studentId.
Proof.
  intros Hcons Hp Hch Hco Hid Hst.
  apply in_progress_after_reset in Hp. destruct Hp as [Hp Hk].
  apply Hk. split; [exact Hst|].
  rewrite (Hcons p ch Hp Hch Hid). exact Hco.
Qed.

Lemma count_none {A} (f : A -> bool) (l : list A) :
  (forall x, In x l -> f x = false) -> count f l = 0.
Proof.
  intros H. unfold count.
  replace (filter f l) with (@nil A); [reflexivity|].
  symmetry. induction l as [|x l IH]; simpl; [reflexivity|].
  rewrite (H x (or_introl eq_refl)). apply IH.
  intros y Hy. apply H. right. exact Hy.
Qed.

(** C6.  For an enrolled student, resetProgress deletes the Progress rows
    of that student and course, every one of them and no other row, and
    leaves the other tables as they were; getCourseProgress then shows
    every chapter as not completed, unlocked when its order is 1 and locked
    otherwise.  A student who is not enrolled is answered with 403 and
    nothing is deleted. *)
Theorem reset_progress st courseId studentId :
  progress_course_consistent st ->
  let r := resetProgress courseId studentId st in
  (enrollment courseId studentId st <> [] ->
   response_of r
   = {| status := 200; body := MessageBody "Progress reset successfully" |} /\
   (forall p, In p (progress (store_of r)) <->
              In p (progress st) /\
              ~ (Progress.student_id p = studentId /\
                 Progress.course_id p = courseId)) /\
   users (store_of r) = users st /\ courses (store_of r) = courses st /\
   chapters (store_of r) = chapters st /\
   course_assignments (store_of r) = course_assignments st /\
   certificates (store_of r) = certificates st /\
   ((exists c, In c (courses st) /\ Course.id c = courseId) ->
    exists agg entries,
      getCourseProgress courseId studentId (store_of r)
      = ({| status := 200; body := CourseProgressBody agg entries |},
         store_of r, []) /\
      agg_completed_chapters agg = 0 /\
      (forall ch, In ch (chapters st) -> Chapter.course_id ch = courseId ->
         exists e, In e entries /\ chapter_id e = Some (Chapter.id ch) /\
                   cp_sequence_order e = Some (Chapter.sequence_order ch)) /\
      (forall e, In e entries ->
         cp_completed e = false /\ cp_completed_at e = None /\
         (cp_sequence_order e = Some 1 -> cp_is_unlocked e = true) /\
         (cp_sequence_order e <> Some 1 -> cp_is_unlocked e = false))))
  /\
  (enrollment courseId studentId st = [] ->
   r = ({| status := 403;
           body := ErrorBody "You are not enrolled in this course" |},
        st, [])).
Proof.
  intros Hcons r. split.
  - intros Henr.
    assert (Hr : r = _) by exact (resetProgress_enrolled st _ _ Henr).
    set (st' := fst (delete_progress studentId courseId st)) in *.
    assert (Hst : store_of r = st') by (rewrite Hr; reflexivity).
    rewrite Hst.
    split; [rewrite Hr; reflexivity|].
    split; [intros p; apply in_progress_after_reset|].
    do 5 (split; [reflexivity|]).
    intros Hcourse.
    destruct (getCourseProgress_enrolled st' courseId studentId Henr Hcourse)
      as (c0 & rows & Hc0 & Hid & Hrows & Hget).
    assert (Hnone : forall x, In x rows -> joined_progress x = None).
    { intros x Hx. rewrite Hrows in Hx.
      destruct (course_rows_sound st' courseId studentId c0 x Hx) as [Hc Hp].
      destruct (joined_progress x) as [p|]; [|reflexivity].
      destruct Hp as (Hp & Hs & ch & Hch & Hpid).
      rewrite Hch in Hc. destruct Hc as [Hin Hco].
      exfalso.
      exact (no_progress_after_reset st courseId studentId p ch Hcons Hp
               Hin Hco Hpid Hs). }
    eexists. eexists. split; [exact Hget|]. split; [|split].
    + unfold aggregate_of. simpl. apply count_none.
      intros x Hx. rewrite (Hnone x Hx). reflexivity.
    + intros ch Hch Hco.
      destruct (course_rows_complete st' courseId studentId c0 ch Hc0 Hid
                  Hch Hco) as [op Hop].
      rewrite <- Hrows in Hop.
      exists (chapter_entry studentId st' (c0, Some ch, op)). split.
      * apply in_map. apply in_order_by. exact Hop.
      * split; reflexivity.
    + intros e He. apply in_map_iff in He. destruct He as [x [Heq Hx]].
      apply in_order_by in Hx. pose proof (Hnone x Hx) as Hp.
      rewrite Hrows in Hx. apply course_rows_sound in Hx.
      destruct Hx as [Hch _]. subst e. simpl. rewrite Hp. simpl.
      split; [reflexivity|]. split; [reflexivity|].
      destruct (joined_chapter x) as [ch|]; simpl.
      * destruct Hch as [Hch Hco]. split.
        -- intros H1. inversion H1 as [H1']. apply is_unlocked_spec.
           left. exact H1'.
        -- intros H1. apply not_unlocked_spec.
           intros [H | (p & prev & Hp' & Hprev & Hpid & Hs & _ & Hpco & _)].
           ++ apply H1. f_equal. exact H.
           ++ exact (no_progress_after_reset st courseId studentId p prev
                       Hcons Hp' Hprev (eq_trans Hpco Hco) Hpid Hs).
      * split; [discriminate|reflexivity].
  - intros Henr. unfold r, resetProgress, try_catch, bind, select.
    rewrite Henr. reflexivity.
Qed.

Lemma reset_progress_witness :
  let st := Sample.course_store "c1" 3 2 in
  let r := resetProgress "c1" "s1" st in
  progress_course_consistent st /\
  progress (store_of r) = [] /\
  exists agg entries,
    getCourseProgress "c1" "s1" (store_of r)
    = ({| status := 200; body := CourseProgressBody agg entries |},
       store_of r, []) /\
    map cp_is_unlocked entries = [true; false; false].
Proof.
  set (st := Sample.course_store "c1" 3 2).
  assert (H : progress_course_consistent st).
  { intros p ch Hp Hch _. vm_compute in Hp, Hch.
    destruct Hp as [Hp|[Hp|[]]], Hch as [Hch|[Hch|[Hch|[]]]];
      subst p ch; reflexivity. }
  split; [exact H|]. split; [reflexivity|].
  destruct (reset_progress st "c1" "s1" H) as [Hen _].
  destruct (Hen ltac:(vm_compute; discriminate))
    as (_ & _ & _ & _ & _ & _ & _ & Hget).
  destruct Hget as (agg & entries & Hget & _).
  - exists (Sample.course "c1"). split; [left|]; reflexivity.
  - exists agg, entries. split; [exact Hget|].
    vm_compute in Hget. inversion Hget. reflexivity.
Defined.

(** The store completeChapter leaves is the one it found or the one after
    its upsert, made for the course of the chapter the id selects. *)
Lemma completeChapter_store env st chapterId studentId :
  store_of (completeChapter env chapterId studentId st) = st \/
  exists ch,
    hd_error (chapter_by_id chapterId st) = Some ch /\
    store_of (completeChapter env chapterId studentId st)
    = fst (upsert_progress env studentId chapterId (Chapter.course_id ch) st).
Proof.
  destruct (Z.eq_dec
    (status (response_of (completeChapter env chapterId studentId st))) 200)
    as [H200 | Hne].
  - right. destruct (completeChapter_200_inv env st chapterId studentId H200)
      as (ch & Hch & _ & Hr).
    exists ch. split; [exact Hch|]. rewrite Hr. reflexivity.
  - left. revert Hne.
    unfold completeChapter, try_catch, bind, select.
    destruct (chapter_by_id chapterId st) as [|ch rest]; [reflexivity|].
    unfold completeChapter_found, bind, select, execute.
    destruct (enrollment (Chapter.course_id ch) studentId st) as [|e es];
      [reflexivity|].
    destruct (Chapter.sequence_order ch >? 1).
    + destruct (previous_chapter_check studentId (Chapter.course_id ch)
                  (Chapter.sequence_order ch - 1) st) as [|row rows];
        [reflexivity|].
      simpl. destruct (truthy row); simpl; [|reflexivity].
      destruct (existing_progress chapterId studentId st) as [|p ps];
        [|destruct (Progress.completed p); simpl; [reflexivity|]]; simpl;
        destruct (upsert_progress env studentId chapterId
                    (Chapter.course_id ch) st) as [st1 rows']; simpl;
        destruct (completion_result studentId (Chapter.course_id ch) st1);
        simpl; intros Hne; contradiction Hne; reflexivity.
    + simpl.
      destruct (existing_progress chapterId studentId st) as [|p ps];
        [|destruct (Progress.completed p); simpl; [reflexivity|]]; simpl;
        destruct (upsert_progress env studentId chapterId
                    (Chapter.course_id ch) st) as [st1 rows']; simpl;
        destruct (completion_result studentId (Chapter.course_id ch) st1);
        simpl; intros Hne; contradiction Hne; reflexivity.
Qed.

(** completeChapter keeps the [course_id] column of progress in step with
    the chapters, which is what resetProgress relies on. *)
Lemma completeChapter_keeps_consistency env st chapterId studentId :
  chapter_ids_unique st -> progress_course_consistent st ->
  progress_course_consistent
    (store_of (completeChapter env chapterId studentId st)).
Proof.
  intros Hu Hcons.
  destruct (completeChapter_store env st chapterId studentId)
    as [Hsame | (ch & Hch & Hst)]; rewrite ?Hsame; [exact Hcons|].
  rewrite Hst. clear Hst.
  assert (Hin : In ch (chapters st) /\ Chapter.id ch = chapterId).
  { unfold chapter_by_id in Hch.
    destruct (filter _ (chapters st)) as [|y l] eqn:E; [discriminate|].
    simpl in Hch. inversion Hch; subst y.
    assert (Hy : In ch (filter (fun c => String.eqb (Chapter.id c) chapterId)
                               (chapters st)))
      by (rewrite E; left; reflexivity).
    apply filter_In in Hy. destruct Hy as [Hy Hid].
    apply String.eqb_eq in Hid. auto. }
  destruct Hin as [Hin Hid].
  intros p c Hp Hc Hpc. revert Hp Hc.
  unfold upsert_progress.
  match goal with |- context [existsb ?f ?l] => destruct (existsb f l) end;
    simpl; intros Hp Hc.
  - apply in_map_iff in Hp. destruct Hp as [q [Hq Hp]].
    assert (Hqc : Progress.course_id q = Chapter.course_id c).
    { apply (Hcons q c Hp Hc). rewrite <- Hpc. subst p.
      destruct (String.eqb (Progress.student_id q) studentId
                && String.eqb (Progress.chapter_id q) chapterId);
        reflexivity. }
    subst p.
    destruct (String.eqb (Progress.student_id q) studentId
              && String.eqb (Progress.chapter_id q) chapterId); exact Hqc.
  - apply in_app_or in Hp. destruct Hp as [Hp | [Hp | []]].
    + exact (Hcons p c Hp Hc Hpc).
    + subst p. simpl in *. f_equal.
      apply (NoDup_map_injective Chapter.id (chapters st)); auto. congruence.
Qed.

(** * An id that selects no chapter *)

(** C9.  For an id that is on no chapter row, the complete controller
    answers 404 and changes nothing; its second copy, which reads
    [chapter.course_id] without looking at the number of rows, answers 500
    through its [catch], changing nothing either. *)
Theorem unknown_chapter_responses env st chapterId studentId :
  (forall ch, In ch (chapters st) -> Chapter.id ch <> chapterId) ->
  completeChapter env chapterId studentId st
  = ({| status := 404; body := ErrorBody "Chapter not found" |}, st, []) /\
  completeChapter_second_copy env chapterId studentId st
  = ({| status := 500; body := ErrorBody "Failed to complete chapter" |},
     st, []).
Proof.
  intros Hnone.
  assert (Hq : chapter_by_id chapterId st = []).
  { unfold chapter_by_id.
    destruct (filter _ (chapters st)) as [|y l] eqn:E; [reflexivity|].
    assert (Hy : In y (filter (fun c => String.eqb (Chapter.id c) chapterId)
                              (chapters st)))
      by (rewrite E; left; reflexivity).
    apply filter_In in Hy. destruct Hy as [Hy Hid].
    apply String.eqb_eq in Hid. exfalso. exact (Hnone y Hy Hid). }
  unfold completeChapter, completeChapter_second_copy, try_catch, bind,
    select, throw, send.
  rewrite Hq. split; reflexivity.
Qed.

Lemma unknown_chapter_responses_witness :
  let st := Sample.course_store "c1" 3 0 in
  status (response_of
            (completeChapter (Sample.env 30 "n1") "missing" "s1" st)) = 404 /\
  status (response_of
            (completeChapter_second_copy (Sample.env 30 "n1") "missing" "s1"
               st)) = 500.
Proof.
  intros st.
  assert (H : forall ch, In ch (chapters st) -> Chapter.id ch <> "missing").
  { intros ch Hch. vm_compute in Hch.
    destruct Hch as [Hch|[Hch|[Hch|[]]]]; subst ch; discriminate. }
  destruct (unknown_chapter_responses (Sample.env 30 "n1") st "missing" "s1" H)
    as [H1 H2].
  rewrite H1, H2. split; reflexivity.
Defined.

(** * What deleteChapter commits on the way *)

Lemma orders_after_delete_statement st ch :
  chapter_ids_unique st -> In ch (chapters st) ->
  NoDup (orders_of (Chapter.course_id ch) st) ->
  orders_of (Chapter.course_id ch) (fst (delete_chapter (Chapter.id ch) st))
  = filter (fun o => negb (o =? Chapter.sequence_order ch))
           (orders_of (Chapter.course_id ch) st).
Proof.
  intros Hu Hch Hnd. unfold orders_of in *. simpl.
  rewrite filter_filter_swap.
  apply map_filter_agree.
  intros c Hc. f_equal.
  assert (Hch' : In ch (filter (fun c => String.eqb (Chapter.course_id c)
                                           (Chapter.course_id ch))
                          (chapters st)))
    by (apply filter_In; split; [exact Hch|apply String.eqb_refl]).
  destruct (String.eqb (Chapter.id c) (Chapter.id ch)) eqn:Eid.
  - apply String.eqb_eq in Eid. apply filter_In in Hc. destruct Hc as [Hc _].
    assert (c = ch)
      by exact (NoDup_map_injective Chapter.id (chapters st) c ch Hu Hc Hch Eid).
    subst c. symmetry. apply Z.eqb_refl.
  - symmetry. apply Z.eqb_neq. intros Heq. apply String.eqb_neq in Eid.
    apply Eid. f_equal.
    exact (NoDup_map_injective Chapter.sequence_order _ c ch Hnd Hc Hch' Heq).
Qed.

(** C10.  deleteChapter commits two states, the one after the DELETE and
    the one after the UPDATE.  When the course had dense orders and a
    chapter behind the deleted one, the first of them, which any request
    served between the two statements reads, has the chapter gone and the
    orders of the course not dense: the order of the deleted chapter is
    missing below the order of a later one. *)
Theorem deleteChapter_commits_gap st mentorId ch later :
  chapter_ids_unique st ->
  In ch (chapters st) ->
  course_check (Chapter.course_id ch) mentorId st <> [] ->
  dense (orders_of (Chapter.course_id ch) st) ->
  In later (chapters st) ->
  Chapter.course_id later = Chapter.course_id ch ->
  Chapter.sequence_order ch < Chapter.sequence_order later ->
  let r := deleteChapter (Chapter.course_id ch) (Chapter.id ch) mentorId st in
  exists between,
    committed r = [between; store_of r] /\
    order_of (Chapter.id ch) between = None /\
    ~ In (Chapter.sequence_order ch)
         (orders_of (Chapter.course_id ch) between) /\
    In (Chapter.sequence_order later)
       (orders_of (Chapter.course_id ch) between) /\
    ~ dense (orders_of (Chapter.course_id ch) between).
Proof.
  intros Hu Hch Hown Hdense Hlater Hco Hlt r.
  assert (Hr : r = _) by exact (deleteChapter_run st mentorId ch Hu Hch Hown).
  exists (fst (delete_chapter (Chapter.id ch) st)).
  pose proof (orders_after_delete_statement st ch Hu Hch (proj1 Hdense))
    as Horders.
  assert (Hnotin : ~ In (Chapter.sequence_order ch)
                        (orders_of (Chapter.course_id ch)
                           (fst (delete_chapter (Chapter.id ch) st)))).
  { rewrite Horders. intros H. apply filter_In in H. destruct H as [_ H].
    rewrite Z.eqb_refl in H. discriminate. }
  assert (Hin : In (Chapter.sequence_order later)
                   (orders_of (Chapter.course_id ch)
                      (fst (delete_chapter (Chapter.id ch) st)))).
  { rewrite Horders. apply filter_In. split.
    - unfold orders_of. apply in_map. apply filter_In. split; [exact Hlater|].
      apply String.eqb_eq. exact Hco.
    - apply negb_true_iff. apply Z.eqb_neq. lia. }
  split; [rewrite Hr; reflexivity|]. split; [|split; [exact Hnotin|split]].
  - unfold order_of. simpl.
    destruct (find (fun c => String.eqb (Chapter.id c) (Chapter.id ch))
                (filter (fun c => negb (String.eqb (Chapter.id c)
                                                    (Chapter.id ch)))
                        (chapters st))) as [c|] eqn:E; [|reflexivity].
    apply find_some in E. destruct E as [Hc Hid].
    apply filter_In in Hc. destruct Hc as [_ Hne].
    rewrite Hid in Hne. discriminate.
  - exact Hin.
  - intros [_ Hrange]. apply Hnotin. apply Hrange.
    apply Hrange in Hin.
    assert (1 <= Chapter.sequence_order ch).
    { apply (proj2 Hdense). unfold orders_of. apply in_map. apply filter_In.
      split; [exact Hch|apply String.eqb_refl]. }
    lia.
Qed.

Lemma deleteChapter_commits_gap_witness :
  let st := Sample.course_store "c1" 4 0 in
  let r := deleteChapter "c1" "c1-ch2" "m1" st in
  map (orders_of "c1") (committed r) = [[1; 3; 4]; [1; 2; 3]] /\
  exists between,
    committed r = [between; store_of r] /\
    ~ dense (orders_of "c1" between).
Proof.
  set (st := Sample.course_store "c1" 4 0).
  split; [reflexivity|].
  assert (H1 : chapter_ids_unique st).
  { unfold chapter_ids_unique. vm_compute.
    repeat constructor; simpl; intuition discriminate. }
  assert (H2 : In (Sample.chapter_no "c1" 2) (chapters st))
    by (right; left; reflexivity).
  assert (H3 : course_check "c1" "m1" st <> []) by (vm_compute; discriminate).
  assert (H4 : dense (orders_of "c1" st)).
  { split.
    - vm_compute. repeat constructor; simpl; intuition discriminate.
    - intros k. change (orders_of "c1" st) with [1; 2; 3; 4]. simpl. lia. }
  assert (H5 : In (Sample.chapter_no "c1" 3) (chapters st))
    by (right; right; left; reflexivity).
  destruct (deleteChapter_commits_gap st "m1" (Sample.chapter_no "c1" 2)
              (Sample.chapter_no "c1" 3) H1 H2 H3 H4 H5 eq_refl eq_refl)
    as (between & Hc & _ & _ & _ & Hnd).
  exists between. split; [exact Hc|exact Hnd].
Defined.

(** * Certificates *)

(** The eligibility check reads the store and leaves it alone. *)
Lemma checkCertificateEligibility_run studentId courseId st :
  exists e,
    checkCertificateEligibility studentId courseId st = (Ok e, st, []).
Proof.
  unfold checkCertificateEligibility, bind, select, ret.
  destruct (enrollment courseId studentId st); [eexists; reflexivity|].
  destruct (completion_result studentId courseId st) as [total completed].
  destruct (total =? 0); [eexists; reflexivity|].
  destruct (Number.ltb (completionPercentage completed total)
                       (Number.of_Z 100)); eexists; reflexivity.
Qed.

(** It does not look at the certificates. *)
Lemma checkCertificateEligibility_certificates studentId courseId st l e :
  checkCertificateEligibility studentId courseId st = (Ok e, st, []) ->
  checkCertificateEligibility studentId courseId (set_certificates st l)
  = (Ok e, set_certificates st l, []).
Proof.
  unfold checkCertificateEligibility, bind, select, ret.
  change (enrollment courseId studentId (set_certificates st l))
    with (enrollment courseId studentId st).
  destruct (enrollment courseId studentId st);
    [intros H; inversion H; reflexivity|].
  change (completion_result studentId courseId (set_certificates st l))
    with (completion_result studentId courseId st).
  destruct (completion_result studentId courseId st) as [total completed].
  destruct (total =? 0); [intros H; inversion H; reflexivity|].
  destruct (Number.ltb (completionPercentage completed total)
                       (Number.of_Z 100));
    intros H; inversion H; reflexivity.
Qed.

Lemma eligibility_of_run studentId courseId st e :
  eligibility_of studentId courseId st = Some e ->
  checkCertificateEligibility studentId courseId st = (Ok e, st, []).
Proof.
  unfold eligibility_of.
  destruct (checkCertificateEligibility_run studentId courseId st)
    as [e' He].
  rewrite He. intros H. inversion H. reflexivity.
Qed.

(** getCertificate for an eligible student whose name and course title are
    on record: the certificate on record is fetched, or one is inserted. *)
Lemma getCertificate_eligible env st courseId studentId e d ds :
  checkCertificateEligibility studentId courseId st = (Ok e, st, []) ->
  eligible e = true ->
  certificate_details studentId courseId st = d :: ds ->
  getCertificate env courseId studentId st
  = match certificate_of studentId courseId st with
    | [] =>
        ({| status := 200;
            body := PdfBody {| student_name := fst d;
                               cert_course_title := snd d;
                               completion_date := now env;
                               certificate_id := new_id env |} |},
         fst (insert_certificate env studentId courseId st),
         [fst (insert_certificate env studentId courseId st)])
    | c :: _ =>
        ({| status := 200;
            body := PdfBody {| student_name := fst d;
                               cert_course_title := snd d;
                               completion_date := Certificate.issued_at c;
                               certificate_id := Certificate.id c |} |},
         st, [])
    end.
Proof.
  intros He Hel Hd.
  unfold getCertificate, try_catch, bind, select, execute.
  rewrite He, Hel.
  cbn -[certificate_details certificate_of insert_certificate].
  destruct (certificate_of studentId courseId st) as [|c cs].
  - assert (Hd' : certificate_details studentId courseId
                    (fst (insert_certificate env studentId courseId st))
                  = d :: ds) by exact Hd.
    destruct (insert_certificate env studentId courseId st)
      as [st1 rows] eqn:Ei.
    unfold insert_certificate in Ei. inversion Ei as [[Hst1 Hrows]].
    cbn -[certificate_details]. simpl fst in Hd'. rewrite Hst1.
    rewrite Hd'. reflexivity.
  - cbn -[certificate_details]. rewrite Hd. reflexivity.
Qed.

(** C8.  For an eligible student, getCertificate returns the certificate
    on record for (student, course) unchanged when there is one, and
    otherwise inserts exactly one; a second call returns the same
    certificate id and date as the first and inserts nothing. *)
Theorem issue_or_fetch env1 env2 st courseId studentId e :
  eligibility_of studentId courseId st = Some e -> eligible e = true ->
  certificate_details studentId courseId st <> [] ->
  let r1 := getCertificate env1 courseId studentId st in
  let r2 := getCertificate env2 courseId studentId (store_of r1) in
  exists data,
    response_of r1 = {| status := 200; body := PdfBody data |} /\
    response_of r2 = {| status := 200; body := PdfBody data |} /\
    store_of r2 = store_of r1 /\ committed r2 = [] /\
    (forall c rest,
       certificate_of studentId courseId st = c :: rest ->
       certificate_id data = Certificate.id c /\
       completion_date data = Certificate.issued_at c /\
       store_of r1 = st /\ committed r1 = []) /\
    (certificate_of studentId courseId st = [] ->
     certificate_id data = new_id env1 /\
     certificates (store_of r1)
     = certificates st
       ++ [{| Certificate.id := new_id env1;
              Certificate.student_id := studentId;
              Certificate.course_id := courseId;
              Certificate.issued_at := now env1 |}] /\
     List.length (certificate_of studentId courseId (store_of r1)) = 1%nat /\
     users (store_of r1) = users st /\ courses (store_of r1) = courses st /\
     chapters (store_of r1) = chapters st /\
     course_assignments (store_of r1) = course_assignments st /\
     progress (store_of r1) = progress st).
Proof.
  intros He Hel Hd r1 r2.
  apply eligibility_of_run in He.
  destruct (certificate_details studentId courseId st) as [|d ds] eqn:Ed;
    [congruence|]. clear Hd.
  pose proof (getCertificate_eligible env1 st courseId studentId e d ds
                He Hel Ed) as Hr1.
  fold r1 in Hr1.
  destruct (certificate_of studentId courseId st) as [|c cs] eqn:Ec.
  - set (row := {| Certificate.id := new_id env1;
                   Certificate.student_id := studentId;
                   Certificate.course_id := courseId;
                   Certificate.issued_at := now env1 |}).
    set (st1 := fst (insert_certificate env1 studentId courseId st)) in *.
    assert (Hst : store_of r1 = st1) by (rewrite Hr1; reflexivity).
    assert (Hc1 : certificate_of studentId courseId st1 = [row]).
    { unfold certificate_of, st1. simpl. rewrite filter_app.
      fold (certificate_of studentId courseId st). rewrite Ec. simpl.
      rewrite !String.eqb_refl. reflexivity. }
    pose proof (getCertificate_eligible env2 st1 courseId studentId e d ds
                  (checkCertificateEligibility_certificates studentId
                     courseId st _ e He) Hel Ed) as Hr2.
    rewrite Hc1 in Hr2. rewrite <- Hst in Hr2 at 1. fold r2 in Hr2.
    eexists. split; [rewrite Hr1; reflexivity|].
    split; [rewrite Hr2; reflexivity|].
    split; [rewrite Hr2, Hst; reflexivity|].
    split; [rewrite Hr2; reflexivity|].
    split; [intros c rest H; discriminate|].
    intros _. rewrite Hst. rewrite Hc1. repeat split.
  - assert (Hst : store_of r1 = st) by (rewrite Hr1; reflexivity).
    pose proof (getCertificate_eligible env2 st courseId studentId e d ds
                  He Hel Ed) as Hr2.
    rewrite Ec in Hr2. rewrite <- Hst in Hr2 at 1. fold r2 in Hr2.
    eexists. split; [rewrite Hr1; reflexivity|].
    split; [rewrite Hr2; reflexivity|].
    split; [rewrite Hr2, Hst; reflexivity|].
    split; [rewrite Hr2; reflexivity|].
    split; [|intros H; discriminate].
    intros c' rest H. inversion H; subst c' rest.
    rewrite Hr1. repeat split.
Qed.

Lemma issue_or_fetch_witness :
  let st := Sample.course_store "c1" 3 3 in
  let r1 := getCertificate (Sample.env 40 "cert1") "c1" "s1" st in
  let r2 := getCertificate (Sample.env 41 "cert2") "c1" "s1" (store_of r1) in
  option_map eligible (eligibility_of "s1" "c1" st) = Some true /\
  exists data,
    response_of r1 = {| status := 200; body := PdfBody data |} /\
    response_of r2 = {| status := 200; body := PdfBody data |} /\
    certificate_id data = "cert1" /\
    List.length (certificates (store_of r2)) = 1%nat.
Proof.
  intros st r1 r2.
  split; [vm_compute; reflexivity|].
  destruct (eligibility_of "s1" "c1" st) as [e|] eqn:Ee;
    [|vm_compute in Ee; discriminate].
  assert (Hel : eligible e = true)
    by (vm_compute in Ee; inversion Ee; reflexivity).
  destruct (issue_or_fetch (Sample.env 40 "cert1") (Sample.env 41 "cert2")
              st "c1" "s1" e Ee Hel ltac:(vm_compute; discriminate))
    as (data & H1 & H2 & Hst & _ & _ & Hnew).
  destruct (Hnew eq_refl) as (Hid & _).
  exists data. fold r1 in H1. fold r2 in H2.
  split; [exact H1|]. split; [exact H2|]. split; [exact Hid|].
  reflexivity.
Defined.

(** * Certificate eligibility *)

(** No chapter of the course: the count of the service is 0. *)
Lemma completion_result_no_chapter studentId courseId st :
  (forall ch, In ch (chapters st) -> Chapter.course_id ch <> courseId) ->
  fst (completion_result studentId courseId st) = 0.
Proof.
  intros Hnone. unfold completion_result. simpl.
  replace (filter (fun r : Chapter.t * option Progress.t =>
                     String.eqb (Chapter.course_id (fst r)) courseId)
                  (chapters_left_join_progress studentId st))
    with (@nil (Chapter.t * option Progress.t)); [reflexivity|].
  symmetry.
  destruct (filter _ (chapters_left_join_progress studentId st))
    as [|x l] eqn:E; [reflexivity|].
  assert (Hx : In x (filter (fun r : Chapter.t * option Progress.t =>
                     String.eqb (Chapter.course_id (fst r)) courseId)
                  (chapters_left_join_progress studentId st)))
    by (rewrite E; left; reflexivity).
  apply filter_In in Hx. destruct Hx as [Hx Hco]. destruct x as [ch op].
  apply in_left_join_left in Hx. simpl in Hco. apply String.eqb_eq in Hco.
  exfalso. exact (Hnone ch Hx Hco).
Qed.

Lemma my_progress_query_head studentId courseId st x rows :
  my_progress_rows studentId courseId st = x :: rows ->
  exists rest,
    my_progress_query studentId courseId st
    = (aggregate_of (course_key (fst (fst (fst x))))
         (filter (fun r : Joined (Course.t * CourseAssignment.t) =>
                    course_key_eqb (course_key (fst (fst (fst r))))
                                   (course_key (fst (fst (fst x)))))
                 (x :: rows)),
       map my_chapter_entry
           (order_by order_key
              (filter (fun r : Joined (Course.t * CourseAssignment.t) =>
                         course_key_eqb (course_key (fst (fst (fst r))))
                                        (course_key (fst (fst (fst x)))))
                      (x :: rows)))) :: rest.
Proof.
  intros H. unfold my_progress_query. rewrite H.
  unfold group_by. simpl distinct. simpl map at 2.
  eexists. reflexivity.
Qed.

(** What getMyProgress answers for one course of an enrolled student: the
    first group of its query. *)
Lemma getMyProgress_enrolled st courseId studentId :
  courseId <> EmptyString ->
  enrollment courseId studentId st <> [] ->
  (exists c, In c (courses st) /\ Course.id c = courseId) ->
  exists (x : Course.t * CourseAssignment.t) rows,
    rows = filter (fun r : Joined (Course.t * CourseAssignment.t) =>
                     course_key_eqb (course_key (fst (fst (fst r))))
                                    (course_key (fst x)))
                  (my_progress_rows studentId courseId st) /\
    getMyProgress studentId (Some courseId) st
    = ({| status := 200;
          body := MyProgressBody
                    (aggregate_of (course_key (fst x)) rows)
                    (map my_chapter_entry (order_by order_key rows)) |},
       st, []).
Proof.
  intros Hne Henr [c [Hc Hid]].
  destruct (enrollment courseId studentId st) as [|ca cas] eqn:Ee;
    [congruence|]. clear Henr.
  assert (Hca : In ca (enrollment courseId studentId st))
    by (rewrite Ee; left; reflexivity).
  unfold enrollment in Hca. apply filter_In in Hca. destruct Hca as [Hca Hk].
  apply andb_true_iff in Hk. destruct Hk as [Hk1 Hk2].
  apply String.eqb_eq in Hk1, Hk2.
  assert (Hpair : In (c, ca)
            (inner_join (fun c ca => String.eqb (Course.id c)
                                       (CourseAssignment.course_id ca))
                        (courses st) (course_assignments st))).
  { apply in_inner_join. repeat split; auto.
    apply String.eqb_eq. congruence. }
  destruct (join_chapters_progress_nonempty
              (fun x : Course.t * CourseAssignment.t => Course.id (fst x))
              (fun x => CourseAssignment.student_id (snd x))
              _ st (c, ca) Hpair) as (och & op & Hrow).
  assert (Hin : In (c, ca, och, op) (my_progress_rows studentId courseId st)).
  { unfold my_progress_rows. apply filter_In. split; [exact Hrow|].
    simpl. rewrite Hk2, Hid, !String.eqb_refl. reflexivity. }
  destruct (my_progress_rows studentId courseId st) as [|x rows] eqn:Er;
    [contradiction|].
  destruct (my_progress_query_head studentId courseId st x rows Er)
    as [rest Hq].
  exists (fst (fst x)). eexists. split; [reflexivity|].
  unfold getMyProgress, try_catch, bind, select.
  assert (Hg : given (Some courseId) = Some courseId)
    by (destruct courseId; [congruence|reflexivity]).
  rewrite Hg, Hq. reflexivity.
Qed.

Lemma aggregate_no_chapter {X} key (rows : list (Joined X)) :
  (forall r, In r rows -> joined_chapter r = None) ->
  agg_total_chapters (aggregate_of key rows) = 0 /\
  completion_percentage (aggregate_of key rows) = None.
Proof.
  intros Hnone. unfold aggregate_of. simpl.
  assert (H0 : count (fun r : Joined X =>
                        match joined_chapter r with
                        | Some _ => true | None => false end) rows = 0).
  { apply count_none. intros r Hr. rewrite (Hnone r Hr). reflexivity. }
  rewrite H0. split; reflexivity.
Qed.

(** C7, as stated, at a course without chapters: the service gives no
    percentage at all, and the aggregates report NULL, where the claim has
    0%. *)
Lemma course_without_chapters_has_no_percentage :
  let st := Sample.course_store "c1" 0 0 in
  eligibility_of "s1" "c1" st
  = Some {| eligible := false;
            eligibility_message := Some "Course has no chapters";
            eligibility_percentage := None |} /\
  (exists agg chs,
     response_of (getMyProgress "s1" (Some "c1") st)
     = {| status := 200; body := MyProgressBody agg chs |} /\
     agg_total_chapters agg = 0 /\ completion_percentage agg = None) /\
  (exists agg chs,
     response_of (getCourseProgress "c1" "s1" st)
     = {| status := 200; body := CourseProgressBody agg chs |} /\
     agg_total_chapters agg = 0 /\ completion_percentage agg = None).
Proof.
  split; [reflexivity|]. split; eexists; eexists; repeat split.
Qed.

(** C7, amended.  For an enrolled student and a course of fewer than 2^52
    chapters, checkCertificateEligibility answers eligible exactly when the
    course has a chapter and the completion percentage is 100, which is
    when every chapter is completed; the percentage it then reports is 100.
    For a course without chapters it answers not eligible, with the message
    that the course has no chapters and without a percentage, no division
    being evaluated; getMyProgress and getCourseProgress report the
    percentage of such a course as NULL. *)
Theorem certificate_eligibility st courseId studentId :
  enrollment courseId studentId st <> [] ->
  fst (completion_result studentId courseId st) < 2 ^ 52 ->
  let total := fst (completion_result studentId courseId st) in
  let completed := snd (completion_result studentId courseId st) in
  exists e,
    checkCertificateEligibility studentId courseId st = (Ok e, st, []) /\
    (eligible e = true <->
     0 < total /\ completionPercentage completed total = Number.of_Z 100) /\
    (eligible e = true <-> 0 < total /\ completed = total) /\
    (eligible e = true ->
     eligibility_percentage e = Some (Number.of_Z 100)) /\
    (total = 0 ->
     e = {| eligible := false;
            eligibility_message := Some "Course has no chapters";
            eligibility_percentage := None |}) /\
    ((forall ch, In ch (chapters st) -> Chapter.course_id ch <> courseId) ->
     total = 0 /\
     (forall agg chs,
        response_of (getCourseProgress courseId studentId st)
        = {| status := 200; body := CourseProgressBody agg chs |} ->
        agg_total_chapters agg = 0 /\ completion_percentage agg = None) /\
     (forall agg chs,
        response_of (getMyProgress studentId (Some courseId) st)
        = {| status := 200; body := MyProgressBody agg chs |} ->
        agg_total_chapters agg = 0 /\ completion_percentage agg = None) /\
     ((exists c, In c (courses st) /\ Course.id c = courseId) ->
      courseId <> EmptyString ->
      (exists agg chs,
         response_of (getCourseProgress courseId studentId st)
         = {| status := 200; body := CourseProgressBody agg chs |}) /\
      (exists agg chs,
         response_of (getMyProgress studentId (Some courseId) st)
         = {| status := 200; body := MyProgressBody agg chs |}))).
Proof.
  intros Henr Hbound total completed.
  pose proof (completion_result_bounds studentId courseId st) as Hb.
  fold total completed in Hb.
  assert (Hpart : completed < total ->
            Number.ltb (completionPercentage completed total)
                       (Number.of_Z 100) = true)
    by (intros; apply completionPercentage_partial; lia).
  assert (Hfull : 0 < total -> completed = total ->
            completionPercentage completed total = Number.of_Z 100)
    by (intros H0 H1; rewrite H1; apply completionPercentage_full; lia).
  assert (Hne : forall x, Number.ltb x (Number.of_Z 100) = true ->
                          x <> Number.of_Z 100).
  { intros x Hx Heq. subst x. vm_compute in Hx. discriminate. }
  assert (Hrun : exists e,
            checkCertificateEligibility studentId courseId st
            = (Ok e, st, []) /\
            e = if total =? 0 then
                  {| eligible := false;
                     eligibility_message := Some "Course has no chapters";
                     eligibility_percentage := None |}
                else if Number.ltb (completionPercentage completed total)
                                   (Number.of_Z 100) then
                  {| eligible := false;
                     eligibility_message := Some "Course not fully completed";
                     eligibility_percentage :=
                       Some (round2 (completionPercentage completed total)) |}
                else
                  {| eligible := true;
                     eligibility_message := None;
                     eligibility_percentage := Some (Number.of_Z 100) |}).
  { unfold checkCertificateEligibility, bind, select, ret.
    destruct (enrollment courseId studentId st); [congruence|].
    unfold total, completed.
    destruct (completion_result studentId courseId st) as [n k].
    cbn [fst snd].
    destruct (n =? 0); [eexists; split; reflexivity|].
    destruct (Number.ltb (completionPercentage k n) (Number.of_Z 100));
      eexists; split; reflexivity. }
  destruct Hrun as (e & Hrun & He). exists e. split; [exact Hrun|].
  assert (Hiff : eligible e = true <-> 0 < total /\ completed = total).
  { rewrite He. destruct (total =? 0) eqn:E0.
    - apply Z.eqb_eq in E0. simpl. split; [discriminate|lia].
    - apply Z.eqb_neq in E0.
      destruct (Z.eq_dec completed total) as [Heq | Hneq].
      + assert (Hl : Number.ltb (completionPercentage completed total)
                                (Number.of_Z 100) = false).
        { rewrite Hfull by lia. vm_compute. reflexivity. }
        rewrite Hl. simpl. split; [lia|reflexivity].
      + rewrite Hpart by lia. simpl. split; [discriminate|lia]. }
  split; [|split; [exact Hiff|split; [|split]]].
  - rewrite Hiff. split.
    + intros [H0 H1]. split; [exact H0|apply Hfull; assumption].
    + intros [H0 H1]. split; [exact H0|].
      destruct (Z.eq_dec completed total) as [Heq | Hneq]; [exact Heq|].
      exfalso. apply (Hne _ (Hpart ltac:(lia))). exact H1.
  - intros Hel. rewrite He in *. destruct (total =? 0); [discriminate|].
    destruct (Number.ltb (completionPercentage completed total)
                         (Number.of_Z 100)); [discriminate|reflexivity].
  - intros H0. rewrite He, H0. reflexivity.
  - intros Hnone. split; [apply completion_result_no_chapter; exact Hnone|].
    assert (Hcp : forall agg chs,
              response_of (getCourseProgress courseId studentId st)
              = {| status := 200; body := CourseProgressBody agg chs |} ->
              agg_total_chapters agg = 0 /\ completion_percentage agg = None).
    { intros agg chs Hresp.
      revert Hresp. unfold getCourseProgress, try_catch, bind, select.
      destruct (enrollment courseId studentId st); [discriminate|].
      destruct (course_progress_rows courseId studentId st) as [|x rows] eqn:Er.
      - unfold course_progress_query. rewrite Er. discriminate.
      - destruct (course_progress_query_head courseId studentId st x rows Er)
          as [rest Hq].
        rewrite Hq. unfold response_of. cbn [fst snd].
        match goal with
        | |- context [CourseProgressBody (aggregate_of ?k ?g) _] =>
            assert (Hfact : agg_total_chapters (aggregate_of k g) = 0 /\
                            completion_percentage (aggregate_of k g) = None)
        end.
        { apply aggregate_no_chapter. intros r Hr.
          rewrite <- Er in Hr.
          destruct (course_rows_sound st courseId studentId (fst (fst x)) r Hr)
            as [Hch _].
          destruct (joined_chapter r) as [ch|]; [|reflexivity].
          exfalso. exact (Hnone ch (proj1 Hch) (proj2 Hch)). }
        intros Hresp. injection Hresp as Hagg _. rewrite <- Hagg.
        exact Hfact. }
    assert (Hmp : forall agg chs,
              response_of (getMyProgress studentId (Some courseId) st)
              = {| status := 200; body := MyProgressBody agg chs |} ->
              agg_total_chapters agg = 0 /\ completion_percentage agg = None).
    { intros agg chs Hresp.
      revert Hresp. unfold getMyProgress, try_catch, bind, select.
      destruct (given (Some courseId)) as [cid|] eqn:Eg; [|discriminate].
      assert (cid = courseId)
        by (destruct courseId; simpl in Eg; congruence).
      subst cid.
      destruct (my_progress_rows studentId courseId st) as [|x rows] eqn:Er.
      { unfold my_progress_query. rewrite Er. discriminate. }
      destruct (my_progress_query_head studentId courseId st x rows Er)
        as [rest Hq].
      rewrite Hq. unfold response_of. cbn [fst snd].
      match goal with
      | |- context [MyProgressBody (aggregate_of ?k ?g) _] =>
          assert (Hfact : agg_total_chapters (aggregate_of k g) = 0 /\
                          completion_percentage (aggregate_of k g) = None)
      end.
      { apply aggregate_no_chapter. intros r Hr.
        apply filter_In in Hr. destruct Hr as [Hr _].
        rewrite <- Er in Hr. unfold my_progress_rows in Hr.
        apply filter_In in Hr. destruct Hr as [Hr Hk].
        destruct r as [[y och] op]. apply andb_true_iff in Hk.
        destruct Hk as [_ Hk]. simpl in Hk. apply String.eqb_eq in Hk.
        apply in_join_chapters_progress in Hr. destruct Hr as (_ & Hch & _).
        unfold joined_chapter. simpl.
        destruct och as [ch|]; [|reflexivity].
        exfalso. destruct Hch as [Hch Hco].
        apply (Hnone ch Hch). congruence. }
      intros Hresp. injection Hresp as Hagg _. rewrite <- Hagg.
      exact Hfact. }
    split; [exact Hcp|]. split; [exact Hmp|].
    intros Hcourse Hcid. split.
    + destruct (getCourseProgress_enrolled st courseId studentId Henr Hcourse)
        as (c0 & rows & _ & _ & _ & Hget).
      eexists. eexists. rewrite Hget. reflexivity.
    + destruct (getMyProgress_enrolled st courseId studentId Hcid Henr Hcourse)
        as (x & rows & _ & Hget).
      eexists. eexists. rewrite Hget. reflexivity.
Qed.

Lemma certificate_eligibility_witness :
  let st := Sample.course_store "c1" 3 3 in
  enrollment "c1" "s1" st <> [] /\
  exists e,
    checkCertificateEligibility "s1" "c1" st = (Ok e, st, []) /\
    eligible e = true /\
    eligibility_percentage e = Some (Number.of_Z 100).
Proof.
  intros st.
  assert (H1 : enrollment "c1" "s1" st <> []) by (vm_compute; discriminate).
  assert (H2 : fst (completion_result "s1" "c1" st) < 2 ^ 52)
    by (vm_compute; reflexivity).
  split; [exact H1|].
  destruct (certificate_eligibility st "c1" "s1" H1 H2)
    as (e & Hrun & _ & Hiff & Hpct & _).
  assert (He : eligible e = true)
    by (apply Hiff; split; vm_compute; reflexivity).
  exists e. split; [exact Hrun|]. split; [exact He|exact (Hpct He)].
Defined.

(** * What completeChapter writes *)

(** The ways completeChapter ends: an early answer that leaves the store
    alone, or the completion of the chapter found, the sequence check
    passed. *)
Lemma completeChapter_cases env st chapterId studentId :
  (exists s b, In s [400; 403; 404] /\
     completeChapter env chapterId studentId st
     = ({| status := s; body := b |}, st, [])) \/
  (exists ch,
     hd_error (chapter_by_id chapterId st) = Some ch /\
     enrollment (Chapter.course_id ch) studentId st <> [] /\
     (Chapter.sequence_order ch > 1 ->
      exists row rest,
        previous_chapter_check studentId (Chapter.course_id ch)
          (Chapter.sequence_order ch - 1) st = row :: rest /\
        truthy row = true) /\
     (forall p rest, existing_progress chapterId studentId st = p :: rest ->
                     Progress.completed p = false) /\
     completeChapter env chapterId studentId st
     = completion_of env chapterId studentId ch st).
Proof.
  destruct (chapter_by_id chapterId st) as [|ch rest] eqn:Ech.
  { left. exists 404, (ErrorBody "Chapter not found").
    split; [simpl; auto|].
    unfold completeChapter, try_catch, bind, select. rewrite Ech.
    reflexivity. }
  destruct (enrollment (Chapter.course_id ch) studentId st) as [|e es] eqn:Een.
  { left. exists 403, (ErrorBody "You are not enrolled in this course").
    split; [simpl; auto|].
    unfold completeChapter, try_catch, bind, select. rewrite Ech.
    unfold completeChapter_found, bind, select. rewrite Een. reflexivity. }
  assert (Hlocked :
    (Chapter.sequence_order ch >? 1) = true ->
    match previous_chapter_check studentId (Chapter.course_id ch)
            (Chapter.sequence_order ch - 1) st with
    | [] => True
    | row :: _ => truthy row = false
    end ->
    exists s b, In s [400; 403; 404] /\
      completeChapter env chapterId studentId st
      = ({| status := s; body := b |}, st, [])).
  { intros Eord Hprev.
    exists 403, (ErrorMessageBody "Cannot complete chapter"
                   "You must complete the previous chapter first").
    split; [simpl; auto|].
    unfold completeChapter, try_catch, bind, select. rewrite Ech.
    unfold completeChapter_found, bind, select. rewrite Een, Eord.
    destruct (previous_chapter_check studentId (Chapter.course_id ch)
                (Chapter.sequence_order ch - 1) st) as [|row rows];
      [reflexivity|].
    rewrite Hprev. reflexivity. }
  assert (Hdup :
    ((Chapter.sequence_order ch >? 1) = true ->
     exists rows,
       previous_chapter_check studentId (Chapter.course_id ch)
         (Chapter.sequence_order ch - 1) st = Some true :: rows) ->
    (exists p ps, existing_progress chapterId studentId st = p :: ps /\
                  Progress.completed p = true) ->
    exists s b, In s [400; 403; 404] /\
      completeChapter env chapterId studentId st
      = ({| status := s; body := b |}, st, [])).
  { intros Hgate (p & ps & Eex & Ecomp).
    exists 400, (ErrorBody "Chapter already completed").
    split; [simpl; auto|].
    unfold completeChapter, try_catch, bind, select. rewrite Ech.
    unfold completeChapter_found, bind, select. rewrite Een.
    destruct (Chapter.sequence_order ch >? 1).
    - destruct (Hgate eq_refl) as [rows Hrows]. rewrite Hrows. simpl.
      rewrite Eex, Ecomp. reflexivity.
    - simpl. rewrite Eex, Ecomp. reflexivity. }
  assert (Hgate_dec :
    ((Chapter.sequence_order ch >? 1) = true /\
     match previous_chapter_check studentId (Chapter.course_id ch)
             (Chapter.sequence_order ch - 1) st with
     | [] => True
     | row :: _ => truthy row = false
     end) \/
    ((Chapter.sequence_order ch >? 1) = true ->
     exists rows,
       previous_chapter_check studentId (Chapter.course_id ch)
         (Chapter.sequence_order ch - 1) st = Some true :: rows)).
  { destruct (Chapter.sequence_order ch >? 1); [|right; discriminate].
    destruct (previous_chapter_check studentId (Chapter.course_id ch)
                (Chapter.sequence_order ch - 1) st) as [|[[|]|] rows];
      [left; auto | right; eauto | left; auto | left; auto]. }
  destruct Hgate_dec as [[Eord Hprev] | Hgate]; [left; auto|].
  destruct (existing_progress chapterId studentId st) as [|p ps] eqn:Eex.
  - right. exists ch. split; [reflexivity|].
    split; [rewrite Een; discriminate|].
    assert (Hg : Chapter.sequence_order ch > 1 ->
                 exists rows,
                   previous_chapter_check studentId (Chapter.course_id ch)
                     (Chapter.sequence_order ch - 1) st = Some true :: rows).
    { intros H. apply Hgate. apply Z.gtb_lt. lia. }
    split; [intros H; destruct (Hg H) as [rows Hrows];
            exists (Some true), rows; auto|].
    split; [discriminate|].
    apply completeChapter_success.
    + rewrite Ech. reflexivity.
    + rewrite Een. discriminate.
    + exact Hg.
    + rewrite Eex. discriminate.
  - destruct (Progress.completed p) eqn:Ecomp.
    { left. apply Hdup; eauto. }
    right. exists ch. split; [reflexivity|].
    split; [rewrite Een; discriminate|].
    assert (Hg : Chapter.sequence_order ch > 1 ->
                 exists rows,
                   previous_chapter_check studentId (Chapter.course_id ch)
                     (Chapter.sequence_order ch - 1) st = Some true :: rows).
    { intros H. apply Hgate. apply Z.gtb_lt. lia. }
    split; [intros H; destruct (Hg H) as [rows Hrows];
            exists (Some true), rows; auto|].
    split; [intros p0 rest0 Heq; inversion Heq; subst; exact Ecomp|].
    apply completeChapter_success.
    + rewrite Ech. reflexivity.
    + rewrite Een. discriminate.
    + exact Hg.
    + rewrite Eex. intros p0 rest0 Heq; inversion Heq; subst; exact Ecomp.
Qed.

(** The upsert loses no row and adds at most one. *)
Lemma upsert_progress_rows env studentId chapterId courseId st :
  let st1 := fst (upsert_progress env studentId chapterId courseId st) in
  (forall p, In p (progress st) ->
     exists p', In p' (progress st1) /\ Progress.id p' = Progress.id p /\
                progress_key p' = progress_key p /\
                Progress.course_id p' = Progress.course_id p) /\
  (List.length (progress st1) <= S (List.length (progress st)))%nat.
Proof.
  unfold upsert_progress.
  match goal with |- context [existsb ?f ?l] => destruct (existsb f l) end;
    simpl.
  - split.
    + intros p Hp.
      destruct (String.eqb (Progress.student_id p) studentId
                && String.eqb (Progress.chapter_id p) chapterId) eqn:E.
      * eexists. split.
        -- apply in_map_iff. exists p. split; [|exact Hp]. rewrite E.
           reflexivity.
        -- simpl. auto.
      * exists p. split; [|auto]. apply in_map_iff. exists p.
        rewrite E. auto.
    + rewrite length_map. lia.
  - split.
    + intros p Hp. exists p. split; [apply in_or_app; auto|auto].
    + rewrite length_app. simpl. lia.
Qed.

(** * The invariants of the Progress records *)

Lemma chapter_by_id_in st chapterId ch :
  hd_error (chapter_by_id chapterId st) = Some ch ->
  In ch (chapters st) /\ Chapter.id ch = chapterId.
Proof.
  unfold chapter_by_id. intros H.
  destruct (filter (fun c => String.eqb (Chapter.id c) chapterId)
                   (chapters st)) as [|y l] eqn:E; [discriminate|].
  simpl in H. inversion H; subst y.
  assert (Hy : In ch (filter (fun c => String.eqb (Chapter.id c) chapterId)
                             (chapters st)))
    by (rewrite E; left; reflexivity).
  apply filter_In in Hy. destruct Hy as [Hy Hid].
  apply String.eqb_eq in Hid. auto.
Qed.

(** A row of the table after the upsert is a row of the table before, or
    the completed row of the pair. *)
Lemma upsert_progress_in env studentId chapterId courseId st p :
  In p (progress (fst (upsert_progress env studentId chapterId courseId st))) ->
  In p (progress st) \/
  (Progress.student_id p = studentId /\ Progress.chapter_id p = chapterId /\
   Progress.completed p = true).
Proof.
  unfold upsert_progress.
  match goal with |- context [existsb ?f ?l] => destruct (existsb f l) end;
    simpl; intros Hp.
  - apply in_map_iff in Hp. destruct Hp as [q [Hq Hin]].
    destruct (String.eqb (Progress.student_id q) studentId
              && String.eqb (Progress.chapter_id q) chapterId) eqn:E.
    + right. apply andb_true_iff in E. destruct E as [E1 E2].
      apply String.eqb_eq in E1, E2. subst p. simpl. auto.
    + left. subst p. exact Hin.
  - apply in_app_or in Hp. destruct Hp as [Hp | [Hp | []]]; [left; exact Hp|].
    right. subst p. simpl. auto.
Qed.

Lemma NoDup_map_filter {A B} (f : A -> B) (g : A -> bool) (l : list A) :
  NoDup (map f l) -> NoDup (map f (filter g l)).
Proof.
  induction l as [|x l IH]; simpl; intros H; [constructor|].
  inversion H as [|y ys Hnotin Hnd]; subst.
  destruct (g x); simpl; [constructor|]; auto.
  intros Hin. apply Hnotin. apply in_map_iff in Hin.
  destruct Hin as [z [Hz Hin]]. apply filter_In in Hin.
  rewrite <- Hz. apply in_map. tauto.
Qed.

(** X2.  With chapter ids unique, completeChapter keeps the invariants of
    the progress table, whatever the request: one row per (student,
    chapter), the course of a row being the course of its chapter, and a
    completed row on a chapter of order above 1 having a completed row of
    the same student on the chapter before it. *)
Theorem completeChapter_keeps_invariants env st chapterId studentId :
  chapter_ids_unique st ->
  let st' := store_of (completeChapter env chapterId studentId st) in
  (progress_keys_unique st -> progress_keys_unique st') /\
  (progress_course_consistent st -> progress_course_consistent st') /\
  (completed_in_sequence st -> completed_in_sequence st').
Proof.
  intros Hu st'. subst st'.
  split; [|split].
  - intros Hk.
    destruct (completeChapter_cases env st chapterId studentId)
      as [(s & b & _ & Hr) | (ch & _ & _ & _ & _ & Hr)]; rewrite Hr.
    + exact Hk.
    + apply upsert_progress_keys. exact Hk.
  - apply completeChapter_keeps_consistency. exact Hu.
  - intros Hseq.
    destruct (completeChapter_cases env st chapterId studentId)
      as [(s & b & _ & Hr) | (ch & Hch & _ & Hgate & _ & Hr)]; rewrite Hr.
    + exact Hseq.
    + unfold completion_of, store_of. cbn [fst snd].
      destruct (chapter_by_id_in st chapterId ch Hch) as [Hin Hid].
      destruct (upsert_progress_frame env studentId chapterId
                  (Chapter.course_id ch) st) as (_ & _ & Hchs & _ & _).
      intros p c Hp Hc Hpc Hcomp Hord. rewrite Hchs in Hc.
      apply predecessor_completed_upsert.
      apply upsert_progress_in in Hp.
      destruct Hp as [Hp | (Hs & Hcid & _)].
      * exact (Hseq p c Hp Hc Hpc Hcomp Hord).
      * assert (c = ch).
        { apply (NoDup_map_injective Chapter.id (chapters st)); auto.
          congruence. }
        subst c. destruct (Hgate Hord) as (row & rest & Hq & Hrow).
        destruct (previous_chapter_check_truthy _ _ _ _ _ _ Hq Hrow)
          as (q & prev & H1 & H2 & H3 & H4 & H5 & H6 & H7).
        rewrite Hs. exists q, prev. repeat split; assumption.
Qed.

Lemma sample_ids_unique k :
  chapter_ids_unique (Sample.course_store "c1" 3 k).
Proof.
  unfold chapter_ids_unique. vm_compute.
  repeat constructor; simpl; intuition discriminate.
Qed.

Lemma sample_orders_unique k : orders_unique (Sample.course_store "c1" 3 k).
Proof.
  intros a b Ha Hb _ Ho. vm_compute in Ha, Hb.
  destruct Ha as [Ha|[Ha|[Ha|[]]]], Hb as [Hb|[Hb|[Hb|[]]]];
    subst a b; try reflexivity; discriminate Ho.
Qed.

(** The sample store with the first chapter completed satisfies the
    invariants. *)
Lemma sample_invariants :
  let st := Sample.course_store "c1" 3 1 in
  progress_keys_unique st /\ progress_course_consistent st /\
  completed_in_sequence st.
Proof.
  split; [|split].
  - unfold progress_keys_unique. vm_compute.
    repeat constructor; simpl; intuition discriminate.
  - intros p ch Hp Hch Hid. vm_compute in Hp, Hch.
    destruct Hp as [Hp|[]]. subst p.
    destruct Hch as [Hch|[Hch|[Hch|[]]]]; subst ch; reflexivity.
  - intros p ch Hp Hch Hid _ Hord. vm_compute in Hp, Hch.
    destruct Hp as [Hp|[]]. subst p.
    destruct Hch as [Hch|[Hch|[Hch|[]]]]; subst ch;
      try discriminate Hid. vm_compute in Hord. discriminate Hord.
Qed.

Lemma completeChapter_keeps_invariants_witness :
  let st := Sample.course_store "c1" 3 1 in
  let st' := store_of (completeChapter (Sample.env 30 "n1") "c1-ch2" "s1" st) in
  List.length (progress st') = 2%nat /\
  progress_keys_unique st' /\ progress_course_consistent st' /\
  completed_in_sequence st'.
Proof.
  intros st st'.
  destruct sample_invariants as (H1 & H2 & H3).
  destruct (completeChapter_keeps_invariants (Sample.env 30 "n1") st
              "c1-ch2" "s1" (sample_ids_unique 1)) as (K1 & K2 & K3).
  split; [reflexivity|]. split; [exact (K1 H1)|].
  split; [exact (K2 H2)|exact (K3 H3)].
Defined.

(** X3.  With the course of a progress row being the course of its
    chapter, resetProgress keeps the invariants of the progress table:
    deleting the rows of one student and course leaves no completed row of
    anyone behind a chapter that is not completed. *)
Theorem resetProgress_keeps_invariants st courseId studentId :
  progress_course_consistent st ->
  let st' := store_of (resetProgress courseId studentId st) in
  progress_course_consistent st' /\
  (progress_keys_unique st -> progress_keys_unique st') /\
  (completed_in_sequence st -> completed_in_sequence st').
Proof.
  intros Hcons st'. subst st'.
  destruct (enrollment courseId studentId st) as [|e es] eqn:Een.
  { assert (Hr : store_of (resetProgress courseId studentId st) = st).
    { unfold resetProgress, try_catch, bind, select. rewrite Een.
      reflexivity. }
    rewrite Hr. auto. }
  rewrite resetProgress_enrolled by (rewrite Een; discriminate).
  unfold store_of. cbn [fst snd].
  split; [|split].
  - intros p ch Hp Hch Hid.
    apply in_progress_after_reset in Hp. destruct Hp as [Hp _].
    exact (Hcons p ch Hp Hch Hid).
  - unfold progress_keys_unique, delete_progress. cbn [fst progress set_progress].
    apply NoDup_map_filter.
  - intros Hseq p ch Hp Hch Hid Hcomp Hord.
    apply in_progress_after_reset in Hp. destruct Hp as [Hp Hkeep].
    change (chapters (fst (delete_progress studentId courseId st)))
      with (chapters st) in Hch.
    destruct (Hseq p ch Hp Hch Hid Hcomp Hord)
      as (q & prev & H1 & H2 & H3 & H4 & H5 & H6 & H7).
    exists q, prev. repeat split; try assumption.
    apply in_progress_after_reset. split; [exact H1|].
    intros [Hs Hc]. apply Hkeep. split; [congruence|].
    rewrite (Hcons p ch Hp Hch Hid), <- H6.
    rewrite <- (Hcons q prev H1 H2 H3). exact Hc.
Qed.

Lemma resetProgress_keeps_invariants_witness :
  let st := Sample.course_store "c1" 3 1 in
  let st' := store_of (resetProgress "c1" "s1" st) in
  progress st' = [] /\ progress_course_consistent st' /\
  progress_keys_unique st' /\ completed_in_sequence st'.
Proof.
  intros st st'.
  destruct sample_invariants as (H1 & H2 & H3).
  destruct (resetProgress_keeps_invariants st "c1" "s1" H2) as (K1 & K2 & K3).
  split; [reflexivity|]. split; [exact K1|].
  split; [exact (K2 H1)|exact (K3 H3)].
Defined.

(** * deleteChapter and the Progress records *)

(** The ways deleteChapter ends. *)
Lemma deleteChapter_cases st courseId chapterId mentorId :
  deleteChapter courseId chapterId mentorId st
  = ({| status := 404; body := ErrorBody "Chapter not found or unauthorized" |},
     st, []) \/
  exists ch,
    In ch (chapters st) /\ Chapter.id ch = chapterId /\
    Chapter.course_id ch = courseId /\
    course_check courseId mentorId st <> [] /\
    deleteChapter courseId chapterId mentorId st
    = ({| status := 200; body := MessageBody "Chapter deleted successfully" |},
       fst (reorder_chapters courseId (Chapter.sequence_order ch)
              (fst (delete_chapter chapterId st))),
       [fst (delete_chapter chapterId st);
        fst (reorder_chapters courseId (Chapter.sequence_order ch)
               (fst (delete_chapter chapterId st)))]).
Proof.
  unfold deleteChapter, try_catch, bind, select, execute.
  destruct (chapter_check chapterId courseId mentorId st) as [|row rows] eqn:E;
    [left; reflexivity|].
  right.
  assert (Hrow : In row (chapter_check chapterId courseId mentorId st))
    by (rewrite E; left; reflexivity).
  unfold chapter_check in Hrow. apply in_map_iff in Hrow.
  destruct Hrow as [[ch c] [Hrow Hin]]. apply filter_In in Hin.
  destruct Hin as [Hin Hc]. apply in_inner_join in Hin.
  destruct Hin as (Hch & Hco & Hon). simpl in Hc, Hrow.
  repeat rewrite andb_true_iff in Hc. destruct Hc as [[Hid Hcid] Hm].
  apply String.eqb_eq in Hid, Hcid, Hm, Hon.
  exists ch. split; [exact Hch|]. split; [exact Hid|]. split; [exact Hcid|].
  split.
  - intros Hn.
    assert (Hin : In c (course_check courseId mentorId st)).
    { unfold course_check. apply filter_In. split; [exact Hco|].
      rewrite <- Hon, Hcid, Hm, !String.eqb_refl. reflexivity. }
    rewrite Hn in Hin. contradiction.
  - subst row. reflexivity.
Qed.





(** * getChapterById *)

Lemma chapter_of_course_found st ch :
  chapter_ids_unique st -> In ch (chapters st) ->
  exists rest,
    chapter_of_course (Chapter.id ch) (Chapter.course_id ch) st = ch :: rest.
Proof.
  intros Hu Hch. unfold chapter_of_course.
  destruct (filter_head
              (fun c => String.eqb (Chapter.id c) (Chapter.id ch)
                        && String.eqb (Chapter.course_id c)
                                      (Chapter.course_id ch))
              (chapters st) ch Hch) as (y & rest & Hf & Hy & Hc).
  { rewrite !String.eqb_refl. reflexivity. }
  exists rest. rewrite Hf. f_equal.
  apply andb_true_iff in Hc. destruct Hc as [Hid _].
  apply String.eqb_eq in Hid.
  exact (NoDup_map_injective Chapter.id (chapters st) y ch Hu Hy Hch Hid).
Qed.

(** What getChapterById answers to an enrolled student, under the keys of
    the schema. *)
Lemma getChapterById_student st studentId ch :
  chapter_ids_unique st -> orders_unique st -> progress_keys_unique st ->
  In ch (chapters st) ->
  enrollment (Chapter.course_id ch) studentId st <> [] ->
  1 <= Chapter.sequence_order ch ->
  getChapterById (Chapter.course_id ch) (Chapter.id ch) studentId STUDENT st
  = if is_unlocked studentId st ch
    then (inr {| answer_status := 200;
                 answer_body :=
                   StudentChapter ch
                     (hd_error (progress_of_chapter (Chapter.id ch)
                                  studentId st)) |}, st, [])
    else (inl {| status := 403;
                 body := ErrorMessageBody "Chapter locked"
                           "You must complete the previous chapter first" |},
          st, []).
Proof.
  intros Hu Hou Hpu Hch Henr Hord.
  destruct (chapter_of_course_found st ch Hu Hch) as [rest Hfound].
  unfold getChapterById, try_catch_answer, bind, select.
  rewrite Hfound.
  destruct (enrollment (Chapter.course_id ch) studentId st) as [|e es];
    [congruence|].
  destruct (is_unlocked studentId st ch) eqn:Eun.
  - apply is_unlocked_spec in Eun.
    destruct (Chapter.sequence_order ch >? 1) eqn:Egt.
    + apply Z.gtb_lt in Egt. destruct Eun as [E1 | Hpred]; [lia|].
      destruct (previous_chapter_check_passes studentId st ch Hou Hpu Hpred)
        as [rows Hrows].
      rewrite Hrows. reflexivity.
    + reflexivity.
  - assert (Hne : Chapter.sequence_order ch <> 1).
    { intros E. unfold is_unlocked in Eun. rewrite E in Eun.
      discriminate Eun. }
    assert (Egt : (Chapter.sequence_order ch >? 1) = true)
      by (apply Z.gtb_lt; lia).
    rewrite Egt. apply not_unlocked_spec in Eun.
    destruct (previous_chapter_check studentId (Chapter.course_id ch)
                (Chapter.sequence_order ch - 1) st) as [|row rows] eqn:Eprev;
      [reflexivity|].
    destruct (truthy row) eqn:Erow; [|reflexivity].
    exfalso. apply Eun. right.
    destruct (previous_chapter_check_truthy _ _ _ _ _ _ Eprev Erow)
      as (q & prev & H1 & H2 & H3 & H4 & H5 & H6 & H7).
    exists q, prev. repeat split; assumption.
Qed.

(** X5.  For an enrolled student and a chapter of order at least 1, under
    the keys of the schema, the gate of getChapterById is the [is_unlocked]
    flag that getChapters and getCourseProgress show: an unlocked chapter is
    answered with 200, the chapter and the student's progress on it, a
    locked one with 403 and the message of the sequence check.  Nothing is
    written either way. *)
Theorem getChapterById_gate_is_unlock_flag st studentId ch :
  chapter_ids_unique st -> orders_unique st -> progress_keys_unique st ->
  In ch (chapters st) ->
  enrollment (Chapter.course_id ch) studentId st <> [] ->
  1 <= Chapter.sequence_order ch ->
  let r := getChapterById (Chapter.course_id ch) (Chapter.id ch) studentId
             STUDENT st in
  store_after r = st /\ commits_of r = [] /\
  (is_unlocked studentId st ch = true ->
   sent_by r
   = inr {| answer_status := 200;
            answer_body :=
              StudentChapter ch
                (hd_error (progress_of_chapter (Chapter.id ch) studentId
                             st)) |}) /\
  (is_unlocked studentId st ch = false ->
   sent_by r
   = inl {| status := 403;
            body := ErrorMessageBody "Chapter locked"
                      "You must complete the previous chapter first" |}).
Proof.
  intros Hu Hou Hpu Hch Henr Hord r. subst r.
  rewrite (getChapterById_student st studentId ch Hu Hou Hpu Hch Henr Hord).
  destruct (is_unlocked studentId st ch); repeat split;
    try reflexivity; intros H; try discriminate H; reflexivity.
Qed.

Lemma sample_progress_keys_unique :
  progress_keys_unique (Sample.course_store "c1" 3 1).
Proof. exact (proj1 sample_invariants). Qed.

Lemma getChapterById_gate_is_unlock_flag_witness :
  let st := Sample.course_store "c1" 3 1 in
  status_of (sent_by (getChapterById "c1" "c1-ch2" "s1" STUDENT st)) = 200 /\
  sent_by (getChapterById "c1" "c1-ch3" "s1" STUDENT st)
  = inl {| status := 403;
           body := ErrorMessageBody "Chapter locked"
                     "You must complete the previous chapter first" |}.
Proof.
  intros st.
  assert (Henr : enrollment "c1" "s1" st <> []) by (vm_compute; discriminate).
  split.
  - destruct (getChapterById_gate_is_unlock_flag st "s1"
                (Sample.chapter_no "c1" 2)
                (sample_ids_unique 1) (sample_orders_unique 1)
                sample_progress_keys_unique
                (or_intror (or_introl eq_refl)) Henr)
      as (_ & _ & H200 & _); [vm_compute; discriminate|].
    change (Chapter.course_id (Sample.chapter_no "c1" 2)) with "c1" in H200.
    change (Chapter.id (Sample.chapter_no "c1" 2)) with "c1-ch2" in H200.
    rewrite (H200 eq_refl). reflexivity.
  - destruct (getChapterById_gate_is_unlock_flag st "s1"
                (Sample.chapter_no "c1" 3)
                (sample_ids_unique 1) (sample_orders_unique 1)
                sample_progress_keys_unique
                (or_intror (or_intror (or_introl eq_refl))) Henr)
      as (_ & _ & _ & H403); [vm_compute; discriminate|].
    exact (H403 eq_refl).
Defined.

(** * createChapter, updateChapter and the order of the chapters *)

Lemma fold_max_spec (l : list Z) : forall x,
  x <= fold_left Z.max l x /\
  (forall y, In y l -> y <= fold_left Z.max l x) /\
  (fold_left Z.max l x = x \/ In (fold_left Z.max l x) l).
Proof.
  induction l as [|a l IH]; simpl; intros x.
  - split; [lia|]. split; [contradiction|auto].
  - destruct (IH (Z.max x a)) as (H1 & H2 & H3).
    split; [lia|]. split.
    + intros y [Hy | Hy]; [subst; lia|auto].
    + destruct H3 as [H3 | H3]; [|auto].
      rewrite H3. destruct (Z.max_spec x a) as [[_ E] | [_ E]]; rewrite E; auto.
Qed.

(** The order createChapter gives: above every order of the course, and one
    more than one of them unless the course has no chapter. *)
Lemma next_sequence_spec courseId st :
  (forall o, In o (orders_of courseId st) -> o < next_sequence courseId st) /\
  (orders_of courseId st = [] -> next_sequence courseId st = 1) /\
  (orders_of courseId st <> [] ->
   In (next_sequence courseId st - 1) (orders_of courseId st)).
Proof.
  unfold next_sequence.
  change (map Chapter.sequence_order
            (filter (fun ch => String.eqb (Chapter.course_id ch) courseId)
                    (chapters st)))
    with (orders_of courseId st).
  destruct (orders_of courseId st) as [|x l]; simpl.
  - split; [contradiction|]. split; [reflexivity|congruence].
  - destruct (fold_max_spec l x) as (H1 & H2 & H3).
    split; [|split].
    + intros o [Ho | Ho]; [subst; lia|]. specialize (H2 o Ho). lia.
    + discriminate.
    + intros _. replace (fold_left Z.max l x + 1 - 1)
        with (fold_left Z.max l x) by lia.
      destruct H3 as [H3 | H3]; [left; auto|right; exact H3].
Qed.

Lemma next_sequence_dense courseId st :
  dense (orders_of courseId st) ->
  next_sequence courseId st
  = Z.of_nat (List.length (orders_of courseId st)) + 1 /\
  dense (orders_of courseId st ++ [next_sequence courseId st]).
Proof.
  intros [Hnd Hd].
  destruct (next_sequence_spec courseId st) as (Hlt & Hnil & Hin).
  assert (Hn : next_sequence courseId st
               = Z.of_nat (List.length (orders_of courseId st)) + 1).
  { destruct (orders_of courseId st) as [|x l] eqn:E.
    - rewrite Hnil by reflexivity. reflexivity.
    - assert (H1 : In (next_sequence courseId st - 1) (x :: l))
        by (apply Hin; discriminate).
      apply Hd in H1.
      assert (H2 : In (Z.of_nat (List.length (x :: l))) (x :: l)).
      { apply Hd. simpl List.length. lia. }
      apply Hlt in H2. lia. }
  split; [exact Hn|]. split.
  - apply NoDup_app; [exact Hnd | repeat constructor; simpl; tauto|].
    intros o Ho [Ho' | []]. subst o. apply Hlt in Ho. lia.
  - intros k. rewrite in_app_iff, length_app, Hd. simpl. lia.
Qed.

Lemma orders_of_app courseId st rows :
  orders_of courseId (set_chapters st (chapters st ++ rows))
  = orders_of courseId st
    ++ map Chapter.sequence_order
         (filter (fun ch => String.eqb (Chapter.course_id ch) courseId) rows).
Proof.
  unfold orders_of. cbn [chapters set_chapters].
  rewrite filter_app, map_app. reflexivity.
Qed.

(** X6.  For the owner of the course and a request with a title, valid
    URLs and a description, createChapter answers 201 and appends one
    chapter, committed once, whose order is above every order of the
    course: the orders of the course gain that order at the end, those of
    the other courses are as before, orders stay unique within a course,
    and when the orders of the course were 1..N they are 1..N+1. *)
Theorem createChapter_appends validateURL sanitizeInput env st courseId
    mentorId title description image_url video_url :
  title <> EmptyString -> description <> EmptyString ->
  url_rejected validateURL image_url = false ->
  url_rejected validateURL video_url = false ->
  course_check courseId mentorId st <> [] ->
  let r := createChapter validateURL sanitizeInput env courseId mentorId
             (Some title) description image_url video_url st in
  let n := next_sequence courseId st in
  let row := {| Chapter.id := new_id env;
                Chapter.course_id := courseId;
                Chapter.title := sanitizeInput title;
                Chapter.description := sanitizeInput description;
                Chapter.sequence_order := n |} in
  r = (inr {| answer_status := 201;
              answer_body :=
                {| saved_message := "Chapter created successfully";
                   saved_chapter := Some row |} |},
       set_chapters st (chapters st ++ [row]),
       [set_chapters st (chapters st ++ [row])]) /\
  (forall o, In o (orders_of courseId st) -> o < n) /\
  orders_of courseId (store_after r) = orders_of courseId st ++ [n] /\
  (forall c, c <> courseId -> orders_of c (store_after r) = orders_of c st) /\
  (orders_unique st -> orders_unique (store_after r)) /\
  (dense (orders_of courseId st) ->
   n = Z.of_nat (List.length (orders_of courseId st)) + 1 /\
   dense (orders_of courseId (store_after r))).
Proof.
  intros Ht _ Hi Hv Hown r n row.
  assert (Hr : r = (inr {| answer_status := 201;
                           answer_body :=
                             {| saved_message := "Chapter created successfully";
                                saved_chapter := Some row |} |},
                    set_chapters st (chapters st ++ [row]),
                    [set_chapters st (chapters st ++ [row])])).
  { subst r. unfold createChapter, try_catch_answer.
    assert (Hg : given (Some title) = Some title)
      by (destruct title; [congruence|reflexivity]).
    rewrite Hg, Hi, Hv. unfold bind, select, execute.
    destruct (course_check courseId mentorId st) as [|c cs]; [congruence|].
    reflexivity. }
  destruct (next_sequence_spec courseId st) as (Hlt & _ & _).
  assert (Hsame : orders_of courseId (store_after r)
                  = orders_of courseId st ++ [n]).
  { rewrite Hr. unfold store_after. cbn [fst snd].
    rewrite orders_of_app. simpl. rewrite String.eqb_refl. reflexivity. }
  split; [exact Hr|]. split; [exact Hlt|]. split; [exact Hsame|].
  split; [|split].
  - intros c Hc. rewrite Hr. unfold store_after. cbn [fst snd].
    rewrite orders_of_app. simpl.
    assert (E : String.eqb courseId c = false)
      by (apply String.eqb_neq; congruence).
    rewrite E. simpl. apply app_nil_r.
  - intros Hou. rewrite Hr. unfold store_after. cbn [fst snd].
    assert (Hnew : forall a, In a (chapters st) ->
              Chapter.course_id a = courseId ->
              Chapter.sequence_order a <> n).
    { intros a Ha Hco He.
      assert (Hin : In (Chapter.sequence_order a) (orders_of courseId st)).
      { unfold orders_of. apply in_map. apply filter_In. split; [exact Ha|].
        apply String.eqb_eq. exact Hco. }
      apply Hlt in Hin. fold n in Hin. lia. }
    intros a b Ha Hb Hco Ho. cbn [chapters set_chapters] in Ha, Hb.
    apply in_app_or in Ha. apply in_app_or in Hb.
    destruct Ha as [Ha | [Ha | []]], Hb as [Hb | [Hb | []]].
    + apply Hou; assumption.
    + subst b. simpl in Hco, Ho. exfalso. exact (Hnew a Ha Hco Ho).
    + subst a. simpl in Hco, Ho. exfalso.
      exact (Hnew b Hb (eq_sym Hco) (eq_sym Ho)).
    + congruence.
  - intros Hd. rewrite Hsame. apply next_sequence_dense. exact Hd.
Qed.

Lemma createChapter_appends_witness :
  let st := Sample.course_store "c1" 3 1 in
  let r := createChapter (fun _ => true) (fun s => s) (Sample.env 30 "n1")
             "c1" "m1" (Some "Fourth") "Text" None None st in
  status_of (sent_by r) = 201 /\
  orders_of "c1" (store_after r) = [1; 2; 3; 4] /\
  dense (orders_of "c1" (store_after r)).
Proof.
  intros st r.
  assert (H1 : "Fourth" <> EmptyString) by discriminate.
  assert (H2 : "Text" <> EmptyString) by discriminate.
  assert (H3 : course_check "c1" "m1" st <> []) by (vm_compute; discriminate).
  assert (H4 : dense (orders_of "c1" st)).
  { split.
    - vm_compute. repeat constructor; simpl; intuition discriminate.
    - intros k. change (orders_of "c1" st) with [1; 2; 3]. simpl. lia. }
  destruct (createChapter_appends (fun _ => true) (fun s => s)
              (Sample.env 30 "n1") st "c1" "m1" "Fourth" "Text" None None
              H1 H2 eq_refl eq_refl H3) as (Hr & _ & Ho & _ & _ & Hd).
  split; [reflexivity|]. split; [reflexivity|]. exact (proj2 (Hd H4)).
Defined.

(** * The writes of the chapter controller *)

(** The ways createChapter ends. *)
Lemma createChapter_cases validateURL sanitizeInput env st courseId mentorId
    title description image_url video_url :
  let r := createChapter validateURL sanitizeInput env courseId mentorId
             title description image_url video_url st in
  (status_of (sent_by r) <> 201 /\ store_after r = st /\ commits_of r = []) \/
  (exists t,
     given title = Some t /\
     url_rejected validateURL image_url = false /\
     url_rejected validateURL video_url = false /\
     course_check courseId mentorId st <> [] /\
     let row := {| Chapter.id := new_id env;
                   Chapter.course_id := courseId;
                   Chapter.title := sanitizeInput t;
                   Chapter.description := sanitizeInput description;
                   Chapter.sequence_order := next_sequence courseId st |} in
     r = (inr {| answer_status := 201;
                 answer_body :=
                   {| saved_message := "Chapter created successfully";
                      saved_chapter := Some row |} |},
          set_chapters st (chapters st ++ [row]),
          [set_chapters st (chapters st ++ [row])])).
Proof.
  intros r. subst r. unfold createChapter, try_catch_answer.
  destruct (given title) as [t|]; [|left; repeat split; discriminate].
  destruct (url_rejected validateURL image_url);
    [left; repeat split; discriminate|].
  destruct (url_rejected validateURL video_url);
    [left; repeat split; discriminate|].
  unfold bind, select, execute.
  destruct (course_check courseId mentorId st) as [|c cs];
    [left; repeat split; discriminate|].
  right. exists t. repeat split; try reflexivity. discriminate.
Qed.

Lemma filter_all {A} (f : A -> bool) (l : list A) :
  (forall x, In x l -> f x = true) -> filter f l = l.
Proof.
  induction l as [|x l IH]; simpl; intros H; [reflexivity|].
  rewrite (H x (or_introl eq_refl)). f_equal. apply IH. auto.
Qed.

Lemma map_unchanged {A} (f : A -> A) (l : list A) :
  (forall x, In x l -> f x = x) -> map f l = l.
Proof.
  induction l as [|x l IH]; simpl; intros H; [reflexivity|].
  rewrite (H x (or_introl eq_refl)). f_equal. apply IH. auto.
Qed.

Lemma set_chapters_same st : set_chapters st (chapters st) = st.
Proof. destruct st; reflexivity. Qed.

(** deleteChapter when its check selects a row. *)
Lemma deleteChapter_found st courseId chapterId mentorId row rows :
  chapter_check chapterId courseId mentorId st = row :: rows ->
  deleteChapter courseId chapterId mentorId st
  = ({| status := 200; body := MessageBody "Chapter deleted successfully" |},
     fst (reorder_chapters courseId (snd row)
            (fst (delete_chapter chapterId st))),
     [fst (delete_chapter chapterId st);
      fst (reorder_chapters courseId (snd row)
             (fst (delete_chapter chapterId st)))]).
Proof.
  intros E. unfold deleteChapter, try_catch, bind, select, execute.
  rewrite E. reflexivity.
Qed.

(** X7.  A chapter that createChapter has appended under an identifier new
    to the chapters table is removed again by deleteChapter with nothing
    left behind: the request is answered with 200 and the store is the one
    before the chapter was created, no other chapter having been
    renumbered. *)
Theorem createChapter_then_deleteChapter validateURL sanitizeInput env st
    courseId mentorId title description image_url video_url :
  title <> EmptyString -> description <> EmptyString ->
  url_rejected validateURL image_url = false ->
  url_rejected validateURL video_url = false ->
  course_check courseId mentorId st <> [] ->
  ~ In (new_id env) (map Chapter.id (chapters st)) ->
  let r1 := createChapter validateURL sanitizeInput env courseId mentorId
              (Some title) description image_url video_url st in
  let r2 := deleteChapter courseId (new_id env) mentorId (store_after r1) in
  status_of (sent_by r1) = 201 /\
  response_of r2
  = {| status := 200; body := MessageBody "Chapter deleted successfully" |} /\
  store_of r2 = st.
Proof.
  intros Ht Hd Hi Hv Hown Hfresh r1 r2.
  destruct (createChapter_cases validateURL sanitizeInput env st courseId
              mentorId (Some title) description image_url video_url)
    as [(Hs & _) | (t & Hgiven & _ & _ & _ & Hr1)].
  { exfalso. unfold createChapter, try_catch_answer in Hs.
    assert (Hg : given (Some title) = Some title)
      by (destruct title; [congruence|reflexivity]).
    rewrite Hg, Hi, Hv in Hs. unfold bind, select, execute in Hs.
    destruct (course_check courseId mentorId st) as [|c cs]; [congruence|].
    simpl in Hs. congruence. }
  assert (Hg : given (Some title) = Some title)
    by (destruct title; [congruence|reflexivity]).
  rewrite Hg in Hgiven. inversion Hgiven; subst t. clear Hgiven.
  set (n := next_sequence courseId st) in *.
  set (row := {| Chapter.id := new_id env;
                 Chapter.course_id := courseId;
                 Chapter.title := sanitizeInput title;
                 Chapter.description := sanitizeInput description;
                 Chapter.sequence_order := n |}) in *.
  set (st1 := set_chapters st (chapters st ++ [row])) in *.
  assert (Hst1 : store_after r1 = st1) by (subst r1; rewrite Hr1; reflexivity).
  split; [subst r1; rewrite Hr1; reflexivity|].
  subst r2. rewrite Hst1.
  (* the check of deleteChapter selects the new chapter, and only it *)
  assert (Hcheck : exists rows,
            chapter_check (new_id env) courseId mentorId st1
            = (new_id env, n) :: rows).
  { destruct (course_check courseId mentorId st) as [|c cs] eqn:Ec;
      [congruence|].
    assert (Hc : In c (course_check courseId mentorId st))
      by (rewrite Ec; left; reflexivity).
    unfold course_check in Hc. apply filter_In in Hc.
    destruct Hc as [Hc Hcm]. apply andb_true_iff in Hcm.
    destruct Hcm as [Hcid Hm]. apply String.eqb_eq in Hcid, Hm.
    assert (Hin : In (new_id env, n)
                     (chapter_check (new_id env) courseId mentorId st1)).
    { unfold chapter_check. apply in_map_iff. exists (row, c).
      split; [reflexivity|]. apply filter_In. split.
      - apply in_inner_join. split; [|split].
        + unfold st1. cbn [chapters set_chapters]. apply in_or_app.
          right. left. reflexivity.
        + exact Hc.
        + simpl. apply String.eqb_eq. congruence.
      - simpl. rewrite Hm, !String.eqb_refl. reflexivity. }
    destruct (chapter_check (new_id env) courseId mentorId st1)
      as [|x rows] eqn:Ex; [contradiction|].
    exists rows. f_equal.
    assert (Hx : In x (chapter_check (new_id env) courseId mentorId st1))
      by (rewrite Ex; left; reflexivity).
    unfold chapter_check in Hx. apply in_map_iff in Hx.
    destruct Hx as [[ch c'] [Hx Hf]]. apply filter_In in Hf.
    destruct Hf as [Hf Hcond]. apply in_inner_join in Hf.
    destruct Hf as (Hch & _ & _). simpl in Hx, Hcond.
    repeat rewrite andb_true_iff in Hcond. destruct Hcond as [[Hid _] _].
    apply String.eqb_eq in Hid.
    unfold st1 in Hch. cbn [chapters set_chapters] in Hch.
    apply in_app_or in Hch. destruct Hch as [Hch | [Hch | []]].
    - exfalso. apply Hfresh. rewrite <- Hid. apply in_map. exact Hch.
    - subst ch x. reflexivity. }
  destruct Hcheck as [rows Hcheck].
  rewrite (deleteChapter_found _ _ _ _ _ _ Hcheck).
  split; [reflexivity|].
  unfold store_of. cbn [fst snd].
  unfold reorder_chapters, delete_chapter, st1.
  cbn [fst chapters set_chapters users courses course_assignments progress
       certificates].
  rewrite filter_app. simpl. rewrite String.eqb_refl. simpl.
  rewrite app_nil_r.
  rewrite filter_all.
  2:{ intros x Hx. apply negb_true_iff. apply String.eqb_neq.
      intros He. apply Hfresh. rewrite <- He. apply in_map. exact Hx. }
  rewrite map_unchanged.
  2:{ intros x Hx.
      destruct (String.eqb (Chapter.course_id x) courseId) eqn:Eco;
        [|reflexivity].
      apply String.eqb_eq in Eco.
      assert (Hlt : Chapter.sequence_order x < n).
      { apply (proj1 (next_sequence_spec courseId st)).
        unfold orders_of. apply in_map. apply filter_In. split; [exact Hx|].
        apply String.eqb_eq. exact Eco. }
      assert (E : (Chapter.sequence_order x >? n) = false).
      { apply not_true_is_false. intros E. apply Z.gtb_lt in E. lia. }
      rewrite E. reflexivity. }
  destruct st; reflexivity.
Qed.

Lemma createChapter_then_deleteChapter_witness :
  let st := Sample.course_store "c1" 3 1 in
  let r1 := createChapter (fun _ => true) (fun s => s) (Sample.env 30 "n1")
              "c1" "m1" (Some "Fourth") "Text" None None st in
  List.length (chapters (store_after r1)) = 4%nat /\
  store_of (deleteChapter "c1" "n1" "m1" (store_after r1)) = st.
Proof.
  intros st r1.
  assert (H1 : "Fourth" <> EmptyString) by discriminate.
  assert (H2 : "Text" <> EmptyString) by discriminate.
  assert (H3 : course_check "c1" "m1" st <> []) by (vm_compute; discriminate).
  assert (H4 : ~ In (new_id (Sample.env 30 "n1")) (map Chapter.id (chapters st))).
  { vm_compute. intuition discriminate. }
  destruct (createChapter_then_deleteChapter (fun _ => true) (fun s => s)
              (Sample.env 30 "n1") st "c1" "m1" "Fourth" "Text" None None
              H1 H2 eq_refl eq_refl H3 H4) as (_ & _ & Hst).
  split; [reflexivity|exact Hst].
Defined.

(** * updateChapter *)

Lemma filter_map_commute {A C} (f : C -> bool) (g : A -> C) (l : list A) :
  filter f (map g l) = map g (filter (fun a => f (g a)) l).
Proof.
  induction l as [|x l IH]; simpl; [reflexivity|].
  destruct (f (g x)); simpl; rewrite IH; reflexivity.
Qed.

Lemma existsb_map_commute {A C} (f : C -> bool) (g : A -> C) (l : list A) :
  existsb f (map g l) = existsb (fun a => f (g a)) l.
Proof.
  induction l as [|x l IH]; simpl; [reflexivity|]. rewrite IH. reflexivity.
Qed.

Lemma flat_map_map_commute {A C D} (f : A -> list C) (g : C -> D)
    (l : list A) :
  flat_map (fun a => map g (f a)) l = map g (flat_map f l).
Proof.
  induction l as [|x l IH]; simpl; [reflexivity|].
  rewrite IH, map_app. reflexivity.
Qed.

Section MapJoins.

Context {A B : Type}.

(** A change [u] of the left rows that the join condition does not see. *)
Lemma left_join_map_left (on : A -> B -> bool) (u : A -> A) l r :
  (forall a b, on (u a) b = on a b) ->
  left_join on (map u l) r
  = map (fun x => (u (fst x), snd x)) (left_join on l r).
Proof.
  intros Hon. unfold left_join. rewrite flat_map_concat_map, map_map.
  rewrite <- flat_map_concat_map. rewrite <- flat_map_map_commute.
  apply flat_map_ext. intros a.
  rewrite (filter_ext (on (u a)) (on a) (Hon a)).
  destruct (filter (on a) r) as [|b bs]; [reflexivity|].
  rewrite map_map. reflexivity.
Qed.

(** The same for the right rows of an inner join. *)
Lemma inner_join_map_right (on : A -> B -> bool) (u : B -> B) l r :
  (forall a b, on a (u b) = on a b) ->
  inner_join on l (map u r)
  = map (fun x => (fst x, u (snd x))) (inner_join on l r).
Proof.
  intros Hon. unfold inner_join. rewrite <- flat_map_map_commute.
  apply flat_map_ext. intros a.
  rewrite filter_map_commute, !map_map.
  rewrite (filter_ext (fun b => on a (u b)) (on a) (Hon a)). reflexivity.
Qed.

Lemma insert_by_map (key : B -> option Z) (f : A -> B) x (l : list A) :
  insert_by key (f x) (map f l)
  = map f (insert_by (fun a => key (f a)) x l).
Proof.
  induction l as [|y l IH]; simpl; [reflexivity|].
  destruct (key_le (key (f x)) (key (f y))); simpl; [reflexivity|].
  rewrite IH. reflexivity.
Qed.

Lemma order_by_map (key : B -> option Z) (f : A -> B) (l : list A) :
  order_by key (map f l) = map f (order_by (fun a => key (f a)) l).
Proof.
  unfold order_by. induction l as [|x l IH]; simpl; [reflexivity|].
  rewrite IH. apply insert_by_map.
Qed.

End MapJoins.

(** The row updateChapter writes in place of [ch]. *)
Lemma update_chapter_chapters title description chapterId st :
  exists u : Chapter.t -> Chapter.t,
    chapters (fst (update_chapter title description chapterId st))
    = map u (chapters st) /\
    forall ch, Chapter.id (u ch) = Chapter.id ch /\
               Chapter.course_id (u ch) = Chapter.course_id ch /\
               Chapter.sequence_order (u ch) = Chapter.sequence_order ch.
Proof.
  unfold update_chapter. cbn [fst chapters set_chapters].
  eexists. split; [reflexivity|].
  intros ch. simpl.
  destruct (String.eqb (Chapter.id ch) chapterId); simpl; auto.
Qed.

(** What depends on the chapters through their id, course and order only
    is the same after a change [u] that keeps the three. *)
Section Retitled.

Variable st st' : Store.
Variable u : Chapter.t -> Chapter.t.
Hypothesis Hchapters : chapters st' = map u (chapters st).
Hypothesis Hprogress : progress st' = progress st.
Hypothesis Hu : forall ch,
  Chapter.id (u ch) = Chapter.id ch /\
  Chapter.course_id (u ch) = Chapter.course_id ch /\
  Chapter.sequence_order (u ch) = Chapter.sequence_order ch.

Lemma retitled_join studentId :
  chapters_left_join_progress studentId st'
  = map (fun x => (u (fst x), snd x))
        (chapters_left_join_progress studentId st).
Proof.
  unfold chapters_left_join_progress. rewrite Hchapters, Hprogress.
  apply left_join_map_left. intros a b.
  rewrite (proj1 (Hu a)). reflexivity.
Qed.

Lemma retitled_completion_result studentId courseId :
  completion_result studentId courseId st'
  = completion_result studentId courseId st.
Proof.
  unfold completion_result. cbv zeta. rewrite retitled_join.
  rewrite filter_map_commute. unfold count.
  rewrite !filter_map_commute, !length_map. cbn [fst snd].
  rewrite (filter_ext
             (fun a : Chapter.t * option Progress.t =>
                String.eqb (Chapter.course_id (u (fst a))) courseId)
             (fun r => String.eqb (Chapter.course_id (fst r)) courseId)).
  - reflexivity.
  - intros a. rewrite (proj1 (proj2 (Hu (fst a)))). reflexivity.
Qed.

Lemma retitled_is_unlocked studentId ch :
  is_unlocked studentId st' (u ch) = is_unlocked studentId st ch.
Proof.
  unfold is_unlocked. rewrite Hchapters, Hprogress.
  destruct (Hu ch) as (_ & Hco & Hso). rewrite Hco, Hso.
  rewrite inner_join_map_right
    by (intros a b; rewrite (proj1 (Hu b)); reflexivity).
  rewrite existsb_map_commute. cbn [fst snd].
  match goal with
  | |- (if _ then _ else if existsb ?f ?l then _ else _)
       = (if _ then _ else if existsb ?g _ then _ else _) =>
      assert (E : existsb f l = existsb g l)
  end.
  { induction (inner_join
             (fun prev_p prev_ch =>
                String.eqb (Progress.chapter_id prev_p) (Chapter.id prev_ch))
             (progress st) (chapters st)) as [|x l IH];
      simpl; [reflexivity|].
    rewrite IH. destruct (Hu (snd x)) as (_ & H1 & H2).
    rewrite H1, H2. reflexivity. }
  rewrite E. reflexivity.
Qed.

Lemma retitled_lock_status courseId studentId :
  chapters_with_lock_status courseId studentId st'
  = map (fun row => {| chapter := u (chapter row);
                       row_completed := row_completed row;
                       row_completed_at := row_completed_at row;
                       row_is_unlocked := row_is_unlocked row |})
        (chapters_with_lock_status courseId studentId st).
Proof.
  unfold chapters_with_lock_status. rewrite retitled_join.
  rewrite filter_map_commute, order_by_map, !map_map. cbn [fst snd].
  rewrite (filter_ext
             (fun a : Chapter.t * option Progress.t =>
                String.eqb (Chapter.course_id (u (fst a))) courseId)
             (fun r => String.eqb (Chapter.course_id (fst r)) courseId))
    by (intros a; rewrite (proj1 (proj2 (Hu (fst a)))); reflexivity).
  assert (Ek : forall l : list (Chapter.t * option Progress.t),
            order_by (fun a => Some (Chapter.sequence_order (u (fst a)))) l
            = order_by (fun r => Some (Chapter.sequence_order (fst r))) l).
  { intros l. unfold order_by. induction l as [|x l IH]; simpl; [reflexivity|].
    rewrite IH. generalize (fold_right
      (insert_by (fun r : Chapter.t * option Progress.t =>
                    Some (Chapter.sequence_order (fst r)))) [] l).
    intros l'. induction l' as [|y l' IH']; simpl; [reflexivity|].
    rewrite (proj2 (proj2 (Hu (fst x)))), (proj2 (proj2 (Hu (fst y)))).
    destruct (Chapter.sequence_order (fst x) <=? Chapter.sequence_order (fst y));
      [reflexivity|]. rewrite IH'. reflexivity. }
  rewrite Ek. apply map_ext. intros a. cbn [chapter row_completed
    row_completed_at row_is_unlocked]. rewrite retitled_is_unlocked.
  reflexivity.
Qed.

End Retitled.

(** The ways updateChapter ends. *)
Lemma updateChapter_cases validateURL sanitizeInput st courseId chapterId
    mentorId title description image_url video_url :
  let r := updateChapter validateURL sanitizeInput courseId chapterId mentorId
             title description image_url video_url st in
  (status_of (sent_by r) <> 200 /\ store_after r = st /\ commits_of r = []) \/
  (chapter_check chapterId courseId mentorId st <> [] /\
   status_of (sent_by r) = 200 /\
   store_after r
   = fst (update_chapter (option_map sanitizeInput (given title))
            (option_map sanitizeInput (given description)) chapterId st) /\
   commits_of r = [store_after r]).
Proof.
  intros r. subst r. unfold updateChapter, try_catch_answer.
  destruct (url_rejected validateURL image_url);
    [left; repeat split; discriminate|].
  destruct (url_rejected validateURL video_url);
    [left; repeat split; discriminate|].
  unfold bind, select, execute.
  destruct (chapter_check chapterId courseId mentorId st) as [|c cs];
    [left; repeat split; discriminate|].
  right. split; [discriminate|]. repeat split; reflexivity.
Qed.

(** X8.  updateChapter never touches the order of the chapters: whatever
    the request, every chapter keeps its id, course and sequence_order and
    the other tables are as before, so that the completion counts and the
    lock flags and completion marks of getChapters are the same for every
    student and course. *)
Theorem updateChapter_keeps_sequence validateURL sanitizeInput st courseId
    chapterId mentorId title description image_url video_url :
  let st' := store_after
               (updateChapter validateURL sanitizeInput courseId chapterId
                  mentorId title description image_url video_url st) in
  map Chapter.id (chapters st') = map Chapter.id (chapters st) /\
  map Chapter.course_id (chapters st') = map Chapter.course_id (chapters st) /\
  map Chapter.sequence_order (chapters st')
  = map Chapter.sequence_order (chapters st) /\
  users st' = users st /\ courses st' = courses st /\
  course_assignments st' = course_assignments st /\
  progress st' = progress st /\ certificates st' = certificates st /\
  (forall s cid, completion_result s cid st' = completion_result s cid st) /\
  (forall s cid,
     map (fun row => (Chapter.id (chapter row), row_completed row,
                      row_is_unlocked row))
         (chapters_with_lock_status cid s st')
     = map (fun row => (Chapter.id (chapter row), row_completed row,
                        row_is_unlocked row))
           (chapters_with_lock_status cid s st)).
Proof.
  intros st'. subst st'.
  destruct (updateChapter_cases validateURL sanitizeInput st courseId
              chapterId mentorId title description image_url video_url)
    as [(_ & Hst & _) | (_ & _ & Hst & _)]; rewrite Hst.
  { repeat split; reflexivity. }
  destruct (update_chapter_chapters (option_map sanitizeInput (given title))
              (option_map sanitizeInput (given description)) chapterId st)
    as (u & Hchapters & Hu).
  set (st' := fst (update_chapter (option_map sanitizeInput (given title))
                     (option_map sanitizeInput (given description))
                     chapterId st)) in *.
  assert (Hprogress : progress st' = progress st) by reflexivity.
  split; [|split; [|split]].
  - rewrite Hchapters, map_map. apply map_ext. intros ch. apply Hu.
  - rewrite Hchapters, map_map. apply map_ext. intros ch. apply Hu.
  - rewrite Hchapters, map_map. apply map_ext. intros ch. apply Hu.
  - repeat split; try reflexivity.
    + intros s cid.
      exact (retitled_completion_result st st' u Hchapters Hprogress Hu s cid).
    + intros s cid.
      rewrite (retitled_lock_status st st' u Hchapters Hprogress Hu cid s).
      rewrite map_map. apply map_ext. intros row.
      cbn [chapter row_completed row_is_unlocked].
      rewrite (proj1 (Hu (chapter row))). reflexivity.
Qed.

(** * The counts of the progress endpoints *)

Lemma left_join_app {A B} (on : A -> B -> bool) (l1 l2 : list A) r :
  left_join on (l1 ++ l2) r = left_join on l1 r ++ left_join on l2 r.
Proof. unfold left_join. apply flat_map_app. Qed.

Lemma filter_none {A} (f : A -> bool) (l : list A) :
  (forall x, In x l -> f x = false) -> filter f l = [].
Proof.
  induction l as [|x l IH]; simpl; intros H; [reflexivity|].
  rewrite (H x (or_introl eq_refl)). apply IH. auto.
Qed.

Lemma left_join_filter_left {A B} (on : A -> B -> bool) (P : A -> bool) l r :
  filter (fun x => P (fst x)) (left_join on l r) = left_join on (filter P l) r.
Proof.
  induction l as [|a l IH]; [reflexivity|].
  change (a :: l) with ([a] ++ l).
  rewrite (filter_app P), !left_join_app, filter_app, IH. f_equal.
  assert (Hrows : forall x, In x (left_join on [a] r) -> fst x = a).
  { intros [a' ob] Hx. apply in_left_join_left in Hx.
    destruct Hx as [Hx | []]. auto. }
  change (filter P [a]) with (if P a then [a] else []).
  destruct (P a) eqn:E.
  - apply filter_all. intros x Hx. rewrite (Hrows x Hx). exact E.
  - apply filter_none. intros x Hx. rewrite (Hrows x Hx). exact E.
Qed.

Lemma filter_pairs {A B} (P : A -> bool) (Q : B -> bool) a (bs : list B) :
  filter (fun x : A * B => Q (snd x) && P (fst x)) (map (pair a) bs)
  = if P a then map (pair a) (filter Q bs) else [].
Proof.
  induction bs as [|b bs IH]; simpl; [destruct (P a); reflexivity|].
  rewrite IH. destruct (Q b), (P a); reflexivity.
Qed.

Lemma inner_join_filter {A B} (on : A -> B -> bool) (P : A -> bool)
    (Q : B -> bool) l r :
  filter (fun x => Q (snd x) && P (fst x)) (inner_join on l r)
  = inner_join on (filter P l) (filter Q r).
Proof.
  unfold inner_join. induction l as [|a l IH]; simpl; [reflexivity|].
  rewrite filter_app, IH, filter_pairs.
  rewrite (filter_filter_swap Q (on a) r).
  destruct (P a); reflexivity.
Qed.

(** With a unique key, the rows of a key are one row. *)
Lemma filter_unique_key {A} (f : A -> string * string) (l : list A) a :
  NoDup (map f l) -> In a l ->
  filter (fun x => String.eqb (fst (f x)) (fst (f a))
                   && String.eqb (snd (f x)) (snd (f a))) l = [a].
Proof.
  induction l as [|x l IH]; simpl; intros Hnd Hin; [contradiction|].
  inversion Hnd as [|y ys Hnotin Hnd']; subst.
  destruct Hin as [Hin | Hin].
  - subst x. rewrite !String.eqb_refl. simpl. f_equal.
    apply filter_none. intros x Hx.
    destruct (String.eqb (fst (f x)) (fst (f a))
              && String.eqb (snd (f x)) (snd (f a))) eqn:E; [|reflexivity].
    exfalso. apply Hnotin. apply andb_true_iff in E. destruct E as [E1 E2].
    apply String.eqb_eq in E1, E2.
    replace (f a) with (f x); [apply in_map; exact Hx|].
    destruct (f x), (f a); simpl in *; congruence.
  - destruct (String.eqb (fst (f x)) (fst (f a))
              && String.eqb (snd (f x)) (snd (f a))) eqn:E.
    + exfalso. apply Hnotin. apply andb_true_iff in E. destruct E as [E1 E2].
      apply String.eqb_eq in E1, E2.
      replace (f x) with (f a); [apply in_map; exact Hin|].
      destruct (f x), (f a); simpl in *; congruence.
    + apply IH; assumption.
Qed.

Lemma filter_unique_id {A} (f : A -> string) (l : list A) a :
  NoDup (map f l) -> In a l ->
  filter (fun x => String.eqb (f x) (f a)) l = [a].
Proof.
  induction l as [|x l IH]; simpl; intros Hnd Hin; [contradiction|].
  inversion Hnd as [|y ys Hnotin Hnd']; subst.
  destruct Hin as [Hin | Hin].
  - subst x. rewrite String.eqb_refl. f_equal.
    apply filter_none. intros x Hx.
    destruct (String.eqb (f x) (f a)) eqn:E; [|reflexivity].
    exfalso. apply Hnotin. apply String.eqb_eq in E. rewrite <- E.
    apply in_map. exact Hx.
  - destruct (String.eqb (f x) (f a)) eqn:E.
    + exfalso. apply Hnotin. apply String.eqb_eq in E. rewrite E.
      apply in_map. exact Hin.
    + apply IH; assumption.
Qed.

Lemma flat_map_map_left {A B C} (f : B -> list C) (g : A -> B) (l : list A) :
  flat_map f (map g l) = flat_map (fun a => f (g a)) l.
Proof.
  induction l as [|x l IH]; simpl; [reflexivity|]. rewrite IH. reflexivity.
Qed.

Section JoinedRows.

Context {X : Type}.
Variables course_of student_of : X -> string.
Variable st : Store.

Lemma join_chapters_progress_cons x xs :
  join_chapters_progress course_of student_of (x :: xs) st
  = join_chapters_progress course_of student_of [x] st
    ++ join_chapters_progress course_of student_of xs st.
Proof.
  unfold join_chapters_progress.
  change (x :: xs) with ([x] ++ xs). rewrite !left_join_app.
  reflexivity.
Qed.

Lemma filter_join_chapters_progress (P : X -> bool) xs :
  filter (fun r : Joined X => P (fst (fst r)))
         (join_chapters_progress course_of student_of xs st)
  = join_chapters_progress course_of student_of (filter P xs) st.
Proof.
  induction xs as [|x xs IH]; [reflexivity|].
  rewrite join_chapters_progress_cons, filter_app, IH. simpl.
  assert (Hrows : forall r,
            In r (join_chapters_progress course_of student_of [x] st) ->
            fst (fst r) = x).
  { intros [[x' och] op] Hr. apply in_join_chapters_progress in Hr.
    destruct Hr as [[Hx | []] _]. simpl. auto. }
  destruct (P x) eqn:E.
  - rewrite (join_chapters_progress_cons x (filter P xs)). f_equal.
    apply filter_all. intros r Hr. rewrite (Hrows r Hr). exact E.
  - replace (filter (fun r : Joined X => P (fst (fst r)))
               (join_chapters_progress course_of student_of [x] st))
      with (@nil (Joined X)); [reflexivity|].
    symmetry. apply filter_none. intros r Hr.
    rewrite (Hrows r Hr). exact E.
Qed.

(** The rows one row [x] contributes: the all-NULL row when its course has
    no chapter, and otherwise the rows of the chapters of its course joined
    with the progress of its student. *)
Lemma join_chapters_progress_single x :
  join_chapters_progress course_of student_of [x] st
  = match filter (fun ch => String.eqb (Chapter.course_id ch) (course_of x))
                 (chapters st) with
    | [] => [(x, None, None)]
    | _ :: _ =>
        map (fun r : Chapter.t * option Progress.t => (x, Some (fst r), snd r))
            (filter (fun r => String.eqb (Chapter.course_id (fst r))
                                         (course_of x))
                    (chapters_left_join_progress (student_of x) st))
    end.
Proof.
  unfold join_chapters_progress, chapters_left_join_progress.
  rewrite (left_join_filter_left
             (fun ch p => String.eqb (Chapter.id ch) (Progress.chapter_id p)
                          && String.eqb (Progress.student_id p) (student_of x))
             (fun ch => String.eqb (Chapter.course_id ch) (course_of x))).
  assert (E : left_join
                (fun (x0 : X) ch => String.eqb (course_of x0)
                                               (Chapter.course_id ch))
                [x] (chapters st)
              = match filter (fun ch => String.eqb (Chapter.course_id ch)
                                                   (course_of x))
                             (chapters st) with
                | [] => [(x, None)]
                | c :: chs => map (fun ch => (x, Some ch)) (c :: chs)
                end).
  { unfold left_join. simpl. rewrite app_nil_r.
    rewrite (filter_ext (fun ch => String.eqb (course_of x)
                                              (Chapter.course_id ch))
                        (fun ch => String.eqb (Chapter.course_id ch)
                                              (course_of x)))
      by (intros ch; apply String.eqb_sym).
    reflexivity. }
  rewrite E.
  destruct (filter (fun ch => String.eqb (Chapter.course_id ch) (course_of x))
                   (chapters st)) as [|c chs].
  { unfold left_join. simpl. rewrite filter_none by reflexivity.
    reflexivity. }
  generalize (c :: chs). intros l. unfold left_join.
  rewrite <- flat_map_map_commute, flat_map_map_left.
  apply flat_map_ext. intros ch. cbn [fst snd].
  destruct (filter (fun p => String.eqb (Chapter.id ch) (Progress.chapter_id p)
                             && String.eqb (Progress.student_id p)
                                           (student_of x))
                   (progress st)) as [|p ps]; [reflexivity|].
  rewrite map_map. reflexivity.
Qed.

(** The aggregate of the rows of [x] holds the counts of completeChapter. *)
Lemma aggregate_of_single key x :
  let agg := aggregate_of key
               (join_chapters_progress course_of student_of [x] st) in
  let cr := completion_result (student_of x) (course_of x) st in
  agg_total_chapters agg = fst cr /\ agg_completed_chapters agg = snd cr /\
  completion_percentage agg = numeric_percentage (snd cr) (fst cr).
Proof.
  intros agg cr.
  assert (H : agg_total_chapters agg = fst cr /\
              agg_completed_chapters agg = snd cr).
  { subst agg cr. unfold aggregate_of, completion_result.
    cbn [agg_total_chapters agg_completed_chapters fst snd].
    rewrite join_chapters_progress_single.
    unfold chapters_left_join_progress.
    rewrite (left_join_filter_left
               (fun ch p => String.eqb (Chapter.id ch) (Progress.chapter_id p)
                            && String.eqb (Progress.student_id p)
                                          (student_of x))
               (fun ch => String.eqb (Chapter.course_id ch) (course_of x))).
    destruct (filter (fun ch => String.eqb (Chapter.course_id ch)
                                           (course_of x))
                     (chapters st)) as [|c chs]; [split; reflexivity|].
    unfold count. rewrite !filter_map_commute, !length_map.
    split; reflexivity. }
  destruct H as [H1 H2]. split; [exact H1|]. split; [exact H2|].
  subst agg. unfold aggregate_of in *.
  cbn [agg_total_chapters agg_completed_chapters completion_percentage] in *.
  rewrite H1, H2. reflexivity.
Qed.

End JoinedRows.

Lemma filter_filter_and {A} (f g : A -> bool) (l : list A) :
  filter f (filter g l) = filter (fun x => g x && f x) l.
Proof.
  induction l as [|x l IH]; simpl; [reflexivity|].
  destruct (g x); simpl; [destruct (f x)|]; rewrite IH; reflexivity.
Qed.

Lemma join_chapters_progress_first {X} (course_of student_of : X -> string)
    st x (r : Joined X) :
  In r (join_chapters_progress course_of student_of [x] st) ->
  fst (fst r) = x.
Proof.
  destruct r as [[x' och] op]. intros Hr.
  apply in_join_chapters_progress in Hr.
  destruct Hr as [[Hx | []] _]. simpl. auto.
Qed.

Lemma join_chapters_progress_not_nil {X} (course_of student_of : X -> string)
    st x :
  join_chapters_progress course_of student_of [x] st <> [].
Proof.
  destruct (join_chapters_progress_nonempty course_of student_of [x] st x
              (or_introl eq_refl)) as (och & op & Hin).
  intros E. rewrite E in Hin. contradiction.
Qed.

(** The rows getCourseProgress groups, when course ids are unique. *)
Lemma course_progress_rows_single st courseId studentId c0 :
  NoDup (map Course.id (courses st)) ->
  In c0 (courses st) -> Course.id c0 = courseId ->
  course_progress_rows courseId studentId st
  = join_chapters_progress Course.id (fun _ => studentId) [c0] st.
Proof.
  intros Hnd Hc0 Hid. unfold course_progress_rows.
  rewrite (filter_join_chapters_progress Course.id (fun _ => studentId) st
             (fun c => String.eqb (Course.id c) courseId)).
  rewrite <- Hid. rewrite (filter_unique_id Course.id (courses st) c0 Hnd Hc0).
  reflexivity.
Qed.

(** The rows getMyProgress groups, when course ids are unique and a student
    is enrolled at most once in a course. *)
Lemma my_progress_rows_single st courseId studentId c0 :
  NoDup (map Course.id (courses st)) -> enrollment_unique st ->
  In c0 (courses st) -> Course.id c0 = courseId ->
  enrollment courseId studentId st <> [] ->
  exists ca0,
    CourseAssignment.student_id ca0 = studentId /\
    my_progress_rows studentId courseId st
    = join_chapters_progress
        (fun x : Course.t * CourseAssignment.t => Course.id (fst x))
        (fun x => CourseAssignment.student_id (snd x))
        [(c0, ca0)] st.
Proof.
  intros Hnd Heu Hc0 Hid Henr.
  destruct (enrollment courseId studentId st) as [|ca0 cas] eqn:Ee;
    [congruence|]. clear Henr.
  assert (Hca : In ca0 (enrollment courseId studentId st))
    by (rewrite Ee; left; reflexivity).
  unfold enrollment in Hca. apply filter_In in Hca. destruct Hca as [Hca Hk].
  apply andb_true_iff in Hk. destruct Hk as [Hk1 Hk2].
  apply String.eqb_eq in Hk1, Hk2.
  exists ca0. split; [exact Hk2|].
  unfold my_progress_rows.
  rewrite (filter_join_chapters_progress
             (fun x : Course.t * CourseAssignment.t => Course.id (fst x))
             (fun x => CourseAssignment.student_id (snd x)) st
             (fun x => String.eqb (CourseAssignment.student_id (snd x))
                                  studentId
                       && String.eqb (Course.id (fst x)) courseId)).
  f_equal.
  rewrite (inner_join_filter
             (fun c ca => String.eqb (Course.id c)
                                     (CourseAssignment.course_id ca))
             (fun c => String.eqb (Course.id c) courseId)
             (fun ca => String.eqb (CourseAssignment.student_id ca) studentId)).
  assert (Hf : filter (fun c => String.eqb (Course.id c) courseId) (courses st)
               = [c0]).
  { rewrite <- Hid. exact (filter_unique_id Course.id (courses st) c0 Hnd Hc0). }
  rewrite Hf. unfold inner_join. simpl. rewrite app_nil_r, filter_filter_and.
  rewrite (filter_ext _
             (fun x => String.eqb (fst (assignment_key x))
                                  (fst (assignment_key ca0))
                       && String.eqb (snd (assignment_key x))
                                     (snd (assignment_key ca0)))).
  - rewrite (filter_unique_key assignment_key (course_assignments st) ca0
               Heu Hca). reflexivity.
  - intros ca. unfold assignment_key. cbn [fst snd].
    rewrite Hk1, Hk2, Hid. rewrite andb_comm.
    rewrite (String.eqb_sym courseId). reflexivity.
Qed.

(** X10.  With course ids unique and at most one enrollment per student
    and course, the three places that count the chapters of a course for an
    enrolled student agree: the aggregate of getCourseProgress, the
    aggregate of getMyProgress for that course, and the counts that
    completeChapter and the certificate service take; the percentage of
    the two aggregates is the rounded quotient of those counts, NULL for a
    course without chapters. *)
Theorem progress_counts_agree st courseId studentId :
  NoDup (map Course.id (courses st)) -> enrollment_unique st ->
  enrollment courseId studentId st <> [] ->
  (exists c, In c (courses st) /\ Course.id c = courseId) ->
  courseId <> EmptyString ->
  let total := fst (completion_result studentId courseId st) in
  let completed := snd (completion_result studentId courseId st) in
  (exists agg entries,
     getCourseProgress courseId studentId st
     = ({| status := 200; body := CourseProgressBody agg entries |}, st, []) /\
     agg_total_chapters agg = total /\
     agg_completed_chapters agg = completed /\
     completion_percentage agg = numeric_percentage completed total) /\
  (exists agg entries,
     getMyProgress studentId (Some courseId) st
     = ({| status := 200; body := MyProgressBody agg entries |}, st, []) /\
     agg_total_chapters agg = total /\
     agg_completed_chapters agg = completed /\
     completion_percentage agg = numeric_percentage completed total).
Proof.
  intros Hnd Heu Henr [c0 [Hc0 Hid]] Hne total completed. split.
  - pose proof (course_progress_rows_single st courseId studentId c0
                  Hnd Hc0 Hid) as Hrows.
    destruct (join_chapters_progress Course.id (fun _ => studentId) [c0] st)
      as [|x rows] eqn:EJ.
    { exfalso. exact (join_chapters_progress_not_nil _ _ _ _ EJ). }
    destruct (course_progress_query_head courseId studentId st x rows Hrows)
      as [rest Hq].
    assert (Hall : forall r, In r (x :: rows) -> fst (fst r) = c0).
    { intros r Hr. rewrite <- EJ in Hr.
      exact (join_chapters_progress_first _ _ _ _ _ Hr). }
    rewrite (Hall x (or_introl eq_refl)) in Hq.
    rewrite filter_all in Hq
      by (intros r Hr; rewrite (Hall r Hr); apply course_key_eqb_refl).
    eexists _, _. split.
    + unfold getCourseProgress, try_catch, bind, select.
      destruct (enrollment courseId studentId st) as [|e es]; [congruence|].
      rewrite Hq. reflexivity.
    + rewrite <- EJ.
      pose proof (aggregate_of_single Course.id (fun _ => studentId) st
                    (course_key c0) c0) as Hagg.
      cbv zeta in Hagg. rewrite Hid in Hagg. exact Hagg.
  - destruct (my_progress_rows_single st courseId studentId c0
                Hnd Heu Hc0 Hid Henr) as (ca0 & Hs & Hrows).
    destruct (join_chapters_progress
                (fun x : Course.t * CourseAssignment.t => Course.id (fst x))
                (fun x => CourseAssignment.student_id (snd x))
                [(c0, ca0)] st) as [|x rows] eqn:EJ.
    { exfalso. exact (join_chapters_progress_not_nil _ _ _ _ EJ). }
    destruct (my_progress_query_head studentId courseId st x rows Hrows)
      as [rest Hq].
    assert (Hall : forall r, In r (x :: rows) -> fst (fst r) = (c0, ca0)).
    { intros r Hr. rewrite <- EJ in Hr.
      exact (join_chapters_progress_first _ _ _ _ _ Hr). }
    rewrite (Hall x (or_introl eq_refl)) in Hq. cbn [fst] in Hq.
    rewrite filter_all in Hq
      by (intros r Hr; rewrite (Hall r Hr); apply course_key_eqb_refl).
    eexists _, _. split.
    + unfold getMyProgress, try_catch, bind, select.
      assert (Hg : given (Some courseId) = Some courseId)
        by (destruct courseId; [congruence|reflexivity]).
      rewrite Hg, Hq. reflexivity.
    + rewrite <- EJ.
      pose proof (aggregate_of_single
                    (fun x : Course.t * CourseAssignment.t => Course.id (fst x))
                    (fun x => CourseAssignment.student_id (snd x)) st
                    (course_key c0) (c0, ca0)) as Hagg.
      cbv zeta in Hagg. cbn [fst snd] in Hagg. rewrite Hid, Hs in Hagg.
      exact Hagg.
Qed.

Lemma progress_counts_agree_witness :
  let st := Sample.course_store "c1" 3 1 in
  (exists agg entries,
     getCourseProgress "c1" "s1" st
     = ({| status := 200; body := CourseProgressBody agg entries |}, st, []) /\
     agg_total_chapters agg = 3 /\ agg_completed_chapters agg = 1) /\
  (exists agg entries,
     getMyProgress "s1" (Some "c1") st
     = ({| status := 200; body := MyProgressBody agg entries |}, st, []) /\
     agg_total_chapters agg = 3 /\ agg_completed_chapters agg = 1).
Proof.
  intros st.
  assert (H1 : NoDup (map Course.id (courses st))).
  { vm_compute. repeat constructor; simpl; intuition discriminate. }
  assert (H2 : enrollment_unique st).
  { unfold enrollment_unique. vm_compute.
    repeat constructor; simpl; intuition discriminate. }
  assert (H3 : enrollment "c1" "s1" st <> []) by (vm_compute; discriminate).
  assert (H4 : exists c, In c (courses st) /\ Course.id c = "c1").
  { exists (Sample.course "c1"). split; [left; reflexivity|reflexivity]. }
  assert (H5 : "c1" <> EmptyString) by discriminate.
  destruct (progress_counts_agree st "c1" "s1" H1 H2 H3 H4 H5)
    as [(agg & entries & Hr & Ht & Hc & _) (agg' & entries' & Hr' & Ht' & Hc' & _)].
  split.
  - exists agg, entries. split; [exact Hr|]. split; [exact Ht|exact Hc].
  - exists agg', entries'. split; [exact Hr'|]. split; [exact Ht'|exact Hc'].
Defined.

(** * The counts after a completion *)

Lemma count_app {A} (f : A -> bool) (l1 l2 : list A) :
  count f (l1 ++ l2) = count f l1 + count f l2.
Proof. unfold count. rewrite filter_app, length_app. lia. Qed.

Lemma existsb_agree {A} (f g : A -> bool) (l : list A) :
  (forall a, f a = g a) -> existsb f l = existsb g l.
Proof.
  intros H. induction l as [|x l IH]; simpl; [reflexivity|].
  rewrite H, IH. reflexivity.
Qed.

Section UpsertCounts.

Variable env : Env.
Variables studentId chapterId courseId : string.
Variable st : Store.

Let st1 := fst (upsert_progress env studentId chapterId courseId st).

(** The join condition of the counts, for a student [s] and a chapter id. *)
Let matches (s i : string) (p : Progress.t) : bool :=
  String.eqb i (Progress.chapter_id p) && String.eqb (Progress.student_id p) s.

Lemma upsert_filter_other s i :
  s <> studentId \/ i <> chapterId ->
  filter (matches s i) (progress st1) = filter (matches s i) (progress st).
Proof.
  intros Hne. subst st1. unfold upsert_progress.
  assert (Hconf : forall p, matches s i p = true ->
            String.eqb (Progress.student_id p) studentId
            && String.eqb (Progress.chapter_id p) chapterId = false).
  { intros p Hp. unfold matches in Hp. apply andb_true_iff in Hp.
    destruct Hp as [H1 H2]. apply String.eqb_eq in H1, H2.
    apply not_true_is_false. intros Hc. apply andb_true_iff in Hc.
    destruct Hc as [H3 H4]. apply String.eqb_eq in H3, H4.
    destruct Hne as [Hne | Hne]; apply Hne; congruence. }
  match goal with |- context [existsb ?f ?l] => destruct (existsb f l) end;
    cbn [fst progress set_progress].
  - induction (progress st) as [|x l IH]; simpl; [reflexivity|].
    destruct (String.eqb (Progress.student_id x) studentId
              && String.eqb (Progress.chapter_id x) chapterId) eqn:E.
    + assert (Hx : matches s i x = false).
      { apply not_true_is_false. intros Hx. rewrite (Hconf x Hx) in E.
        discriminate. }
      unfold matches in *. cbn [Progress.chapter_id Progress.student_id].
      rewrite Hx. exact IH.
    + destruct (matches s i x); rewrite IH; reflexivity.
  - rewrite filter_app. simpl.
    assert (Hrow : matches s i
              {| Progress.id := new_id env;
                 Progress.student_id := studentId;
                 Progress.chapter_id := chapterId;
                 Progress.course_id := courseId;
                 Progress.completed := true;
                 Progress.completed_at := Some (now env);
                 Progress.updated_at := now env |} = false).
    { apply not_true_is_false. intros Hx. apply Hconf in Hx. simpl in Hx.
      rewrite !String.eqb_refl in Hx. discriminate. }
    rewrite Hrow. apply app_nil_r.
Qed.

Lemma upsert_filter_same :
  progress_keys_unique st ->
  exists row,
    filter (matches studentId chapterId) (progress st1) = [row] /\
    Progress.completed row = true /\
    (filter (matches studentId chapterId) (progress st) = [] \/
     exists p0, filter (matches studentId chapterId) (progress st) = [p0]).
Proof.
  intros Hku.
  assert (Hconf : forall p,
            String.eqb (Progress.student_id p) studentId
            && String.eqb (Progress.chapter_id p) chapterId
            = matches studentId chapterId p).
  { intros p. unfold matches. rewrite andb_comm.
    rewrite (String.eqb_sym chapterId). reflexivity. }
  assert (Hlen : (List.length (filter (matches studentId chapterId)
                                      (progress st)) <= 1)%nat).
  { apply (NoDup_map_filter_length progress_key _ _ (studentId, chapterId) Hku).
    intros a Ha. unfold matches in Ha. apply andb_true_iff in Ha.
    destruct Ha as [H1 H2]. apply String.eqb_eq in H1, H2.
    unfold progress_key. congruence. }
  subst st1. unfold upsert_progress.
  rewrite (existsb_agree _ (matches studentId chapterId) _ Hconf).
  destruct (filter (matches studentId chapterId) (progress st))
    as [|p0 [|p1 ps]] eqn:Ef; [| |simpl in Hlen; lia].
  - assert (Hex : existsb (matches studentId chapterId) (progress st) = false).
    { apply not_true_is_false. intros Hex. apply existsb_exists in Hex.
      destruct Hex as [x [Hx Hm]].
      assert (Hin : In x (filter (matches studentId chapterId) (progress st)))
        by (apply filter_In; auto).
      rewrite Ef in Hin. contradiction. }
    rewrite Hex. cbn [fst progress set_progress].
    eexists. rewrite filter_app, Ef. simpl.
    unfold matches at 1. cbn [Progress.chapter_id Progress.student_id].
    rewrite !String.eqb_refl. simpl. split; [reflexivity|].
    split; [reflexivity|left; reflexivity].
  - assert (Hp0 : In p0 (progress st) /\ matches studentId chapterId p0 = true).
    { apply filter_In. rewrite Ef. left. reflexivity. }
    assert (Hex : existsb (matches studentId chapterId) (progress st) = true).
    { apply existsb_exists. exists p0. exact Hp0. }
    rewrite Hex. cbn [fst progress set_progress].
    eexists. split; [|split; [|right; exists p0; reflexivity]].
    + rewrite filter_map_commute.
      rewrite (filter_ext _ (matches studentId chapterId)).
      * rewrite Ef. simpl. rewrite Hconf, (proj2 Hp0). reflexivity.
      * intros a. destruct (String.eqb (Progress.student_id a) studentId
                            && String.eqb (Progress.chapter_id a) chapterId);
          reflexivity.
    + reflexivity.
Qed.

(** The rows of the LEFT JOIN under the chapters [l]. *)
Lemma left_join_progress_cons s (on := fun ch p => matches s (Chapter.id ch) p)
    a l P :
  left_join on (a :: l) P
  = match filter (matches s (Chapter.id a)) P with
    | [] => [(a, None)]
    | b :: bs => map (fun b => (a, Some b)) (b :: bs)
    end ++ left_join on l P.
Proof. reflexivity. Qed.

Lemma left_join_progress_other s l :
  (forall ch, In ch l -> s <> studentId \/ Chapter.id ch <> chapterId) ->
  left_join (fun ch p => matches s (Chapter.id ch) p) l (progress st1)
  = left_join (fun ch p => matches s (Chapter.id ch) p) l (progress st).
Proof.
  induction l as [|a l IH]; intros H; [reflexivity|].
  rewrite !left_join_progress_cons.
  rewrite (upsert_filter_other s (Chapter.id a) (H a (or_introl eq_refl))).
  rewrite IH by (intros ch Hch; apply H; right; exact Hch).
  reflexivity.
Qed.

Lemma left_join_progress_same l ch0 :
  progress_keys_unique st ->
  (forall p rest,
     filter (matches studentId chapterId) (progress st) = p :: rest ->
     Progress.completed p = false) ->
  NoDup (map Chapter.id l) -> In ch0 l -> Chapter.id ch0 = chapterId ->
  let rows P := left_join (fun ch p => matches studentId (Chapter.id ch) p)
                          l P in
  count (fun _ => true) (rows (progress st1))
  = count (fun _ => true) (rows (progress st)) /\
  count (fun r => completed_true (snd r)) (rows (progress st1))
  = count (fun r => completed_true (snd r)) (rows (progress st)) + 1.
Proof.
  intros Hku Hnew Hnd Hin Hid rows. subst rows.
  assert (Hone : forall (f : Chapter.t * option Progress.t -> bool) x,
            count f [x] = if f x then 1 else 0).
  { intros f x. unfold count. simpl. destruct (f x); reflexivity. }
  induction l as [|a l IH]; [contradiction|].
  inversion Hnd as [|y ys Hnotin Hnd']; subst y ys.
  rewrite !left_join_progress_cons, !count_app.
  destruct Hin as [Ha | Hin].
  - subst a.
    rewrite (left_join_progress_other studentId l).
    2:{ intros ch Hch. right. intros He. apply Hnotin. rewrite Hid, <- He.
        apply in_map. exact Hch. }
    rewrite Hid.
    destruct (upsert_filter_same Hku) as (row & H1 & Hc & Hold).
    rewrite H1.
    destruct Hold as [H0 | [p0 H0]].
    + rewrite H0. cbn [map]. rewrite !Hone. cbn [snd completed_true].
      rewrite Hc. split; lia.
    + rewrite H0. pose proof (Hnew p0 [] H0) as Hp0.
      cbn [map]. rewrite !Hone. cbn [snd completed_true].
      rewrite Hc, Hp0. split; lia.
  - assert (Hne : Chapter.id a <> chapterId).
    { intros He. apply Hnotin. rewrite He, <- Hid. apply in_map. exact Hin. }
    rewrite (upsert_filter_other studentId (Chapter.id a) (or_intror Hne)).
    destruct (IH Hnd' Hin) as [IH1 IH2]. rewrite IH1, IH2. split; lia.
Qed.

End UpsertCounts.

(** X11.  Under the keys of the schema, a completeChapter that answers 200
    raises the number of completed chapters of the student in the course
    of the chapter by exactly one and leaves the number of chapters as it
    was; the counts of every other student, and of the student in every
    other course, are the same as before. *)
Theorem completeChapter_counts_one_more env st chapterId studentId :
  chapter_ids_unique st -> progress_keys_unique st ->
  status (response_of (completeChapter env chapterId studentId st)) = 200 ->
  let st' := store_of (completeChapter env chapterId studentId st) in
  exists ch,
    hd_error (chapter_by_id chapterId st) = Some ch /\
    completion_result studentId (Chapter.course_id ch) st'
    = (fst (completion_result studentId (Chapter.course_id ch) st),
       snd (completion_result studentId (Chapter.course_id ch) st) + 1) /\
    (forall s c, s <> studentId \/ c <> Chapter.course_id ch ->
       completion_result s c st' = completion_result s c st).
Proof.
  intros Hu Hku H200 st'. subst st'.
  destruct (completeChapter_cases env st chapterId studentId)
    as [(s & b & Hs & Hr) | (ch & Hch & _ & _ & Hnew & Hr)].
  { exfalso. rewrite Hr in H200. simpl in H200. subst s.
    simpl in Hs. intuition discriminate. }
  exists ch. split; [exact Hch|]. rewrite Hr.
  unfold completion_of, store_of. cbn [fst snd].
  destruct (chapter_by_id_in st chapterId ch Hch) as [Hin Hid].
  set (st1 := fst (upsert_progress env studentId chapterId
                     (Chapter.course_id ch) st)).
  assert (Hchs : chapters st1 = chapters st).
  { exact (proj1 (proj2 (proj2 (upsert_progress_frame env studentId chapterId
                                  (Chapter.course_id ch) st)))). }
  assert (Hrows : forall s c st0,
            filter (fun r : Chapter.t * option Progress.t =>
                      String.eqb (Chapter.course_id (fst r)) c)
                   (chapters_left_join_progress s st0)
            = left_join
                (fun ch p => String.eqb (Chapter.id ch) (Progress.chapter_id p)
                             && String.eqb (Progress.student_id p) s)
                (filter (fun ch => String.eqb (Chapter.course_id ch) c)
                        (chapters st0))
                (progress st0)).
  { intros s c st0. unfold chapters_left_join_progress.
    apply (left_join_filter_left
             (fun ch p => String.eqb (Chapter.id ch) (Progress.chapter_id p)
                          && String.eqb (Progress.student_id p) s)
             (fun ch => String.eqb (Chapter.course_id ch) c)). }
  split.
  - unfold completion_result. cbv zeta. rewrite !Hrows, Hchs.
    destruct (left_join_progress_same env studentId chapterId
                (Chapter.course_id ch) st
                (filter (fun c => String.eqb (Chapter.course_id c)
                                             (Chapter.course_id ch))
                        (chapters st))
                ch Hku) as [H1 H2].
    + intros p rest Hf. apply (Hnew p rest). unfold existing_progress.
      rewrite <- Hf. apply filter_ext. intros a.
      rewrite (String.eqb_sym chapterId). reflexivity.
    + apply NoDup_map_filter. exact Hu.
    + apply filter_In. split; [exact Hin|apply String.eqb_refl].
    + exact Hid.
    + cbn [fst snd]. fold st1. cbv zeta in H1, H2. fold st1 in H1, H2.
      rewrite H1, H2. reflexivity.
  - intros s c Hne. unfold completion_result. cbv zeta. rewrite !Hrows, Hchs.
    rewrite (left_join_progress_other env studentId chapterId
               (Chapter.course_id ch) st s); [reflexivity|].
    intros a Ha. apply filter_In in Ha. destruct Ha as [Ha Hc].
    apply String.eqb_eq in Hc.
    destruct Hne as [Hne | Hne]; [left; exact Hne|]. right.
    intros He. apply Hne.
    assert (a = ch).
    { apply (NoDup_map_injective Chapter.id (chapters st)); auto.
      congruence. }
    subst a. congruence.
Qed.

Lemma completeChapter_counts_one_more_witness :
  let st := Sample.course_store "c1" 3 1 in
  let st' := store_of (completeChapter (Sample.env 30 "n1") "c1-ch2" "s1" st) in
  completion_result "s1" "c1" st = (3, 1) /\
  completion_result "s1" "c1" st' = (3, 2).
Proof.
  intros st st'. split; [reflexivity|].
  destruct (completeChapter_counts_one_more (Sample.env 30 "n1") st
              "c1-ch2" "s1" (sample_ids_unique 1) sample_progress_keys_unique
              eq_refl) as (ch & Hch & Hc & _).
  vm_compute in Hch. inversion Hch; subst ch. exact Hc.
Defined.

(** * Certificates and the completion of a course *)

Lemma eligibility_complete studentId courseId st t :
  enrollment courseId studentId st <> [] ->
  completion_result studentId courseId st = (t, t) -> 0 < t < 2 ^ 53 ->
  checkCertificateEligibility studentId courseId st
  = (Ok {| eligible := true; eligibility_message := None;
           eligibility_percentage := Some (Number.of_Z 100) |}, st, []).
Proof.
  intros Henr Hcr Ht.
  unfold checkCertificateEligibility, bind, select, ret.
  destruct (enrollment courseId studentId st) as [|e es]; [congruence|].
  rewrite Hcr.
  assert (E0 : (t =? 0) = false) by (apply Z.eqb_neq; lia).
  rewrite E0, (completionPercentage_full t Ht).
  assert (E : Number.ltb (Number.of_Z 100) (Number.of_Z 100) = false)
    by (vm_compute; reflexivity).
  rewrite E. reflexivity.
Qed.

Lemma eligibility_incomplete studentId courseId st :
  fst (completion_result studentId courseId st) < 2 ^ 52 ->
  enrollment courseId studentId st = [] \/
  fst (completion_result studentId courseId st) = 0 \/
  snd (completion_result studentId courseId st)
  < fst (completion_result studentId courseId st) ->
  exists e,
    checkCertificateEligibility studentId courseId st = (Ok e, st, []) /\
    eligible e = false.
Proof.
  intros Hb H.
  unfold checkCertificateEligibility, bind, select, ret.
  destruct (enrollment courseId studentId st) as [|a es];
    [eexists; split; reflexivity|].
  destruct H as [H | H]; [discriminate|].
  pose proof (completion_result_bounds studentId courseId st) as Hcb.
  destruct (completion_result studentId courseId st) as [total completed].
  cbn [fst snd] in *.
  destruct (total =? 0) eqn:E0; [eexists; split; reflexivity|].
  apply Z.eqb_neq in E0. destruct H as [H | H]; [congruence|].
  rewrite completionPercentage_partial by lia.
  eexists; split; reflexivity.
Qed.

Lemma getCertificate_not_eligible env st courseId studentId e :
  checkCertificateEligibility studentId courseId st = (Ok e, st, []) ->
  eligible e = false ->
  getCertificate env courseId studentId st
  = ({| status := 403;
        body := CertificateUnavailableBody "Certificate not available"
                  (eligibility_message e) (eligibility_percentage e) |},
     st, []).
Proof.
  intros He Hf. unfold getCertificate, try_catch, bind.
  rewrite He, Hf. reflexivity.
Qed.

(** For an eligible student getCertificate answers with the document, or
    with 500 when the student or the course is not on record. *)
Lemma getCertificate_eligible_status env st courseId studentId e :
  checkCertificateEligibility studentId courseId st = (Ok e, st, []) ->
  eligible e = true ->
  status (response_of (getCertificate env courseId studentId st)) = 200 \/
  status (response_of (getCertificate env courseId studentId st)) = 500.
Proof.
  intros He Ht.
  destruct (certificate_details studentId courseId st) as [|d ds] eqn:Ed.
  - right. unfold getCertificate, try_catch, bind, select, execute.
    rewrite He, Ht. cbn [negb].
    destruct (certificate_of studentId courseId st) as [|c cs].
    + cbn -[certificate_details].
      assert (Ed' : certificate_details studentId courseId
                      (set_certificates st
                         (certificates st
                          ++ [{| Certificate.id := new_id env;
                                 Certificate.student_id := studentId;
                                 Certificate.course_id := courseId;
                                 Certificate.issued_at := now env |}])) = [])
        by exact Ed.
      rewrite Ed'. reflexivity.
    + cbn -[certificate_details]. rewrite Ed. reflexivity.
  - left. rewrite (getCertificate_eligible env st courseId studentId e d ds
                     He Ht Ed).
    destruct (certificate_of studentId courseId st); reflexivity.
Qed.

(** X12.  Completing the last chapter makes the certificate available: when
    completeChapter answers 200 with as many completed chapters as the
    course has, fewer than 2^53, the percentage it reports is 100, the
    certificate service finds the student eligible in the store the request
    leaves, and getCertificate no longer answers 403; it sends the document
    when the student and the course are on record. *)
Theorem last_chapter_makes_certificate_available env env' st chapterId
    studentId message row total pct :
  response_of (completeChapter env chapterId studentId st)
  = {| status := 200;
       body := CompleteBody message row
                 {| total_chapters := total; completed_chapters := total;
                    percentage := pct |} |} ->
  total < 2 ^ 53 ->
  let st' := store_of (completeChapter env chapterId studentId st) in
  exists ch,
    hd_error (chapter_by_id chapterId st) = Some ch /\
    pct = Number.of_Z 100 /\
    checkCertificateEligibility studentId (Chapter.course_id ch) st'
    = (Ok {| eligible := true; eligibility_message := None;
             eligibility_percentage := Some (Number.of_Z 100) |}, st', []) /\
    status (response_of (getCertificate env' (Chapter.course_id ch)
                           studentId st')) <> 403 /\
    (certificate_details studentId (Chapter.course_id ch) st' <> [] ->
     exists data,
       response_of (getCertificate env' (Chapter.course_id ch) studentId st')
       = {| status := 200; body := PdfBody data |}).
Proof.
  intros Hresp Hlt st'. subst st'.
  destruct (completeChapter_cases env st chapterId studentId)
    as [(s & b & Hs & Hr) | (ch & Hch & Henr & _ & _ & Hr)].
  { exfalso. rewrite Hr in Hresp. unfold response_of in Hresp.
    cbn [fst] in Hresp. inversion Hresp; subst s.
    simpl in Hs. intuition discriminate. }
  exists ch. split; [exact Hch|].
  rewrite Hr in *. unfold completion_of, response_of, store_of in *.
  cbn [fst snd] in *.
  set (st1 := fst (upsert_progress env studentId chapterId
                     (Chapter.course_id ch) st)) in *.
  injection Hresp as Hm Hrow Htot Hcomp Hpct.
  change (fst (completion_result studentId (Chapter.course_id ch) st1) = total)
    in Htot.
  change (snd (completion_result studentId (Chapter.course_id ch) st1) = total)
    in Hcomp.
  change (round2 (completionPercentage
                    (snd (completion_result studentId (Chapter.course_id ch)
                            st1))
                    (fst (completion_result studentId (Chapter.course_id ch)
                            st1))) = pct) in Hpct.
  rewrite Htot, Hcomp in Hpct.
  destruct (chapter_by_id_in st chapterId ch Hch) as [Hin _].
  destruct (upsert_progress_frame env studentId chapterId
              (Chapter.course_id ch) st) as (_ & _ & Hchs & Hca & _).
  fold st1 in Hchs, Hca.
  assert (Hpos : 0 < total).
  { rewrite <- Htot. apply completion_result_positive.
    rewrite Hchs. exact Hin. }
  assert (Hcr : completion_result studentId (Chapter.course_id ch) st1
                = (total, total)).
  { rewrite (surjective_pairing (completion_result studentId
                                   (Chapter.course_id ch) st1)).
    rewrite Htot, Hcomp. reflexivity. }
  assert (Henr1 : enrollment (Chapter.course_id ch) studentId st1 <> []).
  { unfold enrollment. rewrite Hca. exact Henr. }
  pose proof (eligibility_complete studentId (Chapter.course_id ch) st1 total
                Henr1 Hcr (conj Hpos Hlt)) as Hel.
  split.
  { rewrite <- Hpct, (completionPercentage_full total (conj Hpos Hlt)).
    vm_compute. reflexivity. }
  split; [exact Hel|]. split.
  - destruct (getCertificate_eligible_status env' st1 (Chapter.course_id ch)
                studentId _ Hel eq_refl) as [H | H];
      unfold response_of in H; rewrite H; discriminate.
  - intros Hd.
    destruct (certificate_details studentId (Chapter.course_id ch) st1)
      as [|d ds] eqn:Ed; [congruence|].
    rewrite (getCertificate_eligible env' st1 (Chapter.course_id ch)
               studentId _ d ds Hel eq_refl Ed).
    destruct (certificate_of studentId (Chapter.course_id ch) st1);
      eexists; reflexivity.
Qed.

Lemma last_chapter_makes_certificate_available_witness :
  let st := Sample.course_store "c1" 3 2 in
  let r := completeChapter (Sample.env 30 "n1") "c1-ch3" "s1" st in
  status (response_of r) = 200 /\
  exists data,
    response_of (getCertificate (Sample.env 31 "n2") "c1" "s1" (store_of r))
    = {| status := 200; body := PdfBody data |}.
Proof.
  intros st r. split; [reflexivity|].
  assert (Hlt : 3 < 2 ^ 53) by reflexivity.
  destruct (last_chapter_makes_certificate_available (Sample.env 30 "n1")
              (Sample.env 31 "n2") st "c1-ch3" "s1" _ _ 3 _ eq_refl Hlt)
    as (ch & Hch & _ & _ & _ & Hpdf).
  vm_compute in Hch. inversion Hch; subst ch.
  apply Hpdf. vm_compute. discriminate.
Defined.

(** X13.  getCertificate issues nothing to a student who is not enrolled,
    or whose course has no chapter, or who has a chapter left to complete
    (in a course of fewer than 2^52 chapters): the answer is 403, the store
    is as it was and nothing is committed. *)
Theorem getCertificate_refuses_incomplete env st courseId studentId :
  fst (completion_result studentId courseId st) < 2 ^ 52 ->
  enrollment courseId studentId st = [] \/
  fst (completion_result studentId courseId st) = 0 \/
  snd (completion_result studentId courseId st)
  < fst (completion_result studentId courseId st) ->
  let r := getCertificate env courseId studentId st in
  (exists message pct,
     response_of r
     = {| status := 403;
          body := CertificateUnavailableBody "Certificate not available"
                    message pct |}) /\
  store_of r = st /\ committed r = [] /\
  certificate_of studentId courseId (store_of r)
  = certificate_of studentId courseId st.
Proof.
  intros Hb H r. subst r.
  destruct (eligibility_incomplete studentId courseId st Hb H)
    as (e & He & Hf).
  rewrite (getCertificate_not_eligible env st courseId studentId e He Hf).
  split; [eexists _, _; reflexivity|]. repeat split; reflexivity.
Qed.

Lemma getCertificate_refuses_incomplete_witness :
  let st := Sample.course_store "c1" 3 2 in
  let r := getCertificate (Sample.env 30 "n1") "c1" "s1" st in
  status (response_of r) = 403 /\ certificates (store_of r) = [].
Proof.
  intros st r.
  assert (Hb : fst (completion_result "s1" "c1" st) < 2 ^ 52) by reflexivity.
  assert (Hc : snd (completion_result "s1" "c1" st)
               < fst (completion_result "s1" "c1" st)) by reflexivity.
  destruct (getCertificate_refuses_incomplete (Sample.env 30 "n1") st "c1" "s1"
              Hb (or_intror (or_intror Hc)))
    as ((message & pct & Hr) & Hst & _).
  split; [fold r in Hr; rewrite Hr; reflexivity|].
  fold r in Hst. rewrite Hst. reflexivity.
Defined.

(** * checkCertificateStatus and getMyCertificates *)

Lemma getCertificate_200_inv env st courseId studentId data :
  response_of (getCertificate env courseId studentId st)
  = {| status := 200; body := PdfBody data |} ->
  exists e d ds,
    checkCertificateEligibility studentId courseId st = (Ok e, st, []) /\
    eligible e = true /\
    certificate_details studentId courseId st = d :: ds.
Proof.
  intros H.
  destruct (checkCertificateEligibility_run studentId courseId st) as [e He].
  destruct (eligible e) eqn:Ee.
  - destruct (certificate_details studentId courseId st) as [|d ds] eqn:Ed.
    + exfalso. revert H.
      unfold getCertificate, try_catch, bind, select, execute.
      rewrite He, Ee. cbn [negb].
      destruct (certificate_of studentId courseId st) as [|c cs].
      * cbn -[certificate_details].
        assert (Ed' : certificate_details studentId courseId
                        (set_certificates st
                           (certificates st
                            ++ [{| Certificate.id := new_id env;
                                   Certificate.student_id := studentId;
                                   Certificate.course_id := courseId;
                                   Certificate.issued_at := now env |}])) = [])
          by exact Ed.
        rewrite Ed'. discriminate.
      * cbn -[certificate_details]. rewrite Ed. discriminate.
    + exists e, d, ds. auto.
  - exfalso.
    rewrite (getCertificate_not_eligible env st courseId studentId e He Ee) in H.
    discriminate H.
Qed.

Section Ordered.

Context {A : Type}.
Variable key : A -> option Z.

Lemma key_le_total a b : key_le a b = false -> key_le b a = true.
Proof.
  destruct a as [x|], b as [y|]; simpl; try congruence.
  intros H. apply Z.leb_gt in H. apply Z.leb_le. lia.
Qed.

Lemma ordered_by_insert x (l : list A) :
  ordered_by key l -> ordered_by key (insert_by key x l).
Proof.
  induction l as [|y l IH]; simpl; intros H; [auto|].
  destruct (key_le (key x) (key y)) eqn:E.
  - simpl. auto.
  - destruct H as [Hy Hl]. specialize (IH Hl).
    simpl. split; [|exact IH].
    destruct l as [|z l]; simpl.
    + apply key_le_total. exact E.
    + destruct (key_le (key x) (key z)); [apply key_le_total; exact E|exact Hy].
Qed.

Lemma ordered_by_order_by (l : list A) : ordered_by key (order_by key l).
Proof.
  unfold order_by. induction l as [|x l IH]; simpl; [exact I|].
  apply ordered_by_insert. exact IH.
Qed.

End Ordered.

(** The entries of the list of getMyCertificates. *)
Lemma getMyCertificates_items st studentId :
  getMyCertificates studentId st
  = (inr {| answer_status := 200;
            answer_body := my_certificates studentId st |}, st, []) /\
  (forall i, In i (my_certificates studentId st) <->
     exists cert c u,
       In cert (certificates st) /\ In c (courses st) /\ In u (users st) /\
       Certificate.student_id cert = studentId /\
       Certificate.course_id cert = Course.id c /\
       Course.mentor_id c = User.id u /\
       i = {| item_id := Certificate.id cert;
              item_issued_at := Certificate.issued_at cert;
              item_course_id := Course.id c;
              item_course_title := Course.title c;
              item_course_description := Course.description c;
              item_mentor_name := User.full_name u |}).
Proof.
  split; [reflexivity|].
  intros i. unfold my_certificates. rewrite in_order_by, in_map_iff. split.
  - intros [[[cert c] u] [Hi Hin]]. apply filter_In in Hin.
    destruct Hin as [Hin Hs]. apply in_inner_join in Hin.
    destruct Hin as (Hin & Hu & Hm). apply in_inner_join in Hin.
    destruct Hin as (Hcert & Hc & Hco). simpl in *.
    apply String.eqb_eq in Hs, Hm, Hco.
    exists cert, c, u. repeat split; auto.
  - intros (cert & c & u & Hcert & Hc & Hu & Hs & Hco & Hm & Hi).
    exists (cert, c, u). split; [symmetry; exact Hi|].
    apply filter_In. split.
    + apply in_inner_join. split; [|split; [exact Hu|]].
      * apply in_inner_join. repeat split; auto.
        apply String.eqb_eq. exact Hco.
      * simpl. apply String.eqb_eq. exact Hm.
    + simpl. apply String.eqb_eq. exact Hs.
Qed.

(** X15.  getMyCertificates writes nothing and lists certificates of the
    student who asks and of no one else: an entry of the list is a
    certificate row of that student joined with its course and the mentor
    of the course, every such row is listed, and the entries come latest
    issue first. *)
Theorem getMyCertificates_lists_own st studentId :
  exists items,
    getMyCertificates studentId st
    = (inr {| answer_status := 200; answer_body := items |}, st, []) /\
    (forall i, In i items <->
       exists cert c u,
         In cert (certificates st) /\ In c (courses st) /\ In u (users st) /\
         Certificate.student_id cert = studentId /\
         Certificate.course_id cert = Course.id c /\
         Course.mentor_id c = User.id u /\
         i = {| item_id := Certificate.id cert;
                item_issued_at := Certificate.issued_at cert;
                item_course_id := Course.id c;
                item_course_title := Course.title c;
                item_course_description := Course.description c;
                item_mentor_name := User.full_name u |}) /\
    ordered_by (fun i => Some (- item_issued_at i)) items.
Proof.
  destruct (getMyCertificates_items st studentId) as [Hrun Hitems].
  exists (my_certificates studentId st). split; [exact Hrun|]. split.
  - exact Hitems.
  - apply ordered_by_order_by.
Qed.

(** X16.  A certificate that getCertificate has sent is listed by
    getMyCertificates afterwards, under the id and date printed on the
    document, provided the mentor of the course is on record. *)
Theorem issued_certificate_is_listed env st courseId studentId data :
  response_of (getCertificate env courseId studentId st)
  = {| status := 200; body := PdfBody data |} ->
  (forall c, In c (courses st) -> Course.id c = courseId ->
             exists u, In u (users st) /\ User.id u = Course.mentor_id c) ->
  let st' := store_of (getCertificate env courseId studentId st) in
  exists items i,
    sent_by (getMyCertificates studentId st')
    = inr {| answer_status := 200; answer_body := items |} /\
    In i items /\
    item_id i = certificate_id data /\
    item_issued_at i = completion_date data /\
    item_course_id i = courseId.
Proof.
  intros Hdata Hmentor st'.
  destruct (getCertificate_200_inv env st courseId studentId data Hdata)
    as (e & d & ds & He & Ee & Ed).
  (* the course is on record *)
  assert (Hcourse : exists c, In c (courses st) /\ Course.id c = courseId).
  { assert (Hd : In d (certificate_details studentId courseId st))
      by (rewrite Ed; left; reflexivity).
    unfold certificate_details in Hd. apply in_map_iff in Hd.
    destruct Hd as [[u c] [_ Hin]]. apply filter_In in Hin.
    destruct Hin as [Hin Hc]. apply in_inner_join in Hin.
    destruct Hin as (_ & Hc0 & _). simpl in Hc.
    apply andb_true_iff in Hc. destruct Hc as [_ Hc].
    apply String.eqb_eq in Hc. exists c. auto. }
  destruct Hcourse as (c & Hc & Hcid).
  destruct (Hmentor c Hc Hcid) as (u & Hu & Huid).
  (* the certificate printed is on record afterwards *)
  assert (Hcert : exists cert,
            In cert (certificates st') /\
            Certificate.student_id cert = studentId /\
            Certificate.course_id cert = courseId /\
            Certificate.id cert = certificate_id data /\
            Certificate.issued_at cert = completion_date data /\
            users st' = users st /\ courses st' = courses st).
  { subst st'.
    rewrite (getCertificate_eligible env st courseId studentId e d ds
               He Ee Ed) in *.
    destruct (certificate_of studentId courseId st) as [|c0 cs] eqn:Ec;
      unfold store_of, response_of in *; cbn [fst snd] in *;
      injection Hdata as Hdata; subst data.
    - eexists. split.
      + cbn [insert_certificate fst certificates set_certificates].
        apply in_or_app. right. left. reflexivity.
      + repeat split; reflexivity.
    - assert (H0 : In c0 (certificate_of studentId courseId st))
        by (rewrite Ec; left; reflexivity).
      unfold certificate_of in H0. apply filter_In in H0.
      destruct H0 as [H0 Hk]. apply andb_true_iff in Hk.
      destruct Hk as [Hk1 Hk2]. apply String.eqb_eq in Hk1, Hk2.
      exists c0. repeat split; auto. }
  destruct Hcert as (cert & Hin & Hs & Hco & Hid & Hat & Husers & Hcourses).
  destruct (getMyCertificates_items st' studentId) as [Hrun Hitems].
  eexists _, _. split; [rewrite Hrun; reflexivity|]. split.
  - apply Hitems. exists cert, c, u.
    rewrite Husers, Hcourses. repeat split; auto; congruence.
  - simpl. auto.
Qed.

Lemma issued_certificate_is_listed_witness :
  let st := Sample.course_store "c1" 3 3 in
  let st' := store_of (getCertificate (Sample.env 30 "n1") "c1" "s1" st) in
  exists items i,
    sent_by (getMyCertificates "s1" st')
    = inr {| answer_status := 200; answer_body := items |} /\
    In i items /\ item_id i = "n1" /\ item_issued_at i = 30.
Proof.
  intros st st'.
  assert (Hdata : response_of (getCertificate (Sample.env 30 "n1") "c1" "s1" st)
                  = {| status := 200;
                       body := PdfBody {| student_name := "Student One";
                                          cert_course_title := "Course";
                                          completion_date := 30;
                                          certificate_id := "n1" |} |})
    by (vm_compute; reflexivity).
  assert (Hmentor : forall c, In c (courses st) -> Course.id c = "c1" ->
            exists u, In u (users st) /\ User.id u = Course.mentor_id c).
  { intros c [Hc | []] _. subst c. exists Sample.mentor.
    split; [left; reflexivity|reflexivity]. }
  destruct (issued_certificate_is_listed (Sample.env 30 "n1") st "c1" "s1" _
              Hdata Hmentor) as (items & i & Hr & Hin & Hid & Hat & _).
  exists items, i. auto.
Defined.

(** * assignCourse *)

Lemma bind_select {A B} (q : Store -> A) (k : A -> Handler B) st :
  bind (select q) k st = k (q st) st.
Proof.
  unfold bind, select. destruct (k (q st) st) as [[o st2] log2]. reflexivity.
Qed.

Lemma set_course_assignments_twice st l1 l2 :
  set_course_assignments (set_course_assignments st l1) l2
  = set_course_assignments st l2.
Proof. reflexivity. Qed.

Lemma set_course_assignments_same st :
  set_course_assignments st (course_assignments st) = st.
Proof. destruct st; reflexivity. Qed.

Lemma enrollment_app st id s rows :
  enrollment id s (set_course_assignments st (course_assignments st ++ rows))
  = enrollment id s st
    ++ filter (fun ca => String.eqb (CourseAssignment.course_id ca) id
                         && String.eqb (CourseAssignment.student_id ca) s)
              rows.
Proof. unfold enrollment. cbn [course_assignments set_course_assignments].
       apply filter_app. Qed.

(** What the loop of assignCourse does to the candidates [ids]: it inserts
    the rows [rows], one for each candidate that is a student and is not
    enrolled when its turn comes, and reports an error for every other
    candidate. *)
Lemma assign_students_run benv id ids : forall filled errs st,
  exists rows errs' log,
    assign_students benv id ids filled errs st
    = (Ok (filled ++ map Some rows, errs ++ errs'),
       set_course_assignments st (course_assignments st ++ rows), log) /\
    (List.length rows + List.length errs' = List.length ids)%nat /\
    (forall r, In r rows ->
       CourseAssignment.course_id r = id /\
       In (CourseAssignment.student_id r) ids /\
       student_check (CourseAssignment.student_id r) st <> [] /\
       enrollment id (CourseAssignment.student_id r) st = []) /\
    NoDup (map CourseAssignment.student_id rows) /\
    (forall s, In s ids -> student_check s st <> [] ->
       enrollment id s st <> [] \/
       In s (map CourseAssignment.student_id rows)) /\
    (forall x, In x errs' ->
       In (error_student_id x) ids /\
       (student_check (error_student_id x) st = [] \/
        enrollment id (error_student_id x) st <> [] \/
        In (error_student_id x) (map CourseAssignment.student_id rows))).
Proof.
  induction ids as [|s rest IH]; intros filled errs st.
  - exists [], [], []. simpl. rewrite !app_nil_r, set_course_assignments_same.
    split; [reflexivity|]. split; [reflexivity|].
    split; [contradiction|]. split; [constructor|].
    split; [contradiction|contradiction].
  - cbn [assign_students]. rewrite bind_select.
    destruct (student_check s st) as [|u us] eqn:Eu.
    + (* not a student *)
      destruct (IH filled
                  (errs ++ [{| error_student_id := s;
                               error_text := "Student not found" |}]) st)
        as (rows & errs' & log & Hrun & Hlen & Hrows & Hnd & Hcov & Herr).
      exists rows, ({| error_student_id := s;
                       error_text := "Student not found" |} :: errs'), log.
      split; [rewrite Hrun, <- app_assoc; reflexivity|].
      split; [simpl; lia|].
      split; [intros r Hr; destruct (Hrows r Hr) as (H1 & H2 & H3 & H4);
              repeat split; auto; right; exact H2|].
      split; [exact Hnd|]. split.
      * intros t [Ht | Ht] Hst; [subst t; congruence|auto].
      * intros x [Hx | Hx].
        -- subst x. simpl. split; [left; reflexivity|left; exact Eu].
        -- destruct (Herr x Hx) as [H1 H2]. split; [right; exact H1|exact H2].
    + rewrite bind_select.
      destruct (enrollment id s st) as [|a es] eqn:Ee.
      * (* a student not yet enrolled: one row is inserted *)
        unfold bind at 1, execute, insert_assignment.
        set (row := {| CourseAssignment.id :=
                         batch_id benv (List.length filled);
                       CourseAssignment.course_id := id;
                       CourseAssignment.student_id := s;
                       CourseAssignment.assigned_at := batch_now benv |}).
        set (st1 := set_course_assignments st (course_assignments st ++ [row])).
        destruct (IH (filled ++ [hd_error [row]]) errs st1)
          as (rows & errs' & log & Hrun & Hlen & Hrows & Hnd & Hcov & Herr).
        rewrite Hrun.
        assert (Hs1 : enrollment id s st1 <> []).
        { unfold st1. rewrite enrollment_app. simpl.
          rewrite !String.eqb_refl. simpl.
          destruct (enrollment id s st); discriminate. }
        assert (Hsub : forall t, enrollment id t st1 = [] ->
                                 enrollment id t st = []).
        { intros t Ht. unfold st1 in Ht. rewrite enrollment_app in Ht.
          apply app_eq_nil in Ht. tauto. }
        exists (row :: rows), errs', ([st1] ++ log).
        split.
        { unfold st1. rewrite set_course_assignments_twice.
          cbn [course_assignments set_course_assignments].
          rewrite <- !app_assoc. reflexivity. }
        split; [simpl; lia|]. split.
        { intros r [Hr | Hr].
          - subst r. cbn [row CourseAssignment.course_id
                            CourseAssignment.student_id].
            split; [reflexivity|]. split; [left; reflexivity|].
            split; [rewrite Eu; discriminate|exact Ee].
          - destruct (Hrows r Hr) as (H1 & H2 & H3 & H4).
            split; [exact H1|]. split; [right; exact H2|].
            split; [exact H3|exact (Hsub _ H4)]. }
        split.
        { simpl. constructor; [|exact Hnd]. intros Hin.
          apply in_map_iff in Hin. destruct Hin as [r [Hr Hin]].
          destruct (Hrows r Hin) as (_ & _ & _ & H4).
          rewrite Hr in H4. contradiction. }
        split.
        { intros t [Ht | Ht] Hst.
          - subst t. right. left. reflexivity.
          - destruct (Hcov t Ht Hst) as [H | H].
            + destruct (String.eqb t s) eqn:Ets.
              * apply String.eqb_eq in Ets. subst t. right. left. reflexivity.
              * left. intros Hn. apply H. unfold st1.
                rewrite enrollment_app, Hn. simpl.
                rewrite String.eqb_refl, String.eqb_sym, Ets. reflexivity.
            + right. right. exact H. }
        { intros x Hx. destruct (Herr x Hx) as [H1 [H2 | [H2 | H2]]].
          - split; [right; exact H1|left; exact H2].
          - split; [right; exact H1|].
            destruct (String.eqb (error_student_id x) s) eqn:Exs.
            + apply String.eqb_eq in Exs. right. right. left. auto.
            + right. left. intros Hn. apply H2. unfold st1.
              rewrite enrollment_app, Hn. simpl.
              rewrite String.eqb_refl, String.eqb_sym, Exs. reflexivity.
          - split; [right; exact H1|right; right; right; exact H2]. }
      * (* enrolled already *)
        destruct (IH filled
                    (errs ++ [{| error_student_id := s;
                                 error_text := "Already assigned" |}]) st)
          as (rows & errs' & log & Hrun & Hlen & Hrows & Hnd & Hcov & Herr).
        exists rows, ({| error_student_id := s;
                         error_text := "Already assigned" |} :: errs'), log.
        split; [rewrite Hrun, <- app_assoc; reflexivity|].
        split; [simpl; lia|].
        split; [intros r Hr; destruct (Hrows r Hr) as (H1 & H2 & H3 & H4);
                repeat split; auto; right; exact H2|].
        split; [exact Hnd|]. split.
        -- intros t [Ht | Ht] Hst; [subst t; left; rewrite Ee; discriminate
                                   |auto].
        -- intros x [Hx | Hx].
           ++ subst x. simpl. split; [left; reflexivity|].
              right. left. rewrite Ee. discriminate.
           ++ destruct (Herr x Hx) as [H1 H2].
              split; [right; exact H1|exact H2].
Qed.

(** The ways assignCourse ends: an early answer, or the report of the loop
    run on the candidates, what it inserted being committed at once. *)
Lemma assignCourse_cases benv id mentorId student_ids st :
  let r := assignCourse benv id mentorId student_ids st in
  (status_of (sent_by r) <> 200 /\ store_after r = st /\ commits_of r = []) \/
  (exists ids rows errs,
     student_ids = Some ids /\ ids <> [] /\
     course_check id mentorId st <> [] /\
     r = (inr {| answer_status := 200;
                 answer_body :=
                   {| report_message := "Course assignment completed";
                      successful := Z.of_nat (List.length (map Some rows));
                      failed := Z.of_nat (List.length errs);
                      assignments := map Some rows;
                      errors := errs |} |},
          set_course_assignments st (course_assignments st ++ rows),
          [set_course_assignments st (course_assignments st ++ rows)]) /\
     (List.length rows + List.length errs = List.length ids)%nat /\
     (forall r, In r rows ->
        CourseAssignment.course_id r = id /\
        In (CourseAssignment.student_id r) ids /\
        student_check (CourseAssignment.student_id r) st <> [] /\
        enrollment id (CourseAssignment.student_id r) st = []) /\
     NoDup (map CourseAssignment.student_id rows) /\
     (forall s, In s ids -> student_check s st <> [] ->
        enrollment id s st <> [] \/
        In s (map CourseAssignment.student_id rows)) /\
     (forall x, In x errs ->
        In (error_student_id x) ids /\
        (student_check (error_student_id x) st = [] \/
         enrollment id (error_student_id x) st <> [] \/
         In (error_student_id x) (map CourseAssignment.student_id rows)))).
Proof.
  intros r. subst r. unfold assignCourse, try_catch_answer.
  destruct student_ids as [[|s ids]|];
    [left; repeat split; discriminate | |left; repeat split; discriminate].
  rewrite bind_select.
  destruct (course_check id mentorId st) as [|c cs];
    [left; repeat split; discriminate|].
  right.
  destruct (assign_students_run benv id (s :: ids) [] [] st)
    as (rows & errs & log & Hrun & Hlen & Hrows & Hnd & Hcov & Herr).
  exists (s :: ids), rows, errs.
  split; [reflexivity|]. split; [discriminate|]. split; [discriminate|].
  split; [|split; [exact Hlen|]; split; [exact Hrows|]; split; [exact Hnd|];
           split; [exact Hcov|exact Herr]].
  unfold bind, transaction. rewrite Hrun. reflexivity.
Qed.

(** X17.  assignCourse accounts for every candidate exactly once: when it
    answers 200, the numbers it reports as successful and as failed are the
    lengths of the two arrays of the report and add up to the number of
    candidates; every assignment reported is a row of the course that is on
    record afterwards; and the rows are committed together, in the one
    state the request leaves. *)
Theorem assignCourse_accounts_for_every_candidate benv st id mentorId ids :
  ids <> [] -> course_check id mentorId st <> [] ->
  let r := assignCourse benv id mentorId (Some ids) st in
  exists report,
    sent_by r = inr {| answer_status := 200; answer_body := report |} /\
    successful report = Z.of_nat (List.length (assignments report)) /\
    failed report = Z.of_nat (List.length (errors report)) /\
    successful report + failed report = Z.of_nat (List.length ids) /\
    (forall a, In a (assignments report) ->
       exists row, a = Some row /\
         In row (course_assignments (store_after r)) /\
         CourseAssignment.course_id row = id /\
         In (CourseAssignment.student_id row) ids) /\
    (forall x, In x (errors report) -> In (error_student_id x) ids) /\
    commits_of r = [store_after r].
Proof.
  intros Hids Hown r.
  destruct (assignCourse_cases benv id mentorId (Some ids) st)
    as [(Hs & _) | (ids' & rows & errs & Hi & _ & _ & Hr & Hlen & Hrows & _
                    & _ & Herr)].
  { exfalso. apply Hs. unfold assignCourse, try_catch_answer.
    destruct ids as [|s ids]; [congruence|]. rewrite bind_select.
    destruct (course_check id mentorId st) as [|c cs]; [congruence|].
    destruct (assign_students_run benv id (s :: ids) [] [] st)
      as (rows & errs & log & Hrun & _).
    unfold bind, transaction. rewrite Hrun. reflexivity. }
  injection Hi as Hi. subst ids'. subst r. rewrite Hr.
  eexists. split; [reflexivity|].
  cbn [successful failed assignments errors store_after commits_of fst snd].
  split; [reflexivity|]. split; [reflexivity|].
  split; [rewrite length_map; lia|]. split; [|split; [|reflexivity]].
  - intros a Ha. apply in_map_iff in Ha. destruct Ha as [row [Ha Hin]].
    exists row. split; [auto|].
    destruct (Hrows row Hin) as (H1 & H2 & _).
    cbn [course_assignments set_course_assignments].
    split; [apply in_or_app; right; exact Hin|auto].
  - intros x Hx. exact (proj1 (Herr x Hx)).
Qed.

Lemma assignCourse_accounts_for_every_candidate_witness :
  let r := assignCourse sample_batch "c1" "m1" (Some ["s1"; "s2"; "m1"; "s2"])
             sample_class in
  exists report,
    sent_by r = inr {| answer_status := 200; answer_body := report |} /\
    successful report = 1 /\ failed report = 3 /\
    commits_of r = [store_after r].
Proof.
  intros r.
  assert (H1 : ["s1"; "s2"; "m1"; "s2"] <> @nil string) by discriminate.
  assert (H2 : course_check "c1" "m1" sample_class <> [])
    by (vm_compute; discriminate).
  destruct (assignCourse_accounts_for_every_candidate sample_batch sample_class
              "c1" "m1" ["s1"; "s2"; "m1"; "s2"] H1 H2)
    as (report & Hr & _ & _ & _ & _ & _ & Hc).
  fold r in Hr, Hc. exists report. split; [exact Hr|].
  assert (Hv : sent_by r
               = inr {| answer_status := 200;
                        answer_body :=
                          {| report_message := "Course assignment completed";
                             successful := 1; failed := 3;
                             assignments :=
                               [Some {| CourseAssignment.id := "a0";
                                        CourseAssignment.course_id := "c1";
                                        CourseAssignment.student_id := "s2";
                                        CourseAssignment.assigned_at := 40 |}];
                             errors :=
                               [{| error_student_id := "s1";
                                   error_text := "Already assigned" |};
                                {| error_student_id := "m1";
                                   error_text := "Student not found" |};
                                {| error_student_id := "s2";
                                   error_text := "Already assigned" |}] |} |})
    by (vm_compute; reflexivity).
  rewrite Hv in Hr. injection Hr as Hr. subst report.
  split; [reflexivity|]. split; [reflexivity|exact Hc].
Defined.

(** X18.  assignCourse never enrolls a student twice in a course: when no
    (course, student) pair is on record twice before a request, none is
    afterwards, whatever the request, candidates named twice included. *)
Theorem assignCourse_keeps_enrollment_unique benv st id mentorId student_ids :
  enrollment_unique st ->
  enrollment_unique
    (store_after (assignCourse benv id mentorId student_ids st)).
Proof.
  intros Hu.
  destruct (assignCourse_cases benv id mentorId student_ids st)
    as [(_ & Hst & _) | (ids & rows & errs & _ & _ & _ & Hr & _ & Hrows & Hnd
                         & _)].
  { rewrite Hst. exact Hu. }
  rewrite Hr. unfold store_after, enrollment_unique. cbn [fst snd].
  cbn [course_assignments set_course_assignments]. rewrite map_app.
  apply NoDup_app; [exact Hu| |].
  - clear -Hrows Hnd. induction rows as [|r rows IH]; [constructor|].
    simpl in *. inversion Hnd as [|y ys Hnotin Hnd']; subst.
    constructor; [|apply IH; auto].
    intros Hin. apply Hnotin. apply in_map_iff in Hin.
    destruct Hin as [r' [Hk Hin]]. apply in_map_iff. exists r'.
    split; [|exact Hin]. unfold assignment_key in Hk. congruence.
  - intros k Hold Hnew. apply in_map_iff in Hold, Hnew.
    destruct Hold as [a [Ha Hain]], Hnew as [r [Hr' Hrin]].
    destruct (Hrows r Hrin) as (H1 & _ & _ & H4).
    assert (Hin : In a (enrollment id (CourseAssignment.student_id r) st)).
    { unfold enrollment. apply filter_In. split; [exact Hain|].
      unfold assignment_key in *. subst k. injection Hr' as E1 E2.
      rewrite <- E1, <- E2, H1, !String.eqb_refl. reflexivity. }
    rewrite H4 in Hin. contradiction.
Qed.

Lemma assignCourse_keeps_enrollment_unique_witness :
  let r := assignCourse sample_batch "c1" "m1" (Some ["s2"; "s2"])
             sample_class in
  List.length (course_assignments (store_after r)) = 2%nat /\
  enrollment_unique (store_after r).
Proof.
  intros r. split; [reflexivity|].
  apply assignCourse_keeps_enrollment_unique.
  unfold enrollment_unique. vm_compute.
  repeat constructor; simpl; intuition discriminate.
Defined.

(** X19.  After an assignCourse answered with 200, the students enrolled
    in the course are those who were enrolled before and the candidates on
    record as students; the enrollments of the other courses and the other
    tables are as before. *)
Theorem assignCourse_enrolls_the_students benv st id mentorId ids :
  ids <> [] -> course_check id mentorId st <> [] ->
  let st' := store_after (assignCourse benv id mentorId (Some ids) st) in
  (forall s, enrollment id s st' <> [] <->
             enrollment id s st <> [] \/
             (In s ids /\ student_check s st <> [])) /\
  (forall c s, c <> id -> enrollment c s st' = enrollment c s st) /\
  users st' = users st /\ courses st' = courses st /\
  chapters st' = chapters st /\ progress st' = progress st /\
  certificates st' = certificates st.
Proof.
  intros Hids Hown st'.
  destruct (assignCourse_cases benv id mentorId (Some ids) st)
    as [(Hs & _) | (ids' & rows & errs & Hi & _ & _ & Hr & _ & Hrows & _
                    & Hcov & _)].
  { exfalso. apply Hs. unfold assignCourse, try_catch_answer.
    destruct ids as [|s ids]; [congruence|]. rewrite bind_select.
    destruct (course_check id mentorId st) as [|c cs]; [congruence|].
    destruct (assign_students_run benv id (s :: ids) [] [] st)
      as (rows & errs & log & Hrun & _).
    unfold bind, transaction. rewrite Hrun. reflexivity. }
  injection Hi as Hi. subst ids'. subst st'. rewrite Hr.
  unfold store_after. cbn [fst snd].
  split; [|split; [|repeat split; reflexivity]].
  - intros s. rewrite enrollment_app. split.
    + intros Hne.
      destruct (enrollment id s st) as [|a es] eqn:Ee; [|left; discriminate].
      right. simpl in Hne.
      destruct (filter _ rows) as [|r rs] eqn:Ef; [congruence|].
      assert (Hr0 : In r (filter
                (fun ca => String.eqb (CourseAssignment.course_id ca) id
                           && String.eqb (CourseAssignment.student_id ca) s)
                rows)) by (rewrite Ef; left; reflexivity).
      apply filter_In in Hr0. destruct Hr0 as [Hr0 Hk].
      apply andb_true_iff in Hk. destruct Hk as [_ Hk].
      apply String.eqb_eq in Hk.
      destruct (Hrows r Hr0) as (_ & H2 & H3 & _). rewrite Hk in H2, H3.
      auto.
    + intros [Hold | [Hin Hst]].
      * destruct (enrollment id s st); [congruence|discriminate].
      * destruct (Hcov s Hin Hst) as [H | H].
        -- destruct (enrollment id s st); [congruence|discriminate].
        -- apply in_map_iff in H. destruct H as [r [Hs Hr0]].
           destruct (Hrows r Hr0) as (H1 & _).
           assert (Hf : In r (filter
                     (fun ca => String.eqb (CourseAssignment.course_id ca) id
                                && String.eqb (CourseAssignment.student_id ca) s)
                     rows)).
           { apply filter_In. split; [exact Hr0|].
             rewrite H1, Hs, !String.eqb_refl. reflexivity. }
           intros Hn. apply app_eq_nil in Hn. destruct Hn as [_ Hn].
           rewrite Hn in Hf. contradiction.
  - intros c s Hc. rewrite enrollment_app.
    rewrite filter_none; [apply app_nil_r|].
    intros r Hr0. destruct (Hrows r Hr0) as (H1 & _). rewrite H1.
    assert (E : String.eqb id c = false) by (apply String.eqb_neq; congruence).
    rewrite E. reflexivity.
Qed.

Lemma assignCourse_enrolls_the_students_witness :
  let st' := store_after (assignCourse sample_batch "c1" "m1"
                            (Some ["s2"; "m1"]) sample_class) in
  enrollment "c1" "s2" st' <> [] /\ enrollment "c1" "m1" st' = [].
Proof.
  intros st'.
  assert (H1 : ["s2"; "m1"] <> @nil string) by discriminate.
  assert (H2 : course_check "c1" "m1" sample_class <> [])
    by (vm_compute; discriminate).
  destruct (assignCourse_enrolls_the_students sample_batch sample_class
              "c1" "m1" ["s2"; "m1"] H1 H2) as (He & _).
  split; [|reflexivity].
  apply He. right. split; [left; reflexivity|vm_compute; discriminate].
Defined.

(** X20.  Repeating an assignCourse enrolls no one: after a request
    answered with 200, the same candidates sent again are all reported as
    failed and the store is left as the first request left it. *)
Theorem assignCourse_twice benv benv' st id mentorId ids :
  ids <> [] -> course_check id mentorId st <> [] ->
  let r1 := assignCourse benv id mentorId (Some ids) st in
  let r2 := assignCourse benv' id mentorId (Some ids) (store_after r1) in
  status_of (sent_by r1) = 200 /\
  exists report,
    sent_by r2 = inr {| answer_status := 200; answer_body := report |} /\
    successful report = 0 /\
    failed report = Z.of_nat (List.length ids) /\
    assignments report = [] /\
    store_after r2 = store_after r1.
Proof.
  intros Hids Hown r1 r2.
  destruct (assignCourse_cases benv id mentorId (Some ids) st)
    as [(Hs & _) | (ids' & rows & errs & Hi & _ & _ & Hr & _ & Hrows & _
                    & Hcov & _)].
  { exfalso. apply Hs. unfold assignCourse, try_catch_answer.
    destruct ids as [|s ids]; [congruence|]. rewrite bind_select.
    destruct (course_check id mentorId st) as [|c cs]; [congruence|].
    destruct (assign_students_run benv id (s :: ids) [] [] st)
      as (rows & errs & log & Hrun & _).
    unfold bind, transaction. rewrite Hrun. reflexivity. }
  injection Hi as Hi. subst ids'.
  set (st1 := set_course_assignments st (course_assignments st ++ rows)) in *.
  assert (Hst1 : store_after r1 = st1) by (subst r1; rewrite Hr; reflexivity).
  split; [subst r1; rewrite Hr; reflexivity|].
  subst r2. rewrite Hst1.
  destruct (assignCourse_cases benv' id mentorId (Some ids) st1)
    as [(Hs & _) | (ids' & rows2 & errs2 & Hi & _ & _ & Hr2 & Hlen2 & Hrows2
                    & _)].
  { exfalso. apply Hs. unfold assignCourse, try_catch_answer.
    destruct ids as [|s ids]; [congruence|]. rewrite bind_select.
    change (course_check id mentorId st1) with (course_check id mentorId st).
    destruct (course_check id mentorId st) as [|c cs]; [congruence|].
    destruct (assign_students_run benv' id (s :: ids) [] [] st1)
      as (rows' & errs' & log & Hrun & _).
    unfold bind, transaction. rewrite Hrun. reflexivity. }
  injection Hi as Hi. subst ids'.
  (* no candidate is left to enroll *)
  assert (Hnone : rows2 = []).
  { destruct rows2 as [|r rows2]; [reflexivity|]. exfalso.
    destruct (Hrows2 r (or_introl eq_refl)) as (_ & H2 & H3 & H4).
    change (student_check (CourseAssignment.student_id r) st1)
      with (student_check (CourseAssignment.student_id r) st) in H3.
    unfold st1 in H4. rewrite enrollment_app in H4.
    apply app_eq_nil in H4. destruct H4 as [H4 H5].
    destruct (Hcov _ H2 H3) as [H | H]; [contradiction|].
    apply in_map_iff in H. destruct H as [r0 [Hs Hr0]].
    destruct (Hrows r0 Hr0) as (H1 & _).
    assert (Hf : In r0 (filter
              (fun ca => String.eqb (CourseAssignment.course_id ca) id
                         && String.eqb (CourseAssignment.student_id ca)
                                       (CourseAssignment.student_id r))
              rows)).
    { apply filter_In. split; [exact Hr0|].
      rewrite H1, Hs, !String.eqb_refl. reflexivity. }
    rewrite H5 in Hf. contradiction. }
  subst rows2. rewrite Hr2. eexists. split; [reflexivity|].
  cbn [successful failed assignments store_after fst snd map List.length].
  split; [reflexivity|]. split; [simpl in Hlen2; lia|].
  split; [reflexivity|].
  rewrite app_nil_r. apply set_course_assignments_same.
Qed.

Lemma assignCourse_twice_witness :
  let r1 := assignCourse sample_batch "c1" "m1" (Some ["s2"; "m1"])
              sample_class in
  let r2 := assignCourse sample_batch "c1" "m1" (Some ["s2"; "m1"])
              (store_after r1) in
  status_of (sent_by r1) = 200 /\ store_after r2 = store_after r1.
Proof.
  intros r1 r2.
  assert (H1 : ["s2"; "m1"] <> @nil string) by discriminate.
  assert (H2 : course_check "c1" "m1" sample_class <> [])
    by (vm_compute; discriminate).
  destruct (assignCourse_twice sample_batch sample_batch sample_class
              "c1" "m1" ["s2"; "m1"] H1 H2)
    as (H200 & report & _ & _ & _ & _ & Hst).
  split; [exact H200|exact Hst].
Defined.

(** * What a completion unlocks *)

(** X21.  Completing a chapter unlocks the next one: under the keys of the
    schema, when completeChapter answers 200 for a chapter, the chapter of
    the same course whose order is one more is unlocked for the student in
    the store the request leaves, and getChapterById then answers 200 for
    it. *)
Theorem completeChapter_unlocks_next env st studentId ch next :
  chapter_ids_unique st -> orders_unique st -> progress_keys_unique st ->
  In ch (chapters st) -> In next (chapters st) ->
  Chapter.course_id next = Chapter.course_id ch ->
  Chapter.sequence_order next = Chapter.sequence_order ch + 1 ->
  1 <= Chapter.sequence_order ch ->
  status (response_of (completeChapter env (Chapter.id ch) studentId st)) = 200 ->
  let st' := store_of (completeChapter env (Chapter.id ch) studentId st) in
  is_unlocked studentId st' next = true /\
  sent_by (getChapterById (Chapter.course_id next) (Chapter.id next) studentId
             STUDENT st')
  = inr {| answer_status := 200;
           answer_body :=
             StudentChapter next
               (hd_error (progress_of_chapter (Chapter.id next) studentId
                            st')) |}.
Proof.
  intros Hu Hou Hpu Hch Hnext Hco Hso Hord H200 st'.
  destruct (completeChapter_cases env st (Chapter.id ch) studentId)
    as [(s & b & Hs & Hr) | (ch0 & Hch0 & Henr & _ & _ & Hr)].
  { exfalso. rewrite Hr in H200. simpl in H200. subst s.
    simpl in Hs. intuition discriminate. }
  rewrite (chapter_by_id_found st ch Hu Hch) in Hch0.
  injection Hch0 as Hch0. subst ch0.
  assert (Hst' : st' = fst (upsert_progress env studentId (Chapter.id ch)
                             (Chapter.course_id ch) st)).
  { subst st'. rewrite Hr. reflexivity. }
  destruct (upsert_progress_frame env studentId (Chapter.id ch)
              (Chapter.course_id ch) st) as (_ & _ & Hchs & Hca & _).
  rewrite <- Hst' in Hchs, Hca.
  assert (Hun : is_unlocked studentId st' next = true).
  { apply is_unlocked_spec. right.
    destruct (upsert_progress_returns env studentId (Chapter.id ch)
                (Chapter.course_id ch) st)
      as (row & _ & Hin & Hs & Hc & Hcomp & _).
    rewrite <- Hst' in Hin.
    exists row, ch. rewrite Hchs. repeat split; auto. lia. }
  split; [exact Hun|].
  assert (Hu' : chapter_ids_unique st')
    by (unfold chapter_ids_unique; rewrite Hchs; exact Hu).
  assert (Hou' : orders_unique st')
    by (unfold orders_unique; rewrite Hchs; exact Hou).
  assert (Hpu' : progress_keys_unique st')
    by (rewrite Hst'; apply upsert_progress_keys; exact Hpu).
  assert (Henr' : enrollment (Chapter.course_id next) studentId st' <> []).
  { unfold enrollment. rewrite Hca, Hco. exact Henr. }
  assert (Hnext' : In next (chapters st')) by (rewrite Hchs; exact Hnext).
  assert (Hord' : 1 <= Chapter.sequence_order next) by lia.
  rewrite (getChapterById_student st' studentId next Hu' Hou' Hpu' Hnext'
             Henr' Hord'), Hun.
  reflexivity.
Qed.

Lemma completeChapter_unlocks_next_witness :
  let st := Sample.course_store "c1" 3 1 in
  let st' := store_of (completeChapter (Sample.env 30 "n1") "c1-ch2" "s1" st) in
  is_unlocked "s1" st (Sample.chapter_no "c1" 3) = false /\
  is_unlocked "s1" st' (Sample.chapter_no "c1" 3) = true.
Proof.
  intros st st'. split; [reflexivity|].
  assert (H1 : In (Sample.chapter_no "c1" 2) (chapters st))
    by (right; left; reflexivity).
  assert (H2 : In (Sample.chapter_no "c1" 3) (chapters st))
    by (right; right; left; reflexivity).
  assert (H3 : 1 <= Chapter.sequence_order (Sample.chapter_no "c1" 2))
    by (vm_compute; discriminate).
  exact (proj1 (completeChapter_unlocks_next (Sample.env 30 "n1") st "s1"
                  (Sample.chapter_no "c1" 2) (Sample.chapter_no "c1" 3)
                  (sample_ids_unique 1) (sample_orders_unique 1)
                  sample_progress_keys_unique H1 H2 eq_refl eq_refl H3
                  eq_refl)).
Defined.

(** * A chapter added to a completed course *)

Lemma left_join_progress_fresh st studentId row :
  (forall p, In p (progress st) -> Progress.chapter_id p <> Chapter.id row) ->
  chapters_left_join_progress studentId
    (set_chapters st (chapters st ++ [row]))
  = chapters_left_join_progress studentId st ++ [(row, None)].
Proof.
  intros Hfresh. unfold chapters_left_join_progress.
  cbn [chapters progress set_chapters]. rewrite left_join_app. f_equal.
  unfold left_join. simpl. rewrite filter_none; [reflexivity|].
  intros p Hp. apply andb_false_iff. left. apply String.eqb_neq.
  intros He. exact (Hfresh p Hp (eq_sym He)).
Qed.

(** X22.  A chapter added to a course takes the certificate away from the
    students who had completed it: for a request that createChapter
    accepts, under an identifier that no progress row refers to, the course
    counts one chapter more for every student and as many completed ones
    as before, so that getCertificate answers 403 to an enrolled student
    (of a course of fewer than 2^52 - 1 chapters) even when a certificate
    of that student and course is on record, which it still is. *)
Theorem createChapter_suspends_certificates validateURL sanitizeInput env env'
    st courseId mentorId title description image_url video_url studentId :
  title <> EmptyString -> description <> EmptyString ->
  url_rejected validateURL image_url = false ->
  url_rejected validateURL video_url = false ->
  course_check courseId mentorId st <> [] ->
  (forall p, In p (progress st) -> Progress.chapter_id p <> new_id env) ->
  fst (completion_result studentId courseId st) + 1 < 2 ^ 52 ->
  let st' := store_after
               (createChapter validateURL sanitizeInput env courseId mentorId
                  (Some title) description image_url video_url st) in
  completion_result studentId courseId st'
  = (fst (completion_result studentId courseId st) + 1,
     snd (completion_result studentId courseId st)) /\
  certificate_of studentId courseId st' = certificate_of studentId courseId st /\
  exists message pct,
    getCertificate env' courseId studentId st'
    = ({| status := 403;
          body := CertificateUnavailableBody "Certificate not available"
                    message pct |}, st', []).
Proof.
  intros Ht Hd Hi Hv Hown Hfresh Hb st'.
  destruct (createChapter_cases validateURL sanitizeInput env st courseId
              mentorId (Some title) description image_url video_url)
    as [(Hs & _) | (t & _ & _ & _ & _ & Hr1)].
  { exfalso. apply Hs. unfold createChapter, try_catch_answer.
    assert (Hg : given (Some title) = Some title)
      by (destruct title; [congruence|reflexivity]).
    rewrite Hg, Hi, Hv. unfold bind, select, execute.
    destruct (course_check courseId mentorId st) as [|c cs]; [congruence|].
    reflexivity. }
  cbv zeta in Hr1.
  set (row := {| Chapter.id := new_id env;
                 Chapter.course_id := courseId;
                 Chapter.title := sanitizeInput t;
                 Chapter.description := sanitizeInput description;
                 Chapter.sequence_order := next_sequence courseId st |}) in *.
  assert (Hst' : st' = set_chapters st (chapters st ++ [row]))
    by (subst st'; rewrite Hr1; reflexivity).
  assert (Hcr : completion_result studentId courseId st'
                = (fst (completion_result studentId courseId st) + 1,
                   snd (completion_result studentId courseId st))).
  { rewrite Hst'. unfold completion_result. cbv zeta.
    rewrite (left_join_progress_fresh st studentId row Hfresh).
    rewrite filter_app. cbn [filter fst Chapter.course_id row].
    rewrite String.eqb_refl, !count_app. cbn [fst snd].
    unfold count at 2 4. simpl. f_equal; lia. }
  split; [exact Hcr|]. split; [rewrite Hst'; reflexivity|].
  assert (Hb' : fst (completion_result studentId courseId st') < 2 ^ 52)
    by (rewrite Hcr; exact Hb).
  assert (Hinc : enrollment courseId studentId st' = [] \/
                 fst (completion_result studentId courseId st') = 0 \/
                 snd (completion_result studentId courseId st')
                 < fst (completion_result studentId courseId st')).
  { right. right. rewrite Hcr. cbn [fst snd].
    pose proof (completion_result_bounds studentId courseId st). lia. }
  destruct (eligibility_incomplete studentId courseId st' Hb' Hinc)
    as (e & He & Hf).
  rewrite (getCertificate_not_eligible env' st' courseId studentId e He Hf).
  eexists _, _. reflexivity.
Qed.

Lemma createChapter_suspends_certificates_witness :
  let st := store_of (getCertificate (Sample.env 30 "n1") "c1" "s1"
                        (Sample.course_store "c1" 3 3)) in
  let st' := store_after
               (createChapter (fun _ => true) (fun s => s) (Sample.env 31 "n2")
                  "c1" "m1" (Some "Fourth") "Text" None None st) in
  List.length (certificate_of "s1" "c1" st') = 1%nat /\
  status (response_of (getCertificate (Sample.env 32 "n3") "c1" "s1" st')) = 403.
Proof.
  intros st st'.
  assert (H1 : "Fourth" <> EmptyString) by discriminate.
  assert (H2 : "Text" <> EmptyString) by discriminate.
  assert (H3 : course_check "c1" "m1" st <> []) by (vm_compute; discriminate).
  assert (H4 : forall p, In p (progress st) ->
                         Progress.chapter_id p <> new_id (Sample.env 31 "n2")).
  { intros p Hp. vm_compute in Hp.
    destruct Hp as [Hp|[Hp|[Hp|[]]]]; subst p; discriminate. }
  assert (H5 : fst (completion_result "s1" "c1" st) + 1 < 2 ^ 52)
    by reflexivity.
  destruct (createChapter_suspends_certificates (fun _ => true) (fun s => s)
              (Sample.env 31 "n2") (Sample.env 32 "n3") st "c1" "m1"
              "Fourth" "Text" None None "s1" H1 H2 eq_refl eq_refl H3 H4 H5)
    as (_ & Hcert & message & pct & Hr).
  fold st' in Hcert, Hr. split.
  - rewrite Hcert. reflexivity.
  - rewrite Hr. reflexivity.
Defined.

(** * The list of getChapters *)

Lemma left_join_single_rows {A B} (on : A -> B -> bool) (l : list A) r :
  (forall a, In a l -> (List.length (filter (on a) r) <= 1)%nat) ->
  map fst (left_join on l r) = l.
Proof.
  induction l as [|a l IH]; intros H; [reflexivity|].
  change (a :: l) with ([a] ++ l) at 1.
  rewrite left_join_app, map_app, IH by (intros x Hx; apply H; right; exact Hx).
  specialize (H a (or_introl eq_refl)). unfold left_join. simpl.
  destruct (filter (on a) r) as [|b [|b' bs]]; simpl in *;
    [reflexivity | reflexivity | lia].
Qed.

Lemma insert_by_permutation {A} (key : A -> option Z) x (l : list A) :
  Permutation (insert_by key x l) (x :: l).
Proof.
  induction l as [|y l IH]; simpl; [apply Permutation_refl|].
  destruct (key_le (key x) (key y)); [apply Permutation_refl|].
  apply Permutation_trans with (y :: x :: l);
    [apply perm_skip; exact IH | apply perm_swap].
Qed.

Lemma order_by_permutation {A} (key : A -> option Z) (l : list A) :
  Permutation (order_by key l) l.
Proof.
  unfold order_by. induction l as [|x l IH]; simpl; [apply Permutation_refl|].
  apply Permutation_trans with (x :: fold_right (insert_by key) [] l);
    [apply insert_by_permutation | apply perm_skip; exact IH].
Qed.

(** X23.  Under the key of the progress table, getChapters answers an
    enrolled student with each chapter of the course once, in ascending
    order of sequence_order: the chapters of its rows are the list the
    owner of the course is answered with. *)
Theorem getChapters_lists_each_chapter_once st courseId userId :
  progress_keys_unique st -> enrollment courseId userId st <> [] ->
  exists rows,
    getChapters courseId userId STUDENT st
    = ({| status := 200; body := ChaptersBody rows |}, st, []) /\
    map chapter rows = chapters_of_course courseId st /\
    Permutation (map chapter rows)
      (filter (fun ch => String.eqb (Chapter.course_id ch) courseId)
              (chapters st)) /\
    ordered_by (fun ch => Some (Chapter.sequence_order ch))
               (map chapter rows) /\
    (forall owner, course_check courseId owner st <> [] ->
       getChapters courseId owner MENTOR st
       = ({| status := 200; body := MentorChaptersBody (map chapter rows) |},
          st, [])).
Proof.
  intros Hku Henr.
  exists (chapters_with_lock_status courseId userId st).
  assert (Hmap : map chapter (chapters_with_lock_status courseId userId st)
                 = chapters_of_course courseId st).
  { unfold chapters_with_lock_status, chapters_of_course.
    rewrite map_map. cbn [chapter].
    rewrite <- (order_by_map (fun ch => Some (Chapter.sequence_order ch)) fst).
    f_equal. unfold chapters_left_join_progress.
    rewrite (left_join_filter_left
               (fun ch p => String.eqb (Chapter.id ch) (Progress.chapter_id p)
                            && String.eqb (Progress.student_id p) userId)
               (fun ch => String.eqb (Chapter.course_id ch) courseId)).
    apply left_join_single_rows. intros ch _.
    apply (NoDup_map_filter_length progress_key _ _ (userId, Chapter.id ch)
             Hku).
    intros p Hp. apply andb_true_iff in Hp. destruct Hp as [H1 H2].
    apply String.eqb_eq in H1, H2. unfold progress_key. congruence. }
  split.
  { unfold getChapters, try_catch, bind, select.
    destruct (enrollment courseId userId st) as [|e es]; [congruence|].
    reflexivity. }
  split; [exact Hmap|]. rewrite Hmap. unfold chapters_of_course.
  split; [apply order_by_permutation|].
  split; [apply ordered_by_order_by|].
  intros owner Hown. unfold getChapters, try_catch, bind, select.
  destruct (course_check courseId owner st) as [|c cs]; [congruence|].
  reflexivity.
Qed.

Lemma getChapters_lists_each_chapter_once_witness :
  let st := Sample.course_store "c1" 3 1 in
  exists rows,
    getChapters "c1" "s1" STUDENT st
    = ({| status := 200; body := ChaptersBody rows |}, st, []) /\
    map (fun r => Chapter.id (chapter r)) rows = ["c1-ch1"; "c1-ch2"; "c1-ch3"].
Proof.
  intros st.
  assert (H : enrollment "c1" "s1" st <> []) by (vm_compute; discriminate).
  destruct (getChapters_lists_each_chapter_once st "c1" "s1"
              sample_progress_keys_unique H) as (rows & Hr & Hmap & _).
  exists rows. split; [exact Hr|].
  rewrite <- (map_map chapter Chapter.id), Hmap. reflexivity.
Defined.

(** * The list of getMyProgress *)

Lemma distinct_subset {K} (eqb : K -> K -> bool) (ks : list K) k :
  In k (distinct eqb ks) -> In k ks.
Proof.
  induction ks as [|k0 ks IH]; simpl; [auto|].
  intros [H | H]; [auto|]. apply filter_In in H. right. apply IH. tauto.
Qed.

Lemma distinct_covers {K} (eqb : K -> K -> bool) (ks : list K) k :
  (forall a b, eqb a b = true -> a = b) ->
  In k ks -> In k (distinct eqb ks).
Proof.
  intros Heq. induction ks as [|k0 ks IH]; simpl; [auto|].
  intros [H | H]; [auto|].
  destruct (eqb k k0) eqn:E.
  - left. symmetry. apply Heq. exact E.
  - right. apply filter_In. split; [apply IH; exact H|]. rewrite E. reflexivity.
Qed.

Lemma in_group_by {A K} (eqb : K -> K -> bool) (key : A -> K) (l : list A) g :
  In g (group_by eqb key l) ->
  (exists x, In x l /\ key x = fst g) /\
  snd g = filter (fun x => eqb (key x) (fst g)) l.
Proof.
  unfold group_by. intros H. apply in_map_iff in H.
  destruct H as [k [Hg Hk]]. subst g. simpl. split; [|reflexivity].
  apply distinct_subset in Hk. apply in_map_iff in Hk.
  destruct Hk as [x [Hx Hin]]. exists x. auto.
Qed.

Lemma group_by_covers {A K} (eqb : K -> K -> bool) (key : A -> K)
    (l : list A) x :
  (forall a b, eqb a b = true -> a = b) -> In x l ->
  In (key x, filter (fun y => eqb (key y) (key x)) l) (group_by eqb key l).
Proof.
  intros Heq Hx. unfold group_by. apply in_map_iff. exists (key x).
  split; [reflexivity|]. apply distinct_covers; [exact Heq|].
  apply in_map. exact Hx.
Qed.

Lemma enrolled_key_eqb_eq a b : enrolled_key_eqb a b = true -> a = b.
Proof.
  destruct a as [[[[a1 a2] a3] a4] a5], b as [[[[b1 b2] b3] b4] b5].
  unfold enrolled_key_eqb, course_key_eqb. simpl.
  rewrite !andb_true_iff. intros [[[[H1 H2] H3] H4] H5].
  apply String.eqb_eq in H1, H2, H3, H4. apply Z.eqb_eq in H5. congruence.
Qed.

(** The rows behind the list: one for each enrollment of the student whose
    course and mentor are on record. *)
Lemma in_all_progress_rows st studentId (x : Course.t * CourseAssignment.t * User.t) :
  (exists och op, In (x, och, op) (all_progress_rows studentId st)) <->
  In (fst (fst x)) (courses st) /\ In (snd (fst x)) (course_assignments st) /\
  In (snd x) (users st) /\
  Course.id (fst (fst x)) = CourseAssignment.course_id (snd (fst x)) /\
  CourseAssignment.student_id (snd (fst x)) = studentId /\
  Course.mentor_id (fst (fst x)) = User.id (snd x).
Proof.
  destruct x as [[c ca] u]. cbn [fst snd]. split.
  - intros (och & op & H). unfold all_progress_rows in H.
    apply filter_In in H. destruct H as [H Hs]. simpl in Hs.
    apply String.eqb_eq in Hs.
    apply in_join_chapters_progress in H. destruct H as [H _].
    apply in_inner_join in H. destruct H as (H & Hu & Hm).
    apply in_inner_join in H. destruct H as (Hc & Hca & Hco).
    simpl in *. apply String.eqb_eq in Hm, Hco.
    repeat (split; [assumption|]); assumption.
  - intros (Hc & Hca & Hu & Hco & Hs & Hm).
    assert (Hx : In (c, ca, u)
              (inner_join (fun (x : Course.t * CourseAssignment.t) u =>
                             String.eqb (Course.mentor_id (fst x)) (User.id u))
                 (inner_join (fun c ca => String.eqb (Course.id c)
                                            (CourseAssignment.course_id ca))
                             (courses st) (course_assignments st))
                 (users st))).
    { apply in_inner_join. split; [|split; [exact Hu|]].
      - apply in_inner_join. repeat split; auto. apply String.eqb_eq. exact Hco.
      - simpl. apply String.eqb_eq. exact Hm. }
    destruct (join_chapters_progress_nonempty
                (fun x : Course.t * CourseAssignment.t * User.t =>
                   Course.id (fst (fst x)))
                (fun x => CourseAssignment.student_id (snd (fst x)))
                _ st (c, ca, u) Hx) as (och & op & Hrow).
    exists och, op. unfold all_progress_rows. apply filter_In.
    split; [exact Hrow|]. simpl. apply String.eqb_eq. exact Hs.
Qed.

(** X24.  getMyProgress without a course lists the courses the student is
    enrolled in and no other: every entry carries the course, the mentor's
    name and the date of an enrollment of that student, every enrollment
    of the student whose course and mentor are on record has its entry, and
    the entries come latest enrollment first.  Nothing is written. *)
Theorem getMyProgress_lists_enrolled_courses st studentId :
  exists entries,
    getMyProgress studentId None st
    = ({| status := 200; body := MyProgressListBody entries |}, st, []) /\
    (forall e, In e entries ->
       exists c ca u,
         In c (courses st) /\ In ca (course_assignments st) /\
         In u (users st) /\
         Course.id c = CourseAssignment.course_id ca /\
         CourseAssignment.student_id ca = studentId /\
         Course.mentor_id c = User.id u /\
         agg_course_id (aggregate e) = Course.id c /\
         course_title (aggregate e) = Course.title c /\
         mentor_name e = User.full_name u /\
         agg_assigned_at e = CourseAssignment.assigned_at ca) /\
    (forall c ca u,
       In c (courses st) -> In ca (course_assignments st) ->
       In u (users st) ->
       Course.id c = CourseAssignment.course_id ca ->
       CourseAssignment.student_id ca = studentId ->
       Course.mentor_id c = User.id u ->
       exists e, In e entries /\
         agg_course_id (aggregate e) = Course.id c /\
         mentor_name e = User.full_name u /\
         agg_assigned_at e = CourseAssignment.assigned_at ca) /\
    ordered_by (fun e => Some (- agg_assigned_at e)) entries.
Proof.
  exists (all_progress_query studentId st).
  split; [reflexivity|]. split; [|split].
  - intros e He. unfold all_progress_query in He.
    apply in_order_by in He. apply in_map_iff in He.
    destruct He as [g [He Hg]]. apply in_group_by in Hg.
    destruct Hg as [[[[x och] op] [Hx Hk]] _].
    cbn [fst] in Hk.
    assert (Hrow : exists och op, In (x, och, op)
                                     (all_progress_rows studentId st))
      by eauto.
    apply in_all_progress_rows in Hrow.
    destruct Hrow as (Hc & Hca & Hu & Hco & Hs & Hm).
    exists (fst (fst x)), (snd (fst x)), (snd x).
    repeat (split; [assumption|]).
    subst e. rewrite <- Hk. unfold enrolled_key, aggregate_of, course_key.
    simpl. repeat split; reflexivity.
  - intros c ca u Hc Hca Hu Hco Hs Hm.
    assert (Hrow : exists och op, In ((c, ca, u), och, op)
                                     (all_progress_rows studentId st)).
    { apply in_all_progress_rows. cbn [fst snd].
      repeat (split; [assumption|]); assumption. }
    destruct Hrow as (och & op & Hrow).
    pose proof (group_by_covers enrolled_key_eqb
                  (fun r : Joined (Course.t * CourseAssignment.t * User.t) =>
                     enrolled_key (fst (fst r)))
                  (all_progress_rows studentId st) _ enrolled_key_eqb_eq Hrow)
      as Hg.
    eexists. split.
    + unfold all_progress_query. apply in_order_by. apply in_map_iff.
      eexists. split; [reflexivity|exact Hg].
    + simpl. repeat split; reflexivity.
  - apply ordered_by_order_by.
Qed.

(** * A reset and the certificate *)

Lemma left_join_no_match {A B} (on : A -> B -> bool) (l : list A) r :
  (forall a, In a l -> filter (on a) r = []) ->
  left_join on l r = map (fun a => (a, None)) l.
Proof.
  induction l as [|a l IH]; intros H; [reflexivity|].
  change (a :: l) with ([a] ++ l) at 1.
  rewrite left_join_app, IH by (intros x Hx; apply H; right; exact Hx).
  unfold left_join. simpl. rewrite (H a (or_introl eq_refl)). reflexivity.
Qed.

(** X26.  A reset takes the certificate away: for an enrolled student,
    with the course of a progress row being the course of its chapter,
    resetProgress leaves the course with as many chapters as it has rows in
    the chapters table and none completed, so that getCertificate answers
    403 (for fewer than 2^52 chapters) even when a certificate of that
    student and course is on record, which it still is. *)
Theorem resetProgress_withdraws_certificate env st courseId studentId :
  progress_course_consistent st ->
  enrollment courseId studentId st <> [] ->
  Z.of_nat (List.length (orders_of courseId st)) < 2 ^ 52 ->
  let st' := store_of (resetProgress courseId studentId st) in
  completion_result studentId courseId st'
  = (Z.of_nat (List.length (orders_of courseId st)), 0) /\
  certificate_of studentId courseId st' = certificate_of studentId courseId st /\
  exists message pct,
    getCertificate env courseId studentId st'
    = ({| status := 403;
          body := CertificateUnavailableBody "Certificate not available"
                    message pct |}, st', []).
Proof.
  intros Hcons Henr Hb st'.
  assert (Hst' : st' = fst (delete_progress studentId courseId st)).
  { subst st'. rewrite (resetProgress_enrolled st courseId studentId Henr).
    reflexivity. }
  assert (Hcr : completion_result studentId courseId st'
                = (Z.of_nat (List.length (orders_of courseId st)), 0)).
  { unfold completion_result. cbv zeta. unfold chapters_left_join_progress.
    rewrite (left_join_filter_left
               (fun ch p => String.eqb (Chapter.id ch) (Progress.chapter_id p)
                            && String.eqb (Progress.student_id p) studentId)
               (fun ch => String.eqb (Chapter.course_id ch) courseId)).
    assert (Hchs : chapters st' = chapters st) by (rewrite Hst'; reflexivity).
    rewrite Hchs, left_join_no_match.
    - f_equal.
      + unfold count, orders_of.
        rewrite (filter_all (fun _ => true)) by reflexivity.
        rewrite !length_map. reflexivity.
      + unfold count. rewrite filter_none; [reflexivity|].
        intros x Hx. apply in_map_iff in Hx. destruct Hx as [a [Hx _]].
        subst x. reflexivity.
    - intros ch Hch. apply filter_In in Hch. destruct Hch as [Hch Hco].
      apply String.eqb_eq in Hco. apply filter_none. intros p Hp.
      apply not_true_is_false. intros Hm. apply andb_true_iff in Hm.
      destruct Hm as [H1 H2]. apply String.eqb_eq in H1, H2.
      rewrite Hst' in Hp.
      exact (no_progress_after_reset st courseId studentId p ch Hcons Hp
               Hch Hco (eq_sym H1) H2). }
  split; [exact Hcr|]. split; [rewrite Hst'; reflexivity|].
  assert (Hb' : fst (completion_result studentId courseId st') < 2 ^ 52)
    by (rewrite Hcr; exact Hb).
  assert (Hinc : enrollment courseId studentId st' = [] \/
                 fst (completion_result studentId courseId st') = 0 \/
                 snd (completion_result studentId courseId st')
                 < fst (completion_result studentId courseId st')).
  { right. rewrite Hcr. cbn [fst snd]. lia. }
  destruct (eligibility_incomplete studentId courseId st' Hb' Hinc)
    as (e & He & Hf).
  rewrite (getCertificate_not_eligible env st' courseId studentId e He Hf).
  eexists _, _. reflexivity.
Qed.

Lemma sample_course_consistent k :
  progress_course_consistent (Sample.course_store "c1" 3 k).
Proof.
  intros p ch Hp Hch _. simpl in Hp, Hch.
  apply in_map_iff in Hp. destruct Hp as [n [Hp _]]. subst p.
  destruct Hch as [Hch|[Hch|[Hch|[]]]]; subst ch; reflexivity.
Qed.

Lemma resetProgress_withdraws_certificate_witness :
  let st := store_of (getCertificate (Sample.env 30 "n1") "c1" "s1"
                        (Sample.course_store "c1" 3 3)) in
  let st' := store_of (resetProgress "c1" "s1" st) in
  List.length (certificate_of "s1" "c1" st') = 1%nat /\
  status (response_of (getCertificate (Sample.env 31 "n2") "c1" "s1" st')) = 403.
Proof.
  intros st st'.
  assert (H1 : progress_course_consistent st)
    by exact (sample_course_consistent 3).
  assert (H2 : enrollment "c1" "s1" st <> []) by (vm_compute; discriminate).
  assert (H3 : Z.of_nat (List.length (orders_of "c1" st)) < 2 ^ 52)
    by reflexivity.
  destruct (resetProgress_withdraws_certificate (Sample.env 31 "n2") st
              "c1" "s1" H1 H2 H3) as (_ & Hcert & message & pct & Hr).
  fold st' in Hcert, Hr. split.
  - rewrite Hcert. reflexivity.
  - rewrite Hr. reflexivity.
Defined.


(** * What a completion and a reset leave alone *)

(** X27.  A completion unlocks nothing but the next chapter and locks
    nothing: with chapter ids unique, when completeChapter answers 200 for
    a chapter, the is_unlocked flag of every chapter is the same as before
    for every other student, and for the student it is the same on every
    chapter that is not the one following the completed chapter in its
    course. *)
Theorem completeChapter_unlocks_nothing_else env st studentId ch s c :
  chapter_ids_unique st -> In ch (chapters st) -> In c (chapters st) ->
  status (response_of (completeChapter env (Chapter.id ch) studentId st)) = 200 ->
  s <> studentId \/ Chapter.course_id c <> Chapter.course_id ch \/
  Chapter.sequence_order c <> Chapter.sequence_order ch + 1 ->
  is_unlocked s (store_of (completeChapter env (Chapter.id ch) studentId st)) c
  = is_unlocked s st c.
Proof.
  intros Hu Hch Hc H200 Hother.
  destruct (completeChapter_cases env st (Chapter.id ch) studentId)
    as [(s0 & b & Hs & Hr) | (ch0 & Hch0 & _ & _ & _ & Hr)].
  { rewrite Hr. reflexivity. }
  rewrite (chapter_by_id_found st ch Hu Hch) in Hch0.
  injection Hch0 as Hch0. subst ch0. rewrite Hr.
  unfold completion_of, store_of. cbn [fst snd].
  set (st1 := fst (upsert_progress env studentId (Chapter.id ch)
                     (Chapter.course_id ch) st)).
  destruct (upsert_progress_frame env studentId (Chapter.id ch)
              (Chapter.course_id ch) st) as (_ & _ & Hchs & _ & _).
  fold st1 in Hchs.
  destruct (is_unlocked s st c) eqn:E.
  - apply is_unlocked_spec. apply is_unlocked_spec in E.
    destruct E as [E | E]; [left; exact E|right].
    apply predecessor_completed_upsert. exact E.
  - apply not_unlocked_spec. apply not_unlocked_spec in E.
    intros [H1 | (p & prev & Hp & Hprev & Hid & Hs & Hcomp & Hco & Hso)];
      apply E; [left; exact H1|right].
    rewrite Hchs in Hprev.
    apply upsert_progress_in in Hp. destruct Hp as [Hp | (Hs' & Hcid & _)].
    + exists p, prev. repeat split; assumption.
    + exfalso.
      assert (prev = ch).
      { apply (NoDup_map_injective Chapter.id (chapters st)); auto.
        congruence. }
      subst prev. destruct Hother as [H | [H | H]]; [congruence|congruence|lia].
Qed.

Lemma completeChapter_unlocks_nothing_else_witness :
  let st := Sample.course_store "c1" 3 0 in
  let st' := store_of (completeChapter (Sample.env 30 "n1") "c1-ch1" "s1" st) in
  is_unlocked "s1" st' (Sample.chapter_no "c1" 3) = false /\
  is_unlocked "s2" st' (Sample.chapter_no "c1" 2) = false.
Proof.
  intros st st'.
  assert (H1 : In (Sample.chapter_no "c1" 1) (chapters st))
    by (left; reflexivity).
  assert (H2 : In (Sample.chapter_no "c1" 2) (chapters st))
    by (right; left; reflexivity).
  assert (H3 : In (Sample.chapter_no "c1" 3) (chapters st))
    by (right; right; left; reflexivity).
  assert (G3 : Chapter.sequence_order (Sample.chapter_no "c1" 3)
               <> Chapter.sequence_order (Sample.chapter_no "c1" 1) + 1)
    by (vm_compute; discriminate).
  assert (G2 : "s2" <> "s1") by discriminate.
  split.
  - etransitivity;
      [exact (completeChapter_unlocks_nothing_else (Sample.env 30 "n1") st "s1"
                (Sample.chapter_no "c1" 1) "s1" (Sample.chapter_no "c1" 3)
                (sample_ids_unique 0) H1 H3 eq_refl
                (or_intror (or_intror G3)))
      |reflexivity].
  - etransitivity;
      [exact (completeChapter_unlocks_nothing_else (Sample.env 30 "n1") st "s1"
                (Sample.chapter_no "c1" 1) "s2" (Sample.chapter_no "c1" 2)
                (sample_ids_unique 0) H1 H2 eq_refl (or_introl G2))
      |reflexivity].
Defined.

(** X28.  A reset touches the view of no one else: with the course of a
    progress row being the course of its chapter, after resetProgress the
    completion counts and the is_unlocked flags are the same as before for
    every other student, and for the student in every other course. *)
Theorem resetProgress_leaves_the_others st courseId studentId s c :
  progress_course_consistent st ->
  s <> studentId \/ c <> courseId ->
  let st' := store_of (resetProgress courseId studentId st) in
  completion_result s c st' = completion_result s c st /\
  (forall ch, In ch (chapters st) -> Chapter.course_id ch = c ->
     is_unlocked s st' ch = is_unlocked s st ch).
Proof.
  intros Hcons Hother st'.
  destruct (enrollment courseId studentId st) as [|e es] eqn:Een.
  { assert (Hr : st' = st).
    { subst st'. unfold resetProgress, try_catch, bind, select.
      rewrite Een. reflexivity. }
    rewrite Hr. split; [reflexivity|]. intros; reflexivity. }
  assert (Hst' : st' = fst (delete_progress studentId courseId st)).
  { subst st'. rewrite resetProgress_enrolled by (rewrite Een; discriminate).
    reflexivity. }
  rewrite Hst'.
  (* a row of [s] on a chapter of course [c] is kept *)
  assert (Hkept : forall p ch, In p (progress st) -> In ch (chapters st) ->
            Chapter.course_id ch = c ->
            Progress.chapter_id p = Chapter.id ch ->
            Progress.student_id p = s ->
            negb (String.eqb (Progress.student_id p) studentId
                  && String.eqb (Progress.course_id p) courseId) = true).
  { intros p ch Hp Hch Hco Hid Hs. apply negb_true_iff.
    apply not_true_is_false. intros H. apply andb_true_iff in H.
    destruct H as [H1 H2]. apply String.eqb_eq in H1, H2.
    rewrite (Hcons p ch Hp Hch Hid) in H2.
    destruct Hother as [Hne | Hne]; apply Hne; congruence. }
  split.
  - unfold completion_result. cbv zeta. unfold chapters_left_join_progress.
    rewrite !(left_join_filter_left
                (fun ch p => String.eqb (Chapter.id ch) (Progress.chapter_id p)
                             && String.eqb (Progress.student_id p) s)
                (fun ch => String.eqb (Chapter.course_id ch) c)).
    cbn [delete_progress fst chapters progress set_progress].
    assert (Hsame : forall l,
              (forall ch, In ch l -> In ch (chapters st) /\
                                     Chapter.course_id ch = c) ->
              left_join
                (fun ch p => String.eqb (Chapter.id ch) (Progress.chapter_id p)
                             && String.eqb (Progress.student_id p) s)
                l
                (filter (fun p => negb (String.eqb (Progress.student_id p)
                                                   studentId
                                        && String.eqb (Progress.course_id p)
                                                      courseId))
                        (progress st))
              = left_join
                  (fun ch p => String.eqb (Chapter.id ch)
                                          (Progress.chapter_id p)
                               && String.eqb (Progress.student_id p) s)
                  l (progress st)).
    { induction l as [|a l IH]; intros Hl; [reflexivity|].
      change (a :: l) with ([a] ++ l). rewrite !left_join_app.
      rewrite IH by (intros x Hx; apply Hl; right; exact Hx). f_equal.
      unfold left_join. simpl. rewrite filter_filter_and.
      destruct (Hl a (or_introl eq_refl)) as [Ha Hco].
      rewrite (filter_ext_in
                 (fun x => negb (String.eqb (Progress.student_id x) studentId
                                 && String.eqb (Progress.course_id x) courseId)
                           && (String.eqb (Chapter.id a) (Progress.chapter_id x)
                               && String.eqb (Progress.student_id x) s))
                 (fun p => String.eqb (Chapter.id a) (Progress.chapter_id p)
                           && String.eqb (Progress.student_id p) s));
        [reflexivity|].
      intros p Hp.
      destruct (String.eqb (Chapter.id a) (Progress.chapter_id p)
                && String.eqb (Progress.student_id p) s) eqn:Em;
        [|apply andb_false_r].
      apply andb_true_iff in Em. destruct Em as [E1 E2].
      apply String.eqb_eq in E1, E2.
      rewrite (Hkept p a Hp Ha Hco (eq_sym E1) E2). reflexivity. }
    rewrite Hsame; [reflexivity|].
    intros ch Hch. apply filter_In in Hch. destruct Hch as [Hch Hco].
    apply String.eqb_eq in Hco. auto.
  - intros ch Hch Hco.
    destruct (is_unlocked s st ch) eqn:E.
    + apply is_unlocked_spec. apply is_unlocked_spec in E.
      destruct E as [E | (p & prev & Hp & Hprev & Hid & Hs & Hcomp & Hpc & Hso)];
        [left; exact E|right].
      exists p, prev. repeat split; try assumption.
      apply filter_In. split; [exact Hp|].
      apply (Hkept p prev Hp Hprev); congruence.
    + apply not_unlocked_spec. apply not_unlocked_spec in E.
      intros [H1 | (p & prev & Hp & Hprev & Hid & Hs & Hcomp & Hpc & Hso)];
        apply E; [left; exact H1|right].
      apply in_progress_after_reset in Hp. destruct Hp as [Hp _].
      exists p, prev. repeat split; assumption.
Qed.

Lemma resetProgress_leaves_the_others_witness :
  let st := Sample.course_store "c1" 3 2 in
  let st' := store_of (resetProgress "c1" "s1" st) in
  progress st' = [] /\ completion_result "s2" "c1" st' = (3, 0).
Proof.
  intros st st'.
  assert (Hother : "s2" <> "s1" \/ "c1" <> "c1") by (left; discriminate).
  split; [reflexivity|].
  etransitivity;
    [exact (proj1 (resetProgress_leaves_the_others st "c1" "s1" "s2" "c1"
                     (sample_course_consistent 2) Hother))
    |reflexivity].
Defined.

(** * Statements that reject *)

(** With no rejection the handlers are the ones followed so far. *)
Lemma none_rejects_handlers validateURL sanitizeInput env :
  (forall chapterId studentId st,
     Rejecting.completeChapter none_rejects env chapterId studentId st
     = completeChapter env chapterId studentId st) /\
  (forall courseId chapterId mentorId st,
     Rejecting.deleteChapter none_rejects courseId chapterId mentorId st
     = deleteChapter courseId chapterId mentorId st) /\
  (forall courseId mentorId title description image_url video_url st,
     Rejecting.createChapter validateURL sanitizeInput none_rejects env
       courseId mentorId title description image_url video_url st
     = createChapter validateURL sanitizeInput env courseId mentorId title
         description image_url video_url st) /\
  (forall courseId chapterId mentorId title description image_url video_url
          st,
     Rejecting.updateChapter validateURL sanitizeInput none_rejects courseId
       chapterId mentorId title description image_url video_url st
     = updateChapter validateURL sanitizeInput courseId chapterId mentorId
         title description image_url video_url st) /\
  (forall courseId studentId st,
     Rejecting.getCertificate none_rejects env courseId studentId st
     = getCertificate env courseId studentId st) /\
  (forall courseId studentId st,
     Rejecting.checkCertificateStatus none_rejects courseId studentId st
     = checkCertificateStatus courseId studentId st).
Proof.
  repeat split; intros; reflexivity.
Qed.

(** A rejected statement of the service rejects the call of the service,
    and nothing is written by it. *)
Lemma checkCertificateEligibility_rejecting rejects studentId courseId st :
  Rejecting.checkCertificateEligibility rejects studentId courseId st
  = (Thrown, st, []) \/
  Rejecting.checkCertificateEligibility rejects studentId courseId st
  = checkCertificateEligibility studentId courseId st.
Proof.
  unfold Rejecting.checkCertificateEligibility, checkCertificateEligibility,
    awaited, bind, select, throw.
  destruct (rejects 0%nat); [left; reflexivity|].
  destruct (enrollment courseId studentId st); [right; reflexivity|].
  destruct (rejects 1%nat); [left; reflexivity|right; reflexivity].
Qed.

(** completeChapter under rejections: the catch clause ran on the store as
    it was, or no statement that was reached rejected, or the count of
    the chapters rejected after the upsert. *)
Lemma completeChapter_rejecting rejects env st chapterId studentId :
  let r := Rejecting.completeChapter rejects env chapterId studentId st in
  let o := completeChapter env chapterId studentId st in
  r = ({| status := 500; body := ErrorBody "Failed to complete chapter" |},
       st, []) \/
  r = o \/
  (status (response_of o) = 200 /\ rejects 5%nat = true /\
   r = ({| status := 500; body := ErrorBody "Failed to complete chapter" |},
        store_of o, committed o)).
Proof.
  intros r o. subst r o.
  unfold Rejecting.completeChapter, completeChapter,
    Rejecting.completeChapter_found, completeChapter_found, try_catch, bind,
    awaited, select, execute, send, ret, throw, response_of, store_of,
    committed.
  destruct (rejects 0%nat); [left; reflexivity|].
  destruct (chapter_by_id chapterId st) as [|ch l];
    [right; left; reflexivity|].
  destruct (rejects 1%nat); [left; reflexivity|].
  destruct (enrollment (Chapter.course_id ch) studentId st) as [|e es];
    [right; left; reflexivity|].
  destruct (Chapter.sequence_order ch >? 1);
    [destruct (rejects 2%nat); [left; reflexivity|];
     destruct (previous_chapter_check studentId (Chapter.course_id ch)
                 (Chapter.sequence_order ch - 1) st) as [|row rows];
       [right; left; reflexivity|];
     destruct (truthy row); [|right; left; reflexivity]|];
    (destruct (rejects 3%nat); [left; reflexivity|];
     destruct (existing_progress chapterId studentId st) as [|p ps];
       [|destruct (Progress.completed p); [right; left; reflexivity|]];
     (destruct (rejects 4%nat); [left; reflexivity|];
      destruct (upsert_progress env studentId chapterId
                  (Chapter.course_id ch) st) as [st' prs];
      destruct (rejects 5%nat); [|right; left; reflexivity];
      right; right;
      destruct (completion_result studentId (Chapter.course_id ch) st')
        as [total completed];
      repeat split)).
Qed.

(** X1.  completeChapter writes at most once, whichever of its statements
    reject: an answer 400, 403 or 404 leaves the store as it was and
    commits nothing; an answer 200 commits exactly the store the request
    leaves, in which only the progress table differs, no row of it being
    lost and at most one added; an answer 500 either leaves the store as
    it was, or comes with that one write committed, which is when the
    count of the chapters rejects after the upsert. *)
Theorem completeChapter_writes_once_or_never rejects env st chapterId
    studentId :
  let r := Rejecting.completeChapter rejects env chapterId studentId st in
  (In (status (response_of r)) [400; 403; 404; 500] /\
   store_of r = st /\ committed r = []) \/
  ((status (response_of r) = 200 \/
    (status (response_of r) = 500 /\ rejects 5%nat = true)) /\
   committed r = [store_of r] /\
   users (store_of r) = users st /\ courses (store_of r) = courses st /\
   chapters (store_of r) = chapters st /\
   course_assignments (store_of r) = course_assignments st /\
   certificates (store_of r) = certificates st /\
   (forall p, In p (progress st) ->
      exists p', In p' (progress (store_of r)) /\
                 Progress.id p' = Progress.id p /\
                 progress_key p' = progress_key p /\
                 Progress.course_id p' = Progress.course_id p) /\
   (List.length (progress (store_of r))
    <= S (List.length (progress st)))%nat).
Proof.
  intros r.
  assert (Hwritten :
    forall ch response,
      completeChapter env chapterId studentId st
      = completion_of env chapterId studentId ch st ->
      r = (response, store_of (completeChapter env chapterId studentId st),
           committed (completeChapter env chapterId studentId st)) ->
      committed r = [store_of r] /\
      users (store_of r) = users st /\ courses (store_of r) = courses st /\
      chapters (store_of r) = chapters st /\
      course_assignments (store_of r) = course_assignments st /\
      certificates (store_of r) = certificates st /\
      (forall p, In p (progress st) ->
         exists p', In p' (progress (store_of r)) /\
                    Progress.id p' = Progress.id p /\
                    progress_key p' = progress_key p /\
                    Progress.course_id p' = Progress.course_id p) /\
      (List.length (progress (store_of r))
       <= S (List.length (progress st)))%nat).
  { intros ch response Ho Hr. rewrite Hr, Ho.
    unfold completion_of, store_of, committed. cbn [fst snd].
    destruct (upsert_progress_frame env studentId chapterId
                (Chapter.course_id ch) st) as (Hu & Hc & Hchs & Ha & Hce).
    destruct (upsert_progress_rows env studentId chapterId
                (Chapter.course_id ch) st) as (Hrows & Hlen).
    repeat split; assumption. }
  destruct (completeChapter_rejecting rejects env st chapterId studentId)
    as [Hr | [Hr | (H200 & H5 & Hr)]]; fold r in Hr.
  - left. rewrite Hr. split; [|split; reflexivity].
    right. right. right. left. reflexivity.
  - destruct (completeChapter_cases env st chapterId studentId)
      as [(s & b & Hs & Ho) | (ch & _ & _ & _ & _ & Ho)].
    + left. rewrite Hr, Ho. split; [|split; reflexivity].
      simpl in Hs |- *. tauto.
    + right. split.
      * left. rewrite Hr, Ho. reflexivity.
      * apply (Hwritten ch (response_of
                              (completeChapter env chapterId studentId st)) Ho).
        rewrite Hr.
        destruct (completeChapter env chapterId studentId st) as [[a b] c].
        reflexivity.
  - destruct (completeChapter_cases env st chapterId studentId)
      as [(s & b & Hs & Ho) | (ch & _ & _ & _ & _ & Ho)].
    + exfalso. rewrite Ho in H200. simpl in *. intuition lia.
    + right. split.
      * right. rewrite Hr. split; [reflexivity|exact H5].
      * apply (Hwritten ch _ Ho Hr).
Qed.

Lemma deleteChapter_rejecting rejects st courseId chapterId mentorId :
  let r := Rejecting.deleteChapter rejects courseId chapterId mentorId st in
  let o := deleteChapter courseId chapterId mentorId st in
  r = ({| status := 500; body := ErrorBody "Failed to delete chapter" |},
       st, []) \/
  r = o \/
  (chapter_check chapterId courseId mentorId st <> [] /\
   rejects 2%nat = true /\
   r = ({| status := 500; body := ErrorBody "Failed to delete chapter" |},
        fst (delete_chapter chapterId st),
        [fst (delete_chapter chapterId st)])).
Proof.
  intros r o. subst r o.
  unfold Rejecting.deleteChapter, deleteChapter, try_catch, bind, awaited,
    select, execute, send, ret, throw.
  destruct (rejects 0%nat); [left; reflexivity|].
  destruct (chapter_check chapterId courseId mentorId st) as [|row rows];
    [right; left; reflexivity|].
  destruct (rejects 1%nat); [left; reflexivity|].
  destruct (rejects 2%nat); [|right; left; reflexivity].
  right. right. split; [discriminate|]. split; reflexivity.
Qed.

Lemma createChapter_rejecting validateURL sanitizeInput rejects env st
    courseId mentorId title description image_url video_url :
  let r := Rejecting.createChapter validateURL sanitizeInput rejects env
             courseId mentorId title description image_url video_url st in
  r = (inl {| status := 500; body := ErrorBody "Failed to create chapter" |},
       st, []) \/
  r = createChapter validateURL sanitizeInput env courseId mentorId title
        description image_url video_url st.
Proof.
  intros r. subst r.
  unfold Rejecting.createChapter, createChapter, try_catch_answer, bind,
    awaited, select, execute, send, ret, throw.
  destruct (given title) as [t|]; [|right; reflexivity].
  destruct (url_rejected validateURL image_url); [right; reflexivity|].
  destruct (url_rejected validateURL video_url); [right; reflexivity|].
  destruct (rejects 0%nat); [left; reflexivity|].
  destruct (course_check courseId mentorId st); [right; reflexivity|].
  destruct (rejects 1%nat); [left; reflexivity|].
  destruct (rejects 2%nat); [left; reflexivity|right; reflexivity].
Qed.

Lemma updateChapter_rejecting validateURL sanitizeInput rejects st courseId
    chapterId mentorId title description image_url video_url :
  let r := Rejecting.updateChapter validateURL sanitizeInput rejects courseId
             chapterId mentorId title description image_url video_url st in
  r = (inl {| status := 500; body := ErrorBody "Failed to update chapter" |},
       st, []) \/
  r = updateChapter validateURL sanitizeInput courseId chapterId mentorId
        title description image_url video_url st.
Proof.
  intros r. subst r.
  unfold Rejecting.updateChapter, updateChapter, try_catch_answer, bind,
    awaited, select, execute, send, ret, throw.
  destruct (url_rejected validateURL image_url); [right; reflexivity|].
  destruct (url_rejected validateURL video_url); [right; reflexivity|].
  destruct (rejects 0%nat); [left; reflexivity|].
  destruct (chapter_check chapterId courseId mentorId st);
    [right; reflexivity|].
  destruct (rejects 1%nat); [left; reflexivity|right; reflexivity].
Qed.

(** X9.  What the chapter controller has written by the time it answers,
    whichever of its statements reject: createChapter that does not answer
    201 and updateChapter that does not answer 200 leave the store as it
    was and commit nothing; deleteChapter that does not answer 200 does
    the same, but for the answer 500 it gives when its UPDATE rejects:
    the DELETE is committed by then, and the chapter is gone with the
    later chapters not renumbered. *)
Theorem chapter_writes_by_answer validateURL sanitizeInput rejects env st
    courseId chapterId mentorId title new_title description new_description
    image_url video_url :
  let created := Rejecting.createChapter validateURL sanitizeInput rejects env
                   courseId mentorId title description image_url video_url
                   st in
  let updated := Rejecting.updateChapter validateURL sanitizeInput rejects
                   courseId chapterId mentorId new_title new_description
                   image_url video_url st in
  let deleted := Rejecting.deleteChapter rejects courseId chapterId mentorId
                   st in
  (status_of (sent_by created) = 201 \/
   (store_after created = st /\ commits_of created = [])) /\
  (status_of (sent_by updated) = 200 \/
   (store_after updated = st /\ commits_of updated = [])) /\
  (status (response_of deleted) = 200 \/
   (store_of deleted = st /\ committed deleted = []) \/
   (response_of deleted
    = {| status := 500; body := ErrorBody "Failed to delete chapter" |} /\
    rejects 2%nat = true /\
    store_of deleted = fst (delete_chapter chapterId st) /\
    committed deleted = [store_of deleted] /\
    (forall ch, In ch (chapters (store_of deleted)) <->
                In ch (chapters st) /\ Chapter.id ch <> chapterId) /\
    exists ch, In ch (chapters st) /\ Chapter.id ch = chapterId /\
               Chapter.course_id ch = courseId)).
Proof.
  intros created updated deleted. split; [|split].
  - destruct (createChapter_rejecting validateURL sanitizeInput rejects env
                st courseId mentorId title description image_url video_url)
      as [Hr | Hr]; fold created in Hr; rewrite Hr.
    + right. split; reflexivity.
    + destruct (createChapter_cases validateURL sanitizeInput env st courseId
                  mentorId title description image_url video_url)
        as [(_ & H1 & H2) | (t & _ & _ & _ & _ & Ho)].
      * right. split; assumption.
      * left. rewrite Ho. reflexivity.
  - destruct (updateChapter_rejecting validateURL sanitizeInput rejects st
                courseId chapterId mentorId new_title new_description
                image_url video_url) as [Hr | Hr];
      fold updated in Hr; rewrite Hr.
    + right. split; reflexivity.
    + destruct (updateChapter_cases validateURL sanitizeInput st courseId
                  chapterId mentorId new_title new_description image_url
                  video_url) as [(_ & H1 & H2) | (_ & H200 & _)].
      * right. split; assumption.
      * left. exact H200.
  - destruct (deleteChapter_rejecting rejects st courseId chapterId mentorId)
      as [Hr | [Hr | (Hcheck & H2 & Hr)]]; fold deleted in Hr; rewrite Hr.
    + right. left. split; reflexivity.
    + destruct (deleteChapter_cases st courseId chapterId mentorId)
        as [Ho | (ch & _ & _ & _ & _ & Ho)]; rewrite Ho.
      * right. left. split; reflexivity.
      * left. reflexivity.
    + right. right. split; [reflexivity|]. split; [exact H2|].
      split; [reflexivity|]. split; [reflexivity|]. split.
      * intros ch. unfold store_of. cbn [fst snd delete_chapter chapters
                                         set_chapters].
        rewrite filter_In, negb_true_iff.
        split; intros [H1 H3]; (split; [exact H1|]).
        -- intros E. apply String.eqb_eq in E. congruence.
        -- apply not_true_is_false. intros E. apply String.eqb_eq in E.
           congruence.
      * destruct (deleteChapter_cases st courseId chapterId mentorId)
          as [Ho | (ch & Hin & Hid & Hco & _)].
        -- exfalso. apply Hcheck. clear - Ho.
           unfold deleteChapter, try_catch, bind, select in Ho.
           destruct (chapter_check chapterId courseId mentorId st);
             [reflexivity|discriminate Ho].
        -- exists ch. auto.
Qed.

(** getCertificate under rejections: the catch clause ran on the store as
    it was, or no statement that was reached rejected, or a call rejected
    after the certificate was inserted. *)
Lemma getCertificate_rejecting rejects env st courseId studentId :
  let r := Rejecting.getCertificate rejects env courseId studentId st in
  let o := getCertificate env courseId studentId st in
  r = ({| status := 500; body := ErrorBody "Failed to generate certificate" |},
       st, []) \/
  r = o \/
  (certificate_of studentId courseId st = [] /\
   (exists e, checkCertificateEligibility studentId courseId st
              = (Ok e, st, []) /\ eligible e = true) /\
   r = ({| status := 500;
           body := ErrorBody "Failed to generate certificate" |},
        fst (insert_certificate env studentId courseId st),
        [fst (insert_certificate env studentId courseId st)])).
Proof.
  intros r o. subst r o.
  unfold Rejecting.getCertificate, getCertificate, try_catch, bind.
  destruct (checkCertificateEligibility_rejecting rejects studentId courseId
              st) as [H | H]; rewrite H; [left; reflexivity|].
  destruct (checkCertificateEligibility_run studentId courseId st)
    as [e He].
  rewrite He.
  destruct (eligible e) eqn:Ee; [|right; left; reflexivity].
  unfold awaited, select, execute, send, ret, throw. cbn [negb].
  destruct (rejects 2%nat); [left; reflexivity|].
  destruct (certificate_of studentId courseId st) as [|c cs] eqn:Ec.
  - destruct (rejects 3%nat); [left; reflexivity|].
    cbn -[certificate_details].
    destruct (rejects 4%nat).
    { right. right. split; [reflexivity|]. split; [|reflexivity].
      exists e. auto. }
    destruct (certificate_details _ _ _) as [|d ds];
      [right; left; reflexivity|].
    destruct (rejects 5%nat); [|right; left; reflexivity].
    right. right. split; [reflexivity|]. split; [|reflexivity].
    exists e. auto.
  - destruct (rejects 4%nat); [left; reflexivity|].
    destruct (certificate_details studentId courseId st) as [|d ds];
      [right; left; reflexivity|].
    destruct (rejects 5%nat); [left; reflexivity|right; left; reflexivity].
Qed.

(** When no call rejects, getCertificate writes nothing unless no
    certificate of the student and course is on record, and then nothing
    but that certificate. *)
Lemma getCertificate_store env st courseId studentId :
  let o := getCertificate env courseId studentId st in
  (store_of o = st /\ committed o = []) \/
  (certificate_of studentId courseId st = [] /\
   store_of o = fst (insert_certificate env studentId courseId st) /\
   committed o = [store_of o] /\
   (status (response_of o) = 200 \/
    response_of o
    = {| status := 500;
         body := ErrorBody "Failed to generate certificate" |})).
Proof.
  intros o. subst o.
  destruct (checkCertificateEligibility_run studentId courseId st) as [e He].
  destruct (eligible e) eqn:Ee.
  2:{ left.
      rewrite (getCertificate_not_eligible env st courseId studentId e He Ee).
      split; reflexivity. }
  destruct (certificate_details studentId courseId st) as [|d ds] eqn:Ed.
  - unfold getCertificate, try_catch, bind, select, execute.
    rewrite He, Ee. cbn [negb].
    destruct (certificate_of studentId courseId st) as [|c cs].
    + right. cbn -[certificate_details].
      assert (Ed' : certificate_details studentId courseId
                      (set_certificates st
                         (certificates st
                          ++ [{| Certificate.id := new_id env;
                                 Certificate.student_id := studentId;
                                 Certificate.course_id := courseId;
                                 Certificate.issued_at := now env |}])) = [])
        by exact Ed.
      rewrite Ed'. split; [reflexivity|]. split; [reflexivity|].
      split; [reflexivity|]. right. reflexivity.
    + left. cbn -[certificate_details]. rewrite Ed. split; reflexivity.
  - rewrite (getCertificate_eligible env st courseId studentId e d ds
               He Ee Ed).
    destruct (certificate_of studentId courseId st) as [|c cs].
    + right. split; [reflexivity|]. split; [reflexivity|].
      split; [reflexivity|]. left. reflexivity.
    + left. split; reflexivity.
Qed.

(** X29.  getCertificate writes at most one row, whichever of its awaited
    calls reject, and writes it before it reads the names to print and
    draws the document: either the store is left as it was and nothing
    is committed, or no certificate of the student and course was on
    record and exactly one is inserted and committed; the answer is then
    200, or it is 500 and the certificate stays issued. *)
Theorem getCertificate_writes_once_or_never rejects env st courseId
    studentId :
  let r := Rejecting.getCertificate rejects env courseId studentId st in
  (store_of r = st /\ committed r = []) \/
  (certificate_of studentId courseId st = [] /\
   store_of r
   = set_certificates st
       (certificates st
        ++ [{| Certificate.id := new_id env;
               Certificate.student_id := studentId;
               Certificate.course_id := courseId;
               Certificate.issued_at := now env |}]) /\
   committed r = [store_of r] /\
   (status (response_of r) = 200 \/
    response_of r
    = {| status := 500;
         body := ErrorBody "Failed to generate certificate" |})).
Proof.
  intros r.
  destruct (getCertificate_rejecting rejects env st courseId studentId)
    as [Hr | [Hr | (Hc & _ & Hr)]]; fold r in Hr; rewrite Hr.
  - left. split; reflexivity.
  - exact (getCertificate_store env st courseId studentId).
  - right. split; [exact Hc|]. split; [reflexivity|].
    split; [reflexivity|]. right. reflexivity.
Qed.

Lemma checkCertificateStatus_rejecting rejects st courseId studentId :
  let s := Rejecting.checkCertificateStatus rejects courseId studentId st in
  s = (inl {| status := 500;
              body := ErrorBody "Failed to check certificate status" |},
       st, []) \/
  s = checkCertificateStatus courseId studentId st.
Proof.
  intros s. subst s.
  unfold Rejecting.checkCertificateStatus, checkCertificateStatus,
    try_catch_answer, bind.
  destruct (checkCertificateEligibility_rejecting rejects studentId courseId
              st) as [H | H]; rewrite H; [left; reflexivity|].
  destruct (checkCertificateEligibility_run studentId courseId st)
    as [e He].
  rewrite He. unfold awaited, select, ret, throw.
  destruct (rejects 2%nat); [left; reflexivity|right; reflexivity].
Qed.

(** What checkCertificateStatus answers when none of its statements
    rejects. *)
Lemma checkCertificateStatus_run studentId courseId st e :
  checkCertificateEligibility studentId courseId st = (Ok e, st, []) ->
  checkCertificateStatus courseId studentId st
  = (inr {| answer_status := 200;
            answer_body :=
              {| status_eligible := eligible e;
                 has_certificate :=
                   match certificate_issued studentId courseId st
                   with [] => false | _ :: _ => true end;
                 status_completion_percentage := eligibility_percentage e;
                 status_certificate :=
                   if match certificate_issued studentId courseId st
                      with [] => false | _ :: _ => true end
                   then hd_error (certificate_issued studentId courseId st)
                   else None;
                 status_message := eligibility_message e |} |},
     st, []).
Proof.
  intros H.
  unfold checkCertificateStatus, try_catch_answer, bind, select.
  rewrite H. reflexivity.
Qed.

(** X14.  checkCertificateStatus writes nothing, whichever of its
    statements reject, and answers 500 or a report that agrees with
    getCertificate on the same store: the report shows a certificate
    exactly when one is on record for the student and course; when it
    shows the student as not eligible, getCertificate answers 403 or 500
    and issues nothing; when getCertificate answers 403 the report shows
    the student as not eligible; and once getCertificate has sent a
    document the report shows the student as eligible, and a report made
    afterwards shows the certificate with the id and date printed on that
    document. *)
Theorem checkCertificateStatus_reports rejects env st courseId studentId :
  let s := Rejecting.checkCertificateStatus rejects courseId studentId st in
  store_after s = st /\ commits_of s = [] /\
  (sent_by s
   = inl {| status := 500;
            body := ErrorBody "Failed to check certificate status" |} \/
   exists report,
     sent_by s = inr {| answer_status := 200; answer_body := report |} /\
     (has_certificate report = true <->
      certificate_of studentId courseId st <> []) /\
     forall rejects',
       let g := Rejecting.getCertificate rejects' env courseId studentId st in
       (status_eligible report = false ->
        In (status (response_of g)) [403; 500] /\
        store_of g = st /\ committed g = []) /\
       (status (response_of g) = 403 -> status_eligible report = false) /\
       (forall data,
          response_of g = {| status := 200; body := PdfBody data |} ->
          status_eligible report = true /\
          forall rejects'',
            let s' := Rejecting.checkCertificateStatus rejects'' courseId
                        studentId (store_of g) in
            sent_by s'
            = inl {| status := 500;
                     body := ErrorBody "Failed to check certificate status" |}
            \/
            exists report',
              sent_by s'
              = inr {| answer_status := 200; answer_body := report' |} /\
              status_eligible report' = true /\
              has_certificate report' = true /\
              status_certificate report'
              = Some (certificate_id data, completion_date data))).
Proof.
  intros s.
  destruct (checkCertificateEligibility_run studentId courseId st) as [e He].
  destruct (checkCertificateStatus_rejecting rejects st courseId studentId)
    as [Hs | Hs]; fold s in Hs; rewrite Hs.
  { split; [reflexivity|]. split; [reflexivity|]. left. reflexivity. }
  rewrite (checkCertificateStatus_run studentId courseId st e He).
  split; [reflexivity|]. split; [reflexivity|]. right.
  eexists. split; [reflexivity|].
  cbn [status_eligible has_certificate status_certificate].
  split.
  { unfold certificate_issued, certificate_of.
    destruct (filter _ (certificates st)); simpl; split; congruence. }
  intros rejects'.
  set (g := Rejecting.getCertificate rejects' env courseId studentId st).
  destruct (getCertificate_rejecting rejects' env st courseId studentId)
    as [Hg | [Hg | (Hc & (e' & He' & Ee') & Hg)]]; fold g in Hg; rewrite Hg.
  - split; [|split].
    + intros _. split; [right; left; reflexivity|split; reflexivity].
    + discriminate.
    + discriminate.
  - split; [|split].
    + intros Hf.
      rewrite (getCertificate_not_eligible env st courseId studentId e He Hf).
      split; [left; reflexivity|split; reflexivity].
    + intros H403. destruct (eligible e) eqn:Ee; [|reflexivity].
      destruct (getCertificate_eligible_status env st courseId studentId e
                  He Ee) as [H | H]; rewrite H in H403; discriminate.
    + intros data Hdata.
      destruct (getCertificate_200_inv env st courseId studentId data Hdata)
        as (e' & d & ds & He' & Ee & Ed).
      assert (e' = e) by congruence. subst e'.
      split; [exact Ee|]. intros rejects''.
      set (s' := Rejecting.checkCertificateStatus rejects'' courseId studentId
                   (store_of (getCertificate env courseId studentId st))).
      destruct (checkCertificateStatus_rejecting rejects''
                  (store_of (getCertificate env courseId studentId st))
                  courseId studentId) as [Hs' | Hs']; fold s' in Hs';
        rewrite Hs'; [left; reflexivity|right].
      rewrite (getCertificate_eligible env st courseId studentId e d ds
                 He Ee Ed) in *.
      destruct (certificate_of studentId courseId st) as [|c cs] eqn:Ec;
        unfold store_of, response_of in *; cbn [fst snd] in *.
      * injection Hdata as Hdata. subst data.
        pose proof (checkCertificateEligibility_certificates studentId
                      courseId st
                      (certificates st
                       ++ [{| Certificate.id := new_id env;
                              Certificate.student_id := studentId;
                              Certificate.course_id := courseId;
                              Certificate.issued_at := now env |}]) e He)
          as He1.
        change (fst (insert_certificate env studentId courseId st))
          with (set_certificates st
                  (certificates st
                   ++ [{| Certificate.id := new_id env;
                          Certificate.student_id := studentId;
                          Certificate.course_id := courseId;
                          Certificate.issued_at := now env |}])).
        rewrite (checkCertificateStatus_run studentId courseId _ e He1).
        eexists. split; [reflexivity|].
        cbn [status_eligible has_certificate status_certificate
             certificate_id completion_date].
        unfold certificate_issued. cbn [certificates set_certificates].
        unfold certificate_of in Ec. rewrite filter_app, Ec. simpl.
        rewrite !String.eqb_refl. simpl. auto.
      * injection Hdata as Hdata. subst data.
        rewrite (checkCertificateStatus_run studentId courseId st e He).
        eexists. split; [reflexivity|].
        cbn [status_eligible has_certificate status_certificate
             certificate_id completion_date].
        unfold certificate_issued. unfold certificate_of in Ec. rewrite Ec.
        simpl. auto.
  - assert (e' = e) by congruence. subst e'.
    split; [|split].
    + intros Hf. congruence.
    + discriminate.
    + discriminate.
Qed.

(** On a course of four chapters: the UPDATE of deleteChapter rejecting
    after the second chapter is deleted leaves the orders 1, 3, 4 behind
    the answer 500, and the count of completeChapter rejecting leaves the
    completed row behind the answer 500. *)
Lemma rejected_after_write_sample :
  let st := Sample.course_store "c1" 4 0 in
  let update_rejects : Rejections := fun n => Nat.eqb n 2 in
  let count_rejects : Rejections := fun n => Nat.eqb n 5 in
  let deleted := Rejecting.deleteChapter update_rejects "c1" "c1-ch2" "m1"
                   st in
  let completed := Rejecting.completeChapter count_rejects
                     (Sample.env 30 "n1") "c1-ch1" "s1" st in
  status (response_of deleted) = 500 /\
  orders_of "c1" (store_of deleted) = [1; 3; 4] /\
  status (response_of completed) = 500 /\
  map (fun p => (Progress.chapter_id p, Progress.completed p))
      (progress (store_of completed)) = [("c1-ch1", true)].
Proof.
  repeat split; vm_compute; reflexivity.
Qed.
